(** * Interaction pipeline and emotion reports: a shallow embedding

    The development follows the Python sources
    [backend/enhanced_persona_sync.py], [backend/ris_data_model.py],
    [backend/emotion_report_generator.py] and
    [backend/llm_multimodal_service.py].

    Conventions.
    - Text is a [string]; indices are [Z] because [str.find] answers [-1].
    - Python exceptions are values of [exn]; code that may raise returns
      [result].
    - Values decoded from JSON are the inductive type [json]; integers and
      floats are kept apart as [json.loads] does, floats being idealised
      as exact rationals.
    - Functions of the Python and SQLite libraries that the repository
      calls but does not define ([json.loads], the HTTP endpoint, file
      reading, [str.strip], SQLite's number/text conversions) are fields of
      the record [externals]; every theorem holds for all of them. *)

From Stdlib Require Import String Ascii List ZArith QArith Qabs Bool Lia Lqa Arith.
Import ListNotations.
Open Scope string_scope.

(** ** Python exceptions and results *)

Inductive exn : Type :=
| RuntimeError        (* LLMRequester._post: "LLM 请求最终失败" *)
| ValueError (msg : string)
| KeyError (key : string)
| AttributeError
| TypeError
| UnboundLocalError
| OSError
| OverflowError
| InterfaceError.     (* sqlite3: unsupported parameter type *)

Inductive result (A : Type) : Type :=
| Ok (a : A)
| Raise (e : exn).
Arguments Ok {A} a.
Arguments Raise {A} e.

(** ** Strings the way Python indexes them *)

Module PyStr.

Fixpoint mem (x : string) (l : list string) : bool :=
  match l with
  | [] => false
  | y :: l' => if String.eqb x y then true else mem x l'
  end.

(** [s.find(c)] for a one-character needle. *)
Fixpoint find (c : ascii) (s : string) : Z :=
  match s with
  | EmptyString => (-1)%Z
  | String a s' =>
      if Ascii.eqb a c then 0%Z
      else let r := find c s' in
           if (r <? 0)%Z then (-1)%Z else (r + 1)%Z
  end.

(** [s.rfind(c)] for a one-character needle. *)
Fixpoint rfind (c : ascii) (s : string) : Z :=
  match s with
  | EmptyString => (-1)%Z
  | String a s' =>
      let r := rfind c s' in
      if (0 <=? r)%Z then (r + 1)%Z
      else if Ascii.eqb a c then 0%Z else (-1)%Z
  end.

Definition len (s : string) : Z := Z.of_nat (String.length s).

(** [c in s] *)
Fixpoint occurs (c : ascii) (s : string) : bool :=
  match s with
  | EmptyString => false
  | String a s' => if Ascii.eqb a c then true else occurs c s'
  end.

(** A slice bound is moved into [0, len]: negative bounds count from the
    end. *)
Definition clamp_index (n i : Z) : Z :=
  if (i <? 0)%Z then Z.max (i + n) 0 else Z.min i n.

(** [s[start:stop]] *)
Definition slice (s : string) (start stop : Z) : string :=
  let lo := clamp_index (len s) start in
  let hi := clamp_index (len s) stop in
  String.substring (Z.to_nat lo) (Z.to_nat (hi - lo)) s.

(** [s.split('.')[-1]]: what follows the last dot, the whole string when
    there is none. *)
Definition last_field (sep : ascii) (s : string) : string :=
  slice s (rfind sep s + 1) (len s).

End PyStr.

(** ** Image formats

    [EnhancedPersonaSync._analyze_image] and
    [BailianDeepSeekService.image_analysis] run the same three-way test on
    the format before they build the data URL. *)

Module ImageFormat.

Definition unsupported (image_format : string) : exn :=
  ValueError ("不支持的图像格式: " ++ image_format).

Definition normalize_image_format (image_format : string) : result string :=
  if PyStr.mem image_format ["jpe"; "jpg"] then Ok "jpeg"
  else if PyStr.mem image_format ["tif"; "tiff"] then Ok "tiff"
  else if negb (PyStr.mem image_format ["bmp"; "png"; "webp"; "heic"])
       then Raise (unsupported image_format)
  else Ok image_format.

Definition accepts (image_format : string) : bool :=
  match normalize_image_format image_format with
  | Ok _ => true
  | Raise _ => false
  end.

(** The acceptance test in the words of the specification: normalise
    the two aliases, then look the result up in the allow-list. *)
Definition spec_normalize (image_format : string) : string :=
  if String.eqb image_format "jpg" then "jpeg"
  else if String.eqb image_format "tif" then "tiff"
  else image_format.

Definition spec_allow_list : list string :=
  ["jpeg"; "png"; "bmp"; "webp"; "heic"; "tiff"].

Definition spec_accepts (image_format : string) : bool :=
  PyStr.mem (spec_normalize image_format) spec_allow_list.

End ImageFormat.

(** ** JSON values as Python sees them *)

#[warnings="-register-all"]
Inductive json : Type :=
| JNull                               (* None *)
| JBool (b : bool)
| JInt (z : Z)
| JFloat (q : Q)
| JStr (s : string)
| JList (l : list json)
| JDict (kv : list (string * json)).  (* insertion order kept *)

Module Py.

Fixpoint lookup (k : string) (kv : list (string * json)) : option json :=
  match kv with
  | [] => None
  | (k', v) :: kv' => if String.eqb k k' then Some v else lookup k kv'
  end.

(** [d[k] = v] on a dict: the value is replaced in place when the key
    is already there, appended otherwise. *)
Fixpoint set_key (k : string) (v : json) (kv : list (string * json))
  : list (string * json) :=
  match kv with
  | [] => [(k, v)]
  | (k', v') :: kv' =>
      if String.eqb k k' then (k', v) :: kv' else (k', v') :: set_key k v kv'
  end.

(** [d.get(k, default)] *)
Definition get (d : json) (k : string) (default : json) : result json :=
  match d with
  | JDict kv => Ok match lookup k kv with Some v => v | None => default end
  | _ => Raise AttributeError
  end.

(** [d[k]] with a string key *)
Definition getitem (d : json) (k : string) : result json :=
  match d with
  | JDict kv => match lookup k kv with
                | Some v => Ok v
                | None => Raise (KeyError k)
                end
  | _ => Raise TypeError
  end.

Definition truthy (v : json) : bool :=
  match v with
  | JNull => false
  | JBool b => b
  | JInt z => negb (z =? 0)%Z
  | JFloat q => negb (Qeq_bool q 0)
  | JStr s => negb (String.eqb s "")
  | JList l => match l with [] => false | _ => true end
  | JDict kv => match kv with [] => false | _ => true end
  end.

(** [v or d] *)
Definition or_else (v d : json) : json := if truthy v then v else d.

Fixpoint chars (s : string) : list json :=
  match s with
  | EmptyString => []
  | String a s' => JStr (String a EmptyString) :: chars s'
  end.

(** [for x in v]: the items a [for] loop sees. *)
Definition iter (v : json) : result (list json) :=
  match v with
  | JList l => Ok l
  | JStr s => Ok (chars s)
  | JDict kv => Ok (map (fun p => JStr (fst p)) kv)
  | _ => Raise TypeError
  end.

(** [p["name"] == v] where the left side was read from a TEXT column, so
    is a [str] or [None]. *)
Definition text_eq (t : option string) (v : json) : bool :=
  match t, v with
  | Some s, JStr s' => String.eqb s s'
  | None, JNull => true
  | _, _ => false
  end.

Fixpoint is_substring (sub s : string) : bool :=
  if String.prefix sub s then true
  else match s with
       | EmptyString => false
       | String _ s' => is_substring sub s'
       end.

(** [t in c] for a [t] read from a TEXT column. *)
Definition text_in (t : option string) (c : json) : result bool :=
  match c with
  | JList l => Ok (existsb (text_eq t) l)
  | JDict kv => Ok match t with
                   | Some s => existsb (fun p => String.eqb s (fst p)) kv
                   | None => false
                   end
  | JStr s => match t with
              | Some sub => Ok (is_substring sub s)
              | None => Raise TypeError
              end
  | _ => Raise TypeError
  end.

(** Whether [', '.join(v)] succeeds. *)
Definition joinable (v : json) : bool :=
  match v with
  | JList l => forallb (fun x => match x with JStr _ => true | _ => false end) l
  | JStr _ => true
  | JDict _ => true
  | _ => false
  end.

End Py.

(** ** A reference JSON reader

    [json.loads] itself is a field of [externals].  The reader below
    follows the grammar of Python's decoder (white space, objects with
    the last duplicate key winning, arrays, strings with the one-letter
    escapes, numbers, the three literals, nothing but white space after
    the value) and is used to run the pipeline on concrete replies.  It
    does not decode the u-escapes and has no [NaN] or [Infinity]. *)

Module JsonReader.

Definition is_ws (c : ascii) : bool :=
  let n := nat_of_ascii c in
  Nat.eqb n 32 || Nat.eqb n 9 || Nat.eqb n 10 || Nat.eqb n 13.

Fixpoint skip_ws (cs : list ascii) : list ascii :=
  match cs with
  | c :: cs' => if is_ws c then skip_ws cs' else cs
  | [] => []
  end.

Definition is_digit (c : ascii) : bool :=
  let n := nat_of_ascii c in Nat.leb 48 n && Nat.leb n 57.

Definition digit_val (c : ascii) : Z := Z.of_nat (nat_of_ascii c - 48).

Fixpoint take_digits (cs : list ascii) : list ascii * list ascii :=
  match cs with
  | c :: cs' =>
      if is_digit c
      then let (ds, rest) := take_digits cs' in (c :: ds, rest)
      else ([], cs)
  | [] => ([], [])
  end.

Definition digits_to_Z (ds : list ascii) : Z :=
  fold_left (fun acc c => (acc * 10 + digit_val c)%Z) ds 0%Z.

(** [m * 10 ^ e] as a reduced fraction *)
Definition scale10 (m e : Z) : Q :=
  if (0 <=? e)%Z then Qred (Qmake (m * 10 ^ e) 1)
  else Qred (Qmake m (Z.to_pos (10 ^ (- e)))).

(** The integer part: a lone [0], or a non-zero digit and more digits. *)
Definition int_part (cs : list ascii) : option (list ascii * list ascii) :=
  match cs with
  | c :: cs' =>
      if Ascii.eqb c "0" then Some ([c], cs')
      else if is_digit c then Some (take_digits cs)
      else None
  | [] => None
  end.

Definition frac_part (cs : list ascii) : list ascii * list ascii :=
  match cs with
  | c :: cs' =>
      if Ascii.eqb c "." then
        match take_digits cs' with
        | ([], _) => ([], cs)
        | (ds, rest) => (ds, rest)
        end
      else ([], cs)
  | [] => ([], [])
  end.

(** The exponent: its value when present, and the rest. *)
Definition exp_part (cs : list ascii) : option Z * list ascii :=
  match cs with
  | c :: cs' =>
      if Ascii.eqb c "e" || Ascii.eqb c "E" then
        let (neg, cs'') :=
          match cs' with
          | s :: t => if Ascii.eqb s "-" then (true, t)
                      else if Ascii.eqb s "+" then (false, t)
                      else (false, cs')
          | [] => (false, cs')
          end in
        match take_digits cs'' with
        | ([], _) => (None, cs)
        | (ds, rest) =>
            (Some (if neg then - digits_to_Z ds else digits_to_Z ds)%Z, rest)
        end
      else (None, cs)
  | [] => (None, [])
  end.

Definition parse_number (cs : list ascii) : option (json * list ascii) :=
  let (neg, cs1) :=
    match cs with
    | c :: t => if Ascii.eqb c "-" then (true, t) else (false, cs)
    | [] => (false, cs)
    end in
  match int_part cs1 with
  | None => None
  | Some (ids, cs2) =>
      let (fds, cs3) := frac_part cs2 in
      let (ex, cs4) := exp_part cs3 in
      let sign := fun z : Z => if neg then (- z)%Z else z in
      match fds, ex with
      | [], None => Some (JInt (sign (digits_to_Z ids)), cs4)
      | _, _ =>
          let m := sign (digits_to_Z (ids ++ fds)) in
          let e := match ex with Some e => e | None => 0%Z end in
          Some (JFloat (scale10 m (e - Z.of_nat (List.length fds))), cs4)
      end
  end.

Definition unescape (c : ascii) : option ascii :=
  let n := nat_of_ascii c in
  if Nat.eqb n 34 then Some c                       (* quote *)
  else if Nat.eqb n 92 then Some c                  (* backslash *)
  else if Nat.eqb n 47 then Some c                  (* slash *)
  else if Nat.eqb n 98 then Some (ascii_of_nat 8)   (* b: backspace *)
  else if Nat.eqb n 102 then Some (ascii_of_nat 12) (* f: form feed *)
  else if Nat.eqb n 110 then Some (ascii_of_nat 10) (* n: line feed *)
  else if Nat.eqb n 114 then Some (ascii_of_nat 13) (* r: carriage return *)
  else if Nat.eqb n 116 then Some (ascii_of_nat 9)  (* t: tab *)
  else None.

(** The characters of a string literal after its opening quote. *)
Fixpoint parse_string (cs : list ascii) : option (string * list ascii) :=
  match cs with
  | [] => None
  | c :: cs' =>
      let n := nat_of_ascii c in
      if Nat.eqb n 34 then Some (EmptyString, cs')
      else if Nat.eqb n 92 then
        match cs' with
        | e :: cs'' =>
            match unescape e, parse_string cs'' with
            | Some a, Some (s, rest) => Some (String a s, rest)
            | _, _ => None
            end
        | [] => None
        end
      else if Nat.ltb n 32 then None
      else match parse_string cs' with
           | Some (s, rest) => Some (String c s, rest)
           | None => None
           end
  end.

Fixpoint strip_prefix (p cs : list ascii) : option (list ascii) :=
  match p, cs with
  | [], _ => Some cs
  | a :: p', c :: cs' => if Ascii.eqb a c then strip_prefix p' cs' else None
  | _ :: _, [] => None
  end.

Definition literal (word : string) (v : json) (cs : list ascii)
  : option (json * list ascii) :=
  match strip_prefix (list_ascii_of_string word) cs with
  | Some rest => Some (v, rest)
  | None => None
  end.

Fixpoint parse_value (fuel : nat) (cs : list ascii) {struct fuel}
  : option (json * list ascii) :=
  match fuel with
  | O => None
  | S fuel' =>
      match cs with
      | [] => None
      | c :: cs' =>
          let n := nat_of_ascii c in
          if Nat.eqb n 34 then
            match parse_string cs' with
            | Some (s, rest) => Some (JStr s, rest)
            | None => None
            end
          else if Nat.eqb n 123 then
            match skip_ws cs' with
            | d :: rest =>
                if Nat.eqb (nat_of_ascii d) 125 then Some (JDict [], rest)
                else
                  match parse_members fuel' (d :: rest) [] with
                  | Some (kv, rest') => Some (JDict kv, rest')
                  | None => None
                  end
            | [] => None
            end
          else if Nat.eqb n 91 then
            match skip_ws cs' with
            | d :: rest =>
                if Nat.eqb (nat_of_ascii d) 93 then Some (JList [], rest)
                else
                  match parse_items fuel' (d :: rest) with
                  | Some (l, rest') => Some (JList l, rest')
                  | None => None
                  end
            | [] => None
            end
          else if Nat.eqb n 110 then literal "null" JNull cs
          else if Nat.eqb n 116 then literal "true" (JBool true) cs
          else if Nat.eqb n 102 then literal "false" (JBool false) cs
          else parse_number cs
      end
  end

(** [cs] stands at the opening quote of a key. *)
with parse_members (fuel : nat) (cs : list ascii)
                   (acc : list (string * json)) {struct fuel}
  : option (list (string * json) * list ascii) :=
  match fuel with
  | O => None
  | S fuel' =>
      match cs with
      | q :: cs1 =>
          if Nat.eqb (nat_of_ascii q) 34 then
            match parse_string cs1 with
            | Some (k, cs2) =>
                match skip_ws cs2 with
                | colon :: cs3 =>
                    if Nat.eqb (nat_of_ascii colon) 58 then
                      match parse_value fuel' (skip_ws cs3) with
                      | Some (v, cs4) =>
                          let acc' := Py.set_key k v acc in
                          match skip_ws cs4 with
                          | d :: cs5 =>
                              if Nat.eqb (nat_of_ascii d) 125
                              then Some (acc', cs5)
                              else if Nat.eqb (nat_of_ascii d) 44
                              then parse_members fuel' (skip_ws cs5) acc'
                              else None
                          | [] => None
                          end
                      | None => None
                      end
                    else None
                | [] => None
                end
            | None => None
            end
          else None
      | [] => None
      end
  end

(** [cs] stands at the first character of an item. *)
with parse_items (fuel : nat) (cs : list ascii) {struct fuel}
  : option (list json * list ascii) :=
  match fuel with
  | O => None
  | S fuel' =>
      match parse_value fuel' cs with
      | Some (v, cs1) =>
          match skip_ws cs1 with
          | d :: cs2 =>
              if Nat.eqb (nat_of_ascii d) 93 then Some ([v], cs2)
              else if Nat.eqb (nat_of_ascii d) 44 then
                match parse_items fuel' (skip_ws cs2) with
                | Some (l, rest) => Some (v :: l, rest)
                | None => None
                end
              else None
          | [] => None
          end
      | None => None
      end
  end.

(** The whole text is one value, white space around it allowed. *)
Definition loads (txt : string) : option json :=
  let cs := list_ascii_of_string txt in
  match parse_value (S (List.length cs)) (skip_ws cs) with
  | Some (v, rest) => match skip_ws rest with
                      | [] => Some v
                      | _ :: _ => None
                      end
  | None => None
  end.

End JsonReader.

(** ** What the repository calls but does not define *)

Inductive sqlval : Type :=
| SqlNull
| SqlInt (z : Z)
| SqlReal (q : Q)
| SqlText (s : string).

Record externals : Type := {
  (** The outcome of the [n]-th HTTP POST ever attempted: [None] when
      [requests.post], [raise_for_status] or [rsp.json()] raises, else the
      text found at [choices[0].message.content].  The request body does
      not appear: the endpoint is an arbitrary function of the attempt. *)
  http_post : nat -> option string;
  (** [json.loads]; [None] when it raises. *)
  json_loads : string -> option json;
  (** [str.strip] *)
  str_strip : string -> string;
  (** [base64.b64encode(open(path, 'rb').read()).decode('utf-8')];
      [None] when the file cannot be read. *)
  read_base64 : string -> option string;
  (** The text SQLite makes of a number stored in a TEXT column. *)
  sqlite_number_text : sqlval -> string;
  (** The number SQLite makes of a text stored in a REAL column, when the
      text looks like one. *)
  sqlite_text_number : string -> option Q;
  (** [str(v)] as an f-string inserts it, for a [v] that is not a [str]. *)
  py_format : json -> string
}.

(** ** The JSON extraction step of [_ask_json] *)

Definition lbrace : ascii := ascii_of_nat 123.
Definition rbrace : ascii := ascii_of_nat 125.

(** [start, end = txt.find("{"), txt.rfind("}") + 1] and [txt[start:end]] *)
Definition json_candidate (txt : string) : string :=
  let start := PyStr.find lbrace txt in
  let stop := (PyStr.rfind rbrace txt + 1)%Z in
  PyStr.slice txt start stop.

(** [try: return json.loads(txt[start:end])  except Exception: return fallback] *)
Definition extract_json (loads : string -> option json)
                        (txt : string) (fallback : json) : json :=
  match loads (json_candidate txt) with
  | Some v => v
  | None => fallback
  end.

(** The same step in the words of the specification's testable property:
    the fallback when the text has no balanced brace pair, a parsed object
    otherwise. *)
Fixpoint balanced_from (depth : nat) (s : string) : bool :=
  match s with
  | EmptyString => Nat.eqb depth 0
  | String c s' =>
      if Ascii.eqb c lbrace then balanced_from (S depth) s'
      else if Ascii.eqb c rbrace then
        match depth with
        | O => false
        | S d => balanced_from d s'
        end
      else balanced_from depth s'
  end.

(** [s] opens with a brace, closes with the matching one, and is balanced
    in between. *)
Definition balanced_object (s : string) : bool :=
  match s with
  | String c s' => Ascii.eqb c lbrace && negb (String.eqb s' "")
                   && balanced_from 1 s'
                   && Ascii.eqb (match String.get (String.length s' - 1) s' with
                                 | Some a => a | None => c end) rbrace
  | EmptyString => false
  end.

Definition has_balanced_object (txt : string) : Prop :=
  exists pre obj post, txt = pre ++ obj ++ post /\ balanced_object obj = true.

(** A left brace with a right brace somewhere after it. *)
Definition brace_pair (txt : string) : Prop :=
  exists a b c, txt = a ++ String lbrace (b ++ String rbrace c).

(** ** The store: [RISDataModel]

    Each SQLite table is the list of its rows in insertion order.  A
    column declared TEXT holds a text or NULL ([option string]); the
    columns written with [json.dumps] hold the [json] value itself;
    [importance_score REAL] holds what SQLite's REAL affinity leaves.
    Identifiers come from [uuid.uuid4()], modelled as a counter that
    never repeats; [datetime.now()] is a clock that advances at every
    reading. *)

Record user_profile : Type := {
  up_user_id : string;
  up_emotion_baseline : json;
  up_memory_tags : json;
  up_avatar_role : json;
  up_created_at : nat;
  up_updated_at : nat;
  up_metadata : json
}.

Record interaction_log : Type := {
  log_id : nat;
  log_user_id : string;
  log_timestamp : nat;
  log_input_type : string;
  log_detected_emotion : json;
  log_emotion_label : option string;
  log_response_avatar : string;
  log_raw_input_data : json;
  log_processing_metadata : json
}.

Record emotion_analysis : Type := {
  ea_analysis_id : nat;
  ea_interaction_log_id : nat;
  ea_pad_values : json;
  ea_emotion_categories : json;
  ea_confidence_scores : json;
  ea_analysis_method : option string;
  ea_created_at : nat
}.

Record persona : Type := {
  p_persona_id : nat;
  p_user_id : string;
  p_name : option string;
  p_description : option string;
  p_personality_traits : json;
  p_communication_style : option string;
  p_emotional_tendencies : json;
  p_interaction_count : Z;
  p_created_at : nat;
  p_updated_at : nat;
  p_context_info : json;
  p_avatar_type : option string
}.

Record memory_event : Type := {
  m_memory_id : nat;
  m_user_id : string;
  m_interaction_log_id : nat;
  m_media_reference : option string;
  m_emotion_annotation : json;
  m_linked_topic : option string;
  m_response_history : json;
  m_memory_type : option string;
  m_importance_score : sqlval;
  m_created_at : nat;
  m_tags : json;
  m_entities : json
}.

Record world : Type := {
  user_profiles : list user_profile;
  interaction_logs : list interaction_log;
  emotion_analyses : list emotion_analysis;
  personas : list persona;
  memory_events : list memory_event;
  next_uuid : nat;        (* identifiers handed out so far *)
  clock : nat;            (* the next reading of datetime.now() *)
  requests : nat          (* HTTP POSTs attempted so far *)
}.

Definition empty_world : world :=
  {| user_profiles := []; interaction_logs := []; emotion_analyses := [];
     personas := []; memory_events := [];
     next_uuid := 0; clock := 0; requests := 0 |}.

Definition with_user_profiles (l : list user_profile) (w : world) : world :=
  {| user_profiles := l; interaction_logs := interaction_logs w;
     emotion_analyses := emotion_analyses w; personas := personas w;
     memory_events := memory_events w; next_uuid := next_uuid w;
     clock := clock w; requests := requests w |}.

Definition with_interaction_logs (l : list interaction_log) (w : world) : world :=
  {| user_profiles := user_profiles w; interaction_logs := l;
     emotion_analyses := emotion_analyses w; personas := personas w;
     memory_events := memory_events w; next_uuid := next_uuid w;
     clock := clock w; requests := requests w |}.

Definition with_emotion_analyses (l : list emotion_analysis) (w : world) : world :=
  {| user_profiles := user_profiles w; interaction_logs := interaction_logs w;
     emotion_analyses := l; personas := personas w;
     memory_events := memory_events w; next_uuid := next_uuid w;
     clock := clock w; requests := requests w |}.

Definition with_personas (l : list persona) (w : world) : world :=
  {| user_profiles := user_profiles w; interaction_logs := interaction_logs w;
     emotion_analyses := emotion_analyses w; personas := l;
     memory_events := memory_events w; next_uuid := next_uuid w;
     clock := clock w; requests := requests w |}.

Definition with_memory_events (l : list memory_event) (w : world) : world :=
  {| user_profiles := user_profiles w; interaction_logs := interaction_logs w;
     emotion_analyses := emotion_analyses w; personas := personas w;
     memory_events := l; next_uuid := next_uuid w;
     clock := clock w; requests := requests w |}.

(** ** Code that raises and changes the world *)

Definition M (A : Type) : Type := world -> result A * world.

Definition ret {A} (a : A) : M A := fun w => (Ok a, w).

Definition raise {A} (e : exn) : M A := fun w => (Raise e, w).

Definition bind {A B} (m : M A) (k : A -> M B) : M B :=
  fun w => match m w with
           | (Ok a, w') => k a w'
           | (Raise e, w') => (Raise e, w')
           end.

Definition lift {A} (r : result A) : M A := fun w => (r, w).

Declare Scope py_scope.
Delimit Scope py_scope with py.
Notation "x <- m ;; k" := (bind m (fun x => k))
  (at level 61, m at next level, right associativity) : py_scope.
Notation "m ;;; k" := (bind m (fun _ => k))
  (at level 61, right associativity) : py_scope.
Open Scope py_scope.

Definition with_next_uuid (n : nat) (w : world) : world :=
  {| user_profiles := user_profiles w; interaction_logs := interaction_logs w;
     emotion_analyses := emotion_analyses w; personas := personas w;
     memory_events := memory_events w; next_uuid := n;
     clock := clock w; requests := requests w |}.

Definition with_clock (n : nat) (w : world) : world :=
  {| user_profiles := user_profiles w; interaction_logs := interaction_logs w;
     emotion_analyses := emotion_analyses w; personas := personas w;
     memory_events := memory_events w; next_uuid := next_uuid w;
     clock := n; requests := requests w |}.

Definition with_requests (n : nat) (w : world) : world :=
  {| user_profiles := user_profiles w; interaction_logs := interaction_logs w;
     emotion_analyses := emotion_analyses w; personas := personas w;
     memory_events := memory_events w; next_uuid := next_uuid w;
     clock := clock w; requests := n |}.

(** [str(uuid.uuid4())] *)
Definition uuid4 : M nat :=
  fun w => (Ok (next_uuid w), with_next_uuid (S (next_uuid w)) w).

(** [datetime.now().isoformat()] *)
Definition now : M nat :=
  fun w => (Ok (clock w), with_clock (S (clock w)) w).

Definition count_request (w : world) : world :=
  with_requests (S (requests w)) w.

Definition modify (f : world -> world) : M unit := fun w => (Ok tt, f w).

Definition read {A} (f : world -> A) : M A := fun w => (Ok (f w), w).

Definition newline : string := String (ascii_of_nat 10) EmptyString.

Section Store.

Variable E : externals.

(** *** Parameter binding and column affinity of SQLite *)

Definition int64_ok (z : Z) : bool :=
  ((- 2 ^ 63 <=? z) && (z <? 2 ^ 63))%Z.

(** What [sqlite3] makes of a Python value passed for a [?]. *)
Definition bind_param (v : json) : result sqlval :=
  match v with
  | JNull => Ok SqlNull
  | JBool b => Ok (SqlInt (if b then 1 else 0))
  | JInt z => if int64_ok z then Ok (SqlInt z) else Raise OverflowError
  | JFloat q => Ok (SqlReal q)
  | JStr s => Ok (SqlText s)
  | JList _ => Raise InterfaceError
  | JDict _ => Raise InterfaceError
  end.

Definition text_affinity (v : sqlval) : option string :=
  match v with
  | SqlNull => None
  | SqlText s => Some s
  | _ => Some (sqlite_number_text E v)
  end.

Definition real_affinity (v : sqlval) : sqlval :=
  match v with
  | SqlNull => SqlNull
  | SqlInt z => SqlReal (inject_Z z)
  | SqlReal q => SqlReal q
  | SqlText s => match sqlite_text_number E s with
                 | Some q => SqlReal q
                 | None => SqlText s
                 end
  end.

Definition bind_text (v : json) : M (option string) :=
  x <- lift (bind_param v) ;; ret (text_affinity x).

Definition bind_real (v : json) : M sqlval :=
  x <- lift (bind_param v) ;; ret (real_affinity x).

(** [str(v)] *)
Definition py_str (v : json) : string :=
  match v with
  | JStr s => s
  | _ => py_format E v
  end.

(** *** [RISDataModel] *)

Definition create_user_profile (user_id : string) : M string :=
  t <- now ;;
  modify (fun w =>
    with_user_profiles
      (filter (fun u => negb (String.eqb (up_user_id u) user_id))
              (user_profiles w)
       ++ [ {| up_user_id := user_id;
               up_emotion_baseline :=
                 JDict [("pleasure", JFloat 0); ("arousal", JFloat 0);
                        ("dominance", JFloat 0)];
               up_memory_tags :=
                 JList [JStr "positive"; JStr "negative"; JStr "neutral"];
               up_avatar_role := JList [JStr "friend"];
               up_created_at := t; up_updated_at := t;
               up_metadata := JDict [] |} ]) w) ;;;
  ret user_id.

Definition get_user_profile (user_id : string) : M (option user_profile) :=
  read (fun w => find (fun u => String.eqb (up_user_id u) user_id)
                      (user_profiles w)).

Definition log_interaction (user_id input_type : string)
           (detected_emotion emotion_label raw_input_data : json) : M nat :=
  id <- uuid4 ;;
  t <- now ;;
  label <- bind_text emotion_label ;;
  modify (fun w =>
    with_interaction_logs
      (interaction_logs w
       ++ [ {| log_id := id; log_user_id := user_id; log_timestamp := t;
               log_input_type := input_type;
               log_detected_emotion := detected_emotion;
               log_emotion_label := label;
               log_response_avatar := "";
               log_raw_input_data := Py.or_else raw_input_data (JDict []);
               log_processing_metadata := JDict [] |} ]) w) ;;;
  ret id.

Definition create_memory_event (user_id : string) (interaction_log_id : nat)
           (emotion_annotation linked_topic memory_type importance_score
            media_reference tags entities : json) : M nat :=
  id <- uuid4 ;;
  t <- now ;;
  media <- bind_text (Py.or_else media_reference (JStr "")) ;;
  topic <- bind_text (Py.or_else linked_topic (JStr "")) ;;
  mtype <- bind_text memory_type ;;
  score <- bind_real importance_score ;;
  modify (fun w =>
    with_memory_events
      (memory_events w
       ++ [ {| m_memory_id := id; m_user_id := user_id;
               m_interaction_log_id := interaction_log_id;
               m_media_reference := media;
               m_emotion_annotation := emotion_annotation;
               m_linked_topic := topic;
               m_response_history := JList [];
               m_memory_type := mtype;
               m_importance_score := score;
               m_created_at := t;
               m_tags := Py.or_else tags (JList []);
               m_entities := Py.or_else entities (JDict []) |} ]) w) ;;;
  ret id.

Definition default_tendencies : json :=
  JDict [("positive", JFloat (33 # 100)); ("negative", JFloat (33 # 100));
         ("neutral", JFloat (34 # 100))].

Definition create_persona (user_id : string)
           (name description personality_traits communication_style
            avatar_type : json) : M nat :=
  id <- uuid4 ;;
  t <- now ;;
  nm <- bind_text name ;;
  descr <- bind_text (Py.or_else description
                        (JStr ("角色: " ++ py_str name))) ;;
  style <- bind_text (Py.or_else communication_style (JStr "neutral")) ;;
  avatar <- bind_text avatar_type ;;
  modify (fun w =>
    with_personas
      (personas w
       ++ [ {| p_persona_id := id; p_user_id := user_id; p_name := nm;
               p_description := descr;
               p_personality_traits := Py.or_else personality_traits (JList []);
               p_communication_style := style;
               p_emotional_tendencies := default_tendencies;
               p_interaction_count := 0;
               p_created_at := t; p_updated_at := t;
               p_context_info := JDict [];
               p_avatar_type := avatar |} ]) w) ;;;
  ret id.

Definition save_emotion_analysis (interaction_log_id : nat)
           (pad_values emotion_categories confidence_scores
            analysis_method : json) : M nat :=
  id <- uuid4 ;;
  t <- now ;;
  method <- bind_text analysis_method ;;
  modify (fun w =>
    with_emotion_analyses
      (emotion_analyses w
       ++ [ {| ea_analysis_id := id;
               ea_interaction_log_id := interaction_log_id;
               ea_pad_values := pad_values;
               ea_emotion_categories := emotion_categories;
               ea_confidence_scores := confidence_scores;
               ea_analysis_method := method;
               ea_created_at := t |} ]) w) ;;;
  ret id.

(** [ORDER BY key DESC]: a stable insertion sort. *)
Fixpoint insert_desc {A} (key : A -> nat) (x : A) (l : list A) : list A :=
  match l with
  | [] => [x]
  | y :: l' => if Nat.ltb (key y) (key x) then x :: l
               else y :: insert_desc key x l'
  end.

Fixpoint order_desc {A} (key : A -> nat) (l : list A) : list A :=
  match l with
  | [] => []
  | x :: l' => insert_desc key x (order_desc key l')
  end.

(** [LIMIT ?] with a Python int bound to it: SQLite takes a negative
    limit for no limit, and [sqlite3] refuses an int outside 64 bits. *)
Definition sql_limit {A} (limit : Z) (rows : list A) : result (list A) :=
  if int64_ok limit
  then Ok (if (limit <? 0)%Z then rows else firstn (Z.to_nat limit) rows)
  else Raise OverflowError.

Definition get_interaction_logs (user_id : string) (limit : Z)
  : M (list interaction_log) :=
  fun w =>
    (sql_limit limit
       (order_desc log_timestamp
          (filter (fun lg => String.eqb (log_user_id lg) user_id)
                  (interaction_logs w))), w).

(** Called without a [memory_type] everywhere in the pipeline. *)
Definition get_memory_events (user_id : string) (limit : Z)
  : M (list memory_event) :=
  fun w =>
    (sql_limit limit
       (order_desc m_created_at
          (filter (fun m => String.eqb (m_user_id m) user_id)
                  (memory_events w))), w).

Definition get_personas (user_id : string) : M (list persona) :=
  read (fun w => filter (fun p => String.eqb (p_user_id p) user_id)
                        (personas w)).

(** [json_set(COALESCE(processing_metadata, '{}'), '$.assistant_reply', ?)] *)
Definition set_reply (reply : string) (lg : interaction_log) : interaction_log :=
  {| log_id := log_id lg; log_user_id := log_user_id lg;
     log_timestamp := log_timestamp lg; log_input_type := log_input_type lg;
     log_detected_emotion := log_detected_emotion lg;
     log_emotion_label := log_emotion_label lg;
     log_response_avatar := log_response_avatar lg;
     log_raw_input_data := log_raw_input_data lg;
     log_processing_metadata :=
       match log_processing_metadata lg with
       | JDict kv => JDict (Py.set_key "assistant_reply" (JStr reply) kv)
       | other => other
       end |}.

Definition save_assistant_reply (id : nat) (reply : string) : M unit :=
  modify (fun w =>
    with_interaction_logs
      (map (fun lg => if Nat.eqb (log_id lg) id then set_reply reply lg else lg)
           (interaction_logs w)) w).

Definition bump_interaction (inc : Z) (t : nat) (p : persona) : persona :=
  {| p_persona_id := p_persona_id p; p_user_id := p_user_id p;
     p_name := p_name p; p_description := p_description p;
     p_personality_traits := p_personality_traits p;
     p_communication_style := p_communication_style p;
     p_emotional_tendencies := p_emotional_tendencies p;
     p_interaction_count := (p_interaction_count p + inc)%Z;
     p_created_at := p_created_at p; p_updated_at := t;
     p_context_info := p_context_info p;
     p_avatar_type := p_avatar_type p |}.

Definition increment_persona_interaction (persona_id : nat) : M unit :=
  t <- now ;;
  modify (fun w =>
    with_personas
      (map (fun p => if Nat.eqb (p_persona_id p) persona_id
                     then bump_interaction 1 t p else p)
           (personas w)) w).

End Store.

(** ** What [process_interaction] hands back *)

Record reply_result : Type := {
  reply : string;
  speaker_persona_id : nat;
  speaker_name : option string;
  speaker_avatar_type : option string;
  used_memories : list nat
}.

Record new_memory : Type := {
  nm_memory_id : nat;
  nm_topic : json;
  nm_importance_score : json;
  nm_entities : json;
  nm_temporal : json
}.

Record new_persona : Type := {
  np_persona_id : nat;
  np_info : json;
  np_name : json
}.

Record interaction_result : Type := {
  interaction_log_id : nat;
  pad_analysis : json;
  res_entities : json;
  new_personas : list new_persona;
  updated_personas : list persona;
  new_memories : list new_memory;
  res_timestamp : nat;
  res_reply : reply_result
}.

Section Pipeline.

Variable E : externals.

(** *** [LLMRequester] *)

Definition max_retries : nat := 2.

(** The loop of [_post]: [n] attempts are left. *)
Fixpoint post_attempts (n : nat) : M string :=
  match n with
  | O => raise RuntimeError
  | S n' =>
      fun w =>
        match http_post E (requests w) with
        | Some content => (Ok content, count_request w)
        | None => post_attempts n' (count_request w)
        end
  end.

Definition _post : M string := post_attempts (max_retries + 1).

Definition chat : M string := _post.

Definition chat_with_image : M string := _post.

(** *** [EnhancedPersonaSync] *)

Definition DEFAULT_PERSONA_name : string := "小助手".

Definition _JSON_FALLBACK_ENTITIES : json :=
  JDict [("persons", JList []); ("locations", JList []);
         ("time_expressions", JList []); ("events", JList []);
         ("organizations", JList [])].

Definition _ask_json (fallback : json) : M json :=
  fun w =>
    match chat w with
    | (Ok txt, w') => (Ok (extract_json (json_loads E) txt fallback), w')
    | (Raise _, w') => (Ok fallback, w')
    end.

Definition emotion_fallback : json :=
  JDict [("pad_values",
          JDict [("pleasure", JFloat (1 # 2)); ("arousal", JFloat (1 # 2));
                 ("dominance", JFloat (1 # 2))]);
         ("emotion_category",
          JDict [("label", JStr "neutral"); ("emotion", JStr "neutral");
                 ("intensity", JInt 0)]);
         ("analysis_method", JStr "fallback")].

Definition _analyze_emotion : M json := _ask_json emotion_fallback.

Definition _extract_entities : M json := _ask_json _JSON_FALLBACK_ENTITIES.

Definition _analyze_style : M json := _ask_json (JDict []).

Definition _extract_temporal : M json := _ask_json (JDict []).

Definition persona_info_fallback : json :=
  JDict [("personality_traits", JList [JStr "普通"]);
         ("avatar_type", JStr "friend")].

Definition _ensure_default_persona (user_id : string) : M nat :=
  ps <- get_personas user_id ;;
  match find (fun p => Py.text_eq (p_name p) (JStr DEFAULT_PERSONA_name)) ps with
  | Some p => ret (p_persona_id p)
  | None =>
      create_persona E user_id (JStr DEFAULT_PERSONA_name)
        (JStr "一个友善、耐心的AI助手，专门帮助用户记录和分析情感体验")
        (JList [JStr "友善"; JStr "耐心"; JStr "理解"; JStr "支持"])
        (JStr "温和") (JStr "friend")
  end.

(** The body of the loop of [_create_personas], over the names still to
    be seen. *)
Fixpoint create_personas_loop (user_id : string) (style : json)
         (names : list json) (new_list : list new_persona)
  : M (list new_persona) :=
  match names with
  | [] => ret new_list
  | name :: rest =>
      ps <- get_personas user_id ;;
      if existsb (fun p => Py.text_eq (p_name p) name) ps
      then create_personas_loop user_id style rest new_list
      else
        info <- _ask_json persona_info_fallback ;;
        traits <- lift (Py.getitem info "personality_traits") ;;
        formality <- lift (Py.get style "formality" (JStr "neutral")) ;;
        avatar <- lift (Py.get info "avatar_type" (JStr "friend")) ;;
        pid <- create_persona E user_id name
                 (JStr ("对话中出现的角色：" ++ py_str E name))
                 traits formality avatar ;;
        create_personas_loop user_id style rest
          (new_list ++ [ {| np_persona_id := pid; np_info := info;
                            np_name := name |} ])
  end.

Definition _create_personas (user_id : string) (entities style : json)
  : M (list new_persona) :=
  persons <- lift (Py.get entities "persons" (JList [])) ;;
  names <- lift (Py.iter persons) ;;
  create_personas_loop user_id style names [].

Fixpoint mentioned (entities : json) (ps : list persona)
  : result (list persona) :=
  match ps with
  | [] => Ok []
  | p :: ps' =>
      match Py.get entities "persons" (JList []) with
      | Raise e => Raise e
      | Ok persons =>
          match Py.text_in (p_name p) persons with
          | Raise e => Raise e
          | Ok b =>
              match mentioned entities ps' with
              | Raise e => Raise e
              | Ok l => Ok (if b then p :: l else l)
              end
          end
      end
  end.

Definition _update_personas (user_id : string) (entities : json)
  : M (list persona) :=
  ps <- get_personas user_id ;;
  lift (mentioned entities ps).

(** [pad.get("emotion_category", {}).get("label", "neutral")] *)
Definition emotion_label_of (pad : json) : result json :=
  match Py.get pad "emotion_category" (JDict []) with
  | Raise e => Raise e
  | Ok cat => Py.get cat "label" (JStr "neutral")
  end.

Definition _create_memories (user_id : string) (id : nat)
           (entities pad temporal : json) : M (list new_memory) :=
  topic_obj <- _ask_json (JDict [("topic", JStr "日常对话")]) ;;
  topic <- lift (Py.getitem topic_obj "topic") ;;
  score_obj <- _ask_json (JDict [("score", JFloat (1 # 2))]) ;;
  score <- lift (Py.getitem score_obj "score") ;;
  label <- lift (emotion_label_of pad) ;;
  (* create_memory_event(user_id, log_id, pad, topic, label, score, [], entities):
     the seventh positional parameter is media_reference, the eighth is
     tags, and entities keeps its default None *)
  mid <- create_memory_event E user_id id pad topic label score
           (JList []) entities JNull ;;
  ret [ {| nm_memory_id := mid; nm_topic := topic;
           nm_importance_score := score; nm_entities := entities;
           nm_temporal := temporal |} ].

Definition _analyze_image (image_path : string) : M string :=
  match read_base64 E image_path with
  | None => raise OSError
  | Some image_base64 =>
      let image_format := PyStr.last_field "." image_path in
      if String.eqb image_base64 ""
      then raise (ValueError "图像Base64编码不能为空")
      else
        _ <- lift (ImageFormat.normalize_image_format image_format) ;;
        content <- chat_with_image ;;
        ret (str_strip E content)
  end.

(** [m["importance_score"] >= 0.7] *)
Definition at_least_0_7 (v : sqlval) : result bool :=
  match v with
  | SqlReal q => Ok (Qle_bool (7 # 10) q)
  | SqlInt z => Ok (Qle_bool (7 # 10) (inject_Z z))
  | _ => Raise TypeError
  end.

Fixpoint important (ms : list memory_event) : result (list memory_event) :=
  match ms with
  | [] => Ok []
  | m :: ms' =>
      match at_least_0_7 (m_importance_score m) with
      | Raise e => Raise e
      | Ok b => match important ms' with
                | Raise e => Raise e
                | Ok l => Ok (if b then m :: l else l)
                end
      end
  end.

(** The loop that builds [logs_snippet]: it reads
    [lg["raw_input_data"].get("text", "")] of every log. *)
Fixpoint snippet_of_logs (logs : list interaction_log) : result unit :=
  match logs with
  | [] => Ok tt
  | lg :: logs' =>
      match Py.get (log_raw_input_data lg) "text" (JStr "") with
      | Raise e => Raise e
      | Ok _ => snippet_of_logs logs'
      end
  end.

Definition pick_speaker (ps : list persona) (persona_id : option nat)
  : option persona :=
  match persona_id with
  | Some pid => find (fun p => Nat.eqb (p_persona_id p) pid) ps
  | None => None
  end.

Definition _get_response_to_interaction (user_id : string)
           (persona_id : option nat) : M reply_result :=
  ps <- get_personas user_id ;;
  match ps with
  | [] =>
      _ensure_default_persona user_id ;;;
      _ <- get_personas user_id ;;
      (* [speaker] was never assigned on this path *)
      raise UnboundLocalError
  | first :: _ =>
      let speaker :=
        match pick_speaker ps persona_id with
        | Some p => p
        | None =>
            match find (fun p => Py.text_eq (p_name p)
                                   (JStr DEFAULT_PERSONA_name)) ps with
            | Some p => p
            | None => first
            end
        end in
      if negb (Py.joinable (p_personality_traits speaker))
      then raise TypeError
      else
        recent_logs <- get_interaction_logs user_id 5 ;;
        lift (snippet_of_logs (rev recent_logs)) ;;;
        recent_memories <- get_memory_events user_id 20 ;;
        high <- lift (important recent_memories) ;;
        let memories := firstn 3 high in
        content <- chat ;;
        let reply_text := str_strip E content in
        match recent_logs with
        | last :: _ => save_assistant_reply (log_id last) reply_text
        | [] => ret tt
        end ;;;
        increment_persona_interaction (p_persona_id speaker) ;;;
        ret {| reply := reply_text;
               speaker_persona_id := p_persona_id speaker;
               speaker_name := p_name speaker;
               speaker_avatar_type := p_avatar_type speaker;
               used_memories := map m_memory_id memories |}
  end.

Definition process_interaction (user_id text input_type : string)
           (image_path : option string) (persona_id : option nat)
  : M interaction_result :=
  profile <- get_user_profile user_id ;;
  match profile with
  | Some _ => ret tt
  | None => create_user_profile user_id ;;; ret tt
  end ;;;
  _ensure_default_persona user_id ;;;
  grounded <-
    match image_path with
    | Some path =>
        if String.eqb path "" then ret (text, JNull)
        else
          image_content <- _analyze_image path ;;
          ret ("我向你提供了一张图片：" ++ newline ++ image_content
               ++ newline ++ newline ++ "同时我告诉你这段文字："
               ++ newline ++ text,
               JStr image_content)
    | None => ret (text, JNull)
    end ;;
  let text' := fst grounded in
  pad <- _analyze_emotion ;;
  pad_values <- lift (Py.get pad "pad_values" (JDict [])) ;;
  label <- lift (emotion_label_of pad) ;;
  id <- log_interaction E user_id input_type pad_values label
          (JDict [("text", JStr text'); ("image", snd grounded)]) ;;
  pad_values' <- lift (Py.get pad "pad_values" (JDict [])) ;;
  category <- lift (Py.get pad "emotion_category" (JDict [])) ;;
  confidence <- lift (Py.get pad "confidence" (JFloat (1 # 2))) ;;
  method <- lift (Py.get pad "analysis_method" (JStr "llm")) ;;
  save_emotion_analysis E id pad_values' category
    (JDict [("confidence", confidence)]) method ;;;
  entities <- _extract_entities ;;
  style <- _analyze_style ;;
  temporal <- _extract_temporal ;;
  new_ps <- _create_personas user_id entities style ;;
  upd_ps <- _update_personas user_id entities ;;
  memories <- _create_memories user_id id entities pad temporal ;;
  r <- _get_response_to_interaction user_id persona_id ;;
  t <- now ;;
  ret {| interaction_log_id := id; pad_analysis := pad;
         res_entities := entities; new_personas := new_ps;
         updated_personas := upd_ps; new_memories := memories;
         res_timestamp := t; res_reply := r |}.

End Pipeline.

(** ** Notions the statements use *)

(** The personas of one user, in insertion order: [get_personas]. *)
Definition of_user (user_id : string) (ps : list persona) : list persona :=
  filter (fun p => String.eqb (p_user_id p) user_id) ps.

(** What [save_assistant_reply] and [increment_persona_interaction] do to
    one row. *)
Definition mark_reply (id : nat) (text : string) (lg : interaction_log)
  : interaction_log :=
  if Nat.eqb (log_id lg) id then set_reply text lg else lg.

Definition mark_spoken (id t : nat) (p : persona) : persona :=
  if Nat.eqb (p_persona_id p) id then bump_interaction 1 t p else p.

(** The log that [get_interaction_logs(user_id, limit=5)] lists first. *)
Definition latest_log (user_id : string) (w : world) : option interaction_log :=
  hd_error
    (firstn 5
       (order_desc log_timestamp
          (filter (fun lg => String.eqb (log_user_id lg) user_id)
                  (interaction_logs w)))).

(** Every log of the store was written before now, under an identifier
    already handed out. *)
Definition logs_in_past (w : world) : Prop :=
  forall lg, In lg (interaction_logs w) ->
             (log_id lg < next_uuid w)%nat /\ (log_timestamp lg < clock w)%nat.

(** The log row of an interaction whose emotion analysis answered [pad]. *)
Definition log_records (E : externals) (user_id : string) (pad : json)
           (lg : interaction_log) : Prop :=
  log_user_id lg = user_id
  /\ log_processing_metadata lg = JDict []
  /\ Py.get pad "pad_values" (JDict []) = Ok (log_detected_emotion lg)
  /\ exists label x,
       emotion_label_of pad = Ok label /\ bind_param label = Ok x
       /\ log_emotion_label lg = text_affinity E x.

(** Its EmotionAnalysis row. *)
Definition analysis_records (E : externals) (pad : json) (id : nat)
           (ea : emotion_analysis) : Prop :=
  ea_interaction_log_id ea = id
  /\ Py.get pad "pad_values" (JDict []) = Ok (ea_pad_values ea)
  /\ Py.get pad "emotion_category" (JDict []) = Ok (ea_emotion_categories ea)
  /\ (exists c, Py.get pad "confidence" (JFloat (1 # 2)) = Ok c
                /\ ea_confidence_scores ea = JDict [("confidence", c)])
  /\ exists method x,
       Py.get pad "analysis_method" (JStr "llm") = Ok method
       /\ bind_param method = Ok x
       /\ ea_analysis_method ea = text_affinity E x.

(** Its MemoryEvent row, against the memory the result reports. *)
Definition memory_records (E : externals) (user_id : string)
           (pad entities : json) (id : nat) (nm : new_memory)
           (mem : memory_event) : Prop :=
  m_user_id mem = user_id
  /\ m_interaction_log_id mem = id
  /\ m_memory_id mem = nm_memory_id nm
  /\ nm_entities nm = entities
  /\ m_entities mem = JDict []
  /\ m_tags mem = Py.or_else entities (JList [])
  /\ m_emotion_annotation mem = pad
  /\ (exists label x,
        emotion_label_of pad = Ok label /\ bind_param label = Ok x
        /\ m_memory_type mem = text_affinity E x)
  /\ (exists x, bind_param (nm_importance_score nm) = Ok x
                /\ m_importance_score mem = real_affinity E x)
  /\ (exists x, bind_param (Py.or_else (nm_topic nm) (JStr "")) = Ok x
                /\ m_linked_topic mem = text_affinity E x).

(** Persona identifiers were all handed out already, each once. *)
Definition personas_in_past (w : world) : Prop :=
  (forall p, In p (personas w) -> (p_persona_id p < next_uuid w)%nat)
  /\ NoDup (map p_persona_id (personas w)).

Definition neutral_pad : json :=
  JDict [("pleasure", JFloat (1 # 2)); ("arousal", JFloat (1 # 2));
         ("dominance", JFloat (1 # 2))].

(** From [w] to [w'] the store gained the personas [created], all of
    [user_id], fresh and never yet spoken to, and nothing else changed
    but the counters, which only grow. *)
Definition gained_personas (user_id : string) (w w' : world)
           (created : list persona) : Prop :=
  user_profiles w' = user_profiles w
  /\ interaction_logs w' = interaction_logs w
  /\ emotion_analyses w' = emotion_analyses w
  /\ memory_events w' = memory_events w
  /\ personas w' = (personas w ++ created)%list
  /\ (next_uuid w <= next_uuid w')%nat
  /\ (clock w <= clock w')%nat
  /\ (requests w <= requests w')%nat
  /\ Forall (fun p => p_user_id p = user_id
                      /\ p_interaction_count p = 0%Z
                      /\ (next_uuid w <= p_persona_id p < next_uuid w')%nat)
            created
  /\ NoDup (map p_persona_id created).

(** From [w] to [w'] no persona changed and no log changed; logs may have
    been added, under fresh identifiers and at later times. *)
Definition harmless (w w' : world) : Prop :=
  (next_uuid w <= next_uuid w')%nat
  /\ (clock w <= clock w')%nat
  /\ personas w' = personas w
  /\ exists new,
       interaction_logs w' = (interaction_logs w ++ new)%list
       /\ Forall (fun lg => (next_uuid w <= log_id lg < next_uuid w')%nat
                            /\ (clock w <= log_timestamp lg < clock w')%nat)
                 new.

(** The user's first persona, when there is one, is the default one. *)
Definition default_first (ps : list persona) : Prop :=
  match ps with
  | [] => True
  | p :: _ => p_name p = Some DEFAULT_PERSONA_name
  end.

(** No two personas of a user share a name, and the default persona was
    the first one written for the user. *)
Definition names_ok (w : world) : Prop :=
  forall user_id,
    NoDup (map p_name (of_user user_id (personas w)))
    /\ default_first (of_user user_id (personas w)).

Definition store_ok (w : world) : Prop :=
  logs_in_past w /\ personas_in_past w /\ names_ok w.

(** The store is in order and the user has a persona already. *)
Definition settled (user_id : string) (w : world) : Prop :=
  store_ok w /\ of_user user_id (personas w) <> [].

(** The stores that sequential calls of [process_interaction] lead to,
    whatever their arguments and however they end. *)
Inductive reachable (E : externals) : world -> Prop :=
| reach_empty : reachable E empty_world
| reach_step (w : world) (user_id text input_type : string)
             (image_path : option string) (persona_id : option nat) :
    reachable E w ->
    reachable E (snd (process_interaction E user_id text input_type
                                          image_path persona_id w)).

(** A person name as the data model has it: a text (or null), not a
    number or a boolean, which SQLite would store as another text than
    the one the pipeline looks up. *)
Definition is_text_name (name : json) : bool :=
  match name with
  | JInt _ => false
  | JFloat _ => false
  | JBool _ => false
  | _ => true
  end.

Definition names_are_text (entities : json) : bool :=
  match Py.get entities "persons" (JList []) with
  | Ok (JList l) => forallb is_text_name l
  | _ => true
  end.

(** Every reply of the endpoint that [_ask_json] reads as JSON names
    persons by texts. *)
Definition replies_name_texts (E : externals) : Prop :=
  forall i content v,
    http_post E i = Some content ->
    json_loads E (json_candidate content) = Some v ->
    names_are_text v = true.

(** ** [EmotionReportGenerator] *)

Module Report.

(** *** The dominant emotion of [_generate_summary]

    The statements that fill [summary['dominant_emotion']]; the other
    fields of the summary are computed apart from them. *)

Definition emotion_counts : Type := list (string * nat).

Definition initial_counts : emotion_counts :=
  [("positive", 0%nat); ("negative", 0%nat); ("neutral", 0%nat)].

(** [emotion_counts[memory_type] += 1] *)
Fixpoint increment (k : string) (c : emotion_counts) : result emotion_counts :=
  match c with
  | [] => Raise (KeyError k)
  | (k', n) :: c' =>
      if String.eqb k k' then Ok ((k', S n) :: c')
      else match increment k c' with
           | Ok c'' => Ok ((k', n) :: c'')
           | Raise e => Raise e
           end
  end.

Fixpoint tally (memories : list memory_event) (c : emotion_counts)
  : result emotion_counts :=
  match memories with
  | [] => Ok c
  | m :: ms =>
      match m_memory_type m with
      | None => Raise (KeyError "None")
      | Some memory_type =>
          match increment memory_type c with
          | Ok c' => tally ms c'
          | Raise e => Raise e
          end
      end
  end.

(** [max(d, key=d.get)]: the running best is replaced only by a strictly
    larger count. *)
Fixpoint max_from (best : string * nat) (rest : emotion_counts) : string :=
  match rest with
  | [] => fst best
  | (k, n) :: rest' =>
      if Nat.ltb (snd best) n then max_from (k, n) rest'
      else max_from best rest'
  end.

Definition dominant_emotion (memories : list memory_event) : result string :=
  match tally memories initial_counts with
  | Raise e => Raise e
  | Ok [] => Ok "neutral"
  | Ok (first :: rest) => Ok (max_from first rest)
  end.

(** The memory type is one of the three-way enum. *)
Definition known_type (m : memory_event) : Prop :=
  m_memory_type m = Some "positive" \/ m_memory_type m = Some "negative"
  \/ m_memory_type m = Some "neutral".

(** How many memories carry a given type. *)
Definition count_type (t : string) (memories : list memory_event) : nat :=
  List.length
    (filter (fun m => match m_memory_type m with
                      | Some t' => String.eqb t' t
                      | None => false
                      end) memories).

(** *** [_calculate_emotion_trend] *)

Record day_stats : Type := {
  positive_ratio : Q;
  negative_ratio : Q;
  neutral_ratio : Q;
  total_interactions : nat
}.

(** The dict from ISO dates to the day's ratios, one entry per date. *)
Definition trajectory : Type := list (string * day_stats).

Fixpoint insert_by_date (x : string * day_stats) (l : trajectory) : trajectory :=
  match l with
  | [] => [x]
  | y :: l' => if String.leb (fst x) (fst y) then x :: l
               else y :: insert_by_date x l'
  end.

(** The entries in the order of [sorted(trajectory.keys())]. *)
Fixpoint by_date (t : trajectory) : trajectory :=
  match t with
  | [] => []
  | x :: t' => insert_by_date x (by_date t')
  end.

Definition of_nat (n : nat) : Q := inject_Z (Z.of_nat n).

Fixpoint sum_y (ys : list Q) : Q :=
  match ys with
  | [] => 0
  | y :: ys' => y + sum_y ys'
  end.

(** Sums over the abscissae [k, k+1, ...]. *)
Fixpoint sum_xy (k : Q) (ys : list Q) : Q :=
  match ys with
  | [] => 0
  | y :: ys' => k * y + sum_xy (k + 1) ys'
  end.

Fixpoint sum_x (k : Q) (n : nat) : Q :=
  match n with
  | O => 0
  | S n' => k + sum_x (k + 1) n'
  end.

Fixpoint sum_xx (k : Q) (n : nat) : Q :=
  match n with
  | O => 0
  | S n' => k * k + sum_xx (k + 1) n'
  end.

Definition lsq_num (k : Q) (ys : list Q) : Q :=
  of_nat (List.length ys) * sum_xy k ys
  - sum_x k (List.length ys) * sum_y ys.

Definition lsq_den (k : Q) (n : nat) : Q :=
  of_nat n * sum_xx k n - sum_x k n * sum_x k n.

(** [np.polyfit(range(len(values)), values, 1)[0]]: the slope of the
    least-squares line, in exact arithmetic. *)
Definition polyfit_slope (values : list Q) : Q :=
  lsq_num 0 values / lsq_den 0 (List.length values).

Definition Qgt_bool (a b : Q) : bool := negb (Qle_bool a b).

Definition overall_trend_of (positive_trend : Q) : string :=
  if Qgt_bool positive_trend (1 # 100) then "improving"
  else if Qgt_bool (- (1 # 100)) positive_trend then "declining"
  else "stable".

Inductive trend : Type :=
| no_data
| insufficient_data
| trend_of (positive_trend negative_trend : Q)
           (overall_trend : string) (trend_strength : Q).

Definition positive_values (t : trajectory) : list Q :=
  map (fun e => positive_ratio (snd e)) (by_date t).

Definition negative_values (t : trajectory) : list Q :=
  map (fun e => negative_ratio (snd e)) (by_date t).

Definition _calculate_emotion_trend (t : trajectory) : trend :=
  match t with
  | [] => no_data
  | _ =>
      if Nat.ltb (List.length (by_date t)) 2 then insufficient_data
      else
        let positive_trend := polyfit_slope (positive_values t) in
        let negative_trend := polyfit_slope (negative_values t) in
        trend_of positive_trend negative_trend
                 (overall_trend_of positive_trend) (Qabs positive_trend)
  end.

Definition overall_trend (r : trend) : option string :=
  match r with
  | trend_of _ _ o _ => Some o
  | _ => None
  end.

(** Successive values of a series. *)
Fixpoint steps_all (P : Q -> Q -> Prop) (ys : list Q) : Prop :=
  match ys with
  | [] => True
  | y :: ys' =>
      match ys' with
      | [] => True
      | y' :: _ => P y y' /\ steps_all P ys'
      end
  end.

Definition strictly_increasing (ys : list Q) : Prop :=
  steps_all (fun a b => a < b) ys.

Definition strictly_decreasing (ys : list Q) : Prop :=
  steps_all (fun a b => b < a) ys.

Definition constant (ys : list Q) : Prop :=
  steps_all (fun a b => a == b) ys.

(** Every value exceeds the one before by more than [d]. *)
Definition rises_by_more_than (d : Q) (ys : list Q) : Prop :=
  steps_all (fun a b => a + d < b) ys.

Definition falls_by_more_than (d : Q) (ys : list Q) : Prop :=
  steps_all (fun a b => b + d < a) ys.

(** [sum of (j + i) * (ys[i] - y0)]: how far the values after [y0] lie
    above it, weighted by their distance from it. *)
Fixpoint weighted_rise (j y0 : Q) (ys : list Q) : Q :=
  match ys with
  | [] => 0
  | y :: ys' => j * (y - y0) + weighted_rise (j + 1) y0 ys'
  end.

(** Every value lies at least [d] times its distance above [y0]. *)
Fixpoint above_line (j y0 d : Q) (ys : list Q) : Prop :=
  match ys with
  | [] => True
  | y :: ys' => y0 + j * d <= y /\ above_line (j + 1) y0 d ys'
  end.

End Report.

(** ** More of [RISDataModel] and [LLMRequester]

    The queries and the probe that the pipeline itself does not call:
    they are used by the HTTP layer ([ris_app.py]), by the report
    generator and by the constructor of [EnhancedPersonaSync]. *)

From Stdlib Require Import Permutation.

Section Queries.

Variable E : externals.

(** The length of seven days in the unit of the clock. *)
Variable seven_days : nat.

(** [get_memory_events(user_id, memory_type, limit)]: the test
    [if memory_type:] takes the unfiltered query for [None] and for the
    empty text alike. *)
Definition has_type (t : string) (m : memory_event) : bool :=
  match m_memory_type m with
  | Some t' => String.eqb t' t
  | None => false
  end.

Definition get_memory_events_by (user_id : string)
           (memory_type : option string) (limit : Z)
  : M (list memory_event) :=
  match memory_type with
  | Some t =>
      if negb (String.eqb t "")
      then fun w =>
             (sql_limit limit
                (order_desc m_created_at
                   (filter (fun m => String.eqb (m_user_id m) user_id
                                     && has_type t m)
                           (memory_events w))), w)
      else get_memory_events user_id limit
  | None => get_memory_events user_id limit
  end.

(** [get_emotion_analysis]: [fetchone()] of the rows of one log, which
    SQLite visits in the order they were written. *)
Definition get_emotion_analysis (interaction_log_id : nat)
  : M (option emotion_analysis) :=
  read (fun w =>
    find (fun ea => Nat.eqb (ea_interaction_log_id ea) interaction_log_id)
         (emotion_analyses w)).

(** The query that counts the memories [GROUP BY memory_type], then
    [dict(cursor.fetchall())]: one entry for every memory type, the rows
    of type NULL forming one group under the key [None].  SQL leaves the
    order of the groups open; they come here in the order in which the
    types are first met. *)
Definition same_type (a b : option string) : bool :=
  match a, b with
  | Some x, Some y => String.eqb x y
  | None, None => true
  | _, _ => false
  end.

Fixpoint count_group (k : option string) (d : list (option string * nat))
  : list (option string * nat) :=
  match d with
  | [] => [(k, 1%nat)]
  | (k', n) :: d' =>
      if same_type k k' then (k', S n) :: d' else (k', n) :: count_group k d'
  end.

Fixpoint group_by_type (ms : list memory_event)
         (d : list (option string * nat)) : list (option string * nat) :=
  match ms with
  | [] => d
  | m :: ms' => group_by_type ms' (count_group (m_memory_type m) d)
  end.

Record statistics : Type := {
  st_user_id : string;
  st_interaction_count : nat;
  st_memory_count : nat;
  st_persona_count : nat;
  st_memory_distribution : list (option string * nat);
  st_recent_interactions : nat;
  st_timestamp : nat
}.

Definition logs_of (user_id : string) (w : world) : list interaction_log :=
  filter (fun lg => String.eqb (log_user_id lg) user_id) (interaction_logs w).

Definition memories_of (user_id : string) (w : world) : list memory_event :=
  filter (fun m => String.eqb (m_user_id m) user_id) (memory_events w).

Definition get_statistics (user_id : string) : M statistics :=
  interaction_count <- read (fun w => List.length (logs_of user_id w)) ;;
  memory_count <- read (fun w => List.length (memories_of user_id w)) ;;
  persona_count <-
    read (fun w => List.length
                     (filter (fun p => String.eqb (p_user_id p) user_id)
                             (personas w))) ;;
  memory_distribution <-
    read (fun w => group_by_type (memories_of user_id w) []) ;;
  t <- now ;;
  let week_ago := (Z.of_nat t - Z.of_nat seven_days)%Z in
  recent_interactions <-
    read (fun w =>
      List.length
        (filter (fun lg => Z.ltb week_ago (Z.of_nat (log_timestamp lg)))
                (logs_of user_id w))) ;;
  stamp <- now ;;
  ret {| st_user_id := user_id;
         st_interaction_count := interaction_count;
         st_memory_count := memory_count;
         st_persona_count := persona_count;
         st_memory_distribution := memory_distribution;
         st_recent_interactions := recent_interactions;
         st_timestamp := stamp |}.

(** [LLMRequester.is_available]: no key, no request; otherwise one
    [chat("ping")], whose failure is caught. *)
Definition is_available (api_key : option string) : M bool :=
  match api_key with
  | None => ret false
  | Some key =>
      if String.eqb key "" then ret false
      else fun w =>
             match chat E w with
             | (Ok _, w') => (Ok true, w')
             | (Raise _, w') => (Ok false, w')
             end
  end.

End Queries.

(** *** Notions for the statements about the store *)

(** The rows come newest first. *)
Fixpoint newest_first {A} (key : A -> nat) (l : list A) : Prop :=
  match l with
  | [] => True
  | x :: l' => (forall y, In y l' -> (key y <= key x)%nat) /\ newest_first key l'
  end.

(** The sum of the counts of a distribution. *)
Fixpoint total_of {K} (d : list (K * nat)) : nat :=
  match d with
  | [] => 0%nat
  | (_, n) :: d' => (n + total_of d')%nat
  end.

(** Two worlds with the same tables: only the counters may differ. *)
Definition same_tables (w w' : world) : Prop :=
  user_profiles w' = user_profiles w
  /\ interaction_logs w' = interaction_logs w
  /\ emotion_analyses w' = emotion_analyses w
  /\ personas w' = personas w
  /\ memory_events w' = memory_events w.

(** From [w] to [w'] no log, analysis or memory was written; requests
    may have been made. *)
Definition kept (w w' : world) : Prop :=
  interaction_logs w' = interaction_logs w
  /\ emotion_analyses w' = emotion_analyses w
  /\ memory_events w' = memory_events w
  /\ (requests w <= requests w')%nat.

(** Every emotion analysis of the store belongs to a log identifier that
    was handed out already. *)
Definition analyses_in_past (w : world) : Prop :=
  forall ea, In ea (emotion_analyses w) ->
             (ea_interaction_log_id ea < next_uuid w)%nat.

(** The profile that [create_user_profile(user_id)] writes at time [t]. *)
Definition default_profile (user_id : string) (t : nat) : user_profile :=
  {| up_user_id := user_id;
     up_emotion_baseline :=
       JDict [("pleasure", JFloat 0); ("arousal", JFloat 0);
              ("dominance", JFloat 0)];
     up_memory_tags :=
       JList [JStr "positive"; JStr "negative"; JStr "neutral"];
     up_avatar_role := JList [JStr "friend"];
     up_created_at := t; up_updated_at := t;
     up_metadata := JDict [] |}.

(** The value under a key of the metadata of a log. *)
Definition metadata_at (k : string) (lg : interaction_log) : option json :=
  match log_processing_metadata lg with
  | JDict kv => Py.lookup k kv
  | _ => None
  end.

(** The count a distribution holds for a type (0 when it has none), and
    the memories of a type. *)
Fixpoint tally_at (t : option string) (d : list (option string * nat)) : nat :=
  match d with
  | [] => 0%nat
  | (k, n) :: d' => ((if same_type t k then n else 0) + tally_at t d')%nat
  end.

Definition of_type (t : option string) (ms : list memory_event)
  : list memory_event :=
  filter (fun m => same_type t (m_memory_type m)) ms.

(** From [w] to [w'] no profile and no memory changed. *)
Definition same_profiles_memories (w w' : world) : Prop :=
  user_profiles w' = user_profiles w /\ memory_events w' = memory_events w.

(** From [w] to [w'] no profile changed and at most one memory was
    added, of that user and with the empty object for its entities. *)
Definition gained_memory (user_id : string) (w w' : world) : Prop :=
  user_profiles w' = user_profiles w
  /\ exists new,
       memory_events w' = (memory_events w ++ new)%list
       /\ (List.length new <= 1)%nat
       /\ Forall (fun m => m_user_id m = user_id /\ m_entities m = JDict [])
                 new.

(** The profiles after the first step of [process_interaction] at time
    [t]: as they were when the user has one, with the default profile
    added otherwise. *)
Definition profiles_after (user_id : string) (t : nat)
           (ups : list user_profile) : list user_profile :=
  match find (fun u => String.eqb (up_user_id u) user_id) ups with
  | Some _ => ups
  | None => (filter (fun u => negb (String.eqb (up_user_id u) user_id)) ups
             ++ [default_profile user_id t])%list
  end.

(** ** More of [EmotionReportGenerator]

    The report generator reads the rows that [get_memory_events],
    [get_interaction_logs] and [get_personas] answer.  Their timestamps
    were written by [datetime.now().isoformat()], which
    [datetime.fromisoformat] reads back: the [except] branches around the
    date handling are not taken for them.  The calendar is a parameter:
    [date_of t] is the ISO date of the day on which the clock read [t],
    [week_of t] what [strftime('%Y-W%U')] makes of it.  Divisions and
    comparisons of floats are exact, as for the trend. *)

Module PeriodReport.

Import Report.

(** *** Dicts with arbitrary keys

    A key decoded from JSON is hashable unless it is a list or a dict;
    numbers and booleans that are equal are one key. *)

Definition hashable (v : json) : bool :=
  match v with
  | JList _ => false
  | JDict _ => false
  | _ => true
  end.

Definition key_number (v : json) : option Q :=
  match v with
  | JBool b => Some (if b then 1 else 0)
  | JInt z => Some (inject_Z z)
  | JFloat q => Some q
  | _ => None
  end.

Definition key_eq (a b : json) : bool :=
  match a, b with
  | JNull, JNull => true
  | JStr s, JStr t => String.eqb s t
  | _, _ => match key_number a, key_number b with
            | Some x, Some y => Qeq_bool x y
            | _, _ => false
            end
  end.

(** [d[k] = d.get(k, 0) + 1] *)
Fixpoint count_key (k : json) (d : list (json * nat)) : list (json * nat) :=
  match d with
  | [] => [(k, 1%nat)]
  | (k', n) :: d' =>
      if key_eq k k' then (k', S n) :: d' else (k', n) :: count_key k d'
  end.

(** The same for a dict whose keys are texts. *)
Fixpoint count_text (k : string) (d : list (string * nat))
  : list (string * nat) :=
  match d with
  | [] => [(k, 1%nat)]
  | (k', n) :: d' =>
      if String.eqb k k' then (k', S n) :: d' else (k', n) :: count_text k d'
  end.

(** [max(d, key=d.get)] on a dict that is not empty. *)
Fixpoint max_key {K} (best : K * nat) (rest : list (K * nat)) : K :=
  match rest with
  | [] => fst best
  | (k, n) :: rest' =>
      if Nat.ltb (snd best) n then max_key (k, n) rest'
      else max_key best rest'
  end.

(** [sorted(d.items(), key=lambda x: x[1], reverse=True)]: the sort is
    stable, entries of equal count keep their order. *)
Fixpoint insert_by_count {K} (x : K * nat) (l : list (K * nat))
  : list (K * nat) :=
  match l with
  | [] => [x]
  | y :: l' => if Nat.ltb (snd y) (snd x) then x :: l
               else y :: insert_by_count x l'
  end.

Fixpoint sorted_by_count {K} (todo done : list (K * nat)) : list (K * nat) :=
  match todo with
  | [] => done
  | x :: todo' => sorted_by_count todo' (insert_by_count x done)
  end.

(** [v >= threshold] for a value read from a REAL column. *)
Definition at_least (threshold : Q) (v : sqlval) : result bool :=
  match v with
  | SqlReal q => Ok (Qle_bool threshold q)
  | SqlInt z => Ok (Qle_bool threshold (inject_Z z))
  | _ => Raise TypeError
  end.

(** *** [_identify_memory_patterns] *)

Record memory_patterns : Type := {
  emotion_pattern : option string;
  top_themes : option (list json)
}.

Definition count_of (k : string) (d : emotion_counts) : nat :=
  match find (fun e => String.eqb k (fst e)) d with
  | Some e => snd e
  | None => 0%nat
  end.

Definition emotion_pattern_of (by_type : emotion_counts) : option string :=
  let total := total_of by_type in
  if Nat.ltb 0 total then
    let positive_ratio := of_nat (count_of "positive" by_type) / of_nat total in
    let negative_ratio := of_nat (count_of "negative" by_type) / of_nat total in
    Some (if Qgt_bool positive_ratio (6 # 10) then "predominantly_positive"
          else if Qgt_bool negative_ratio (4 # 10) then "concerning_negative"
          else "balanced")
  else None.

Definition _identify_memory_patterns (by_type : emotion_counts)
           (by_tags : list (json * nat)) : memory_patterns :=
  {| emotion_pattern := emotion_pattern_of by_type;
     top_themes :=
       match by_tags with
       | [] => None
       | _ => Some (map fst (firstn 3 (sorted_by_count by_tags [])))
       end |}.

Section Calendar.

Variable date_of : nat -> string.
Variable week_of : nat -> string.

(** *** [_analyze_emotion_trajectory] *)

Definition positive_words : list string :=
  ["happy"; "excited"; "content"; "relaxed"].

Definition negative_words : list string := ["sad"; "angry"; "anxious"].

(** [emotion in words] for a label read from a TEXT column. *)
Definition in_words (emotion : option string) (words : list string) : bool :=
  match emotion with
  | Some s => PyStr.mem s words
  | None => false
  end.

(** [daily_emotions]: the labels of each date, in the order the dates
    were first met. *)
Fixpoint add_label (date : string) (label : option string)
         (d : list (string * list (option string)))
  : list (string * list (option string)) :=
  match d with
  | [] => [(date, [label])]
  | (k, labels) :: d' =>
      if String.eqb date k then (k, (labels ++ [label])%list) :: d'
      else (k, labels) :: add_label date label d'
  end.

Fixpoint group_by_date (interactions : list interaction_log)
         (d : list (string * list (option string)))
  : list (string * list (option string)) :=
  match interactions with
  | [] => d
  | lg :: rest =>
      group_by_date rest
        (add_label (date_of (log_timestamp lg)) (log_emotion_label lg) d)
  end.

Record day_counts : Type := {
  positive_count : nat;
  negative_count : nat;
  neutral_count : nat
}.

Fixpoint count_emotions (emotions : list (option string)) (c : day_counts)
  : day_counts :=
  match emotions with
  | [] => c
  | emotion :: rest =>
      count_emotions rest
        (if in_words emotion positive_words
         then {| positive_count := S (positive_count c);
                 negative_count := negative_count c;
                 neutral_count := neutral_count c |}
         else if in_words emotion negative_words
         then {| positive_count := positive_count c;
                 negative_count := S (negative_count c);
                 neutral_count := neutral_count c |}
         else {| positive_count := positive_count c;
                 negative_count := negative_count c;
                 neutral_count := S (neutral_count c) |})
  end.

Definition stats_of_counts (c : day_counts) : option day_stats :=
  let total := (positive_count c + negative_count c + neutral_count c)%nat in
  if Nat.ltb 0 total
  then Some {| positive_ratio := of_nat (positive_count c) / of_nat total;
               negative_ratio := of_nat (negative_count c) / of_nat total;
               neutral_ratio := of_nat (neutral_count c) / of_nat total;
               total_interactions := total |}
  else None.

Fixpoint daily_trajectory (d : list (string * list (option string)))
  : trajectory :=
  match d with
  | [] => []
  | (date, emotions) :: d' =>
      match stats_of_counts
              (count_emotions emotions
                 {| positive_count := 0; negative_count := 0;
                    neutral_count := 0 |}) with
      | Some s => (date, s) :: daily_trajectory d'
      | None => daily_trajectory d'
      end
  end.

Inductive trajectory_analysis : Type :=
| trajectory_no_data
| trajectory_of (daily : trajectory) (trend_analysis : trend).

Definition _analyze_emotion_trajectory (interactions : list interaction_log)
  : trajectory_analysis :=
  match interactions with
  | [] => trajectory_no_data
  | _ =>
      let t := daily_trajectory (group_by_date interactions []) in
      trajectory_of t (_calculate_emotion_trend t)
  end.

(** *** [_generate_summary] *)

Record summary : Type := {
  total_memories : nat;
  summary_interactions : nat;
  total_personas : nat;
  active_days : nat;
  avg_daily_interactions : Q;
  summary_dominant_emotion : string;
  most_active_persona : option json;
  key_insights : list string
}.

(** The set of the dates of the interactions. *)
Fixpoint dates_of (interactions : list interaction_log) (seen : list string)
  : list string :=
  match interactions with
  | [] => seen
  | lg :: rest =>
      let date := date_of (log_timestamp lg) in
      dates_of rest (if PyStr.mem date seen then seen else (seen ++ [date])%list)
  end.

(** [for k in keys: d[k] = d.get(k, 0) + 1]; a key that is not hashable
    raises. *)
Fixpoint count_keys (keys : list json) (d : list (json * nat))
  : result (list (json * nat)) :=
  match keys with
  | [] => Ok d
  | k :: rest =>
      if hashable k then count_keys rest (count_key k d)
      else Raise TypeError
  end.

(** The loop over the memories that fills [persona_mentions]. *)
Fixpoint persona_mentions (memories : list memory_event)
         (d : list (json * nat)) : result (list (json * nat)) :=
  match memories with
  | [] => Ok d
  | m :: rest =>
      match Py.get (m_entities m) "persons" (JList []) with
      | Raise e => Raise e
      | Ok persons =>
          match Py.iter persons with
          | Raise e => Raise e
          | Ok l =>
              match count_keys l d with
              | Raise e => Raise e
              | Ok d' => persona_mentions rest d'
              end
          end
      end
  end.

Definition insights_of (dominant : string) (avg : Q) : list string :=
  ((if String.eqb dominant "positive" then ["本期整体情绪偏向积极"]
    else if String.eqb dominant "negative" then ["本期情绪波动较大，需要关注"]
    else [])
   ++ (if Qgt_bool avg (5 # 1) then ["交互频率较高，生活较为活跃"]
       else if Qgt_bool (2 # 1) avg
       then ["交互频率较低，可能需要更多社交活动"]
       else []))%list.

Definition _generate_summary (memories : list memory_event)
           (interactions : list interaction_log) (personas : list persona)
  : result summary :=
  let active :=
    match interactions with
    | [] => 0%nat
    | _ => List.length (dates_of interactions [])
    end in
  let avg :=
    if Nat.ltb 0 active
    then of_nat (List.length interactions) / of_nat active
    else 0 in
  match dominant_emotion memories with
  | Raise e => Raise e
  | Ok dominant =>
      match persona_mentions memories [] with
      | Raise e => Raise e
      | Ok mentions =>
          Ok {| total_memories := List.length memories;
                summary_interactions := List.length interactions;
                total_personas := List.length personas;
                active_days := active;
                avg_daily_interactions := avg;
                summary_dominant_emotion := dominant;
                most_active_persona :=
                  match mentions with
                  | [] => None
                  | first :: rest => Some (max_key first rest)
                  end;
                key_insights := insights_of dominant avg |}
      end
  end.

(** *** [_analyze_memory_distribution] *)

Record importance_bands : Type := {
  high : nat;
  medium : nat;
  low : nat
}.

Record distribution : Type := {
  by_type : emotion_counts;
  by_importance : importance_bands;
  by_tags : list (json * nat);
  by_week : list (string * nat);
  patterns : memory_patterns
}.

Record distribution_so_far : Type := {
  types_so_far : emotion_counts;
  bands_so_far : importance_bands;
  tags_so_far : list (json * nat);
  weeks_so_far : list (string * nat)
}.

Definition band (importance : sqlval) (b : importance_bands)
  : result importance_bands :=
  match at_least (7 # 10) importance with
  | Raise e => Raise e
  | Ok true => Ok {| high := S (high b); medium := medium b; low := low b |}
  | Ok false =>
      match at_least (4 # 10) importance with
      | Raise e => Raise e
      | Ok true => Ok {| high := high b; medium := S (medium b); low := low b |}
      | Ok false => Ok {| high := high b; medium := medium b; low := S (low b) |}
      end
  end.

(** The body of the loop for one memory. *)
Definition distribute (m : memory_event) (d : distribution_so_far)
  : result distribution_so_far :=
  match m_memory_type m with
  | None => Raise (KeyError "None")
  | Some memory_type =>
      match increment memory_type (types_so_far d) with
      | Raise e => Raise e
      | Ok types =>
          match band (m_importance_score m) (bands_so_far d) with
          | Raise e => Raise e
          | Ok bands =>
              match Py.iter (m_tags m) with
              | Raise e => Raise e
              | Ok tags =>
                  match count_keys tags (tags_so_far d) with
                  | Raise e => Raise e
                  | Ok by_tags' =>
                      Ok {| types_so_far := types;
                            bands_so_far := bands;
                            tags_so_far := by_tags';
                            weeks_so_far :=
                              count_text (week_of (m_created_at m))
                                         (weeks_so_far d) |}
                  end
              end
          end
      end
  end.

Fixpoint distribute_all (memories : list memory_event)
         (d : distribution_so_far) : result distribution_so_far :=
  match memories with
  | [] => Ok d
  | m :: rest =>
      match distribute m d with
      | Raise e => Raise e
      | Ok d' => distribute_all rest d'
      end
  end.

Definition _analyze_memory_distribution (memories : list memory_event)
  : result distribution :=
  match distribute_all memories
          {| types_so_far := initial_counts;
             bands_so_far := {| high := 0; medium := 0; low := 0 |};
             tags_so_far := []; weeks_so_far := [] |} with
  | Raise e => Raise e
  | Ok d =>
      Ok {| by_type := types_so_far d;
            by_importance := bands_so_far d;
            by_tags := tags_so_far d;
            by_week := weeks_so_far d;
            patterns := _identify_memory_patterns (types_so_far d)
                                                  (tags_so_far d) |}
  end.

End Calendar.

(** *** [_analyze_persona_interactions]

    Of the four dicts of the result, [interaction_patterns] is never
    written and stays empty; the argument [personas] is not read. *)

Record persona_interactions : Type := {
  frequency : list (json * nat);
  emotion_association : list (json * emotion_counts);
  relationship_strength : list (json * Q)
}.

(** [d[memory_type] += 1], where [memory_type] was read from a TEXT
    column. *)
Definition bump (memory_type : option string) (c : emotion_counts)
  : result emotion_counts :=
  match memory_type with
  | None => Raise (KeyError "None")
  | Some t => increment t c
  end.

(** [if person not in d: d[person] = {...}] and then
    [d[person][memory_type] += 1]. *)
Fixpoint associate (person : json) (memory_type : option string)
         (d : list (json * emotion_counts))
  : result (list (json * emotion_counts)) :=
  match d with
  | [] =>
      match bump memory_type initial_counts with
      | Raise e => Raise e
      | Ok c => Ok [(person, c)]
      end
  | (k, c) :: d' =>
      if key_eq person k
      then match bump memory_type c with
           | Raise e => Raise e
           | Ok c' => Ok ((k, c') :: d')
           end
      else match associate person memory_type d' with
           | Raise e => Raise e
           | Ok d'' => Ok ((k, c) :: d'')
           end
  end.

(** The loop over the persons of one memory. *)
Fixpoint mention_all (persons : list json) (memory_type : option string)
         (f : list (json * nat)) (a : list (json * emotion_counts))
  : result (list (json * nat) * list (json * emotion_counts)) :=
  match persons with
  | [] => Ok (f, a)
  | person :: rest =>
      if hashable person
      then match associate person memory_type a with
           | Raise e => Raise e
           | Ok a' => mention_all rest memory_type (count_key person f) a'
           end
      else Raise TypeError
  end.

(** The loop over the memories. *)
Fixpoint mentions_of (memories : list memory_event)
         (f : list (json * nat)) (a : list (json * emotion_counts))
  : result (list (json * nat) * list (json * emotion_counts)) :=
  match memories with
  | [] => Ok (f, a)
  | m :: rest =>
      match Py.get (m_entities m) "persons" (JList []) with
      | Raise e => Raise e
      | Ok persons =>
          match Py.iter persons with
          | Raise e => Raise e
          | Ok l =>
              match mention_all l (m_memory_type m) f a with
              | Raise e => Raise e
              | Ok (f', a') => mentions_of rest f' a'
              end
          end
      end
  end.

(** [d.get(person, {})] *)
Definition association_of (person : json) (a : list (json * emotion_counts))
  : emotion_counts :=
  match find (fun e => key_eq person (fst e)) a with
  | Some e => snd e
  | None => []
  end.

(** [d[k] = v] *)
Fixpoint set_item {V} (k : json) (v : V) (d : list (json * V))
  : list (json * V) :=
  match d with
  | [] => [(k, v)]
  | (k', v') :: d' =>
      if key_eq k k' then (k', v) :: d' else (k', v') :: set_item k v d'
  end.

(** The loop over [frequency.items()] that fills
    [relationship_strength]. *)
Fixpoint strengths (f : list (json * nat)) (a : list (json * emotion_counts))
         (s : list (json * Q)) : list (json * Q) :=
  match f with
  | [] => s
  | (person, freq) :: f' =>
      let emotion_dist := association_of person a in
      let total_emotions := total_of emotion_dist in
      strengths f' a
        (if Nat.ltb 0 total_emotions
         then
           let positive_ratio :=
             of_nat (count_of "positive" emotion_dist) / of_nat total_emotions in
           set_item person (of_nat freq * (1 + positive_ratio)) s
         else s)
  end.

Definition _analyze_persona_interactions (memories : list memory_event)
           (personas : list persona) : result persona_interactions :=
  match mentions_of memories [] [] with
  | Raise e => Raise e
  | Ok (f, a) =>
      Ok {| frequency := f;
            emotion_association := a;
            relationship_strength := strengths f a [] |}
  end.

(** *** Notions for the statements about the reports *)

(** The label is one of those the emotion prompt of the pipeline asks
    for. *)
Definition enum_label (lg : interaction_log) : Prop :=
  log_emotion_label lg = Some "positive"
  \/ log_emotion_label lg = Some "negative"
  \/ log_emotion_label lg = Some "neutral".

(** The interactions logged on a date. *)
Definition on_date (date_of : nat -> string) (date : string)
           (interactions : list interaction_log) : list interaction_log :=
  filter (fun lg => String.eqb (date_of (log_timestamp lg)) date) interactions.

(** The interactions counted by a trajectory. *)
Fixpoint interactions_in (t : trajectory) : nat :=
  match t with
  | [] => 0%nat
  | (_, s) :: t' => (total_interactions s + interactions_in t')%nat
  end.

(** The labels held by the groups of [daily_emotions]. *)
Fixpoint labels_in (d : list (string * list (option string))) : nat :=
  match d with
  | [] => 0%nat
  | (_, labels) :: d' => (List.length labels + labels_in d')%nat
  end.

(** The counts come in descending order. *)
Fixpoint descending {K} (l : list (K * nat)) : Prop :=
  match l with
  | [] => True
  | x :: l' => (forall y, In y l' -> (snd y <= snd x)%nat) /\ descending l'
  end.

(** The importance of a memory reaches a threshold. *)
Definition reaches (threshold : Q) (m : memory_event) : bool :=
  match at_least threshold (m_importance_score m) with
  | Ok b => b
  | Raise _ => false
  end.

(** The keys of a dict are hashable and no two of them are equal. *)
Fixpoint distinct_keys {V} (d : list (json * V)) : Prop :=
  match d with
  | [] => True
  | (k, _) :: d' =>
      hashable k = true
      /\ (forall e, In e d' -> key_eq k (fst e) = false)
      /\ distinct_keys d'
  end.

(** The three counts of a person. *)
Definition three_counts (a b c : nat) : emotion_counts :=
  [("positive"%string, a); ("negative"%string, b); ("neutral"%string, c)].

(** An entry of [frequency] and the entry of [emotion_association] for
    the same person: the three counts add up to the frequency, which is
    not 0. *)
Definition counted (fe : json * nat) (ae : json * emotion_counts) : Prop :=
  fst ae = fst fe
  /\ exists a b c, snd ae = three_counts a b c
                   /\ (a + b + c = snd fe)%nat /\ (0 < snd fe)%nat.

(** An entry of [emotion_association] and the entry of
    [relationship_strength] for the same person: the strength lies
    between the number of mentions and twice that number; it is the
    number of mentions when none is positive and twice that number when
    all are. *)
Definition strength_counted (ae : json * emotion_counts) (se : json * Q)
  : Prop :=
  fst se = fst ae
  /\ exists a b c,
       snd ae = three_counts a b c
       /\ of_nat (a + b + c) <= snd se <= 2 * of_nat (a + b + c)
       /\ (a = 0%nat -> snd se == of_nat (b + c))
       /\ ((b + c = 0)%nat -> snd se == 2 * of_nat a).

End PeriodReport.

(** ** Concrete surroundings for running the definitions *)

From Stdlib Require Import DecimalString.

Module Examples.

Definition quote : string := String (ascii_of_nat 34) EmptyString.

(** A key or a text between double quotes. *)
Definition q (s : string) : string := quote ++ s ++ quote.

Definition is_space (c : ascii) : bool :=
  let n := nat_of_ascii c in
  Nat.eqb n 32 || (Nat.leb 9 n && Nat.leb n 13).

Fixpoint lstrip (s : string) : string :=
  match s with
  | String c s' => if is_space c then lstrip s' else s
  | EmptyString => EmptyString
  end.

Definition reverse (s : string) : string :=
  string_of_list_ascii (rev (list_ascii_of_string s)).

(** [str.strip] on ASCII white space. *)
Definition strip (s : string) : string :=
  reverse (lstrip (reverse (lstrip s))).

(** An endpoint that answers the scripted outcomes in turn and fails
    afterwards, with the reference JSON reader.  The two SQLite
    conversions and [py_format] are not exercised by the runs below. *)
Definition scripted (outcomes : list (option string)) : externals :=
  {| http_post := fun n => nth n outcomes None;
     json_loads := JsonReader.loads;
     str_strip := strip;
     read_base64 := fun _ => None;
     sqlite_number_text := fun _ => "0";
     sqlite_text_number := fun _ => None;
     py_format := fun _ => "" |}.

Definition memory_of_type (t : string) : memory_event :=
  {| m_memory_id := 0; m_user_id := "u1"; m_interaction_log_id := 0;
     m_media_reference := Some ""; m_emotion_annotation := JDict [];
     m_linked_topic := Some ""; m_response_history := JList [];
     m_memory_type := Some t; m_importance_score := SqlReal (1 # 2);
     m_created_at := 0; m_tags := JList []; m_entities := JDict [] |}.

Definition day (positive : Q) : Report.day_stats :=
  {| Report.positive_ratio := positive;
     Report.negative_ratio := 0;
     Report.neutral_ratio := 1 - positive;
     Report.total_interactions := 200 |}.

(** 100 of 200 interactions positive on the first day, 101 of 200 on
    the second. *)
Definition slow_rise : Report.trajectory :=
  [("2024-05-01", day (100 # 200)); ("2024-05-02", day (101 # 200))].

Definition fast_rise : Report.trajectory :=
  [("2024-05-01", day (1 # 4)); ("2024-05-02", day (1 # 2));
   ("2024-05-03", day (3 # 4))].

(** Two objects in one reply: [{"a": 1} or {"b": 2}]. *)
Definition two_objects : string :=
  "{" ++ q "a" ++ ": 1} or {" ++ q "b" ++ ": 2}".

(** JSON text: an object from keys and rendered values, an array from
    rendered items. *)
Definition obj (fields : list (string * string)) : string :=
  "{" ++ String.concat ", " (map (fun kv => q (fst kv) ++ ": " ++ snd kv) fields)
      ++ "}".

Definition arr (items : list string) : string :=
  "[" ++ String.concat ", " items ++ "]".

(** The replies to "I met Alice in Paris, I'm thrilled": emotion,
    entities (the model names Alice twice), style, time and place, the
    traits of Alice, topic, score, and the reply itself. *)
Definition alice_replies : list (option string) :=
  [ Some (obj [("pad_values", obj [("pleasure", "0.9"); ("arousal", "0.8");
                                  ("dominance", "0.6")]);
               ("emotion_category", obj [("emotion", q "excited");
                                        ("label", q "positive");
                                        ("intensity", "0.9")]);
               ("confidence", "0.9")]);
    Some (obj [("persons", arr [q "Alice"; q "Alice"]);
               ("locations", arr [q "Paris"]);
               ("time_expressions", arr []); ("events", arr []);
               ("organizations", arr [])]);
    Some (obj [("formality", q "casual")]);
    Some (obj []);
    Some (obj [("personality_traits", arr [q "kind"]);
               ("avatar_type", q "friend")]);
    Some (obj [("topic", q "travel")]);
    Some (obj [("score", "0.8")]);
    Some "Sounds wonderful!" ].

Definition alice_entities : json :=
  JDict [("persons", JList [JStr "Alice"; JStr "Alice"]);
         ("locations", JList [JStr "Paris"]);
         ("time_expressions", JList []); ("events", JList []);
         ("organizations", JList [])].

Abbreviation alice_run :=
  (process_interaction (scripted alice_replies) "u1"
     "I met Alice in Paris, I'm thrilled" "topic" None None empty_world).

(** No reply is JSON: every extraction falls back. *)
Definition prose_replies : list (option string) :=
  [ Some "I am not sure."; Some "I am not sure."; Some "I am not sure.";
    Some "I am not sure."; Some "I am not sure."; Some "I am not sure.";
    Some "Tell me more." ].

Abbreviation prose_run :=
  (process_interaction (scripted prose_replies) "u1" "hello" "topic" None None
     empty_world).

(** The three attempts of the emotion request fail; the later requests
    are answered, none with JSON. *)
Definition flaky_replies : list (option string) :=
  [ None; None; None;
    Some "I am not sure."; Some "I am not sure."; Some "I am not sure.";
    Some "I am not sure."; Some "I am not sure."; Some "Tell me more." ].

Abbreviation flaky_run :=
  (process_interaction (scripted flaky_replies) "u1" "hello" "topic" None None
     empty_world).

(** The model answers values out of range and a label outside the enum. *)
Definition wild_replies : list (option string) :=
  [ Some (obj [("pad_values", obj [("pleasure", "7"); ("arousal", "-2");
                                  ("dominance", "0.5")]);
               ("emotion_category", obj [("emotion", q "ecstatic");
                                        ("label", q "ecstatic");
                                        ("intensity", "3")])]);
    Some (obj [("persons", arr [])]);
    Some (obj []);
    Some (obj []);
    Some (obj [("topic", q "party")]);
    Some (obj [("score", "7")]);
    Some "Wow!" ].

Abbreviation wild_run :=
  (process_interaction (scripted wild_replies) "u1" "best day ever" "topic"
     None None empty_world).

(** The decimal text of an integer, as SQLite's TEXT affinity and
    Python's [str] both write it. *)
Definition decimal (z : Z) : string := NilZero.string_of_int (Z.to_int z).

(** The scripted endpoint with the two renderings of integers; the
    renderings of floats are not exercised. *)
Definition numbered (outcomes : list (option string)) : externals :=
  {| http_post := fun n => nth n outcomes None;
     json_loads := JsonReader.loads;
     str_strip := strip;
     read_base64 := fun _ => None;
     sqlite_number_text :=
       fun v => match v with SqlInt z => decimal z | _ => "" end;
     sqlite_text_number := fun _ => None;
     py_format := fun v => match v with JInt z => decimal z | _ => "" end |}.

(** The model answers the number 7 as a person name, twice: emotion,
    entities, style, time and place, the traits of each 7, topic, score,
    and the reply. *)
Definition seven_replies : list (option string) :=
  [ Some (obj [("pad_values", obj [("pleasure", "0.5"); ("arousal", "0.5");
                                  ("dominance", "0.5")]);
               ("emotion_category", obj [("emotion", q "calm");
                                        ("label", q "neutral");
                                        ("intensity", "0.1")])]);
    Some (obj [("persons", arr ["7"; "7"])]);
    Some (obj []);
    Some (obj []);
    Some (obj [("personality_traits", arr [q "kind"]);
               ("avatar_type", q "friend")]);
    Some (obj [("personality_traits", arr [q "kind"]);
               ("avatar_type", q "friend")]);
    Some (obj [("topic", q "numbers")]);
    Some (obj [("score", "0.5")]);
    Some "Who is 7?" ].

Abbreviation seven_run :=
  (process_interaction (numbered seven_replies) "u1" "I met 7 and 7" "topic"
     None None empty_world).

(** The scripted endpoint, with every image file readable. *)
Definition pictured (outcomes : list (option string)) : externals :=
  {| http_post := fun n => nth n outcomes None;
     json_loads := JsonReader.loads;
     str_strip := strip;
     read_base64 := fun _ => Some "aGk=";
     sqlite_number_text := fun _ => "0";
     sqlite_text_number := fun _ => None;
     py_format := fun _ => "" |}.

(** An interaction with an image, the endpoint down. *)
Abbreviation image_down_run :=
  (process_interaction (pictured []) "u1" "look" "image" (Some "cat.png")
     None empty_world).

(** The six extraction requests are answered, none with JSON; the three
    attempts of the reply request fail. *)
Definition reply_down_replies : list (option string) :=
  [ Some "I am not sure."; Some "I am not sure."; Some "I am not sure.";
    Some "I am not sure."; Some "I am not sure."; Some "I am not sure.";
    None; None; None ].

Abbreviation reply_down_run :=
  (process_interaction (scripted reply_down_replies) "u1" "hello" "topic"
     None None empty_world).

(** The reply to the topic request is the empty object: it parses, and
    has no topic. *)
Definition odd_topic_replies : list (option string) :=
  [ Some "I am not sure."; Some "I am not sure."; Some "I am not sure.";
    Some "I am not sure."; Some (obj []); Some "I am not sure.";
    Some "Tell me more." ].

Abbreviation odd_topic_run :=
  (process_interaction (scripted odd_topic_replies) "u1" "hello" "topic"
     None None empty_world).

End Examples.

(** ** Concrete inputs for the queries and the report *)

Module ReportExamples.

(** A calendar of two days: the clock readings below 10 fall on the
    first day, the others on the second; all of them in one week. *)
Definition date_of (t : nat) : string :=
  if Nat.ltb t 10 then "2024-05-01" else "2024-05-02".

Definition week_of (t : nat) : string := "2024-W17".

Definition log_with (id t : nat) (label : string) : interaction_log :=
  {| log_id := id; log_user_id := "u1"; log_timestamp := t;
     log_input_type := "text"; log_detected_emotion := JDict [];
     log_emotion_label := Some label; log_response_avatar := "";
     log_raw_input_data := JDict []; log_processing_metadata := JDict [] |}.

(** Two interactions on the first day and one on the second, with
    labels of the word lists of the trajectory. *)
Definition word_logs : list interaction_log :=
  [log_with 0 1 "happy"; log_with 1 2 "sad"; log_with 2 11 "calm"].

(** The same with labels of the emotion prompt. *)
Definition enum_logs : list interaction_log :=
  [log_with 0 1 "positive"; log_with 1 2 "neutral"; log_with 2 11 "negative"].

Definition two_memories : list memory_event :=
  [Examples.memory_of_type "positive"; Examples.memory_of_type "neutral"].

(** A memory of a type whose entities name persons. *)
Definition memory_about (t : string) (persons : list string) : memory_event :=
  {| m_memory_id := 0; m_user_id := "u1"; m_interaction_log_id := 0;
     m_media_reference := Some ""; m_emotion_annotation := JDict [];
     m_linked_topic := Some ""; m_response_history := JList [];
     m_memory_type := Some t; m_importance_score := SqlReal (1 # 2);
     m_created_at := 0; m_tags := JList [];
     m_entities := JDict [("persons", JList (map JStr persons))] |}.

(** Alice in a positive and in a neutral memory, Bob in the neutral one. *)
Definition memories_of_friends : list memory_event :=
  [memory_about "positive" ["Alice"]; memory_about "neutral" ["Alice"; "Bob"]].

End ReportExamples.

(** * Properties *)

(** ** Image formats *)

Section ImageFormatFacts.

Variable E : externals.

Lemma mem_In (x : string) (l : list string) :
  PyStr.mem x l = true <-> In x l.
Proof.
  induction l as [|y l IH]; simpl.
  - split; [discriminate | tauto].
  - destruct (String.eqb x y) eqn:Exy.
    + apply String.eqb_eq in Exy. subst. tauto.
    + apply String.eqb_neq in Exy. rewrite IH. split.
      * tauto.
      * intros [H|H]; [congruence | assumption].
Qed.

Lemma post_attempts_counts (n : nat) (w : world) :
  (requests w + (if Nat.eqb n 0 then 0 else 1) <=
     requests (snd (post_attempts E n w)))%nat.
Proof.
  revert w. induction n as [|n IH]; intro w; simpl.
  - lia.
  - destruct (http_post E (requests w)).
    + simpl. lia.
    + specialize (IH (count_request w)). simpl in IH.
      destruct (Nat.eqb n 0); lia.
Qed.

(** C4, as amended: for every format other than [jpeg], the format is
    accepted exactly when it is one of png, bmp, webp, heic, tiff or one
    of the aliases jpe, jpg (sent as jpeg) and tif (sent as tiff); an
    accepted format leads to a request to the endpoint, and a rejected
    one raises the validation error with the world untouched, so before
    any request is attempted. *)
Theorem image_format_gate (image_format : string) :
  image_format <> "jpeg" ->
  (ImageFormat.accepts image_format = true <->
     In image_format ["png"; "bmp"; "webp"; "heic"; "tiff"; "tif"; "jpg"; "jpe"])
  /\ (In image_format ["jpg"; "jpe"] ->
        ImageFormat.normalize_image_format image_format = Ok "jpeg")
  /\ (In image_format ["tif"; "tiff"] ->
        ImageFormat.normalize_image_format image_format = Ok "tiff")
  /\ (forall image_path image_base64 w,
        read_base64 E image_path = Some image_base64 ->
        image_base64 <> "" ->
        PyStr.last_field "." image_path = image_format ->
        if ImageFormat.accepts image_format
        then (requests w < requests (snd (_analyze_image E image_path w)))%nat
        else _analyze_image E image_path w
             = (Raise (ImageFormat.unsupported image_format), w)).
Proof.
  intro Hjpeg.
  assert (Hacc : ImageFormat.accepts image_format = true <->
     In image_format ["png"; "bmp"; "webp"; "heic"; "tiff"; "tif"; "jpg"; "jpe"]).
  { unfold ImageFormat.accepts, ImageFormat.normalize_image_format.
    destruct (PyStr.mem image_format ["jpe"; "jpg"]) eqn:H1.
    { apply mem_In in H1. simpl in *. intuition. }
    destruct (PyStr.mem image_format ["tif"; "tiff"]) eqn:H2.
    { apply mem_In in H2. simpl in *. intuition. }
    destruct (PyStr.mem image_format ["bmp"; "png"; "webp"; "heic"]) eqn:H3.
    { apply mem_In in H3. simpl in *. intuition. }
    simpl. split; [discriminate|]. intro HIn.
    assert (N1 : ~ In image_format ["jpe"; "jpg"])
      by (rewrite <- mem_In; congruence).
    assert (N2 : ~ In image_format ["tif"; "tiff"])
      by (rewrite <- mem_In; congruence).
    assert (N3 : ~ In image_format ["bmp"; "png"; "webp"; "heic"])
      by (rewrite <- mem_In; congruence).
    simpl in *. intuition. }
  split; [exact Hacc|]. split; [|split].
  - intro H. unfold ImageFormat.normalize_image_format.
    assert (M : PyStr.mem image_format ["jpe"; "jpg"] = true)
      by (apply mem_In; simpl in *; tauto).
    now rewrite M.
  - intro H. unfold ImageFormat.normalize_image_format.
    destruct (PyStr.mem image_format ["jpe"; "jpg"]) eqn:M1.
    + apply mem_In in M1. simpl in *.
      destruct H as [H|[H|[]]], M1 as [M1|[M1|[]]]; subst; discriminate.
    + assert (M : PyStr.mem image_format ["tif"; "tiff"] = true)
        by (apply mem_In; simpl in *; tauto).
      now rewrite M.
  - intros image_path image_base64 w Hread Hne Hfmt.
    unfold _analyze_image. rewrite Hread, Hfmt.
    apply String.eqb_neq in Hne. rewrite Hne.
    unfold ImageFormat.accepts.
    destruct (ImageFormat.normalize_image_format image_format) as [f|e] eqn:Hn.
    + unfold bind, lift, chat_with_image, _post.
      pose proof (post_attempts_counts (max_retries + 1) w) as Hc.
      destruct (post_attempts E (max_retries + 1) w) as [[c|e] w'];
        cbn in *; lia.
    + unfold bind, lift. f_equal.
      unfold ImageFormat.normalize_image_format in Hn.
      destruct (PyStr.mem image_format ["jpe"; "jpg"]); [discriminate|].
      destruct (PyStr.mem image_format ["tif"; "tiff"]); [discriminate|].
      destruct (negb (PyStr.mem image_format ["bmp"; "png"; "webp"; "heic"]));
        congruence.
Qed.

End ImageFormatFacts.

(** ** The dominant emotion of a period report *)

Section DominantEmotion.

Import Report PeriodReport.

Open Scope list_scope.

Lemma tally_counts (memories : list memory_event) :
  Forall known_type memories ->
  forall a b c,
    tally memories [("positive", a); ("negative", b); ("neutral", c)]
    = Ok [("positive", a + count_type "positive" memories)%nat;
          ("negative", b + count_type "negative" memories)%nat;
          ("neutral", c + count_type "neutral" memories)%nat].
Proof.
  induction 1 as [|m ms Hm _ IH]; intros a b c.
  - unfold count_type. simpl. now rewrite !Nat.add_0_r.
  - unfold count_type in *. simpl.
    destruct Hm as [Hm|[Hm|Hm]]; rewrite Hm; simpl; rewrite IH; simpl;
      rewrite ?Nat.add_succ_r; reflexivity.
Qed.

Lemma increment_three (t : string) (a b c : nat) (x : emotion_counts) :
  increment t [("positive"%string, a); ("negative"%string, b);
               ("neutral"%string, c)] = Ok x ->
  (t = "positive"%string
   /\ x = [("positive"%string, S a); ("negative"%string, b);
           ("neutral"%string, c)])
  \/ (t = "negative"%string
      /\ x = [("positive"%string, a); ("negative"%string, S b);
              ("neutral"%string, c)])
  \/ (t = "neutral"%string
      /\ x = [("positive"%string, a); ("negative"%string, b);
              ("neutral"%string, S c)]).
Proof.
  cbn [increment].
  destruct (String.eqb t "positive") eqn:H1.
  { apply String.eqb_eq in H1. intro H. injection H as <-. auto. }
  destruct (String.eqb t "negative") eqn:H2.
  { apply String.eqb_eq in H2. intro H. injection H as <-. auto. }
  destruct (String.eqb t "neutral") eqn:H3.
  { apply String.eqb_eq in H3. intro H. injection H as <-. auto 6. }
  discriminate.
Qed.

Lemma tally_known (memories : list memory_event) (a b c : nat)
      (x : emotion_counts) :
  tally memories [("positive", a); ("negative", b); ("neutral", c)] = Ok x ->
  Forall known_type memories.
Proof.
  revert a b c. induction memories as [|m ms IH]; intros a b c H;
    [constructor|].
  cbn [tally] in H. destruct (m_memory_type m) as [t|] eqn:Hty; [|discriminate].
  destruct (increment t _) as [c'|e] eqn:Hi; [|discriminate].
  apply increment_three in Hi as [[Et Ex] | [[Et Ex] | [Et Ex]]];
    subst t c'; (constructor; [unfold known_type; rewrite Hty; auto|]);
    exact (IH _ _ _ H).
Qed.

Lemma first_argmax (memories : list memory_event) :
  Forall known_type memories ->
  let p := count_type "positive" memories in
  let n := count_type "negative" memories in
  let u := count_type "neutral" memories in
  (dominant_emotion memories = Ok "positive" /\ n <= p /\ u <= p)%nat
  \/ (dominant_emotion memories = Ok "negative" /\ p < n /\ u <= n)%nat
  \/ (dominant_emotion memories = Ok "neutral" /\ p < u /\ n < u)%nat.
Proof.
  intros Hk p n u.
  unfold dominant_emotion, initial_counts.
  rewrite (tally_counts memories Hk 0 0 0). simpl.
  fold p n u.
  destruct (Nat.ltb p n) eqn:Hpn; simpl;
    [ destruct (Nat.ltb n u) eqn:Hnu | destruct (Nat.ltb p u) eqn:Hpu ];
    simpl;
    repeat match goal with
           | H : Nat.ltb _ _ = true |- _ => apply Nat.ltb_lt in H
           | H : Nat.ltb _ _ = false |- _ => apply Nat.ltb_ge in H
           end.
  - right; right. repeat split; lia.
  - right; left. repeat split; lia.
  - right; right. repeat split; lia.
  - left. repeat split; lia.
Qed.

(** C10: in the summary that [_generate_summary] answers, the dominant
    emotion is the memory type with the largest count, the earliest of
    positive, negative, neutral winning a tie; a summary is answered only
    over memories whose types are in the three-way enum, and then
    whenever the persons of their entities can be counted; with no memory
    at all the summary is answered and its dominant emotion is
    "positive". *)
Theorem dominant_emotion_first_argmax
        (date_of : nat -> string) (interactions : list interaction_log)
        (personas : list persona) :
  (forall memories s,
     _generate_summary date_of memories interactions personas = Ok s ->
     let p := count_type "positive" memories in
     let n := count_type "negative" memories in
     let u := count_type "neutral" memories in
     Forall known_type memories
     /\ ((summary_dominant_emotion s = "positive"%string /\ n <= p /\ u <= p)%nat
         \/ (summary_dominant_emotion s = "negative"%string /\ p < n /\ u <= n)%nat
         \/ (summary_dominant_emotion s = "neutral"%string /\ p < u /\ n < u)%nat))
  /\ (forall memories d,
        Forall known_type memories ->
        persona_mentions memories [] = Ok d ->
        exists s, _generate_summary date_of memories interactions personas
                  = Ok s)
  /\ exists s,
       _generate_summary date_of [] interactions personas = Ok s
       /\ summary_dominant_emotion s = "positive"%string.
Proof.
  split; [|split].
  - intros memories s H p n u. unfold _generate_summary in H.
    destruct (dominant_emotion memories) as [dominant|e] eqn:Hdom;
      [|discriminate].
    destruct (persona_mentions memories []) as [mentions|e]; [|discriminate].
    injection H as <-. cbn [summary_dominant_emotion].
    assert (Hk : Forall known_type memories).
    { unfold dominant_emotion, initial_counts in Hdom.
      destruct (tally memories _) as [x|e] eqn:Ht; [|discriminate].
      exact (tally_known _ _ _ _ _ Ht). }
    split; [exact Hk|].
    destruct (first_argmax memories Hk) as [(H1 & H2)|[(H1 & H2)|(H1 & H2)]];
      fold p n u in H2; rewrite Hdom in H1; injection H1 as ->; auto.
  - intros memories d Hk Hd. unfold _generate_summary.
    destruct (first_argmax memories Hk) as [(H1 & _)|[(H1 & _)|(H1 & _)]];
      rewrite H1, Hd; eexists; reflexivity.
  - eexists. split; reflexivity.
Qed.

End DominantEmotion.

(** ** The JSON extraction step *)

Section StringFacts.

Lemma append_assoc (a b c : string) : (a ++ b) ++ c = a ++ (b ++ c).
Proof. induction a as [|x a IH]; simpl; [reflexivity | now rewrite IH]. Qed.

Lemma append_nil_r (a : string) : a ++ "" = a.
Proof. induction a as [|x a IH]; simpl; [reflexivity | now rewrite IH]. Qed.

Lemma length_append (a b : string) :
  String.length (a ++ b) = (String.length a + String.length b)%nat.
Proof. induction a as [|x a IH]; simpl; [reflexivity | now rewrite IH]. Qed.

Lemma substring_zero (n : nat) (s : string) : String.substring n 0 s = "".
Proof.
  revert n. induction s as [|x s IH]; intros [|n]; simpl; auto.
Qed.

Lemma substring_prefix (mid post : string) :
  String.substring 0 (String.length mid) (mid ++ post) = mid.
Proof.
  induction mid as [|x mid IH]; simpl.
  - apply substring_zero.
  - now rewrite IH.
Qed.

Lemma substring_append (pre mid post : string) :
  String.substring (String.length pre) (String.length mid) (pre ++ mid ++ post)
  = mid.
Proof.
  induction pre as [|x pre IH]; simpl.
  - apply substring_prefix.
  - exact IH.
Qed.

Lemma occurs_append (c : ascii) (a b : string) :
  PyStr.occurs c (a ++ b) = PyStr.occurs c a || PyStr.occurs c b.
Proof.
  induction a as [|x a IH]; simpl; [reflexivity|].
  destruct (Ascii.eqb x c); [reflexivity | exact IH].
Qed.

(** Two ways of cutting one text: the shorter head is a head of the
    longer one. *)
Lemma append_cut (p1 x p2 y : string) :
  p1 ++ x = p2 ++ y ->
  (String.length p1 <= String.length p2)%nat ->
  exists m, p2 = p1 ++ m /\ x = m ++ y.
Proof.
  revert p2. induction p1 as [|a p1 IH]; intros p2 Heq Hlen; simpl in *.
  - exists p2. auto.
  - destruct p2 as [|b p2]; simpl in *; [lia|].
    injection Heq as -> Heq.
    destruct (IH p2 Heq) as [m [-> ->]]; [lia|].
    exists m. auto.
Qed.

Lemma find_spec (c : ascii) (s : string) :
  (PyStr.find c s = (-1)%Z /\ PyStr.occurs c s = false)
  \/ (exists pre post, s = pre ++ String c post
                       /\ PyStr.occurs c pre = false
                       /\ PyStr.find c s = PyStr.len pre).
Proof.
  induction s as [|a s IH]; simpl.
  - left. auto.
  - destruct (Ascii.eqb a c) eqn:Hac.
    + apply Ascii.eqb_eq in Hac. subst a. right.
      exists "", s. auto.
    + destruct IH as [[Hf Ho]|[pre [post [Hs [Ho Hf]]]]].
      * left. rewrite Hf, Ho. auto.
      * right. exists (String a pre), post.
        rewrite Hf. unfold PyStr.len.
        change (String.length (String a pre)) with (S (String.length pre)).
        rewrite Nat2Z.inj_succ.
        destruct (Z.of_nat (String.length pre) <? 0)%Z eqn:Hneg;
          [apply Z.ltb_lt in Hneg; lia|].
        rewrite Hs at 1. cbn [append PyStr.occurs]. rewrite Hac.
        repeat split; auto; lia.
Qed.

Lemma rfind_spec (c : ascii) (s : string) :
  (PyStr.rfind c s = (-1)%Z /\ PyStr.occurs c s = false)
  \/ (exists pre post, s = pre ++ String c post
                       /\ PyStr.occurs c post = false
                       /\ PyStr.rfind c s = PyStr.len pre).
Proof.
  induction s as [|a s IH]; simpl.
  - left. auto.
  - destruct IH as [[Hf Ho]|[pre [post [Hs [Ho Hf]]]]].
    + rewrite Hf. simpl.
      destruct (Ascii.eqb a c) eqn:Hac.
      * apply Ascii.eqb_eq in Hac. subst a. right.
        exists "", s. auto.
      * left. auto.
    + right. exists (String a pre), post. rewrite Hf.
      unfold PyStr.len.
      change (String.length (String a pre)) with (S (String.length pre)).
      rewrite Nat2Z.inj_succ.
      destruct (0 <=? Z.of_nat (String.length pre))%Z eqn:Hpos;
        [|apply Z.leb_gt in Hpos; lia].
      rewrite Hs at 1. repeat split; auto; lia.
Qed.

End StringFacts.

Section Extraction.

Lemma occurs_middle (c : ascii) (a r : string) :
  PyStr.occurs c (a ++ String c r) = true.
Proof.
  rewrite occurs_append. simpl. rewrite Ascii.eqb_refl. apply orb_true_r.
Qed.

Lemma pair_assoc (a b c : string) :
  a ++ String lbrace (b ++ String rbrace c)
  = (a ++ String lbrace b) ++ String rbrace c.
Proof. now rewrite append_assoc. Qed.

Lemma first_le (c : ascii) (p1 t1 a r : string) :
  p1 ++ String c t1 = a ++ String c r ->
  PyStr.occurs c p1 = false ->
  (String.length p1 <= String.length a)%nat.
Proof.
  revert a. induction p1 as [|x p1 IH]; intros a Heq Ho; simpl in *; [lia|].
  destruct (Ascii.eqb x c) eqn:Hxc; [discriminate|].
  destruct a as [|y a]; simpl in *.
  - injection Heq as -> _. rewrite Ascii.eqb_refl in Hxc. discriminate.
  - injection Heq as _ Heq. specialize (IH a Heq Ho). lia.
Qed.

Lemma last_ge (c : ascii) (p2 t2 a r : string) :
  p2 ++ String c t2 = a ++ String c r ->
  PyStr.occurs c t2 = false ->
  (String.length a <= String.length p2)%nat.
Proof.
  revert p2. induction a as [|y a IH]; intros p2 Heq Ho; simpl in *; [lia|].
  destruct p2 as [|x p2]; simpl in *.
  - injection Heq as _ ->. rewrite occurs_middle in Ho. discriminate.
  - injection Heq as _ Heq. specialize (IH p2 Heq Ho). lia.
Qed.

Lemma braces_differ : Ascii.eqb lbrace rbrace = false.
Proof. reflexivity. Qed.

Lemma slice_empty (s : string) (start stop : Z) :
  (PyStr.clamp_index (PyStr.len s) stop
     <= PyStr.clamp_index (PyStr.len s) start)%Z ->
  PyStr.slice s start stop = "".
Proof.
  intro H. unfold PyStr.slice. cbv zeta.
  assert (Hz : Z.to_nat (PyStr.clamp_index (PyStr.len s) stop
                         - PyStr.clamp_index (PyStr.len s) start) = 0%nat)
    by lia.
  rewrite Hz. apply substring_zero.
Qed.

Lemma clamp_inside (n i : Z) :
  (0 <= i <= n)%Z -> PyStr.clamp_index n i = i.
Proof.
  intro H. unfold PyStr.clamp_index.
  destruct (i <? 0)%Z eqn:Hn; [apply Z.ltb_lt in Hn|]; lia.
Qed.

Lemma clamp_last (n : Z) :
  (0 <= n)%Z -> PyStr.clamp_index n (-1) = Z.max (n - 1) 0.
Proof.
  intro H. unfold PyStr.clamp_index.
  destruct (-1 <? 0)%Z eqn:Hn; [|apply Z.ltb_ge in Hn]; lia.
Qed.

Lemma len_nonneg (s : string) : (0 <= PyStr.len s)%Z.
Proof. unfold PyStr.len. lia. Qed.

Lemma len_append (a b : string) :
  PyStr.len (a ++ b) = (PyStr.len a + PyStr.len b)%Z.
Proof. unfold PyStr.len. rewrite length_append. lia. Qed.

Lemma len_String (c : ascii) (s : string) :
  PyStr.len (String c s) = (1 + PyStr.len s)%Z.
Proof.
  unfold PyStr.len. change (String.length (String c s)) with (S (String.length s)).
  lia.
Qed.

(** [s[lo:hi]] when both bounds are inside [s]. *)
Lemma slice_inside (pre mid post : string) (lo hi : Z) :
  lo = PyStr.len pre -> hi = (PyStr.len pre + PyStr.len mid)%Z ->
  PyStr.slice (pre ++ mid ++ post) lo hi = mid.
Proof.
  intros -> ->. unfold PyStr.slice. cbv zeta.
  pose proof (len_nonneg pre). pose proof (len_nonneg mid).
  pose proof (len_nonneg post).
  rewrite !clamp_inside by (rewrite !len_append; lia).
  replace (PyStr.len pre + PyStr.len mid - PyStr.len pre)%Z
    with (PyStr.len mid) by lia.
  unfold PyStr.len. rewrite !Nat2Z.id. apply substring_append.
Qed.

(** What [txt[start:end]] is, by the places of the first left brace and
    of the last right brace. *)
Lemma candidate_cases (txt : string) :
  (exists pre mid post,
     txt = pre ++ String lbrace (mid ++ String rbrace post)
     /\ PyStr.occurs lbrace pre = false
     /\ PyStr.occurs rbrace post = false
     /\ json_candidate txt = String lbrace (mid ++ String rbrace ""))
  \/ ((json_candidate txt = "" \/ json_candidate txt = String rbrace "")
      /\ ~ brace_pair txt).
Proof.
  unfold json_candidate.
  pose proof (len_nonneg txt) as Hlen0.
  destruct (find_spec lbrace txt) as [[Hf Hof]|[p1 [t1 [H1 [Ho1 Hf]]]]];
  destruct (rfind_spec rbrace txt) as [[Hr Hor]|[p2 [t2 [H2 [Ho2 Hr]]]]];
  rewrite Hf, Hr.
  - right. split.
    + left. apply slice_empty. rewrite clamp_last by assumption.
      rewrite clamp_inside by lia. lia.
    + intros [a [b [c ->]]]. rewrite occurs_middle in Hof. discriminate.
  - right. split.
    + assert (Hl : PyStr.len txt = (PyStr.len p2 + (1 + PyStr.len t2))%Z)
        by (rewrite H2, len_append, len_String; reflexivity).
      pose proof (len_nonneg p2). pose proof (len_nonneg t2).
      destruct t2 as [|x t2].
      * right. unfold PyStr.slice. cbv zeta.
        rewrite clamp_last by assumption.
        rewrite clamp_inside by lia.
        change (PyStr.len "") with 0%Z in Hl.
        replace (Z.max (PyStr.len txt - 1) 0) with (PyStr.len p2) by lia.
        replace (PyStr.len p2 + 1 - PyStr.len p2)%Z with 1%Z by lia.
        unfold PyStr.len. rewrite Nat2Z.id. rewrite H2.
        apply (substring_append p2 (String rbrace "") "").
      * left. apply slice_empty. rewrite clamp_last by assumption.
        rewrite len_String in Hl. pose proof (len_nonneg t2).
        rewrite clamp_inside by lia. lia.
    + intros [a [b [c Habc]]]. rewrite Habc in Hof.
      rewrite occurs_middle in Hof. discriminate.
  - right. split.
    + assert (Hl : PyStr.len txt = (PyStr.len p1 + (1 + PyStr.len t1))%Z)
        by (rewrite H1, len_append, len_String; reflexivity).
      pose proof (len_nonneg p1). pose proof (len_nonneg t1).
      left. apply slice_empty. rewrite !clamp_inside by lia. lia.
    + intros [a [b [c ->]]]. rewrite pair_assoc, occurs_middle in Hor.
      discriminate.
  - assert (Hl1 : PyStr.len txt = (PyStr.len p1 + (1 + PyStr.len t1))%Z)
      by (rewrite H1, len_append, len_String; reflexivity).
    assert (Hl2 : PyStr.len txt = (PyStr.len p2 + (1 + PyStr.len t2))%Z)
      by (rewrite H2, len_append, len_String; reflexivity).
    pose proof (len_nonneg p1). pose proof (len_nonneg t1).
    pose proof (len_nonneg p2). pose proof (len_nonneg t2).
    assert (Heq : p1 ++ String lbrace t1 = p2 ++ String rbrace t2) by congruence.
    destruct (Nat.lt_ge_cases (String.length p1) (String.length p2)) as [Hlt|Hge].
    + left.
      destruct (append_cut _ _ _ _ Heq) as [m [Hp2 Hm]]; [lia|].
      destruct m as [|x m].
      { rewrite append_nil_r in Hp2. subst p2. lia. }
      simpl in Hm. injection Hm as <- Ht1.
      exists p1, m, t2. repeat split; auto.
      { now rewrite H1, Ht1. }
      rewrite H1, Ht1.
      replace (String lbrace (m ++ String rbrace t2))
        with (String lbrace (m ++ String rbrace "") ++ t2)
        by (simpl; now rewrite append_assoc).
      apply slice_inside; [reflexivity|].
      rewrite Hp2, len_append, !len_String, len_append, len_String.
      change (PyStr.len "") with 0%Z. lia.
    + right. split.
      * left. apply slice_empty.
        assert (String.length p1 <> String.length p2).
        { intro Hl.
          destruct (append_cut _ _ _ _ Heq) as [m [Hp2 Hm]]; [lia|].
          destruct m as [|x m].
          - simpl in Hm. discriminate.
          - rewrite Hp2, length_append in Hl. simpl in Hl. lia. }
        rewrite !clamp_inside by (unfold PyStr.len in *; lia).
        unfold PyStr.len in *. lia.
      * intros [a [b [c Habc]]].
        assert (L1 : (String.length p1 <= String.length a)%nat).
        { apply (first_le lbrace p1 t1 a (b ++ String rbrace c)); congruence. }
        assert (L2 : (String.length (a ++ String lbrace b) <= String.length p2)%nat).
        { apply (last_ge rbrace p2 t2 (a ++ String lbrace b) c); [|assumption].
          rewrite <- pair_assoc. congruence. }
        rewrite length_append in L2. simpl in L2. lia.
Qed.

Lemma last_char_split (o : string) :
  o <> "" ->
  exists b x, o = b ++ String x ""
              /\ String.get (String.length o - 1) o = Some x.
Proof.
  induction o as [|c o IH]; intro Hne; [congruence|].
  destruct o as [|d o].
  - exists "", c. auto.
  - destruct IH as [b [x [Hb Hx]]]; [discriminate|].
    exists (String c b), x. split.
    + simpl. now rewrite <- Hb.
    + simpl in *. rewrite Nat.sub_0_r in Hx. exact Hx.
Qed.

Lemma balanced_skip (c : ascii) (o : string) :
  Ascii.eqb c lbrace = false -> Ascii.eqb c rbrace = false ->
  balanced_object (String lbrace o) = true ->
  balanced_object (String lbrace (String c o)) = true.
Proof.
  intros Hl Hr. unfold balanced_object.
  rewrite !andb_true_iff. intros [[[H1 H2] H3] H4].
  repeat split; auto.
  - cbn [balanced_from]. now rewrite Hl, Hr.
  - destruct o as [|d o]; [discriminate|].
    change (String.length (String c (String d o)) - 1)%nat
      with (S (String.length o) - 0)%nat.
    rewrite Nat.sub_0_r.
    change (String.length (String d o) - 1)%nat
      with (String.length o - 0)%nat in H4.
    rewrite Nat.sub_0_r in H4. exact H4.
Qed.

(** A right brace after a left brace closes some balanced object. *)
Lemma closing_brace (u v : string) :
  (exists o post, u ++ String rbrace v = o ++ post
                  /\ balanced_object (String lbrace o) = true)
  \/ (exists pre obj post, u ++ String rbrace v = pre ++ obj ++ post
                           /\ balanced_object obj = true).
Proof.
  induction u as [|c u IH].
  - left. exists (String rbrace ""), v. split; reflexivity.
  - destruct (Ascii.eqb c rbrace) eqn:Hr.
    + apply Ascii.eqb_eq in Hr. subst c. left.
      exists (String rbrace ""), (u ++ String rbrace v). split; reflexivity.
    + destruct (Ascii.eqb c lbrace) eqn:Hl.
      * apply Ascii.eqb_eq in Hl. subst c. right.
        destruct IH as [[o [post [Ht Hb]]]|[pre [obj [post [Ht Hb]]]]].
        -- exists "", (String lbrace o), post. split; [|exact Hb].
           simpl. now rewrite Ht.
        -- exists (String lbrace pre), obj, post. split; [|exact Hb].
           simpl. now rewrite Ht.
      * destruct IH as [[o [post [Ht Hb]]]|[pre [obj [post [Ht Hb]]]]].
        -- left. exists (String c o), post. split.
           ++ simpl. now rewrite Ht.
           ++ now apply balanced_skip.
        -- right. exists (String c pre), obj, post. split; [|exact Hb].
           simpl. now rewrite Ht.
Qed.

Lemma balanced_iff_pair (txt : string) :
  has_balanced_object txt <-> brace_pair txt.
Proof.
  split.
  - intros [pre [obj [post [Ht Hb]]]].
    destruct obj as [|c o]; [discriminate|].
    unfold balanced_object in Hb. rewrite !andb_true_iff in Hb.
    destruct Hb as [[[H1 H2] _] H4].
    apply Ascii.eqb_eq in H1. subst c.
    assert (Hne : o <> "").
    { intro He. subst o. discriminate. }
    destruct (last_char_split o Hne) as [b [x [Ho Hx]]].
    rewrite Hx in H4. apply Ascii.eqb_eq in H4. subst x.
    exists pre, b, post. rewrite Ht, Ho. simpl.
    now rewrite append_assoc.
  - intros [a [b [c Ht]]].
    destruct (closing_brace b c) as [[o [post [Hc Hb]]]|[pre [obj [post [Hc Hb]]]]].
    + exists a, (String lbrace o), post. split; [|exact Hb].
      rewrite Ht, Hc. reflexivity.
    + exists (a ++ String lbrace pre), obj, post. split; [|exact Hb].
      rewrite Ht, Hc. rewrite append_assoc. reflexivity.
Qed.

Lemma post_attempts_total (E : externals) (n : nat) (w : world) :
  (exists txt w', post_attempts E n w = (Ok txt, w'))
  \/ (exists w', post_attempts E n w = (Raise RuntimeError, w')).
Proof.
  revert w. induction n as [|n IH]; intro w; simpl.
  - right. eexists. reflexivity.
  - destruct (http_post E (requests w)) as [c|].
    + left. eauto.
    + apply IH.
Qed.

(** C2, as amended: the step looks only at the text from the first left
    brace to the last right brace.  It answers the fallback whenever
    that text does not parse, which includes every text without a
    balanced brace pair, and the parsed value of that text otherwise; a
    text that has a balanced pair is cut into the part before the first
    left brace, the candidate, and the part after the last right brace.
    [_ask_json], which wraps the step, never raises. *)
Theorem extract_json_degrades
        (loads : string -> option json) (txt : string) (fallback : json) :
  (loads (json_candidate txt) = None ->
     extract_json loads txt fallback = fallback)
  /\ (forall v, loads (json_candidate txt) = Some v ->
        extract_json loads txt fallback = v)
  /\ (loads "" = None -> loads (String rbrace "") = None ->
      ~ has_balanced_object txt ->
      extract_json loads txt fallback = fallback)
  /\ (has_balanced_object txt ->
      exists pre mid post,
        txt = pre ++ String lbrace (mid ++ String rbrace post)
        /\ PyStr.occurs lbrace pre = false
        /\ PyStr.occurs rbrace post = false
        /\ json_candidate txt = String lbrace (mid ++ String rbrace ""))
  /\ (forall (E : externals) (w : world),
        exists v w', _ask_json E fallback w = (Ok v, w')).
Proof.
  unfold extract_json. repeat split.
  - intros ->. reflexivity.
  - intros v ->. reflexivity.
  - intros He Hr Hnb.
    destruct (candidate_cases txt) as [[pre [mid [post [Ht _]]]]|[[Hc|Hc] _]].
    + exfalso. apply Hnb. apply balanced_iff_pair. now exists pre, mid, post.
    + now rewrite Hc, He.
    + now rewrite Hc, Hr.
  - intro Hb. apply balanced_iff_pair in Hb.
    destruct (candidate_cases txt) as [H|[_ Hn]]; [exact H | contradiction].
  - intros E w. unfold _ask_json, chat, _post.
    destruct (post_attempts_total E (max_retries + 1) w)
      as [[t [w' ->]]|[w' ->]]; eauto.
Qed.

End Extraction.

(** ** The trend of the daily trajectory *)

Section Trend.

Import Report.

Lemma sum_xy_compat (ys : list Q) (k k' : Q) :
  k == k' -> sum_xy k ys == sum_xy k' ys.
Proof.
  revert k k'. induction ys as [|y ys IH]; intros k k' Hk; simpl.
  - reflexivity.
  - rewrite (IH (k + 1) (k' + 1)) by (rewrite Hk; reflexivity).
    rewrite Hk. reflexivity.
Qed.

Lemma sum_x_compat (n : nat) (k k' : Q) :
  k == k' -> sum_x k n == sum_x k' n.
Proof.
  revert k k'. induction n as [|n IH]; intros k k' Hk; simpl.
  - reflexivity.
  - rewrite (IH (k + 1) (k' + 1)) by (rewrite Hk; reflexivity).
    rewrite Hk. reflexivity.
Qed.

Lemma sum_xx_compat (n : nat) (k k' : Q) :
  k == k' -> sum_xx k n == sum_xx k' n.
Proof.
  revert k k'. induction n as [|n IH]; intros k k' Hk; simpl.
  - reflexivity.
  - rewrite (IH (k + 1) (k' + 1)) by (rewrite Hk; reflexivity).
    rewrite Hk. reflexivity.
Qed.

Lemma of_nat_S (n : nat) : of_nat (S n) == of_nat n + 1.
Proof.
  unfold of_nat. rewrite Nat2Z.inj_succ. unfold Z.succ.
  rewrite inject_Z_plus. reflexivity.
Qed.

Lemma of_nat_nonneg (n : nat) : 0 <= of_nat n.
Proof.
  unfold of_nat. change 0 with (inject_Z 0). rewrite <- Zle_Qle. lia.
Qed.

Lemma sum_xy_shift (ys : list Q) (k c : Q) :
  sum_xy (k + c) ys == k * sum_y ys + sum_xy c ys.
Proof.
  revert c. induction ys as [|y ys IH]; intro c; simpl.
  - ring.
  - rewrite (sum_xy_compat ys (k + c + 1) (k + (c + 1))) by ring.
    rewrite IH. ring.
Qed.

Lemma sum_x_shift (n : nat) (k c : Q) :
  sum_x (k + c) n == of_nat n * k + sum_x c n.
Proof.
  revert c. induction n as [|n IH]; intro c.
  - simpl. unfold of_nat. simpl. ring.
  - rewrite of_nat_S. simpl.
    rewrite (sum_x_compat n (k + c + 1) (k + (c + 1))) by ring.
    rewrite IH. ring.
Qed.

Lemma sum_xx_shift (n : nat) (k c : Q) :
  sum_xx (k + c) n
  == of_nat n * k * k + (2 # 1) * k * sum_x c n + sum_xx c n.
Proof.
  revert c. induction n as [|n IH]; intro c.
  - simpl. unfold of_nat. simpl. ring.
  - rewrite of_nat_S. simpl.
    rewrite (sum_xx_compat n (k + c + 1) (k + (c + 1))) by ring.
    rewrite IH. ring.
Qed.

Lemma weighted_rise_sums (ys : list Q) (j y0 : Q) :
  weighted_rise j y0 ys == sum_xy j ys - y0 * sum_x j (List.length ys).
Proof.
  revert j. induction ys as [|y ys IH]; intro j; simpl.
  - ring.
  - rewrite IH. ring.
Qed.

(** Dropping the first point: the numerator of the slope. *)
Lemma lsq_num_cons (k y0 : Q) (rest : list Q) :
  lsq_num k (y0 :: rest) == lsq_num (k + 1) rest + weighted_rise 1 y0 rest.
Proof.
  unfold lsq_num. rewrite weighted_rise_sums.
  change (List.length (y0 :: rest)) with (S (List.length rest)).
  rewrite of_nat_S. simpl.
  rewrite (sum_xy_shift rest k 1), (sum_x_shift (List.length rest) k 1).
  ring.
Qed.

(** Dropping the first point: the denominator of the slope. *)
Lemma lsq_den_S (k : Q) (m : nat) :
  lsq_den k (S m) == lsq_den (k + 1) m + sum_xx 1 m.
Proof.
  unfold lsq_den. rewrite of_nat_S. simpl.
  rewrite (sum_xx_shift m k 1), (sum_x_shift m k 1).
  ring.
Qed.

Lemma sum_xx_nonneg (n : nat) (j : Q) : 0 <= sum_xx j n.
Proof.
  revert j. induction n as [|n IH]; intro j; simpl.
  - apply Qle_refl.
  - specialize (IH (j + 1)).
    assert (0 <= j * j) by (destruct (Qlt_le_dec j 0); nra).
    lra.
Qed.

Lemma lsq_den_nonneg (n : nat) (k : Q) : 0 <= lsq_den k n.
Proof.
  revert k. induction n as [|n IH]; intro k.
  - unfold lsq_den. simpl. unfold of_nat. simpl. lra.
  - rewrite lsq_den_S. pose proof (IH (k + 1)). pose proof (sum_xx_nonneg n 1).
    lra.
Qed.

Lemma lsq_den_pos (n : nat) (k : Q) : (2 <= n)%nat -> 0 < lsq_den k n.
Proof.
  intro Hn. destruct n as [|[|m]]; try lia.
  rewrite lsq_den_S. pose proof (lsq_den_nonneg (S m) (k + 1)).
  simpl. pose proof (sum_xx_nonneg m (1 + 1)). lra.
Qed.

Lemma weighted_rise_bound (ys : list Q) (j y0 d : Q) :
  0 <= j -> above_line j y0 d ys ->
  d * sum_xx j (List.length ys) <= weighted_rise j y0 ys.
Proof.
  revert j. induction ys as [|y ys IH]; intros j Hj Ha; simpl in *.
  - lra.
  - destruct Ha as [Hy Ha].
    specialize (IH (j + 1)). 
    assert (H1 : d * sum_xx (j + 1) (List.length ys)
                 <= weighted_rise (j + 1) y0 ys) by (apply IH; [lra | exact Ha]).
    assert (H2 : j * (j * d) <= j * (y - y0)) by nra.
    lra.
Qed.

Lemma steps_above_line (ys : list Q) (y y0 d j : Q) :
  y0 + (j - 1) * d <= y ->
  steps_all (fun a b => a + d <= b) (y :: ys) ->
  above_line j y0 d ys.
Proof.
  revert y j. induction ys as [|y' ys IH]; intros y j Hy Hs.
  - exact I.
  - destruct Hs as [Hstep Hs]. split.
    + lra.
    + apply (IH y'); [|exact Hs]. lra.
Qed.

(** Chebyshev's sum inequality in the form needed: when every step is at
    least [d], the numerator is at least [d] times the denominator. *)
Lemma lsq_num_bound (ys : list Q) (k d : Q) :
  steps_all (fun a b => a + d <= b) ys ->
  d * lsq_den k (List.length ys) <= lsq_num k ys.
Proof.
  revert k. induction ys as [|y0 rest IH]; intros k Hs.
  - unfold lsq_den, lsq_num. simpl. unfold of_nat. simpl. lra.
  - change (List.length (y0 :: rest)) with (S (List.length rest)).
    rewrite lsq_den_S, lsq_num_cons.
    assert (Hrest : steps_all (fun a b => a + d <= b) rest).
    { destruct rest as [|y1 rest]; [exact I | exact (proj2 Hs)]. }
    specialize (IH (k + 1) Hrest).
    assert (Ha : above_line 1 y0 d rest).
    { apply (steps_above_line rest y0 y0 d 1); [lra | exact Hs]. }
    pose proof (weighted_rise_bound rest 1 y0 d ltac:(lra) Ha).
    lra.
Qed.

Lemma steps_all_weaken (P R : Q -> Q -> Prop) (ys : list Q) :
  (forall a b, P a b -> R a b) -> steps_all P ys -> steps_all R ys.
Proof.
  intro H. induction ys as [|y ys IH]; [auto|].
  destruct ys as [|y' ys]; [auto|].
  intros [H1 H2]. split; [apply H, H1 | apply IH, H2].
Qed.

(** The strict form, for at least two points. *)
Lemma lsq_num_strict (ys : list Q) (k d : Q) :
  (2 <= List.length ys)%nat ->
  steps_all (fun a b => a + d < b) ys ->
  d * lsq_den k (List.length ys) < lsq_num k ys.
Proof.
  intros Hn Hs. destruct ys as [|y0 [|y1 rest]]; simpl in Hn; try lia.
  change (List.length (y0 :: y1 :: rest)) with (S (List.length (y1 :: rest))).
  rewrite lsq_den_S, lsq_num_cons.
  destruct Hs as [H01 Hs].
  assert (Hw : steps_all (fun a b => a + d <= b) (y1 :: rest)).
  { eapply steps_all_weaken; [|exact Hs]. intros; cbv beta in *; lra. }
  pose proof (lsq_num_bound (y1 :: rest) (k + 1) d Hw) as Hb.
  assert (Ha : above_line (1 + 1) y0 d rest).
  { apply (steps_above_line rest y1 y0 d (1 + 1)); [lra | exact Hw]. }
  pose proof (weighted_rise_bound rest (1 + 1) y0 d ltac:(lra) Ha) as Hr.
  cbn [weighted_rise sum_xx List.length] in *.
  lra.
Qed.

Lemma sum_y_opp (ys : list Q) : sum_y (map Qopp ys) == - sum_y ys.
Proof. induction ys as [|y ys IH]; simpl; [ring | rewrite IH; ring]. Qed.

Lemma sum_xy_opp (ys : list Q) (k : Q) :
  sum_xy k (map Qopp ys) == - sum_xy k ys.
Proof.
  revert k. induction ys as [|y ys IH]; intro k; simpl;
    [ring | rewrite IH; ring].
Qed.

Lemma lsq_num_opp (ys : list Q) (k : Q) :
  lsq_num k (map Qopp ys) == - lsq_num k ys.
Proof.
  unfold lsq_num. rewrite length_map, sum_y_opp, sum_xy_opp. ring.
Qed.

Lemma steps_all_opp (d : Q) (ys : list Q) :
  steps_all (fun a b => b + d < a) ys ->
  steps_all (fun a b => a + d < b) (map Qopp ys).
Proof.
  induction ys as [|y ys IH]; [auto|].
  destruct ys as [|y' ys]; [auto|].
  intros [H1 H2]. split; [lra | apply IH, H2].
Qed.

Lemma slope_above (ys : list Q) (d : Q) :
  (2 <= List.length ys)%nat ->
  steps_all (fun a b => a + d < b) ys -> d < polyfit_slope ys.
Proof.
  intros Hn Hs. unfold polyfit_slope.
  apply Qlt_shift_div_l.
  - now apply lsq_den_pos.
  - now apply lsq_num_strict.
Qed.

Lemma slope_below (ys : list Q) (d : Q) :
  (2 <= List.length ys)%nat ->
  steps_all (fun a b => b + d < a) ys -> polyfit_slope ys < - d.
Proof.
  intros Hn Hs. unfold polyfit_slope.
  apply Qlt_shift_div_r.
  - now apply lsq_den_pos.
  - pose proof (lsq_num_strict (map Qopp ys) 0 d) as H.
    rewrite length_map, lsq_num_opp in H.
    specialize (H Hn (steps_all_opp d ys Hs)). lra.
Qed.

Lemma slope_of_constant (ys : list Q) :
  constant ys -> polyfit_slope ys == 0.
Proof.
  intro Hc.
  assert (H1 : steps_all (fun a b => a + 0 <= b) ys).
  { eapply steps_all_weaken; [|exact Hc]. intros a b Hab; cbv beta in *. lra. }
  assert (H2 : steps_all (fun a b => a + 0 <= b) (map Qopp ys)).
  { clear H1. induction ys as [|y ys IH]; [exact I|].
    destruct ys as [|y' ys]; [exact I|].
    destruct Hc as [E1 E2]. split; [lra | apply IH, E2]. }
  pose proof (lsq_num_bound ys 0 0 H1) as B1.
  pose proof (lsq_num_bound (map Qopp ys) 0 0 H2) as B2.
  rewrite lsq_num_opp in B2.
  assert (Hz : lsq_num 0 ys == 0) by lra.
  unfold polyfit_slope. rewrite Hz. unfold Qdiv. ring.
Qed.

Lemma label_improving (s : Q) :
  1 # 100 < s -> overall_trend_of s = "improving".
Proof.
  intro H. unfold overall_trend_of, Qgt_bool.
  destruct (Qle_bool s (1 # 100)) eqn:Hb; [|reflexivity].
  apply Qle_bool_iff in Hb. lra.
Qed.

Lemma label_declining (s : Q) :
  s < - (1 # 100) -> overall_trend_of s = "declining".
Proof.
  intro H. unfold overall_trend_of, Qgt_bool.
  destruct (Qle_bool s (1 # 100)) eqn:Hb.
  - destruct (Qle_bool (- (1 # 100)) s) eqn:Hc; [|reflexivity].
    apply Qle_bool_iff in Hc. lra.
  - assert (~ s <= 1 # 100) by (rewrite <- Qle_bool_iff; congruence). lra.
Qed.

Lemma label_stable (s : Q) :
  - (1 # 100) <= s -> s <= 1 # 100 -> overall_trend_of s = "stable".
Proof.
  intros H1 H2. unfold overall_trend_of, Qgt_bool.
  apply Qle_bool_iff in H1, H2. now rewrite H1, H2.
Qed.

Lemma label_shape (s : Q) :
  (overall_trend_of s = "improving" /\ 1 # 100 < s)
  \/ (overall_trend_of s = "declining" /\ s < - (1 # 100))
  \/ (overall_trend_of s = "stable" /\ - (1 # 100) <= s <= 1 # 100).
Proof.
  destruct (Qlt_le_dec (1 # 100) s) as [H|H].
  - left. split; [now apply label_improving | exact H].
  - destruct (Qlt_le_dec s (- (1 # 100))) as [H'|H'].
    + right; left. split; [now apply label_declining | exact H'].
    + right; right. split; [now apply label_stable | split; assumption].
Qed.

Lemma insert_by_date_length (x : string * day_stats) (l : trajectory) :
  List.length (insert_by_date x l) = S (List.length l).
Proof.
  induction l as [|y l IH]; simpl; [reflexivity|].
  destruct (String.leb (fst x) (fst y)); simpl; [reflexivity | now rewrite IH].
Qed.

Lemma by_date_length (t : trajectory) :
  List.length (by_date t) = List.length t.
Proof.
  induction t as [|x t IH]; simpl; [reflexivity|].
  now rewrite insert_by_date_length, IH.
Qed.

Lemma trend_of_two_days (t : trajectory) :
  (2 <= List.length t)%nat ->
  overall_trend (_calculate_emotion_trend t)
  = Some (overall_trend_of (polyfit_slope (positive_values t))).
Proof.
  intro Hn. unfold _calculate_emotion_trend.
  destruct t as [|x t]; [simpl in Hn; lia|].
  rewrite by_date_length.
  destruct (Nat.ltb (List.length (x :: t)) 2) eqn:Hl;
    [apply Nat.ltb_lt in Hl; lia | reflexivity].
Qed.

(** C7, as amended: over a trajectory of at least two distinct dates,
    with the positive ratios taken in date order: when every ratio
    exceeds the one before by more than 0.01 the label is "improving";
    when every ratio is below the one before by more than 0.01 it is
    "declining"; a constant series gives "stable"; a series that is only
    strictly increasing is never "declining" and one that is only
    strictly decreasing is never "improving". *)
Theorem trend_label_by_steps (t : trajectory) :
  NoDup (map fst t) -> (2 <= List.length t)%nat ->
  let label := overall_trend (_calculate_emotion_trend t) in
  (rises_by_more_than (1 # 100) (positive_values t) -> label = Some "improving")
  /\ (falls_by_more_than (1 # 100) (positive_values t) ->
      label = Some "declining")
  /\ (constant (positive_values t) -> label = Some "stable")
  /\ (strictly_increasing (positive_values t) -> label <> Some "declining")
  /\ (strictly_decreasing (positive_values t) -> label <> Some "improving").
Proof.
  intros _ Hn label. subst label. rewrite (trend_of_two_days t Hn).
  assert (Hlen : (2 <= List.length (positive_values t))%nat)
    by (unfold positive_values; now rewrite length_map, by_date_length).
  repeat split.
  - intro H. f_equal. apply label_improving. now apply slope_above.
  - intro H. f_equal. apply label_declining. now apply slope_below.
  - intro H. f_equal. pose proof (slope_of_constant _ H). apply label_stable; lra.
  - intros H Hd.
    assert (Hs : 0 < polyfit_slope (positive_values t)).
    { apply slope_above; [exact Hlen|].
      eapply steps_all_weaken; [|exact H]. intros a b Hab; cbv beta in *. lra. }
    destruct (label_shape (polyfit_slope (positive_values t)))
      as [[L _]|[[_ L]|[L _]]]; try lra; rewrite L in Hd; discriminate.
  - intros H Hd.
    assert (Hs : polyfit_slope (positive_values t) < - 0).
    { apply slope_below; [exact Hlen|].
      eapply steps_all_weaken; [|exact H]. intros a b Hab; cbv beta in *. lra. }
    destruct (label_shape (polyfit_slope (positive_values t)))
      as [[_ L]|[[L _]|[L _]]]; try lra; rewrite L in Hd; discriminate.
Qed.

End Trend.

(** ** Runs of the pipeline *)

Section Runs.

Open Scope list_scope.

Variable E : externals.

Lemma bind_inv {A B} (m : M A) (k : A -> M B) (w w' : world) (r : result B) :
  bind m k w = (r, w') ->
  (exists a w1, m w = (Ok a, w1) /\ k a w1 = (r, w'))
  \/ (exists e, m w = (Raise e, w') /\ r = Raise e).
Proof.
  unfold bind. destruct (m w) as [[a|e] w1]; intro H.
  - left. eauto.
  - right. inversion H; subst. eauto.
Qed.

Lemma bind_ok {A B} (m : M A) (k : A -> M B) (w w' : world) (b : B) :
  bind m k w = (Ok b, w') ->
  exists a w1, m w = (Ok a, w1) /\ k a w1 = (Ok b, w').
Proof.
  intro H. apply bind_inv in H as [H|[e [_ H]]]; [exact H | discriminate].
Qed.

Lemma lift_ok {A} (r : result A) (w w' : world) (a : A) :
  lift r w = (Ok a, w') -> r = Ok a /\ w' = w.
Proof. unfold lift. intro H. inversion H; auto. Qed.

Lemma ret_ok {A} (x a : A) (w w' : world) :
  ret x w = (Ok a, w') -> a = x /\ w' = w.
Proof. unfold ret. intro H. inversion H; auto. Qed.

Lemma read_ok {A} (f : world -> A) (w w' : world) (a : A) :
  read f w = (Ok a, w') -> a = f w /\ w' = w.
Proof. unfold read. intro H. inversion H; auto. Qed.

(** The request loop only counts requests. *)
Lemma post_attempts_run (n : nat) (w w' : world) (r : result string) :
  post_attempts E n w = (r, w') ->
  exists q, w' = with_requests q w /\ (requests w <= q)%nat.
Proof.
  revert w. induction n as [|n IH]; intros w H; simpl in H.
  - unfold raise in H. injection H as Hr Hw. subst r w'.
    exists (requests w). split; [|lia].
    destruct w; reflexivity.
  - destruct (http_post E (requests w)).
    + injection H as Hr Hw. subst r w'.
      exists (S (requests w)). split; [reflexivity | lia].
    + apply IH in H as [q [-> Hq]]. exists q. split; [reflexivity|].
      simpl in Hq. lia.
Qed.

Lemma chat_run (w w' : world) (r : result string) :
  chat E w = (r, w') ->
  exists q, w' = with_requests q w /\ (requests w <= q)%nat.
Proof. apply post_attempts_run. Qed.

(** A call that fails is a call whose attempts all failed. *)
Lemma post_attempts_raise (n : nat) (w w' : world) (e : exn) :
  post_attempts E n w = (Raise e, w') ->
  e = RuntimeError
  /\ forall i, (i < n)%nat -> http_post E (requests w + i) = None.
Proof.
  revert w. induction n as [|n IH]; intros w H; simpl in H.
  - unfold raise in H. injection H as Hr Hw. subst e w'.
    split; [reflexivity | intros; lia].
  - destruct (http_post E (requests w)) eqn:Hp; [discriminate|].
    apply IH in H as [-> H]. split; [reflexivity|].
    intros [|i] Hi.
    + now rewrite Nat.add_0_r.
    + specialize (H i ltac:(lia)). simpl in H.
      now replace (requests w + S i)%nat with (S (requests w + i)) by lia.
Qed.

Lemma ask_json_run (fallback : json) (w w' : world) (r : result json) :
  _ask_json E fallback w = (r, w') ->
  exists v q, r = Ok v /\ w' = with_requests q w /\ (requests w <= q)%nat.
Proof.
  unfold _ask_json. destruct (chat E w) as [[txt|e] w1] eqn:Hc; intro H;
    apply chat_run in Hc as [q [Hw Hq]]; inversion H; subst; eauto.
Qed.

Lemma bind_text_ok (v : json) (w w' : world) (t : option string) :
  bind_text E v w = (Ok t, w') ->
  w' = w /\ exists x, bind_param v = Ok x /\ t = text_affinity E x.
Proof.
  unfold bind_text, bind, lift, ret.
  destruct (bind_param v) as [x|e]; intro H; inversion H; subst. eauto.
Qed.

Lemma bind_real_ok (v : json) (w w' : world) (t : sqlval) :
  bind_real E v w = (Ok t, w') ->
  w' = w /\ exists x, bind_param v = Ok x /\ t = real_affinity E x.
Proof.
  unfold bind_real, bind, lift, ret.
  destruct (bind_param v) as [x|e]; intro H; inversion H; subst. eauto.
Qed.

Lemma create_user_profile_run (user_id : string) (w : world) :
  exists ups,
    create_user_profile user_id w
    = (Ok user_id,
       {| user_profiles := ups; interaction_logs := interaction_logs w;
          emotion_analyses := emotion_analyses w; personas := personas w;
          memory_events := memory_events w; next_uuid := next_uuid w;
          clock := S (clock w); requests := requests w |}).
Proof. eexists. reflexivity. Qed.

Lemma log_interaction_ok (user_id input_type : string)
      (detected_emotion emotion_label raw : json) (w w' : world) (id : nat) :
  log_interaction E user_id input_type detected_emotion emotion_label raw w
  = (Ok id, w') ->
  exists x,
    bind_param emotion_label = Ok x /\ id = next_uuid w
    /\ w' = {| user_profiles := user_profiles w;
               interaction_logs :=
                 interaction_logs w
                 ++ [ {| log_id := next_uuid w; log_user_id := user_id;
                         log_timestamp := clock w;
                         log_input_type := input_type;
                         log_detected_emotion := detected_emotion;
                         log_emotion_label := text_affinity E x;
                         log_response_avatar := "";
                         log_raw_input_data := Py.or_else raw (JDict []);
                         log_processing_metadata := JDict [] |} ];
               emotion_analyses := emotion_analyses w; personas := personas w;
               memory_events := memory_events w;
               next_uuid := S (next_uuid w);
               clock := S (clock w); requests := requests w |}.
Proof.
  unfold log_interaction, bind_text, bind, uuid4, now, lift, ret, modify.
  cbn. destruct (bind_param emotion_label) as [x|e]; intro H; [|discriminate].
  injection H as <- <-. exists x. auto.
Qed.

Lemma save_emotion_analysis_ok (id : nat)
      (pad_values categories confidence method : json) (w w' : world) (a : nat) :
  save_emotion_analysis E id pad_values categories confidence method w
  = (Ok a, w') ->
  exists x,
    bind_param method = Ok x
    /\ w' = {| user_profiles := user_profiles w;
               interaction_logs := interaction_logs w;
               emotion_analyses :=
                 emotion_analyses w
                 ++ [ {| ea_analysis_id := next_uuid w;
                         ea_interaction_log_id := id;
                         ea_pad_values := pad_values;
                         ea_emotion_categories := categories;
                         ea_confidence_scores := confidence;
                         ea_analysis_method := text_affinity E x;
                         ea_created_at := clock w |} ];
               personas := personas w;
               memory_events := memory_events w;
               next_uuid := S (next_uuid w);
               clock := S (clock w); requests := requests w |}.
Proof.
  unfold save_emotion_analysis, bind_text, bind, uuid4, now, lift, ret, modify.
  cbn. destruct (bind_param method) as [x|e]; intro H; [|discriminate].
  injection H as <- <-. exists x. auto.
Qed.

Lemma create_memory_event_ok (user_id : string) (id : nat)
      (annotation topic mtype score media tags entities : json)
      (w w' : world) (mid : nat) :
  create_memory_event E user_id id annotation topic mtype score media tags
                      entities w = (Ok mid, w') ->
  exists xm xt xy xs,
    bind_param (Py.or_else media (JStr "")) = Ok xm
    /\ bind_param (Py.or_else topic (JStr "")) = Ok xt
    /\ bind_param mtype = Ok xy /\ bind_param score = Ok xs
    /\ mid = next_uuid w
    /\ w' = {| user_profiles := user_profiles w;
               interaction_logs := interaction_logs w;
               emotion_analyses := emotion_analyses w;
               personas := personas w;
               memory_events :=
                 memory_events w
                 ++ [ {| m_memory_id := next_uuid w; m_user_id := user_id;
                         m_interaction_log_id := id;
                         m_media_reference := text_affinity E xm;
                         m_emotion_annotation := annotation;
                         m_linked_topic := text_affinity E xt;
                         m_response_history := JList [];
                         m_memory_type := text_affinity E xy;
                         m_importance_score := real_affinity E xs;
                         m_created_at := clock w;
                         m_tags := Py.or_else tags (JList []);
                         m_entities := Py.or_else entities (JDict []) |} ];
               next_uuid := S (next_uuid w);
               clock := S (clock w); requests := requests w |}.
Proof.
  unfold create_memory_event, bind_text, bind_real, bind, uuid4, now, lift,
    ret, modify.
  cbn.
  destruct (bind_param (Py.or_else media (JStr ""))) as [xm|e]; [|discriminate].
  destruct (bind_param (Py.or_else topic (JStr ""))) as [xt|e]; [|discriminate].
  destruct (bind_param mtype) as [xy|e]; [|discriminate].
  destruct (bind_param score) as [xs|e]; intro H; [|discriminate].
  injection H as <- <-. exists xm, xt, xy, xs. auto 10.
Qed.

(** Any run of [create_persona]: nothing but a new last persona, and
    none when a parameter is refused. *)
Lemma create_persona_run (user_id : string)
      (name descr traits style avatar : json) (w w' : world) (r : result nat) :
  create_persona E user_id name descr traits style avatar w = (r, w') ->
  exists created,
    w' = {| user_profiles := user_profiles w;
            interaction_logs := interaction_logs w;
            emotion_analyses := emotion_analyses w;
            personas := personas w ++ created;
            memory_events := memory_events w;
            next_uuid := S (next_uuid w);
            clock := S (clock w); requests := requests w |}
    /\ ((created = [] /\ exists e, r = Raise e)
        \/ (exists p x, created = [p] /\ r = Ok (next_uuid w)
                        /\ bind_param name = Ok x
                        /\ p_name p = text_affinity E x
                        /\ p_persona_id p = next_uuid w
                        /\ p_user_id p = user_id
                        /\ p_interaction_count p = 0%Z
                        /\ p_personality_traits p = Py.or_else traits (JList []))).
Proof.
  unfold create_persona, bind_text, bind, uuid4, now, lift, ret, modify.
  cbn.
  destruct (bind_param name) as [xn|e].
  2:{ cbn. intro H. injection H as <- <-. exists []. rewrite app_nil_r.
      split; [reflexivity|]. left. eauto. }
  cbn.
  destruct (bind_param (Py.or_else descr _)) as [xd|e].
  2:{ cbn. intro H. injection H as <- <-. exists []. rewrite app_nil_r.
      split; [reflexivity|]. left. eauto. }
  cbn.
  destruct (bind_param (Py.or_else style _)) as [xs|e].
  2:{ cbn. intro H. injection H as <- <-. exists []. rewrite app_nil_r.
      split; [reflexivity|]. left. eauto. }
  cbn.
  destruct (bind_param avatar) as [xa|e].
  2:{ cbn. intro H. injection H as <- <-. exists []. rewrite app_nil_r.
      split; [reflexivity|]. left. eauto. }
  cbn. intro H. injection H as <- <-.
  eexists. split; [reflexivity|]. right.
  eexists. exists xn. repeat split.
Qed.

Lemma text_eq_str (t : option string) (s : string) :
  Py.text_eq t (JStr s) = true <-> t = Some s.
Proof.
  destruct t as [s'|]; simpl.
  - rewrite String.eqb_eq. split; congruence.
  - split; discriminate.
Qed.

(** Any run of [_ensure_default_persona]: it answers the persona of that
    name when the user has one and leaves the world alone, and otherwise
    adds that persona and nothing else. *)
Lemma ensure_default_run (user_id : string) (w w' : world) (r : result nat) :
  _ensure_default_persona E user_id w = (r, w') ->
  (exists p, In p (of_user user_id (personas w))
             /\ p_name p = Some DEFAULT_PERSONA_name
             /\ r = Ok (p_persona_id p) /\ w' = w)
  \/ ((forall p, In p (of_user user_id (personas w)) ->
                 p_name p <> Some DEFAULT_PERSONA_name)
      /\ exists p,
          r = Ok (next_uuid w)
          /\ w' = {| user_profiles := user_profiles w;
                     interaction_logs := interaction_logs w;
                     emotion_analyses := emotion_analyses w;
                     personas := personas w ++ [p];
                     memory_events := memory_events w;
                     next_uuid := S (next_uuid w);
                     clock := S (clock w); requests := requests w |}
          /\ p_name p = Some DEFAULT_PERSONA_name
          /\ p_user_id p = user_id /\ p_persona_id p = next_uuid w
          /\ p_interaction_count p = 0%Z
          /\ Py.joinable (p_personality_traits p) = true).
Proof.
  unfold _ensure_default_persona, get_personas, bind at 1, read.
  fold (of_user user_id (personas w)).
  destruct (find _ (of_user user_id (personas w))) as [p|] eqn:Hf.
  - intro H. unfold ret in H. injection H as <- <-. left.
    apply find_some in Hf as [Hin Hd]. apply text_eq_str in Hd.
    exists p. auto.
  - intro H. right. split.
    + intros p Hin Hn.
      pose proof (find_none _ _ Hf p Hin) as Hd. cbv beta in Hd.
      apply text_eq_str in Hn. congruence.
    + unfold create_persona, bind_text, bind, uuid4, now, lift, ret, modify in H.
      cbn in H. injection H as <- <-.
      eexists. split; [reflexivity|]. split; [reflexivity|]. repeat split.
Qed.

Lemma gained_nothing (user_id : string) (w : world) (q : nat) :
  (requests w <= q)%nat -> gained_personas user_id w (with_requests q w) [].
Proof.
  intro Hq. unfold gained_personas. simpl. rewrite app_nil_r.
  repeat split; auto. constructor.
Qed.

Lemma gained_trans (user_id : string) (w1 w2 w3 : world)
      (c1 c2 : list persona) :
  gained_personas user_id w1 w2 c1 -> gained_personas user_id w2 w3 c2 ->
  gained_personas user_id w1 w3 (c1 ++ c2).
Proof.
  unfold gained_personas.
  intros (A1 & A2 & A3 & A4 & A5 & A6 & A7 & A8 & A9 & A10)
         (B1 & B2 & B3 & B4 & B5 & B6 & B7 & B8 & B9 & B10).
  split; [congruence|]. split; [congruence|]. split; [congruence|].
  split; [congruence|].
  split; [rewrite B5, A5; now rewrite app_assoc|].
  split; [lia|]. split; [lia|]. split; [lia|].
  split.
  - apply Forall_app. split.
    + eapply Forall_impl; [|exact A9]. cbv beta. intros p (? & ? & ?).
      repeat split; auto; lia.
    + eapply Forall_impl; [|exact B9]. cbv beta. intros p (? & ? & ?).
      repeat split; auto; lia.
  - rewrite map_app. apply NoDup_app; auto.
    intros x H1 H2.
    apply in_map_iff in H1 as (p1 & <- & H1).
    apply in_map_iff in H2 as (p2 & Heq & H2).
    rewrite Forall_forall in A9, B9.
    apply A9 in H1. apply B9 in H2. lia.
Qed.

Lemma create_persona_gained (user_id : string)
      (name descr traits style avatar : json) (w w' : world) (r : result nat) :
  create_persona E user_id name descr traits style avatar w = (r, w') ->
  exists created, gained_personas user_id w w' created.
Proof.
  intro H. apply create_persona_run in H as [created [-> Hc]].
  exists created. unfold gained_personas. simpl.
  do 8 (split; [auto|]).
  destruct Hc as [[-> _]|[p [x [-> [_ [_ [_ [Hid [Hu [Hc _]]]]]]]]]].
  - split; constructor.
  - split.
    + constructor; [|constructor]. repeat split; auto; lia.
    + cbn. constructor; [intros []|constructor].
Qed.

(** Any run of the loop of [_create_personas]. *)
Lemma create_personas_loop_run (user_id : string) (style : json)
      (names : list json) (acc : list new_persona) (w w' : world)
      (r : result (list new_persona)) :
  create_personas_loop E user_id style names acc w = (r, w') ->
  exists created, gained_personas user_id w w' created.
Proof.
  revert acc w. induction names as [|name rest IH]; intros acc w H.
  - simpl in H. unfold ret in H. injection H as _ <-.
    exists []. replace w with (with_requests (requests w) w) at 2
      by (destruct w; reflexivity).
    now apply gained_nothing.
  - cbn [create_personas_loop] in H.
    unfold get_personas, bind at 1, read in H.
    destruct (existsb _ _); [now apply IH in H|].
    apply bind_inv in H as [(info & w1 & Ha & H)|(e & Ha & _)];
      apply ask_json_run in Ha as (v & q & Hv & -> & Hq);
      [|exists []; now apply gained_nothing].
    apply bind_inv in H as [(traits & w2 & Hl & H)|(e & Hl & _)];
      unfold lift in Hl; injection Hl as _ <-;
      [|exists []; now apply gained_nothing].
    apply bind_inv in H as [(formality & w2 & Hl & H)|(e & Hl & _)];
      unfold lift in Hl; injection Hl as _ <-;
      [|exists []; now apply gained_nothing].
    apply bind_inv in H as [(avatar & w2 & Hl & H)|(e & Hl & _)];
      unfold lift in Hl; injection Hl as _ <-;
      [|exists []; now apply gained_nothing].
    apply bind_inv in H as [(pid & w2 & Hc & H)|(e & Hc & _)];
      apply create_persona_gained in Hc as [c1 Hc].
    + apply IH in H as [c2 H2].
      exists (([] ++ c1) ++ c2).
      eapply gained_trans; [|exact H2].
      eapply gained_trans; [|exact Hc].
      now apply gained_nothing.
    + exists ([] ++ c1). eapply gained_trans; [|exact Hc].
      now apply gained_nothing.
Qed.

Lemma create_personas_run (user_id : string) (entities style : json)
      (w w' : world) (r : result (list new_persona)) :
  _create_personas E user_id entities style w = (r, w') ->
  exists created, gained_personas user_id w w' created.
Proof.
  unfold _create_personas. intro H.
  assert (Hsame : gained_personas user_id w w []).
  { replace w with (with_requests (requests w) w) at 2
      by (destruct w; reflexivity).
    now apply gained_nothing. }
  apply bind_inv in H as [(persons & w1 & Hl & H)|(e & Hl & _)];
    unfold lift in Hl; injection Hl as _ <-; [|eauto].
  apply bind_inv in H as [(names & w1 & Hl & H)|(e & Hl & _)];
    unfold lift in Hl; injection Hl as _ <-; [|eauto].
  now apply create_personas_loop_run in H.
Qed.

Lemma create_memories_ok (user_id : string) (id : nat)
      (entities pad temporal : json) (w w' : world) (ms : list new_memory) :
  _create_memories E user_id id entities pad temporal w = (Ok ms, w') ->
  exists topic score label xt xy xs q,
    emotion_label_of pad = Ok label
    /\ bind_param (Py.or_else topic (JStr "")) = Ok xt
    /\ bind_param label = Ok xy /\ bind_param score = Ok xs
    /\ (requests w <= q)%nat
    /\ ms = [ {| nm_memory_id := next_uuid w; nm_topic := topic;
                 nm_importance_score := score; nm_entities := entities;
                 nm_temporal := temporal |} ]
    /\ w' = {| user_profiles := user_profiles w;
               interaction_logs := interaction_logs w;
               emotion_analyses := emotion_analyses w;
               personas := personas w;
               memory_events :=
                 memory_events w
                 ++ [ {| m_memory_id := next_uuid w; m_user_id := user_id;
                         m_interaction_log_id := id;
                         m_media_reference := Some ""%string;
                         m_emotion_annotation := pad;
                         m_linked_topic := text_affinity E xt;
                         m_response_history := JList [];
                         m_memory_type := text_affinity E xy;
                         m_importance_score := real_affinity E xs;
                         m_created_at := clock w;
                         m_tags := Py.or_else entities (JList []);
                         m_entities := JDict [] |} ];
               next_uuid := S (next_uuid w);
               clock := S (clock w); requests := q |}.
Proof.
  unfold _create_memories. intro H.
  apply bind_ok in H as (topic_obj & w1 & Ha & H).
  apply ask_json_run in Ha as (v1 & q1 & _ & -> & Hq1).
  apply bind_ok in H as (topic & w2 & Hl & H). apply lift_ok in Hl as [_ ->].
  apply bind_ok in H as (score_obj & w2 & Ha & H).
  apply ask_json_run in Ha as (v2 & q2 & _ & -> & Hq2).
  apply bind_ok in H as (score & w3 & Hl & H). apply lift_ok in Hl as [_ ->].
  apply bind_ok in H as (label & w3 & Hl & H). apply lift_ok in Hl as [Hlab ->].
  apply bind_ok in H as (mid & w3 & Hc & H).
  apply create_memory_event_ok in Hc
    as (xm & xt & xy & xs & Hm & Ht & Hy & Hs & -> & ->).
  apply ret_ok in H as [-> ->].
  cbn in Hm. injection Hm as <-.
  exists topic, score, label, xt, xy, xs, q2. cbn in *.
  repeat split; auto; lia.
Qed.

(** The persona that answers: the one asked for when it is one of the
    user's, else the user's persona of the default name, else the user's
    first persona. *)
Lemma speaker_is_users (first : persona) (rest : list persona)
      (persona_id : option nat) :
  In (match pick_speaker (first :: rest) persona_id with
      | Some p => p
      | None =>
          match find (fun p => Py.text_eq (p_name p) (JStr DEFAULT_PERSONA_name))
                     (first :: rest) with
          | Some p => p
          | None => first
          end
      end) (first :: rest).
Proof.
  destruct (pick_speaker (first :: rest) persona_id) as [p|] eqn:Hp.
  - unfold pick_speaker in Hp. destruct persona_id; [|discriminate].
    now apply find_some in Hp as [Hin _].
  - destruct (find _ (first :: rest)) as [p|] eqn:Hf.
    + now apply find_some in Hf as [Hin _].
    + now left.
Qed.

(** Any run of [_get_response_to_interaction]. *)
Lemma get_response_run (user_id : string) (persona_id : option nat)
      (w w' : world) (r : result reply_result) :
  _get_response_to_interaction E user_id persona_id w = (r, w') ->
  (exists rr sp content q,
      r = Ok rr
      /\ In sp (of_user user_id (personas w))
      /\ speaker_persona_id rr = p_persona_id sp
      /\ speaker_name rr = p_name sp
      /\ reply rr = str_strip E content
      /\ chat E w = (Ok content, with_requests q w)
      /\ (requests w <= q)%nat
      /\ w' = {| user_profiles := user_profiles w;
                 interaction_logs :=
                   match latest_log user_id w with
                   | Some last =>
                       map (mark_reply (log_id last) (reply rr))
                           (interaction_logs w)
                   | None => interaction_logs w
                   end;
                 emotion_analyses := emotion_analyses w;
                 personas :=
                   map (mark_spoken (p_persona_id sp) (clock w)) (personas w);
                 memory_events := memory_events w;
                 next_uuid := next_uuid w;
                 clock := S (clock w); requests := q |})
  \/ (exists e,
        r = Raise e
        /\ of_user user_id (personas w) <> []
        /\ ((e = RuntimeError /\ chat E w = (Raise RuntimeError, w'))
            \/ ((e = TypeError \/ e = AttributeError) /\ w' = w)))
  \/ (r = Raise UnboundLocalError
      /\ of_user user_id (personas w) = []
      /\ exists id, _ensure_default_persona E user_id w = (Ok id, w')).
Proof.
  unfold _get_response_to_interaction.
  unfold get_personas at 1. unfold bind at 1, read at 1.
  fold (of_user user_id (personas w)).
  destruct (of_user user_id (personas w)) as [|first rest] eqn:Hps.
  - intro H. right; right.
    apply bind_inv in H as [(id & w1 & He & H)|(e & He & _)].
    + unfold get_personas, bind, read, raise in H. injection H as <- <-.
      eauto.
    + exfalso. apply ensure_default_run in He
        as [(p & _ & _ & Hr & _)|(_ & p & Hr & _)]; discriminate.
  - pose proof (speaker_is_users first rest persona_id) as Hin.
    set (speaker := match pick_speaker (first :: rest) persona_id with
                    | Some p => p
                    | None => _
                    end) in *.
    destruct (negb (Py.joinable (p_personality_traits speaker))).
    { intro H. unfold raise in H. injection H as <- <-.
      right; left. exists TypeError. repeat split; auto. discriminate. }
    change (get_interaction_logs user_id 5)
      with (read (fun w0 =>
                    firstn 5
                      (order_desc log_timestamp
                         (filter (fun lg => String.eqb (log_user_id lg) user_id)
                                 (interaction_logs w0))))).
    unfold bind at 1, read at 1.
    fold (latest_log user_id w).
    set (recent_logs := firstn 5 _).
    unfold bind at 1, lift at 1.
    destruct (snippet_of_logs (rev recent_logs)) as [[]|e] eqn:Hsn.
    2:{ intro H. injection H as <- <-. right; left. exists e.
        repeat split; auto; [discriminate|]. right. split; [|reflexivity].
        clear - Hsn. revert Hsn. generalize (rev recent_logs).
        induction l as [|lg l IH]; simpl; [discriminate|].
        destruct (log_raw_input_data lg); simpl; auto;
          intro H; injection H as <-; auto. }
    change (get_memory_events user_id 20)
      with (read (fun w0 =>
                    firstn 20
                      (order_desc m_created_at
                         (filter (fun m => String.eqb (m_user_id m) user_id)
                                 (memory_events w0))))).
    unfold bind at 1, read at 1.
    unfold bind at 1, lift at 1.
    destruct (important _) as [high|e] eqn:Himp.
    2:{ intro H. injection H as <- <-. right; left. exists e.
        repeat split; auto; [discriminate|]. right. split; [|reflexivity].
        clear - Himp. revert Himp.
        generalize (firstn 20
                      (order_desc m_created_at
                         (filter (fun m => (m_user_id m =? user_id)%string)
                                 (memory_events w)))).
        induction l as [|m l IH]; simpl; [discriminate|].
        destruct (at_least_0_7 (m_importance_score m)) eqn:Ha.
        - destruct (important l); [discriminate|].
          intro H. injection H as <-. auto.
        - intro H. injection H as <-.
          destruct (m_importance_score m); simpl in Ha;
            try discriminate; injection Ha as <-; auto. }
    unfold bind at 1.
    destruct (chat E w) as [[content|e] w1] eqn:Hc.
    2:{ intro H. injection H as <- <-. right; left. exists e.
        pose proof Hc as Hc'.
        apply post_attempts_raise in Hc' as [-> _].
        split; [reflexivity|]. split; [discriminate|]. left. auto. }
    pose proof Hc as Hq. apply chat_run in Hq as [q [-> Hq]].
    intro H. left.
    unfold latest_log. fold recent_logs.
    destruct recent_logs as [|last more];
      unfold save_assistant_reply, increment_persona_interaction, bind, now,
        modify, ret in H; cbn in H; injection H as <- <-;
      eexists; exists speaker, content, q; (split; [reflexivity|]);
      cbn; repeat split; auto.
Qed.

Lemma insert_desc_below {A} (key : A -> nat) (x y : A) (l : list A) :
  (key y < key x)%nat ->
  insert_desc key y (x :: l) = x :: insert_desc key y l.
Proof.
  intro H. simpl. destruct (Nat.ltb (key x) (key y)) eqn:Hl;
    [apply Nat.ltb_lt in Hl; lia | reflexivity].
Qed.

(** A row newer than all the others comes first. *)
Lemma order_desc_newest {A} (key : A -> nat) (l : list A) (x : A) :
  (forall y, In y l -> (key y < key x)%nat) ->
  order_desc key (l ++ [x]) = x :: order_desc key l.
Proof.
  induction l as [|y l IH]; intro H; simpl; [reflexivity|].
  rewrite IH by (intros; apply H; now right).
  apply insert_desc_below. apply H. now left.
Qed.

Lemma latest_log_newest (user_id : string) (w : world)
      (old : list interaction_log) (lg : interaction_log) :
  interaction_logs w = old ++ [lg] ->
  log_user_id lg = user_id ->
  (forall y, In y old -> (log_timestamp y < log_timestamp lg)%nat) ->
  latest_log user_id w = Some lg.
Proof.
  intros Hl Hu Ht. unfold latest_log. rewrite Hl, filter_app. simpl.
  rewrite Hu, String.eqb_refl.
  rewrite order_desc_newest; [reflexivity|].
  intros y Hy. apply filter_In in Hy as [Hy _]. now apply Ht.
Qed.

Lemma mark_reply_newest (old : list interaction_log) (lg : interaction_log)
      (text : string) :
  (forall y, In y old -> log_id y <> log_id lg) ->
  map (mark_reply (log_id lg) text) (old ++ [lg]) = old ++ [set_reply text lg].
Proof.
  intro H. rewrite map_app. simpl. unfold mark_reply at 2.
  rewrite Nat.eqb_refl. f_equal.
  induction old as [|y old IH]; simpl; [reflexivity|].
  rewrite IH by (intros; apply H; now right).
  unfold mark_reply. destruct (Nat.eqb (log_id y) (log_id lg)) eqn:He;
    [|reflexivity].
  apply Nat.eqb_eq in He. exfalso. apply (H y); [now left | exact He].
Qed.

Lemma with_requests_same (w : world) : with_requests (requests w) w = w.
Proof. destruct w; reflexivity. Qed.

Lemma analyze_image_run (image_path : string) (w w' : world)
      (r : result string) :
  _analyze_image E image_path w = (r, w') ->
  exists q, w' = with_requests q w /\ (requests w <= q)%nat.
Proof.
  unfold _analyze_image.
  assert (Hsame : exists q, w = with_requests q w /\ (requests w <= q)%nat)
    by (exists (requests w); rewrite with_requests_same; auto).
  destruct (read_base64 E image_path) as [b64|];
    [|unfold raise; intro H; injection H as _ <-; exact Hsame].
  destruct (String.eqb b64 "");
    [unfold raise; intro H; injection H as _ <-; exact Hsame|].
  intro H.
  apply bind_inv in H as [(f & w1 & Hl & H)|(e & Hl & _)];
    unfold lift in Hl; injection Hl as _ <-; [|exact Hsame].
  apply bind_inv in H as [(c & w1 & Hc & H)|(e & Hc & _)].
  - unfold ret in H. injection H as _ <-. now apply chat_run in Hc.
  - now apply chat_run in Hc.
Qed.

(** The trace of an interaction that returns: one log, holding the reply;
    one emotion analysis; one memory; the personas gained on the way, the
    speaker's counter moved by one. *)
Lemma process_interaction_ok (user_id text input_type : string)
      (image_path : option string) (persona_id : option nat)
      (w w' : world) (r : interaction_result) :
  process_interaction E user_id text input_type image_path persona_id w
  = (Ok r, w') ->
  logs_in_past w ->
  exists lg ea mem nm created sp t,
    interaction_logs w'
    = interaction_logs w ++ [set_reply (reply (res_reply r)) lg]
    /\ emotion_analyses w' = emotion_analyses w ++ [ea]
    /\ memory_events w' = memory_events w ++ [mem]
    /\ personas w' = map (mark_spoken (p_persona_id sp) t) (personas w ++ created)
    /\ In sp (of_user user_id (personas w ++ created))
    /\ speaker_persona_id (res_reply r) = p_persona_id sp
    /\ Forall (fun p => p_user_id p = user_id /\ p_interaction_count p = 0%Z
                        /\ (next_uuid w <= p_persona_id p < next_uuid w')%nat)
              created
    /\ NoDup (map p_persona_id created)
    /\ log_id lg = interaction_log_id r
    /\ (next_uuid w <= log_id lg)%nat
    /\ (clock w <= log_timestamp lg)%nat
    /\ log_records E user_id (pad_analysis r) lg
    /\ analysis_records E (pad_analysis r) (interaction_log_id r) ea
    /\ new_memories r = [nm]
    /\ memory_records E user_id (pad_analysis r) (res_entities r)
                      (interaction_log_id r) nm mem.
Proof.
  unfold process_interaction. intros H Hpast.
  (* bootstrap *)
  apply bind_ok in H as (profile & w1 & Hp & H).
  apply read_ok in Hp as [_ ->].
  apply bind_ok in H as (u1 & w1 & Hp & H).
  assert (Hw1 : interaction_logs w1 = interaction_logs w
                /\ emotion_analyses w1 = emotion_analyses w
                /\ memory_events w1 = memory_events w
                /\ personas w1 = personas w
                /\ next_uuid w1 = next_uuid w
                /\ (clock w <= clock w1)%nat).
  { destruct profile.
    - apply ret_ok in Hp as [_ ->]. repeat split; auto.
    - apply bind_ok in Hp as (u & w0 & Hc & Hp).
      apply ret_ok in Hp as [_ ->].
      destruct (create_user_profile_run user_id w) as [ups Hups].
      rewrite Hups in Hc. injection Hc as _ <-. cbn. repeat split; auto. }
  clear Hp. destruct Hw1 as (L1 & A1 & M1 & P1 & U1 & C1).
  apply bind_ok in H as (d & w2 & Hd & H).
  assert (Hw2 : exists c0, gained_personas user_id w1 w2 c0).
  { apply ensure_default_run in Hd
      as [(p & _ & _ & _ & ->)|(_ & p & _ & -> & _ & Hu & Hid & Hc & _)].
    - exists []. rewrite <- (with_requests_same w1) at 2.
      now apply gained_nothing.
    - exists [p]. unfold gained_personas. cbn.
      repeat split; auto.
      + constructor; [|constructor]. repeat split; auto; lia.
      + constructor; [intros []|constructor]. }
  clear Hd. destruct Hw2 as [c0 Hw2].
  (* grounding *)
  apply bind_ok in H as (grounded & w3 & Hg & H).
  assert (Hw3 : exists q, w3 = with_requests q w2 /\ (requests w2 <= q)%nat).
  { destruct image_path as [path|].
    - destruct (String.eqb path "").
      + apply ret_ok in Hg as [_ ->]. exists (requests w2).
        now rewrite with_requests_same.
      + apply bind_ok in Hg as (c & w0 & Hi & Hg).
        apply ret_ok in Hg as [_ ->]. now apply analyze_image_run in Hi.
    - apply ret_ok in Hg as [_ ->]. exists (requests w2).
      now rewrite with_requests_same. }
  clear Hg. destruct Hw3 as (q3 & -> & Hq3).
  (* emotion, log and analysis *)
  apply bind_ok in H as (pad & w4 & Ha & H).
  apply ask_json_run in Ha as (v & q4 & _ & -> & Hq4).
  apply bind_ok in H as (pv & w5 & Hl & H). apply lift_ok in Hl as [Hpv ->].
  apply bind_ok in H as (label & w5 & Hl & H). apply lift_ok in Hl as [Hlab ->].
  apply bind_ok in H as (id & w5 & Hlog & H).
  apply log_interaction_ok in Hlog as (xl & Hxl & -> & ->).
  apply bind_ok in H as (pv' & w6 & Hl & H). apply lift_ok in Hl as [Hpv' ->].
  apply bind_ok in H as (cat & w6 & Hl & H). apply lift_ok in Hl as [Hcat ->].
  apply bind_ok in H as (conf & w6 & Hl & H). apply lift_ok in Hl as [Hconf ->].
  apply bind_ok in H as (method & w6 & Hl & H). apply lift_ok in Hl as [Hmeth ->].
  apply bind_ok in H as (aid & w6 & Hsave & H).
  apply save_emotion_analysis_ok in Hsave as (xm & Hxm & ->).
  (* entities, style, temporal *)
  apply bind_ok in H as (entities & w7 & Ha & H).
  apply ask_json_run in Ha as (v7 & q7 & _ & -> & Hq7).
  apply bind_ok in H as (style & w8 & Ha & H).
  apply ask_json_run in Ha as (v8 & q8 & _ & -> & Hq8).
  apply bind_ok in H as (temporal & w9 & Ha & H).
  apply ask_json_run in Ha as (v9 & q9 & _ & -> & Hq9).
  (* personas *)
  apply bind_ok in H as (new_ps & w10 & Hcp & H).
  apply create_personas_run in Hcp as [c1 Hcp].
  apply bind_ok in H as (upd_ps & w11 & Hup & H).
  unfold _update_personas, get_personas in Hup.
  apply bind_ok in Hup as (ps & w0 & Hr & Hup).
  apply read_ok in Hr as [_ ->]. apply lift_ok in Hup as [_ ->].
  (* memory *)
  apply bind_ok in H as (memories & w11 & Hm & H).
  apply create_memories_ok in Hm
    as (topic & score & label' & xt & xy & xs & q11 & Hlab' & Hxt & Hxy & Hxs
        & Hq11 & -> & ->).
  (* reply *)
  apply bind_ok in H as (rr & w12 & Hrep & H).
  apply bind_ok in H as (t & w13 & Hnow & H).
  apply ret_ok in H as [-> ->].
  unfold now in Hnow. injection Hnow as _ <-.
  apply get_response_run in Hrep
    as [(rr' & sp & content & q & Hrr & Hsp & Hsid & _ & Hreply & _ & _ & ->)
       |[(e & He & _)|(He & _)]]; try discriminate.
  injection Hrr as <-.
  destruct Hw2 as (_ & L2 & A2 & M2 & P2 & U2 & C2 & _ & F2 & N2).
  destruct Hcp as (_ & L10 & A10 & M10 & P10 & U10 & C10 & _ & F10 & N10).
  cbn in *.
  match type of L10 with _ = _ ++ [?x] => set (lg := x) in * end.
  assert (Hlogs : interaction_logs w10 = interaction_logs w ++ [lg])
    by congruence.
  assert (Hnew : forall y, In y (interaction_logs w) ->
                           (log_id y < log_id lg)%nat
                           /\ (log_timestamp y < log_timestamp lg)%nat).
  { intros y Hy. apply Hpast in Hy. subst lg. cbn. lia. }
  match goal with
  | |- context [latest_log user_id ?wx] =>
      rewrite (latest_log_newest user_id wx (interaction_logs w) lg)
        by (auto; intros y Hy; now apply Hnew)
  end.
  rewrite Hlogs, mark_reply_newest
    by (intros y Hy; apply Hnew in Hy; lia).
  do 4 eexists. exists (c0 ++ c1), sp. eexists.
  split; [reflexivity|].
  split; [rewrite A10, A2, A1; reflexivity|].
  split; [rewrite M10, M2, M1; reflexivity|].
  split; [rewrite P10, P2, P1, <- app_assoc; reflexivity|].
  split.
  { unfold of_user. rewrite app_assoc, <- P1, <- P2, <- P10. exact Hsp. }
  split; [exact Hsid|].
  split.
  { apply Forall_app. split.
    - eapply Forall_impl; [|exact F2]. cbv beta. intros p (? & ? & ?).
      repeat split; auto; lia.
    - eapply Forall_impl; [|exact F10]. cbv beta. intros p (? & ? & ?).
      repeat split; auto; lia. }
  split.
  { rewrite map_app. apply NoDup_app; auto.
    intros x H1 H2.
    apply in_map_iff in H1 as (p1 & <- & H1).
    apply in_map_iff in H2 as (p2 & Heq & H2).
    rewrite Forall_forall in F2, F10.
    apply F2 in H1. apply F10 in H2. lia. }
  split; [reflexivity|].
  split; [subst lg; cbn; lia|].
  split; [subst lg; cbn; lia|].
  split.
  { unfold log_records. subst lg. cbn. repeat split; auto.
    exists label, xl. auto. }
  split.
  { unfold analysis_records. cbn. repeat split; auto.
    - exists conf. auto.
    - exists method, xm. auto. }
  split; [reflexivity|].
  unfold memory_records. cbn. repeat split; auto.
  - exists label', xy. auto.
  - exists xs. auto.
  - exists xt. auto.
Qed.

End Runs.

(** ** The request loop *)

Section Requests.

Open Scope nat_scope.
Open Scope list_scope.

Variable E : externals.

Lemma with_requests_twice (q q' : nat) (w : world) :
  with_requests q (with_requests q' w) = with_requests q w.
Proof. reflexivity. Qed.

(** Any run of the request loop with [n] attempts left. *)
Lemma post_attempts_spec (n : nat) (w : world) :
  match post_attempts E n w with
  | (Ok content, w') =>
      exists i, i < n
                /\ http_post E (requests w + i) = Some content
                /\ (forall j, j < i -> http_post E (requests w + j) = None)
                /\ w' = with_requests (requests w + i + 1) w
  | (Raise e, w') =>
      e = RuntimeError
      /\ (forall j, j < n -> http_post E (requests w + j) = None)
      /\ w' = with_requests (requests w + n) w
  end.
Proof.
  revert w. induction n as [|n IH]; intro w.
  - simpl. unfold raise. split; [reflexivity|]. split; [intros; lia|].
    now rewrite Nat.add_0_r, with_requests_same.
  - cbn [post_attempts].
    destruct (http_post E (requests w)) as [content|] eqn:Hp.
    + exists 0. rewrite !Nat.add_0_r. split; [lia|]. split; [exact Hp|].
      split; [intros; lia|]. unfold count_request. f_equal. lia.
    + specialize (IH (count_request w)).
      destruct (post_attempts E n (count_request w)) as [[content|e] w'].
      * destruct IH as (i & Hi & Hs & Hn & ->). exists (S i).
        cbn [count_request requests with_requests] in Hs, Hn.
        split; [lia|].
        split; [now replace (requests w + S i) with (S (requests w) + i) by lia|].
        split.
        -- intros [|j] Hj; [now rewrite Nat.add_0_r|].
           replace (requests w + S j) with (S (requests w) + j) by lia.
           apply Hn. lia.
        -- unfold count_request. rewrite with_requests_twice. f_equal.
           cbn. lia.
      * destruct IH as (-> & Hn & ->).
        cbn [count_request requests with_requests] in Hn.
        split; [reflexivity|]. split.
        -- intros [|j] Hj; [now rewrite Nat.add_0_r|].
           replace (requests w + S j) with (S (requests w) + j) by lia.
           apply Hn. lia.
        -- unfold count_request. rewrite with_requests_twice. f_equal.
           cbn. lia.
Qed.

(** The content of a request that was answered is a reply of the
    endpoint. *)
Lemma chat_content (w w' : world) (content : string) :
  chat E w = (Ok content, w') ->
  exists i, requests w <= i < requests w'
            /\ http_post E i = Some content
            /\ requests w' = S i.
Proof.
  intro H. unfold chat, _post in H.
  pose proof (post_attempts_spec (max_retries + 1) w) as Hs.
  rewrite H in Hs. destruct Hs as (i & Hi & Hp & _ & ->).
  exists (requests w + i). cbn. split; [lia|]. split; [exact Hp | lia].
Qed.

End Requests.

(** ** What an interaction persists *)

Section Persisted.

Open Scope list_scope.

Variable E : externals.

Lemma emotion_label_fallback :
  emotion_label_of emotion_fallback = Ok (JStr "neutral").
Proof. reflexivity. Qed.

(** C3: an interaction that returns has created exactly one MemoryEvent,
    linked to its log; the record carries the interaction's emotion label
    as its memory type and the topic summary as its linked topic, but its
    entities field is the empty object: the extracted entities map went
    into the tags field. *)
Theorem memory_event_misplaces_entities
        (user_id text input_type : string) (image_path : option string)
        (persona_id : option nat) (w w' : world) (r : interaction_result) :
  process_interaction E user_id text input_type image_path persona_id w
  = (Ok r, w') ->
  logs_in_past w ->
  exists mem nm lg,
    memory_events w' = memory_events w ++ [mem]
    /\ new_memories r = [nm]
    /\ In lg (interaction_logs w')
    /\ log_id lg = interaction_log_id r
    /\ m_interaction_log_id mem = interaction_log_id r
    /\ m_memory_type mem = log_emotion_label lg
    /\ (exists x, bind_param (Py.or_else (nm_topic nm) (JStr "")) = Ok x
                  /\ m_linked_topic mem = text_affinity E x)
    /\ m_entities mem = JDict []
    /\ m_tags mem = Py.or_else (res_entities r) (JList []).
Proof.
  intros H Hpast.
  apply process_interaction_ok in H
    as (lg & ea & mem & nm & created & sp & t & HL & _ & HM & _ & _ & _ & _ & _
        & Hid & _ & _ & Hlog & _ & Hnm & Hmem); [|exact Hpast].
  destruct Hlog as (_ & _ & _ & label & x & Hl & Hx & Hlabel).
  destruct Hmem as (_ & Hmid & _ & _ & Hent & Htags & _
                    & (label' & x' & Hl' & Hx' & Hty) & _ & Htopic).
  exists mem, nm, (set_reply (reply (res_reply r)) lg).
  split; [exact HM|]. split; [exact Hnm|].
  split; [rewrite HL; apply in_or_app; right; now left|].
  split; [exact Hid|]. split; [exact Hmid|].
  split; [|auto].
  cbn. rewrite Hty, Hlabel. congruence.
Qed.

(** C5, as amended: when the emotion reply does not parse (or the request
    fails), the analysis is the fallback, and an interaction that returns
    with it has logged the neutral PAD triple under the label neutral and
    saved an EmotionAnalysis with that triple, intensity 0, the method
    tag "fallback", and the confidence 0.5 that [process_interaction]
    supplies when the analysis has no confidence field. *)
Theorem emotion_fallback_recorded :
  (forall w,
      (forall txt w1, chat E w = (Ok txt, w1) ->
                      json_loads E (json_candidate txt) = None) ->
      exists w', _analyze_emotion E w = (Ok emotion_fallback, w'))
  /\ (forall user_id text input_type image_path persona_id w w' r,
        process_interaction E user_id text input_type image_path persona_id w
        = (Ok r, w') ->
        logs_in_past w ->
        pad_analysis r = emotion_fallback ->
        exists lg ea,
          In lg (interaction_logs w') /\ In ea (emotion_analyses w')
          /\ log_id lg = interaction_log_id r
          /\ ea_interaction_log_id ea = interaction_log_id r
          /\ log_detected_emotion lg = neutral_pad
          /\ log_emotion_label lg = Some "neutral"%string
          /\ ea_pad_values ea = neutral_pad
          /\ ea_emotion_categories ea
             = JDict [("label", JStr "neutral"); ("emotion", JStr "neutral");
                      ("intensity", JInt 0)]
          /\ ea_confidence_scores ea = JDict [("confidence", JFloat (1 # 2))]
          /\ ea_analysis_method ea = Some "fallback"%string).
Proof.
  split.
  - intros w Hfail. unfold _analyze_emotion, _ask_json.
    destruct (chat E w) as [[txt|e] w1] eqn:Hc; [|eauto].
    unfold extract_json. rewrite (Hfail txt w1 eq_refl). eauto.
  - intros user_id text input_type image_path persona_id w w' r H Hpast Hpad.
    apply process_interaction_ok in H
      as (lg & ea & mem & nm & created & sp & t & HL & HA & _ & _ & _ & _ & _
          & _ & Hid & _ & _ & Hlog & Hea & _); [|exact Hpast].
    rewrite Hpad in Hlog, Hea.
    destruct Hlog as (_ & _ & Hpv & label & x & Hl & Hx & Hlabel).
    destruct Hea as (Heid & Hpv' & Hcat & (c & Hc & Hconf)
                     & (method & xm & Hm & Hxm & Hmeth)).
    cbn in Hpv, Hl, Hpv', Hcat, Hc, Hm.
    injection Hpv as Hpv. injection Hl as <-. injection Hpv' as Hpv'.
    injection Hcat as Hcat. injection Hc as <-. injection Hm as <-.
    cbn in Hx, Hxm. injection Hx as <-. injection Hxm as <-.
    exists (set_reply (reply (res_reply r)) lg), ea.
    split; [rewrite HL; apply in_or_app; right; now left|].
    split; [rewrite HA; apply in_or_app; right; now left|].
    cbn. repeat split; auto.
Qed.


(** C9: an interaction that returns has put its reply into the metadata
    of the log it created, which is the user's most recent one, and has
    left every earlier log as it was; it has moved the interaction counter
    of the speaking persona, and of no other persona, by one. *)
Theorem reply_goes_to_this_log_and_speaker
        (user_id text input_type : string) (image_path : option string)
        (persona_id : option nat) (w w' : world) (r : interaction_result) :
  process_interaction E user_id text input_type image_path persona_id w
  = (Ok r, w') ->
  logs_in_past w -> personas_in_past w ->
  let speaker := speaker_persona_id (res_reply r) in
  exists lg created t,
    interaction_logs w' = interaction_logs w ++ [lg]
    /\ log_id lg = interaction_log_id r
    /\ log_user_id lg = user_id
    /\ latest_log user_id w' = Some lg
    /\ log_processing_metadata lg
       = JDict [("assistant_reply", JStr (reply (res_reply r)))]
    /\ personas w' = map (mark_spoken speaker t) (personas w ++ created)
    /\ Forall (fun p => p_interaction_count p = 0%Z) created
    /\ NoDup (map p_persona_id (personas w ++ created))
    /\ In speaker (map p_persona_id (of_user user_id (personas w ++ created)))
    /\ forall p, In p (personas w ++ created) ->
                 p_persona_id (mark_spoken speaker t p) = p_persona_id p
                 /\ p_interaction_count (mark_spoken speaker t p)
                    = (p_interaction_count p
                       + (if Nat.eqb (p_persona_id p) speaker then 1 else 0))%Z.
Proof.
  intros H Hpast [Hpid Hnd] speaker.
  pose proof H as Hrun.
  apply process_interaction_ok in H
    as (lg & ea & mem & nm & created & sp & t & HL & _ & _ & HP & Hsp & Hsid
        & Hcr & Hnew & Hid & Hfresh & Hclock & Hlog & _); [|exact Hpast].
  destruct Hlog as (Huser & Hmeta & _).
  exists (set_reply (reply (res_reply r)) lg), created, t.
  split; [exact HL|]. split; [exact Hid|]. split; [exact Huser|].
  split.
  { apply latest_log_newest with (old := interaction_logs w); auto.
    intros y Hy. cbn. apply Hpast in Hy. lia. }
  split; [cbn; now rewrite Hmeta|].
  split; [subst speaker; rewrite Hsid; exact HP|].
  split; [eapply Forall_impl; [|exact Hcr]; cbv beta; tauto|].
  split.
  { rewrite map_app. apply NoDup_app; auto.
    intros x H1 H2.
    apply in_map_iff in H1 as (p1 & <- & H1).
    apply in_map_iff in H2 as (p2 & Heq & H2).
    rewrite Forall_forall in Hcr. apply Hcr in H2. apply Hpid in H1. lia. }
  split; [subst speaker; rewrite Hsid; now apply in_map|].
  intros p _. unfold mark_spoken.
  destruct (Nat.eqb (p_persona_id p) speaker); cbn; split; auto; lia.
Qed.

End Persisted.

(** ** What every run preserves *)

Section Invariants.

Open Scope list_scope.

Variable E : externals.

Lemma harmless_refl (w : world) : harmless w w.
Proof.
  unfold harmless. repeat split; auto. exists []. rewrite app_nil_r.
  split; [reflexivity | constructor].
Qed.

Lemma harmless_trans (w1 w2 w3 : world) :
  harmless w1 w2 -> harmless w2 w3 -> harmless w1 w3.
Proof.
  intros (U1 & C1 & P1 & n1 & L1 & F1) (U2 & C2 & P2 & n2 & L2 & F2).
  unfold harmless. repeat split; try lia; try congruence.
  exists (n1 ++ n2). split; [rewrite L2, L1; now rewrite app_assoc|].
  apply Forall_app. split.
  - eapply Forall_impl; [|exact F1]. cbv beta. intros; lia.
  - eapply Forall_impl; [|exact F2]. cbv beta. intros; lia.
Qed.

Lemma harmless_requests (w : world) (q : nat) : harmless w (with_requests q w).
Proof.
  unfold harmless. cbn. repeat split; auto. exists []. rewrite app_nil_r.
  split; [reflexivity | constructor].
Qed.

Lemma store_ok_harmless (w w' : world) :
  harmless w w' -> store_ok w -> store_ok w'.
Proof.
  intros (U & C & P & new & L & F) (Hl & (Hp & Hn) & Hnames).
  split; [|split; [split|]].
  - intros lg Hin. rewrite L in Hin. apply in_app_or in Hin as [Hin|Hin].
    + apply Hl in Hin. lia.
    + rewrite Forall_forall in F. apply F in Hin. lia.
  - intros p Hin. rewrite P in Hin. apply Hp in Hin. lia.
  - now rewrite P.
  - unfold names_ok. now rewrite P.
Qed.

Lemma settled_harmless (user_id : string) (w w' : world) :
  harmless w w' -> settled user_id w -> settled user_id w'.
Proof.
  intros H [Hs Hne]. split; [now apply (store_ok_harmless w)|].
  destruct H as (_ & _ & P & _). now rewrite P.
Qed.

Lemma log_interaction_harmless (user_id input_type : string)
      (detected_emotion emotion_label raw : json) (w w' : world)
      (r : result nat) :
  log_interaction E user_id input_type detected_emotion emotion_label raw w
  = (r, w') -> harmless w w'.
Proof.
  unfold log_interaction, bind_text, bind, uuid4, now, lift, ret, modify.
  cbn. destruct (bind_param emotion_label) as [x|e]; intro H;
    injection H as _ <-; unfold harmless; cbn; repeat split; auto.
  - eexists. split; [reflexivity|]. constructor; [|constructor]. cbn. lia.
  - exists []. rewrite app_nil_r. split; [reflexivity | constructor].
Qed.

Lemma save_emotion_analysis_harmless (id : nat)
      (pad_values categories confidence method : json) (w w' : world)
      (r : result nat) :
  save_emotion_analysis E id pad_values categories confidence method w
  = (r, w') -> harmless w w'.
Proof.
  unfold save_emotion_analysis, bind_text, bind, uuid4, now, lift, ret, modify.
  cbn. destruct (bind_param method) as [x|e]; intro H;
    injection H as _ <-; unfold harmless; cbn; repeat split; auto;
    exists []; rewrite app_nil_r; (split; [reflexivity | constructor]).
Qed.

Lemma create_memory_event_harmless (user_id : string) (id : nat)
      (annotation topic mtype score media tags entities : json)
      (w w' : world) (r : result nat) :
  create_memory_event E user_id id annotation topic mtype score media tags
                      entities w = (r, w') -> harmless w w'.
Proof.
  unfold create_memory_event, bind_text, bind_real, bind, uuid4, now, lift,
    ret, modify.
  cbn.
  destruct (bind_param (Py.or_else media (JStr ""))) as [xm|e]; cbn.
  2:{ intro H; injection H as _ <-; unfold harmless; cbn; repeat split; auto;
      exists []; rewrite app_nil_r; (split; [reflexivity | constructor]). }
  destruct (bind_param (Py.or_else topic (JStr ""))) as [xt|e]; cbn.
  2:{ intro H; injection H as _ <-; unfold harmless; cbn; repeat split; auto;
      exists []; rewrite app_nil_r; (split; [reflexivity | constructor]). }
  destruct (bind_param mtype) as [xy|e]; cbn.
  2:{ intro H; injection H as _ <-; unfold harmless; cbn; repeat split; auto;
      exists []; rewrite app_nil_r; (split; [reflexivity | constructor]). }
  destruct (bind_param score) as [xs|e]; cbn;
    intro H; injection H as _ <-; unfold harmless; cbn; repeat split; auto;
    exists []; rewrite app_nil_r; (split; [reflexivity | constructor]).
Qed.

Lemma ask_json_harmless (fallback : json) (w w' : world) (r : result json) :
  _ask_json E fallback w = (r, w') -> harmless w w'.
Proof.
  intro H. apply ask_json_run in H as (v & q & _ & -> & _).
  apply harmless_requests.
Qed.

Lemma lift_same {A} (x : result A) (w w' : world) (r : result A) :
  lift x w = (r, w') -> w' = w.
Proof. unfold lift. intro H. now injection H as _ <-. Qed.

Lemma create_memories_harmless (user_id : string) (id : nat)
      (entities pad temporal : json) (w w' : world)
      (r : result (list new_memory)) :
  _create_memories E user_id id entities pad temporal w = (r, w') ->
  harmless w w'.
Proof.
  unfold _create_memories. intro H.
  apply bind_inv in H as [(a1 & w1 & Hs & H)|(e & Hs & _)];
    apply ask_json_harmless in Hs; [|exact Hs].
  apply bind_inv in H as [(a2 & w2 & Hl & H)|(e & Hl & _)];
    apply lift_same in Hl; subst; [|exact Hs].
  apply bind_inv in H as [(a3 & w3 & Hs3 & H)|(e & Hs3 & _)];
    apply ask_json_harmless in Hs3;
    pose proof (harmless_trans _ _ _ Hs Hs3) as H3; [|exact H3].
  apply bind_inv in H as [(a4 & w4 & Hl & H)|(e & Hl & _)];
    apply lift_same in Hl; subst; [|exact H3].
  apply bind_inv in H as [(a5 & w5 & Hl & H)|(e & Hl & _)];
    apply lift_same in Hl; subst; [|exact H3].
  apply bind_inv in H as [(a6 & w6 & Hc & H)|(e & Hc & _)];
    apply create_memory_event_harmless in Hc;
    pose proof (harmless_trans _ _ _ H3 Hc) as H6; [|exact H6].
  unfold ret in H. now injection H as _ <-.
Qed.

Lemma of_user_app (user_id : string) (a b : list persona) :
  of_user user_id (a ++ b) = of_user user_id a ++ of_user user_id b.
Proof. apply filter_app. Qed.

Lemma gained_harmless (user_id : string) (w w' : world) :
  gained_personas user_id w w' [] -> harmless w w'.
Proof.
  intros (_ & L & _ & _ & P & U & C & _). rewrite app_nil_r in P.
  unfold harmless. repeat split; auto.
  exists []. rewrite app_nil_r. split; [exact L | constructor].
Qed.

Lemma gained_parts (user_id : string) (w w' : world) (created : list persona) :
  gained_personas user_id w w' created ->
  logs_in_past w -> personas_in_past w ->
  logs_in_past w' /\ personas_in_past w'.
Proof.
  intros (_ & L & _ & _ & P & U & C & _ & F & N) Hl [Hp Hn].
  rewrite Forall_forall in F.
  split; [|split].
  - intros lg Hin. rewrite L in Hin. apply Hl in Hin. lia.
  - intros p Hin. rewrite P in Hin. apply in_app_or in Hin as [Hin|Hin].
    + apply Hp in Hin. lia.
    + apply F in Hin. lia.
  - rewrite P, map_app. apply NoDup_app; auto.
    intros x H1 H2.
    apply in_map_iff in H1 as (p1 & <- & H1).
    apply in_map_iff in H2 as (p2 & Heq & H2).
    apply Hp in H1. apply F in H2. lia.
Qed.

Lemma gained_nonempty (user_id : string) (w w' : world)
      (created : list persona) :
  gained_personas user_id w w' created ->
  of_user user_id (personas w) <> [] -> of_user user_id (personas w') <> [].
Proof.
  intros (_ & _ & _ & _ & P & _) Hne. rewrite P, of_user_app.
  destruct (of_user user_id (personas w)); [congruence | discriminate].
Qed.

(** One more persona for a user, under a name the user has not yet, and
    after the default persona. *)
Lemma names_ok_add (user_id : string) (w w' : world) (p : persona) :
  personas w' = personas w ++ [p] ->
  p_user_id p = user_id ->
  ~ In (p_name p) (map p_name (of_user user_id (personas w))) ->
  of_user user_id (personas w) <> [] \/ p_name p = Some DEFAULT_PERSONA_name ->
  names_ok w -> names_ok w'.
Proof.
  intros P Hu Hnew Hfirst Hn u. rewrite P, of_user_app.
  destruct (Hn u) as [Hd Hf].
  assert (Hone : of_user u [p] = if String.eqb (p_user_id p) u then [p] else [])
    by reflexivity.
  rewrite Hone. clear Hone.
  destruct (String.eqb (p_user_id p) u) eqn:Hpu.
  - apply String.eqb_eq in Hpu. rewrite Hu in Hpu. subst u.
    split.
    + rewrite map_app. cbn. apply NoDup_app; auto.
      * constructor; [intros []|constructor].
      * intros x H1 H2. destruct H2 as [H2|[]]. subst x. contradiction.
    + destruct (of_user user_id (personas w)) as [|p0 l]; cbn; auto.
      destruct Hfirst as [H|H]; [congruence | exact H].
  - rewrite app_nil_r. auto.
Qed.

Lemma store_ok_gain_one (user_id : string) (w w' : world) (p : persona) :
  gained_personas user_id w w' [p] ->
  ~ In (p_name p) (map p_name (of_user user_id (personas w))) ->
  of_user user_id (personas w) <> [] \/ p_name p = Some DEFAULT_PERSONA_name ->
  store_ok w -> settled user_id w'.
Proof.
  intros Hg Hnew Hfirst (Hl & Hp & Hn).
  destruct (gained_parts _ _ _ _ Hg Hl Hp) as [Hl' Hp'].
  pose proof Hg as (_ & _ & _ & _ & P & _ & _ & _ & F & _).
  apply Forall_inv in F. destruct F as (Hu & _).
  split; [split; [exact Hl' | split; [exact Hp'|]]|].
  - now apply (names_ok_add user_id w w' p).
  - rewrite P, of_user_app.
    assert (Hone : of_user user_id [p] = [p])
      by (unfold of_user; cbn; now rewrite Hu, String.eqb_refl).
    rewrite Hone.
    destruct (of_user user_id (personas w)); discriminate.
Qed.

Lemma ensure_default_settled (user_id : string) (w w' : world)
      (r : result nat) :
  _ensure_default_persona E user_id w = (r, w') ->
  store_ok w -> (exists id, r = Ok id) /\ settled user_id w'.
Proof.
  intros H Hs.
  apply ensure_default_run in H
    as [(p & Hin & _ & -> & ->)|(Hnone & p & -> & -> & Hn & Hu & Hid & Hc & _)].
  - split; [eauto|]. split; [exact Hs|].
    destruct (of_user user_id (personas w)); [destruct Hin | discriminate].
  - split; [eauto|].
    apply (store_ok_gain_one user_id w _ p); auto.
    + unfold gained_personas. cbn. repeat split; auto.
      * constructor; [|constructor]. repeat split; auto; lia.
      * constructor; [intros []|constructor].
    + intro Hin. apply in_map_iff in Hin as (p0 & Heq & Hin).
      apply (Hnone p0 Hin). congruence.
Qed.

(** The name the pipeline looked up and did not find is a name the user
    has not yet. *)
Lemma looked_up_name_is_new (name : json) (x : sqlval) (ps : list persona) :
  is_text_name name = true ->
  bind_param name = Ok x ->
  existsb (fun p => Py.text_eq (p_name p) name) ps = false ->
  ~ In (text_affinity E x) (map p_name ps).
Proof.
  intros Ht Hb Hex Hin.
  apply in_map_iff in Hin as (p & Hn & Hin).
  assert (Hfalse : Py.text_eq (p_name p) name = false).
  { rewrite <- not_true_iff_false. intro Hte.
    assert (existsb (fun p => Py.text_eq (p_name p) name) ps = true)
      by (apply existsb_exists; eauto).
    congruence. }
  destruct name; cbn in Ht, Hb; try discriminate.
  - injection Hb as <-. cbn in Hn. rewrite Hn in Hfalse. discriminate.
  - injection Hb as <-. cbn in Hn. rewrite Hn in Hfalse.
    cbn in Hfalse. rewrite String.eqb_refl in Hfalse. discriminate.
Qed.

Lemma create_persona_cases (user_id : string)
      (name descr traits style avatar : json) (w w' : world) (r : result nat) :
  create_persona E user_id name descr traits style avatar w = (r, w') ->
  (harmless w w' /\ exists e, r = Raise e)
  \/ (exists p x id,
        r = Ok id /\ gained_personas user_id w w' [p]
        /\ bind_param name = Ok x /\ p_name p = text_affinity E x).
Proof.
  intro H. apply create_persona_run in H as [created [-> Hc]].
  destruct Hc as [[-> He]|(p & x & -> & -> & Hb & Hn & Hid & Hu & Hc & _)].
  - left. split; [|exact He].
    unfold harmless. cbn. rewrite app_nil_r. repeat split; auto.
    exists []. rewrite app_nil_r. split; [reflexivity | constructor].
  - right. exists p, x, (next_uuid w).
    split; [reflexivity|]. split; [|split; [exact Hb | exact Hn]].
    unfold gained_personas. cbn. do 8 (split; [auto|]). split.
    + constructor; [|constructor]. cbn. repeat split; auto; lia.
    + constructor; [intros []|constructor].
Qed.

(** The loop of [_create_personas] keeps the store in order when the names
    are texts. *)
Lemma create_personas_loop_settled (user_id : string) (style : json)
      (names : list json) (acc : list new_persona) (w w' : world)
      (r : result (list new_persona)) :
  Forall (fun n => is_text_name n = true) names ->
  create_personas_loop E user_id style names acc w = (r, w') ->
  settled user_id w -> settled user_id w'.
Proof.
  intro Hnames. revert acc w.
  induction Hnames as [|name rest Hname _ IH]; intros acc w H Hs.
  - cbn in H. unfold ret in H. now injection H as _ <-.
  - cbn [create_personas_loop] in H.
    unfold get_personas, bind at 1, read in H.
    fold (of_user user_id (personas w)) in H.
    destruct (existsb _ (of_user user_id (personas w))) eqn:Hex;
      [now apply IH in H|].
    apply bind_inv in H as [(info & w1 & Ha & H)|(e & Ha & _)];
      apply ask_json_run in Ha as (v & q & _ & -> & _);
      pose proof (settled_harmless user_id _ _ (harmless_requests w q) Hs)
        as Hs1; [|exact Hs1].
    apply bind_inv in H as [(traits & w2 & Hl & H)|(e & Hl & _)];
      apply lift_same in Hl; subst; [|exact Hs1].
    apply bind_inv in H as [(formality & w2 & Hl & H)|(e & Hl & _)];
      apply lift_same in Hl; subst; [|exact Hs1].
    apply bind_inv in H as [(avatar & w2 & Hl & H)|(e & Hl & _)];
      apply lift_same in Hl; subst; [|exact Hs1].
    assert (Hstep : forall r2 w2,
               create_persona E user_id name
                 (JStr ("对话中出现的角色：" ++ py_str E name)%string)
                 traits formality avatar (with_requests q w) = (r2, w2) ->
               settled user_id w2).
    { intros r2 w2 Hc.
      apply create_persona_cases in Hc
        as [[Hh _]|(p & x & id & _ & Hg & Hb & Hn)].
      - now apply (settled_harmless user_id (with_requests q w)).
      - destruct Hs1 as [Hok Hne].
        apply (store_ok_gain_one user_id (with_requests q w) w2 p); auto.
        rewrite Hn. cbn [personas with_requests].
        now apply (looked_up_name_is_new name). }
    apply bind_inv in H as [(pid & w2 & Hc & H)|(e & Hc & _)];
      apply Hstep in Hc; [|exact Hc].
    now apply IH in H.
Qed.

Lemma text_names_of_entities (entities persons : json) (names : list json) :
  names_are_text entities = true ->
  Py.get entities "persons" (JList []) = Ok persons ->
  Py.iter persons = Ok names ->
  Forall (fun n => is_text_name n = true) names.
Proof.
  unfold names_are_text. intros Ht Hg Hi. rewrite Hg in Ht.
  destruct persons; cbn in Hi; try discriminate; injection Hi as <-.
  - clear. induction s as [|a s IH]; cbn; constructor; auto.
  - rewrite forallb_forall in Ht. apply Forall_forall. exact Ht.
  - apply Forall_forall. intros n Hin.
    apply in_map_iff in Hin as (kv0 & <- & _). reflexivity.
Qed.

Lemma create_personas_settled (user_id : string) (entities style : json)
      (w w' : world) (r : result (list new_persona)) :
  names_are_text entities = true ->
  _create_personas E user_id entities style w = (r, w') ->
  settled user_id w -> settled user_id w'.
Proof.
  unfold _create_personas. intros Ht H Hs.
  apply bind_inv in H as [(persons & w1 & Hl & H)|(e & Hl & _)];
    pose proof (lift_same _ _ _ _ Hl); subst; [|exact Hs].
  apply lift_ok in Hl as [Hg _].
  apply bind_inv in H as [(names & w1 & Hl & H)|(e & Hl & _)];
    pose proof (lift_same _ _ _ _ Hl); subst; [|exact Hs].
  apply lift_ok in Hl as [Hi _].
  apply (create_personas_loop_settled user_id style names [] w w' r); auto.
  now apply (text_names_of_entities entities persons).
Qed.

Lemma mark_reply_keeps (id : nat) (text : string) (lg : interaction_log) :
  log_id (mark_reply id text lg) = log_id lg
  /\ log_timestamp (mark_reply id text lg) = log_timestamp lg.
Proof. unfold mark_reply. destruct (Nat.eqb _ _); split; reflexivity. Qed.

Lemma mark_spoken_keeps (id t : nat) (p : persona) :
  p_persona_id (mark_spoken id t p) = p_persona_id p
  /\ p_name (mark_spoken id t p) = p_name p
  /\ p_user_id (mark_spoken id t p) = p_user_id p.
Proof. unfold mark_spoken. destruct (Nat.eqb _ _); repeat split. Qed.

Lemma of_user_spoken (user_id : string) (id t : nat) (ps : list persona) :
  of_user user_id (map (mark_spoken id t) ps)
  = map (mark_spoken id t) (of_user user_id ps).
Proof.
  induction ps as [|p ps IH]; [reflexivity|].
  unfold of_user in *. cbn [map filter].
  destruct (mark_spoken_keeps id t p) as (_ & _ & ->).
  destruct (String.eqb (p_user_id p) user_id); cbn [map]; now rewrite IH.
Qed.

Lemma names_spoken (id t : nat) (ps : list persona) :
  map p_name (map (mark_spoken id t) ps) = map p_name ps.
Proof.
  rewrite map_map. apply map_ext. intro p.
  now destruct (mark_spoken_keeps id t p) as (_ & -> & _).
Qed.

Lemma ids_spoken (id t : nat) (ps : list persona) :
  map p_persona_id (map (mark_spoken id t) ps) = map p_persona_id ps.
Proof.
  rewrite map_map. apply map_ext. intro p.
  now destruct (mark_spoken_keeps id t p) as (-> & _ & _).
Qed.

Lemma default_first_spoken (id t : nat) (ps : list persona) :
  default_first ps -> default_first (map (mark_spoken id t) ps).
Proof.
  destruct ps as [|p ps]; [auto|]. cbn.
  now destruct (mark_spoken_keeps id t p) as (_ & -> & _).
Qed.

(** Any run of [_get_response_to_interaction] keeps the store in order. *)
Lemma get_response_store_ok (user_id : string) (persona_id : option nat)
      (w w' : world) (r : result reply_result) :
  _get_response_to_interaction E user_id persona_id w = (r, w') ->
  store_ok w -> store_ok w'.
Proof.
  intros H Hs.
  apply get_response_run in H
    as [(rr & sp & content & q & _ & _ & _ & _ & _ & _ & _ & ->)
       |[(e & _ & _ & [[_ Hc]|[_ ->]])|(_ & _ & id & He)]].
  - destruct Hs as (Hl & (Hp & Hn) & Hnames).
    split; [|split; [split|]].
    + intros lg Hin. cbn in Hin.
      assert (Hsrc : exists lg0, In lg0 (interaction_logs w)
                                 /\ log_id lg = log_id lg0
                                 /\ log_timestamp lg = log_timestamp lg0).
      { destruct (latest_log user_id w) as [last|]; [|eauto].
        apply in_map_iff in Hin as (lg0 & <- & Hin).
        exists lg0. split; [exact Hin|]. apply mark_reply_keeps. }
      destruct Hsrc as (lg0 & Hin0 & -> & ->). apply Hl in Hin0. cbn. lia.
    + intros p Hin. cbn in Hin. apply in_map_iff in Hin as (p0 & <- & Hin).
      destruct (mark_spoken_keeps (p_persona_id sp) (clock w) p0) as (-> & _).
      cbn. now apply Hp.
    + cbn [personas]. now rewrite ids_spoken.
    + intro u. cbn [personas]. rewrite of_user_spoken, names_spoken.
      destruct (Hnames u) as [Hd Hf]. split; [exact Hd|].
      now apply default_first_spoken.
  - apply chat_run in Hc as (q & -> & _).
    apply (store_ok_harmless w); [apply harmless_requests | exact Hs].
  - exact Hs.
  - now apply ensure_default_settled in He as [_ [Hok _]].
Qed.

Lemma lift_harmless {A} (x : result A) (w w' : world) (r : result A) :
  lift x w = (r, w') -> harmless w w'.
Proof. intro H. apply lift_same in H. subst. apply harmless_refl. Qed.

Lemma ret_harmless {A} (x : A) (w w' : world) (r : result A) :
  ret x w = (r, w') -> harmless w w'.
Proof. unfold ret. intro H. injection H as _ <-. apply harmless_refl. Qed.

Lemma now_harmless (w w' : world) (r : result nat) :
  now w = (r, w') -> harmless w w'.
Proof.
  unfold now. intro H. injection H as _ <-.
  unfold harmless. cbn. repeat split; auto.
  exists []. rewrite app_nil_r. split; [reflexivity | constructor].
Qed.

Lemma analyze_image_harmless (image_path : string) (w w' : world)
      (r : result string) :
  _analyze_image E image_path w = (r, w') -> harmless w w'.
Proof.
  intro H. apply analyze_image_run in H as (q & -> & _).
  apply harmless_requests.
Qed.

Lemma update_personas_harmless (user_id : string) (entities : json)
      (w w' : world) (r : result (list persona)) :
  _update_personas user_id entities w = (r, w') -> harmless w w'.
Proof.
  unfold _update_personas, get_personas, bind, read, lift.
  intro H. injection H as _ <-. apply harmless_refl.
Qed.

Lemma ask_json_value (fallback : json) (w w' : world) (v : json) :
  _ask_json E fallback w = (Ok v, w') ->
  v = fallback
  \/ exists i content,
       http_post E i = Some content
       /\ json_loads E (json_candidate content) = Some v.
Proof.
  unfold _ask_json, extract_json.
  destruct (chat E w) as [[txt|e] w1] eqn:Hc; intro H; injection H as <- _;
    auto.
  destruct (json_loads E (json_candidate txt)) eqn:Hl; auto.
  apply chat_content in Hc as (i & _ & Hp & _). eauto.
Qed.

Ltac step_harmless H Hs lem :=
  let a := fresh "a" in
  let w1 := fresh "w" in
  let Hst := fresh "Hst" in
  let e := fresh "e" in
  apply bind_inv in H as [(a & w1 & Hst & H)|(e & Hst & _)];
  apply lem in Hst;
  apply (settled_harmless _ _ _ Hst) in Hs;
  [ | exact (proj1 Hs) ].

(** Any run of [process_interaction], however it ends, keeps the store in
    order, provided the replies that parse name persons by texts. *)
Lemma process_interaction_store_ok (user_id text input_type : string)
      (image_path : option string) (persona_id : option nat)
      (w w' : world) (r : result interaction_result) :
  replies_name_texts E ->
  process_interaction E user_id text input_type image_path persona_id w
  = (r, w') ->
  store_ok w -> store_ok w'.
Proof.
  intros Hloads H Hs. unfold process_interaction in H.
  apply bind_inv in H as [(profile & w1 & Hp & H)|(e & Hp & _)];
    unfold get_user_profile, read in Hp; injection Hp as _ <-; [|exact Hs].
  apply bind_inv in H as [(u & w1 & Hp & H)|(e & Hp & _)].
  2:{ destruct profile; [unfold ret in Hp; discriminate|].
      destruct (create_user_profile_run user_id w) as [ups Hups].
      unfold bind in Hp. rewrite Hups in Hp. unfold ret in Hp. discriminate. }
  assert (Hs1 : store_ok w1).
  { destruct profile.
    - unfold ret in Hp. now injection Hp as _ <-.
    - destruct (create_user_profile_run user_id w) as [ups Hups].
      unfold bind in Hp. rewrite Hups in Hp. unfold ret in Hp.
      injection Hp as _ <-.
      apply (store_ok_harmless w); [|exact Hs].
      unfold harmless. cbn. repeat split; auto.
      exists []. rewrite app_nil_r. split; [reflexivity | constructor]. }
  clear Hp Hs.
  apply bind_inv in H as [(d & w2 & Hd & H)|(e & Hd & _)];
    apply ensure_default_settled in Hd as [_ Hs2]; auto;
    [|exact (proj1 Hs2)].
  (* grounding *)
  apply bind_inv in H as [(grounded & w3 & Hg & H)|(e & Hg & _)].
  2:{ destruct image_path as [path|];
        [destruct (String.eqb path "")|]; try (unfold ret in Hg; discriminate).
      apply bind_inv in Hg as [(c & w0 & Hi & Hg)|(e' & Hi & _)];
        [unfold ret in Hg; discriminate|].
      apply analyze_image_harmless in Hi.
      exact (proj1 (settled_harmless _ _ _ Hi Hs2)). }
  assert (Hs3 : settled user_id w3).
  { destruct image_path as [path|]; [destruct (String.eqb path "")|];
      try (unfold ret in Hg; now injection Hg as _ <-).
    apply bind_inv in Hg as [(c & w0 & Hi & Hg)|(e' & Hi & _)].
    - unfold ret in Hg. injection Hg as _ <-.
      apply analyze_image_harmless in Hi.
      exact (settled_harmless _ _ _ Hi Hs2).
    - apply analyze_image_harmless in Hi.
      exact (settled_harmless _ _ _ Hi Hs2). }
  clear Hg Hs2.
  step_harmless H Hs3 ask_json_harmless.
  step_harmless H Hs3 (@lift_harmless json).
  step_harmless H Hs3 (@lift_harmless json).
  step_harmless H Hs3 log_interaction_harmless.
  step_harmless H Hs3 (@lift_harmless json).
  step_harmless H Hs3 (@lift_harmless json).
  step_harmless H Hs3 (@lift_harmless json).
  step_harmless H Hs3 (@lift_harmless json).
  step_harmless H Hs3 save_emotion_analysis_harmless.
  (* entities *)
  apply bind_inv in H as [(entities & wE & Hent & H)|(e & Hent & _)];
    pose proof (ask_json_harmless _ _ _ _ Hent) as Hh;
    apply (settled_harmless _ _ _ Hh) in Hs3; [|exact (proj1 Hs3)].
  assert (Htext : names_are_text entities = true).
  { apply ask_json_value in Hent as [->|(i & content & Hp & Hl)];
      [reflexivity | exact (Hloads i content entities Hp Hl)]. }
  clear Hent Hh.
  step_harmless H Hs3 ask_json_harmless.
  step_harmless H Hs3 ask_json_harmless.
  (* personas *)
  apply bind_inv in H as [(new_ps & wP & Hcp & H)|(e & Hcp & _)];
    apply (create_personas_settled _ _ _ _ _ _ Htext) in Hcp; auto;
    [|exact (proj1 Hcp)].
  step_harmless H Hcp update_personas_harmless.
  step_harmless H Hcp create_memories_harmless.
  destruct Hcp as [Hok _].
  apply bind_inv in H as [(rr & wR & Hrep & H)|(e & Hrep & _)];
    apply get_response_store_ok in Hrep; auto.
  apply bind_inv in H as [(t & wN & Hnow & H)|(e & Hnow & _)];
    apply now_harmless in Hnow;
    apply (store_ok_harmless _ _ Hnow) in Hrep; [|exact Hrep].
  unfold ret in H. now injection H as _ <-.
Qed.

Lemma empty_world_ok : store_ok empty_world.
Proof.
  split; [|split; [split|]].
  - intros lg [].
  - intros p [].
  - constructor.
  - intro u. split; [constructor | exact I].
Qed.

Lemma reachable_store_ok (w : world) :
  replies_name_texts E ->
  reachable E w -> store_ok w.
Proof.
  intros Hloads Hr. induction Hr as [|w u text it img pid _ IH].
  - exact empty_world_ok.
  - destruct (process_interaction E u text it img pid w) as [r w'] eqn:Hrun.
    cbn. exact (process_interaction_store_ok _ _ _ _ _ _ _ _ Hloads Hrun IH).
Qed.

End Invariants.

(** ** The endpoint down, and the persona invariant *)

Section Failures.

Open Scope list_scope.

Variable E : externals.

Lemma post_attempts_down (n : nat) (w : world) :
  (forall i, http_post E i = None) ->
  exists w', post_attempts E n w = (Raise RuntimeError, w').
Proof.
  intro Hdown. revert w. induction n as [|n IH]; intro w; cbn.
  - eexists. reflexivity.
  - rewrite Hdown. apply IH.
Qed.

(** An interaction that returns has had its reply from a request that
    succeeded. *)
Lemma process_interaction_reply_call (user_id text input_type : string)
      (image_path : option string) (persona_id : option nat)
      (w w' : world) (r : interaction_result) :
  process_interaction E user_id text input_type image_path persona_id w
  = (Ok r, w') ->
  exists wk content q,
    chat E wk = (Ok content, with_requests q wk)
    /\ reply (res_reply r) = str_strip E content.
Proof.
  unfold process_interaction. intro H.
  do 19 (apply bind_ok in H as (? & ? & _ & H)).
  apply bind_ok in H as (rr & wr & Hrep & H).
  apply bind_ok in H as (t & wn & _ & H).
  apply ret_ok in H as [-> _]. cbn.
  apply get_response_run in Hrep
    as [(rr' & sp & content & q & Hrr & _ & _ & _ & Hreply & Hc & _)
       |[(e & He & _)|(He & _)]]; try discriminate.
  injection Hrr as <-.
  eexists. exists content, q. split; [exact Hc | exact Hreply].
Qed.

(** C8: when every reply of the model names persons by texts, then in
    every store that sequential interactions lead to, however they ended,
    the personas of a user bear pairwise different names, and the user's
    first persona is the default assistant, the only one of that name. *)
Theorem persona_names_unique (w : world) :
  replies_name_texts E ->
  reachable E w ->
  forall user_id,
    NoDup (map p_name (of_user user_id (personas w)))
    /\ forall first rest,
         of_user user_id (personas w) = first :: rest ->
         p_name first = Some DEFAULT_PERSONA_name
         /\ forall p, In p rest -> p_name p <> Some DEFAULT_PERSONA_name.
Proof.
  intros Hloads Hr user_id.
  destruct (reachable_store_ok E w Hloads Hr) as (_ & _ & Hn).
  destruct (Hn user_id) as [Hd Hf]. split; [exact Hd|].
  intros first rest Heq. rewrite Heq in Hd, Hf. cbn in Hd, Hf.
  split; [exact Hf|].
  intros p Hin Hp. apply NoDup_cons_iff in Hd as [Hnot _].
  apply Hnot. rewrite Hf, <- Hp. now apply in_map.
Qed.

End Failures.

(** ** The store: what its queries answer and what its updates keep *)

Section StoreFacts.

Open Scope nat_scope.
Open Scope list_scope.

Variable E : externals.

Lemma find_after_replace (user_id : string) (ups : list user_profile)
      (p : user_profile) :
  up_user_id p = user_id ->
  find (fun u => String.eqb (up_user_id u) user_id)
       (filter (fun u => negb (String.eqb (up_user_id u) user_id)) ups ++ [p])
  = Some p.
Proof.
  intro Hp. induction ups as [|a ups IH]; simpl.
  - now rewrite Hp, String.eqb_refl.
  - destruct (String.eqb (up_user_id a) user_id) eqn:Ha; simpl; [exact IH|].
    now rewrite Ha.
Qed.

Lemma find_other_after_replace (user_id other : string)
      (ups : list user_profile) (p : user_profile) :
  up_user_id p = user_id -> other <> user_id ->
  find (fun u => String.eqb (up_user_id u) other)
       (filter (fun u => negb (String.eqb (up_user_id u) user_id)) ups ++ [p])
  = find (fun u => String.eqb (up_user_id u) other) ups.
Proof.
  intros Hp Hne. induction ups as [|a ups IH]; simpl.
  - rewrite Hp. destruct (String.eqb user_id other) eqn:Hx; [|reflexivity].
    apply String.eqb_eq in Hx. congruence.
  - destruct (String.eqb (up_user_id a) user_id) eqn:Ha; simpl.
    + apply String.eqb_eq in Ha.
      destruct (String.eqb (up_user_id a) other) eqn:Hb; [|exact IH].
      apply String.eqb_eq in Hb. congruence.
    + destruct (String.eqb (up_user_id a) other); [reflexivity | exact IH].
Qed.

Lemma one_after_replace (user_id : string) (ups : list user_profile)
      (p : user_profile) :
  up_user_id p = user_id ->
  filter (fun u => String.eqb (up_user_id u) user_id)
         (filter (fun u => negb (String.eqb (up_user_id u) user_id)) ups ++ [p])
  = [p].
Proof.
  intro Hp. induction ups as [|a ups IH]; simpl.
  - now rewrite Hp, String.eqb_refl.
  - destruct (String.eqb (up_user_id a) user_id) eqn:Ha; simpl; [exact IH|].
    now rewrite Ha.
Qed.

(** X1: [create_user_profile(user_id)] followed by [get_user_profile]
    answers the default profile stamped with the time of the call,
    whatever profile the user had before; the user has exactly one
    profile afterwards, the profiles of the other users read as before,
    and no other table changes. *)
Theorem create_user_profile_replaces (user_id : string) (w : world) :
  exists w',
    create_user_profile user_id w = (Ok user_id, w')
    /\ get_user_profile user_id w'
       = (Ok (Some (default_profile user_id (clock w))), w')
    /\ filter (fun u => String.eqb (up_user_id u) user_id) (user_profiles w')
       = [default_profile user_id (clock w)]
    /\ (forall other, other <> user_id ->
          fst (get_user_profile other w') = fst (get_user_profile other w))
    /\ interaction_logs w' = interaction_logs w
    /\ emotion_analyses w' = emotion_analyses w
    /\ personas w' = personas w
    /\ memory_events w' = memory_events w.
Proof.
  eexists. split; [reflexivity|].
  unfold get_user_profile, read. cbn.
  fold (default_profile user_id (clock w)).
  split; [now rewrite find_after_replace|].
  split; [now apply one_after_replace|].
  split; [|repeat split].
  intros other Hne. now rewrite (find_other_after_replace user_id).
Qed.

(** *** [ORDER BY ... DESC LIMIT ?] *)

Lemma insert_desc_perm {A} (key : A -> nat) (x : A) (l : list A) :
  Permutation (insert_desc key x l) (x :: l).
Proof.
  induction l as [|y l IH]; simpl; [reflexivity|].
  destruct (Nat.ltb (key y) (key x)); [reflexivity|].
  rewrite IH. apply perm_swap.
Qed.

Lemma order_desc_perm {A} (key : A -> nat) (l : list A) :
  Permutation (order_desc key l) l.
Proof.
  induction l as [|x l IH]; simpl; [reflexivity|].
  rewrite insert_desc_perm. now constructor.
Qed.

Lemma insert_desc_newest_first {A} (key : A -> nat) (x : A) (l : list A) :
  newest_first key l -> newest_first key (insert_desc key x l).
Proof.
  induction l as [|y l IH]; intro Hs.
  - simpl. split; [intros ? []|exact I].
  - cbn [insert_desc]. destruct Hs as [Hy Hs].
    destruct (Nat.ltb (key y) (key x)) eqn:Hlt.
    + apply Nat.ltb_lt in Hlt. split; [|split; assumption].
      intros z [<-|Hz]; [lia|]. apply Hy in Hz. lia.
    + apply Nat.ltb_ge in Hlt. split; [|now apply IH].
      intros z Hz.
      apply (Permutation_in _ (insert_desc_perm key x l)) in Hz.
      destruct Hz as [<-|Hz]; [exact Hlt | now apply Hy].
Qed.

Lemma order_desc_newest_first {A} (key : A -> nat) (l : list A) :
  newest_first key (order_desc key l).
Proof.
  induction l as [|x l IH]; simpl; [exact I|].
  now apply insert_desc_newest_first.
Qed.

Lemma In_firstn {A} (n : nat) (l : list A) (x : A) :
  In x (firstn n l) -> In x l.
Proof.
  revert l. induction n as [|n IH]; intros [|y l]; simpl;
    try (intros []; fail).
  intros [H|H]; auto.
Qed.

Lemma firstn_newest_first {A} (key : A -> nat) (n : nat) (l : list A) :
  newest_first key l -> newest_first key (firstn n l).
Proof.
  revert l. induction n as [|n IH]; intros [|y l]; simpl; auto.
  intros [Hy Hs]. split; [|now apply IH].
  intros z Hz. apply Hy. now apply In_firstn in Hz.
Qed.

Lemma newest_first_app {A} (key : A -> nat) (a b : list A) (x y : A) :
  newest_first key (a ++ b) -> In x a -> In y b -> key y <= key x.
Proof.
  induction a as [|z a IH]; simpl; [intros _ []|].
  intros [Hz Hs] [<-|Hx] Hy.
  - apply Hz. apply in_or_app. now right.
  - now apply IH.
Qed.

(** What [ORDER BY key DESC LIMIT ?] answers. *)
Lemma sql_limit_spec {A} (key : A -> nat) (limit : Z) (rows : list A) :
  match sql_limit limit (order_desc key rows) with
  | Raise e => e = OverflowError /\ int64_ok limit = false
  | Ok l =>
      int64_ok limit = true
      /\ newest_first key l
      /\ (forall x, In x l -> In x rows)
      /\ ((0 <= limit)%Z ->
          List.length l = Nat.min (Z.to_nat limit) (List.length rows))
      /\ ((limit < 0)%Z \/ (Z.of_nat (List.length rows) <= limit)%Z ->
          Permutation l rows)
      /\ (forall x y, In x l -> In y rows -> ~ In y l -> key y <= key x)
  end.
Proof.
  unfold sql_limit. destruct (int64_ok limit); [|auto].
  pose proof (order_desc_perm key rows) as Hperm.
  pose proof (order_desc_newest_first key rows) as Hnew.
  split; [reflexivity|].
  destruct (Z.ltb limit 0) eqn:Hneg.
  - apply Z.ltb_lt in Hneg.
    split; [exact Hnew|].
    split; [intros x Hx; exact (Permutation_in _ Hperm Hx)|].
    split; [lia|]. split; [intros _; exact Hperm|].
    intros x y _ Hy Hn. exfalso. apply Hn.
    exact (Permutation_in _ (Permutation_sym Hperm) Hy).
  - apply Z.ltb_ge in Hneg.
    split; [now apply firstn_newest_first|].
    split.
    { intros x Hx. apply In_firstn in Hx. exact (Permutation_in _ Hperm Hx). }
    split.
    { intros _. rewrite length_firstn.
      now rewrite (Permutation_length Hperm). }
    split.
    { intros [H|H]; [lia|]. rewrite firstn_all2; [exact Hperm|].
      rewrite (Permutation_length Hperm). lia. }
    intros x y Hx Hy Hn.
    apply (Permutation_in _ (Permutation_sym Hperm)) in Hy.
    rewrite <- (firstn_skipn (Z.to_nat limit) (order_desc key rows)) in Hy, Hnew.
    apply in_app_or in Hy as [Hy|Hy]; [contradiction|].
    exact (newest_first_app key _ _ x y Hnew Hx Hy).
Qed.

(** X2: [get_interaction_logs(user_id, limit)] changes nothing.  It
    raises [OverflowError] exactly when [limit] does not fit 64 bits.
    Otherwise it answers logs of that user in the store, the newest
    first, and no log it leaves out is newer than one it answers: all the
    user's logs when [limit] is negative (SQLite takes it for no limit)
    or not below their number, and [limit] of them otherwise. *)
Theorem get_interaction_logs_newest_first
        (user_id : string) (limit : Z) (w : world) :
  match get_interaction_logs user_id limit w with
  | (Raise e, w') => e = OverflowError /\ int64_ok limit = false /\ w' = w
  | (Ok l, w') =>
      w' = w /\ int64_ok limit = true
      /\ newest_first log_timestamp l
      /\ (forall lg, In lg l ->
            In lg (interaction_logs w) /\ log_user_id lg = user_id)
      /\ ((0 <= limit)%Z ->
          List.length l
          = Nat.min (Z.to_nat limit) (List.length (logs_of user_id w)))
      /\ ((limit < 0)%Z
          \/ (Z.of_nat (List.length (logs_of user_id w)) <= limit)%Z ->
          Permutation l (logs_of user_id w))
      /\ (forall lg lg', In lg l -> In lg' (logs_of user_id w) ->
            ~ In lg' l -> log_timestamp lg' <= log_timestamp lg)
  end.
Proof.
  unfold get_interaction_logs. fold (logs_of user_id w).
  pose proof (sql_limit_spec log_timestamp limit (logs_of user_id w)) as H.
  destruct (sql_limit limit (order_desc log_timestamp (logs_of user_id w)))
    as [l|e].
  - destruct H as (H1 & H2 & H3 & H4 & H5 & H6).
    repeat (split; [assumption || reflexivity|]).
    split; [|split; [exact H4 | split; [exact H5 | exact H6]]].
    intros lg Hin. apply H3 in Hin. unfold logs_of in Hin.
    apply filter_In in Hin as [Hin Hu].
    split; [exact Hin | now apply String.eqb_eq].
  - destruct H as [H1 H2]. auto.
Qed.

(** *** [save_assistant_reply] *)

Lemma set_key_twice (k : string) (v1 v2 : json) (kv : list (string * json)) :
  Py.set_key k v2 (Py.set_key k v1 kv) = Py.set_key k v2 kv.
Proof.
  induction kv as [|[k' v'] kv IH]; simpl.
  - now rewrite String.eqb_refl.
  - destruct (String.eqb k k') eqn:Hk; simpl; rewrite Hk; [reflexivity|].
    now rewrite IH.
Qed.

Lemma lookup_set_key (k : string) (v : json) (kv : list (string * json)) :
  Py.lookup k (Py.set_key k v kv) = Some v.
Proof.
  induction kv as [|[k' v'] kv IH]; simpl.
  - now rewrite String.eqb_refl.
  - destruct (String.eqb k k') eqn:Hk; simpl; rewrite Hk; auto.
Qed.

Lemma lookup_set_other (k k0 : string) (v : json) (kv : list (string * json)) :
  k0 <> k -> Py.lookup k0 (Py.set_key k v kv) = Py.lookup k0 kv.
Proof.
  intro Hne. induction kv as [|[k' v'] kv IH]; simpl.
  - destruct (String.eqb k0 k) eqn:Hk; [|reflexivity].
    apply String.eqb_eq in Hk. congruence.
  - destruct (String.eqb k k') eqn:Hk; simpl.
    + apply String.eqb_eq in Hk. subst k'.
      destruct (String.eqb k0 k) eqn:Hk0; [|reflexivity].
      apply String.eqb_eq in Hk0. congruence.
    + now rewrite IH.
Qed.

Lemma set_reply_twice (r1 r2 : string) (lg : interaction_log) :
  set_reply r2 (set_reply r1 lg) = set_reply r2 lg.
Proof.
  unfold set_reply. cbn.
  destruct (log_processing_metadata lg); try reflexivity.
  now rewrite set_key_twice.
Qed.

Lemma mark_reply_twice (id : nat) (r1 r2 : string) (lg : interaction_log) :
  mark_reply id r2 (mark_reply id r1 lg) = mark_reply id r2 lg.
Proof.
  unfold mark_reply. destruct (Nat.eqb (log_id lg) id) eqn:Hid.
  - cbn [set_reply log_id]. rewrite Hid. apply set_reply_twice.
  - now rewrite Hid.
Qed.


(** *** [get_memory_events] with a type *)

(** X4: [get_memory_events(user_id, memory_type, limit)] changes
    nothing and raises [OverflowError] exactly when [limit] does not fit
    64 bits.  With the empty text for [memory_type] it answers what it
    answers without one.  With another text it answers only memories of
    that user and that type, the newest first: all of them when [limit]
    is negative (SQLite takes it for no limit) or not below their number,
    and [limit] of them otherwise. *)
Theorem get_memory_events_by_type
        (user_id : string) (memory_type : option string) (limit : Z)
        (w : world) :
  (memory_type = None \/ memory_type = Some ""%string ->
   get_memory_events_by user_id memory_type limit w
   = get_memory_events user_id limit w)
  /\ match get_memory_events_by user_id memory_type limit w with
     | (Raise e, w') => e = OverflowError /\ int64_ok limit = false /\ w' = w
     | (Ok l, w') =>
         w' = w /\ int64_ok limit = true
         /\ newest_first m_created_at l
         /\ (forall m, In m l ->
               In m (memory_events w) /\ m_user_id m = user_id)
         /\ ((0 <= limit)%Z -> List.length l <= Z.to_nat limit)
         /\ forall t, memory_type = Some t -> t <> ""%string ->
              let typed := filter (has_type t) (memories_of user_id w) in
              (forall m, In m l -> m_memory_type m = Some t)
              /\ ((0 <= limit)%Z ->
                  List.length l
                  = Nat.min (Z.to_nat limit) (List.length typed))
              /\ ((limit < 0)%Z \/ (Z.of_nat (List.length typed) <= limit)%Z ->
                  Permutation l typed)
              /\ (forall m m', In m l -> In m' typed -> ~ In m' l ->
                    m_created_at m' <= m_created_at m)
     end.
Proof.
  assert (Hplain :
            match get_memory_events user_id limit w with
            | (Raise e, w') =>
                e = OverflowError /\ int64_ok limit = false /\ w' = w
            | (Ok l, w') =>
                w' = w /\ int64_ok limit = true
                /\ newest_first m_created_at l
                /\ (forall m, In m l ->
                      In m (memory_events w) /\ m_user_id m = user_id)
                /\ ((0 <= limit)%Z -> List.length l <= Z.to_nat limit)
            end).
  { unfold get_memory_events. fold (memories_of user_id w).
    pose proof (sql_limit_spec m_created_at limit (memories_of user_id w))
      as H.
    destruct (sql_limit limit _) as [l|e];
      [|destruct H as [H1 H2]; auto].
    destruct H as (H1 & H2 & H3 & H4 & _).
    repeat (split; [assumption || reflexivity|]).
    split; [|intro H0; rewrite (H4 H0); apply Nat.le_min_l].
    intros m Hin. apply H3 in Hin. unfold memories_of in Hin.
    apply filter_In in Hin as [Hin Hu].
    split; [exact Hin | now apply String.eqb_eq]. }
  unfold get_memory_events_by.
  destruct memory_type as [t|].
  2:{ split; [reflexivity|].
      destruct (get_memory_events user_id limit w) as [[l|e] w']; [|exact Hplain].
      destruct Hplain as (H1 & H2 & H3 & H4 & H5).
      repeat (split; [assumption|]). intros t H. discriminate. }
  destruct (String.eqb t "") eqn:Ht; cbn [negb].
  { apply String.eqb_eq in Ht. subst t. split; [reflexivity|].
    destruct (get_memory_events user_id limit w) as [[l|e] w']; [|exact Hplain].
    destruct Hplain as (H1 & H2 & H3 & H4 & H5).
    repeat (split; [assumption|]). intros t H Hne. injection H as <-.
    contradiction. }
  clear Hplain. split.
  { intros [H|H]; [discriminate|]. injection H as ->. discriminate. }
  assert (Hf : filter (fun m => String.eqb (m_user_id m) user_id && has_type t m)
                      (memory_events w)
               = filter (has_type t) (memories_of user_id w)).
  { unfold memories_of. induction (memory_events w) as [|m l IH];
      [reflexivity|]. simpl.
    destruct (String.eqb (m_user_id m) user_id); simpl;
      [destruct (has_type t m); now rewrite IH | exact IH]. }
  rewrite Hf.
  pose proof (sql_limit_spec m_created_at limit
                (filter (has_type t) (memories_of user_id w))) as H.
  destruct (sql_limit limit _) as [l|e]; [|destruct H as [H1 H2]; auto].
  destruct H as (H1 & H2 & H3 & H4 & H5 & H6).
  repeat (split; [assumption || reflexivity|]).
  assert (Hin : forall m, In m l ->
                  In m (memory_events w) /\ m_user_id m = user_id
                  /\ m_memory_type m = Some t).
  { intros m Hm. apply H3 in Hm. apply filter_In in Hm as [Hm Hty].
    unfold memories_of in Hm. apply filter_In in Hm as [Hm Hu].
    split; [exact Hm|]. split; [now apply String.eqb_eq|].
    unfold has_type in Hty. destruct (m_memory_type m); [|discriminate].
    apply String.eqb_eq in Hty. now subst. }
  split; [intros m Hm; destruct (Hin m Hm) as (A & B & _); auto|].
  split; [intro H0; rewrite (H4 H0); apply Nat.le_min_l|].
  intros t' H _. injection H as <-. cbn zeta.
  split; [intros m Hm; exact (proj2 (proj2 (Hin m Hm)))|].
  split; [exact H4|]. split; [exact H5 | exact H6].
Qed.

(** *** [get_emotion_analysis] *)

Lemma find_last {A} (f : A -> bool) (old : list A) (x : A) :
  (forall y, In y old -> f y = false) -> f x = true ->
  find f (old ++ [x]) = Some x.
Proof.
  intros Hold Hx. induction old as [|y old IH]; simpl.
  - now rewrite Hx.
  - rewrite (Hold y) by now left. apply IH. intros; apply Hold; now right.
Qed.

Lemma find_before_last {A} (f : A -> bool) (old : list A) (x : A) :
  f x = false -> find f (old ++ [x]) = find f old.
Proof.
  intro Hx. induction old as [|y old IH]; simpl.
  - now rewrite Hx.
  - destruct (f y); [reflexivity | exact IH].
Qed.

(** X5: after an interaction that returns, [get_emotion_analysis] of the
    identifier it reports answers the analysis saved by this interaction
    (the PAD values, category, confidence and method of its [pad_analysis]);
    for every other identifier it answers what it answered before. *)
Theorem get_emotion_analysis_of_interaction
        (user_id text input_type : string) (image_path : option string)
        (persona_id : option nat) (w w' : world) (r : interaction_result) :
  process_interaction E user_id text input_type image_path persona_id w
  = (Ok r, w') ->
  logs_in_past w -> analyses_in_past w ->
  (exists ea,
      get_emotion_analysis (interaction_log_id r) w' = (Ok (Some ea), w')
      /\ analysis_records E (pad_analysis r) (interaction_log_id r) ea)
  /\ forall id, id <> interaction_log_id r ->
                fst (get_emotion_analysis id w')
                = fst (get_emotion_analysis id w).
Proof.
  intros Hrun Hpast Hana.
  destruct (process_interaction_ok E _ _ _ _ _ _ _ _ Hrun Hpast)
    as (lg & ea & mem & nm & created & sp & t & _ & HA & _ & _ & _ & _ & _ & _
        & Hid & Hfresh & _ & _ & Hrec & _).
  unfold get_emotion_analysis, read. cbn [fst]. rewrite HA.
  pose proof Hrec as (Hea & _).
  split.
  - exists ea. split; [|exact Hrec]. f_equal. f_equal.
    apply find_last.
    + intros y Hy. apply Hana in Hy. apply Nat.eqb_neq. lia.
    + rewrite Hea. apply Nat.eqb_refl.
  - intros id Hne. f_equal. apply find_before_last.
    rewrite Hea. apply Nat.eqb_neq. congruence.
Qed.

(** *** [get_statistics] *)

Lemma same_type_eq (a b : option string) : same_type a b = true <-> a = b.
Proof.
  destruct a as [x|], b as [y|]; simpl; try (split; congruence).
  rewrite String.eqb_eq. split; congruence.
Qed.

Lemma same_type_refl (a : option string) : same_type a a = true.
Proof. now apply same_type_eq. Qed.

Lemma count_group_total (k : option string) (d : list (option string * nat)) :
  total_of (count_group k d) = S (total_of d).
Proof.
  induction d as [|[k' n] d IH]; simpl; [reflexivity|].
  destruct (same_type k k'); simpl; [reflexivity|]. rewrite IH. lia.
Qed.

Lemma count_group_keys (k : option string) (d : list (option string * nat)) :
  map fst (count_group k d) = map fst d
  \/ (map fst (count_group k d) = map fst d ++ [k] /\ ~ In k (map fst d)).
Proof.
  induction d as [|[k' n] d IH]; simpl.
  - right. split; [reflexivity | intros []].
  - destruct (same_type k k') eqn:Hk; simpl; [now left|].
    destruct IH as [IH|[IH Hn]]; [left | right]; rewrite IH; auto.
    split; [reflexivity|]. intros [H|H]; [|contradiction].
    subst k'. now rewrite same_type_refl in Hk.
Qed.

Lemma count_group_nodup (k : option string) (d : list (option string * nat)) :
  NoDup (map fst d) -> NoDup (map fst (count_group k d)).
Proof.
  intro Hd. destruct (count_group_keys k d) as [->|[-> Hn]]; [exact Hd|].
  apply NoDup_app; [exact Hd | repeat constructor; intros [] |].
  intros x Hx [<-|[]]. contradiction.
Qed.

Lemma count_group_at (t k : option string) (d : list (option string * nat)) :
  tally_at t (count_group k d)
  = tally_at t d + (if same_type t k then 1 else 0).
Proof.
  induction d as [|[k' n] d IH]; simpl; [lia|].
  destruct (same_type k k') eqn:Hk; simpl.
  - apply same_type_eq in Hk. subst k'.
    destruct (same_type t k); lia.
  - rewrite IH. lia.
Qed.

Lemma count_group_positive (k : option string)
      (d : list (option string * nat)) :
  Forall (fun e => 0 < snd e) d -> Forall (fun e => 0 < snd e) (count_group k d).
Proof.
  induction d as [|[k' n] d IH]; simpl; intro H.
  - repeat constructor.
  - inversion H; subst. destruct (same_type k k'); constructor; auto.
    simpl. lia.
Qed.

Lemma count_group_has (k : option string) (d : list (option string * nat)) :
  In k (map fst (count_group k d))
  /\ forall x, In x (map fst d) -> In x (map fst (count_group k d)).
Proof.
  induction d as [|[k' n] d [IH1 IH2]]; simpl.
  - split; [now left | intros ? []].
  - destruct (same_type k k') eqn:Hk; simpl.
    + apply same_type_eq in Hk. subst k'. split; [now left | auto].
    + split; [now right|]. intros x [H|H]; auto.
Qed.

Lemma group_by_type_facts (ms : list memory_event)
      (d : list (option string * nat)) :
  NoDup (map fst d) -> Forall (fun e => 0 < snd e) d ->
  total_of (group_by_type ms d) = total_of d + List.length ms
  /\ NoDup (map fst (group_by_type ms d))
  /\ Forall (fun e => 0 < snd e) (group_by_type ms d)
  /\ (forall t, tally_at t (group_by_type ms d)
                 = tally_at t d + List.length (of_type t ms))
  /\ (forall x, In x (map fst d) -> In x (map fst (group_by_type ms d)))
  /\ (forall m, In m ms -> In (m_memory_type m) (map fst (group_by_type ms d))).
Proof.
  revert d. induction ms as [|m ms IH]; intros d Hd Hp; simpl.
  - repeat split; auto; try lia; try (intros ? []; fail).
  - destruct (IH (count_group (m_memory_type m) d)
                 (count_group_nodup _ _ Hd) (count_group_positive _ _ Hp))
      as (H1 & H2 & H3 & H4 & H5 & H6).
    destruct (count_group_has (m_memory_type m) d) as [Hk Hk'].
    split; [rewrite H1, count_group_total; lia|].
    split; [exact H2|]. split; [exact H3|].
    split.
    { intro t. rewrite H4, count_group_at. unfold of_type. simpl.
      destruct (same_type t (m_memory_type m)); simpl; lia. }
    split; [intros x Hx; apply H5, Hk', Hx|].
    intros m' [<-|Hin]; [apply H5, Hk | now apply H6].
Qed.

Lemma tally_at_in (t : option string) (n : nat)
      (d : list (option string * nat)) :
  NoDup (map fst d) -> In (t, n) d -> tally_at t d = n.
Proof.
  induction d as [|[k m] d IH]; simpl; intros Hd Hin; [contradiction|].
  inversion Hd as [|? ? Hk Hd']; subst.
  destruct Hin as [Heq|Hin].
  - injection Heq as -> ->. rewrite same_type_refl.
    assert (tally_at t d = 0); [|lia].
    clear - Hk. induction d as [|[k m] d IH]; simpl; [reflexivity|].
    destruct (same_type t k) eqn:Hs.
    + apply same_type_eq in Hs. subst k. exfalso. apply Hk. now left.
    + rewrite IH; [reflexivity|]. intro H. apply Hk. now right.
  - destruct (same_type t k) eqn:Hs.
    + apply same_type_eq in Hs. subst k. exfalso. apply Hk.
      change t with (fst (t, n)). now apply in_map.
    + now apply IH.
Qed.

Lemma get_statistics_counts (seven_days : nat) (user_id : string)
      (w w1 : world) (s : statistics) :
  get_statistics seven_days user_id w = (Ok s, w1) ->
  st_interaction_count s = List.length (logs_of user_id w)
  /\ st_memory_count s = List.length (memories_of user_id w)
  /\ st_persona_count s = List.length (of_user user_id (personas w)).
Proof.
  unfold get_statistics, bind, read, now, ret. cbn.
  intro H. injection H as <- _. repeat split.
Qed.

(** X6: [get_statistics] always answers and changes no table.  Its
    counts are the numbers of the user's logs, memories and personas;
    [memory_distribution] has one entry for each memory type the user
    has, holding the number of the user's memories of that type, so that
    its counts add up to [memory_count]; [recent_interactions] never
    exceeds [interaction_count]. *)
Theorem get_statistics_consistent (seven_days : nat) (user_id : string)
        (w : world) :
  exists s,
    get_statistics seven_days user_id w = (Ok s, with_clock (S (S (clock w))) w)
    /\ st_interaction_count s = List.length (logs_of user_id w)
    /\ st_memory_count s = List.length (memories_of user_id w)
    /\ st_persona_count s = List.length (of_user user_id (personas w))
    /\ total_of (st_memory_distribution s) = st_memory_count s
    /\ NoDup (map fst (st_memory_distribution s))
    /\ (forall t n, In (t, n) (st_memory_distribution s) ->
           0 < n /\ n = List.length (of_type t (memories_of user_id w)))
    /\ (forall m, In m (memories_of user_id w) ->
           In (m_memory_type m) (map fst (st_memory_distribution s)))
    /\ st_recent_interactions s <= st_interaction_count s.
Proof.
  destruct (group_by_type_facts (memories_of user_id w) [])
    as (H1 & H2 & H3 & H4 & _ & H6); [constructor | constructor |].
  eexists. split.
  { unfold get_statistics, bind, read, now, ret. cbn. reflexivity. }
  cbn. split; [reflexivity|]. split; [reflexivity|]. split; [reflexivity|].
  split; [exact H1|]. split; [exact H2|].
  split.
  { intros t n Hin. split.
    - rewrite Forall_forall in H3. exact (H3 _ Hin).
    - rewrite <- (tally_at_in t n _ H2 Hin). apply H4. }
  split; [exact H6|].
  apply filter_length_le.
Qed.

Lemma set_reply_user (text : string) (lg : interaction_log) :
  log_user_id (set_reply text lg) = log_user_id lg.
Proof. reflexivity. Qed.

(** X7: an interaction that returns raises the user's [interaction_count]
    and [memory_count] by one each and leaves the user with at least one
    persona; the three counts of every other user stay as they were. *)
Theorem statistics_after_interaction
        (seven_days : nat)
        (user_id text input_type : string) (image_path : option string)
        (persona_id : option nat) (w w' : world) (r : interaction_result) :
  process_interaction E user_id text input_type image_path persona_id w
  = (Ok r, w') ->
  logs_in_past w ->
  forall u s s' w1 w2,
    get_statistics seven_days u w = (Ok s, w1) ->
    get_statistics seven_days u w' = (Ok s', w2) ->
    if String.eqb u user_id
    then st_interaction_count s' = S (st_interaction_count s)
         /\ st_memory_count s' = S (st_memory_count s)
         /\ st_persona_count s <= st_persona_count s'
         /\ 1 <= st_persona_count s'
    else st_interaction_count s' = st_interaction_count s
         /\ st_memory_count s' = st_memory_count s
         /\ st_persona_count s' = st_persona_count s.
Proof.
  intros Hrun Hpast u s s' w1 w2 Hs Hs'.
  destruct (process_interaction_ok E _ _ _ _ _ _ _ _ Hrun Hpast)
    as (lg & ea & mem & nm & created & sp & t & HL & _ & HM & HP & Hsp & _ & HF
        & _ & _ & _ & _ & Hlog & _ & _ & Hmem).
  apply get_statistics_counts in Hs as (-> & -> & ->).
  apply get_statistics_counts in Hs' as (-> & -> & ->).
  unfold logs_of, memories_of. rewrite HL, HM, HP, !filter_app.
  rewrite of_user_spoken, length_map, of_user_app, !length_app.
  destruct Hlog as (Hlu & _). destruct Hmem as (Hmu & _).
  cbn [filter]. rewrite set_reply_user, Hlu, Hmu.
  rewrite (String.eqb_sym user_id u).
  destruct (String.eqb u user_id) eqn:Hu.
  - apply String.eqb_eq in Hu. subst u. cbn [List.length].
    split; [lia|]. split; [lia|]. split; [lia|].
    rewrite <- length_app, <- of_user_app.
    destruct (of_user user_id (personas w ++ created));
      [contradiction | simpl; lia].
  - cbn [List.length]. split; [lia|]. split; [lia|].
    assert (Hc : of_user u created = []).
    { clear - HF Hu. induction created as [|p c IH]; [reflexivity|].
      inversion HF as [|? ? (Hpu & _) HF']; subst. simpl.
      rewrite (String.eqb_sym (p_user_id p) u), Hu. now apply IH. }
    rewrite Hc. simpl. lia.
Qed.

End StoreFacts.

(** ** The pipeline: requests, bootstrap and what a failure leaves *)

Section PipelineFacts.

Open Scope nat_scope.
Open Scope list_scope.

Variable E : externals.

(** X8: [_post] answers the content of the first attempt that succeeds
    among at most three ([max_retries + 1]), having made no attempt after
    it; it raises [RuntimeError] exactly when three attempts in a row
    failed.  Nothing but the count of requests changes. *)
Theorem post_first_success (w : world) :
  match _post E w with
  | (Ok content, w') =>
      exists i, i < 3
                /\ http_post E (requests w + i) = Some content
                /\ (forall j, j < i -> http_post E (requests w + j) = None)
                /\ w' = with_requests (requests w + i + 1) w
  | (Raise e, w') =>
      e = RuntimeError
      /\ (forall j, j < 3 -> http_post E (requests w + j) = None)
      /\ w' = with_requests (requests w + 3) w
  end.
Proof. exact (post_attempts_spec E 3 w). Qed.


(** *** [_ensure_default_persona] *)

Lemma find_app_none {A} (f : A -> bool) (l1 l2 : list A) :
  find f l1 = None -> find f (l1 ++ l2) = find f l2.
Proof.
  induction l1 as [|x l1 IH]; simpl; [reflexivity|].
  destruct (f x); [discriminate | exact IH].
Qed.

(** X10: [_ensure_default_persona] always answers a persona identifier,
    and a second call answers the same identifier and changes nothing.
    The first call changes nothing either when the user already has a
    persona of the default name; otherwise it adds exactly that persona,
    with the interaction count 0. *)
Theorem ensure_default_persona_idempotent (user_id : string) (w : world) :
  exists id w',
    _ensure_default_persona E user_id w = (Ok id, w')
    /\ _ensure_default_persona E user_id w' = (Ok id, w')
    /\ (exists p, In p (of_user user_id (personas w'))
                  /\ p_persona_id p = id
                  /\ p_name p = Some DEFAULT_PERSONA_name)
    /\ ((exists p, In p (of_user user_id (personas w))
                   /\ p_name p = Some DEFAULT_PERSONA_name) -> w' = w)
    /\ ((forall p, In p (of_user user_id (personas w)) ->
                   p_name p <> Some DEFAULT_PERSONA_name) ->
        exists p, personas w' = personas w ++ [p]
                  /\ p_user_id p = user_id
                  /\ p_interaction_count p = 0%Z
                  /\ user_profiles w' = user_profiles w
                  /\ interaction_logs w' = interaction_logs w
                  /\ memory_events w' = memory_events w
                  /\ emotion_analyses w' = emotion_analyses w).
Proof.
  unfold _ensure_default_persona, get_personas, bind at 1, read.
  fold (of_user user_id (personas w)).
  destruct (find _ (of_user user_id (personas w))) as [p|] eqn:Hf.
  - exists (p_persona_id p), w. unfold ret.
    split; [reflexivity|].
    split.
    { unfold bind, read. fold (of_user user_id (personas w)). now rewrite Hf. }
    apply find_some in Hf as [Hin Hd]. apply text_eq_str in Hd.
    split; [exists p; auto|]. split; [reflexivity|].
    intro Hnone. exfalso. exact (Hnone p Hin Hd).
  - unfold create_persona, bind_text, bind, uuid4, now, lift, ret, modify.
    cbn. eexists. eexists. split; [reflexivity|].
    split.
    { unfold read. cbn. fold (of_user user_id (personas w ++ [
        {| p_persona_id := next_uuid w; p_user_id := user_id;
           p_name := Some DEFAULT_PERSONA_name;
           p_description := Some "一个友善、耐心的AI助手，专门帮助用户记录和分析情感体验"%string;
           p_personality_traits :=
             JList [JStr "友善"; JStr "耐心"; JStr "理解"; JStr "支持"];
           p_communication_style := Some "温和"%string;
           p_emotional_tendencies := default_tendencies;
           p_interaction_count := 0;
           p_created_at := clock w; p_updated_at := clock w;
           p_context_info := JDict [];
           p_avatar_type := Some "friend"%string |}])).
      rewrite of_user_app, find_app_none by exact Hf.
      cbn. rewrite String.eqb_refl. cbn. reflexivity. }
    split.
    { eexists. split.
      - apply filter_In. split.
        + apply in_or_app. right. left. reflexivity.
        + cbn. apply String.eqb_refl.
      - split; reflexivity. }
    split.
    { intros (p & Hin & Hn). exfalso.
      pose proof (find_none _ _ Hf p Hin) as Hd. cbv beta in Hd.
      apply text_eq_str in Hn. congruence. }
    intros _. eexists. cbn. repeat split.
Qed.

End PipelineFacts.

(** ** An interaction whose requests all fail *)

Section EndpointDown.

Open Scope nat_scope.
Open Scope list_scope.

Variable E : externals.

Hypothesis Hdown : forall i, http_post E i = None.

Lemma bind_run {A B} (m : M A) (k : A -> M B) (w w1 : world) (a : A) :
  m w = (Ok a, w1) -> bind m k w = k a w1.
Proof. unfold bind. now intros ->. Qed.

Lemma lift_run {A B} (a : A) (k : A -> M B) (w : world) :
  bind (lift (Ok a)) k w = k a w.
Proof. reflexivity. Qed.

Lemma same_tables_requests (w : world) (q : nat) :
  same_tables w (with_requests q w).
Proof. repeat split. Qed.

Lemma chat_down (w : world) :
  chat E w = (Raise RuntimeError, with_requests (requests w + 3) w).
Proof.
  pose proof (post_attempts_spec E 3 w) as Hs.
  unfold chat, _post. cbn [max_retries Nat.add].
  destruct (post_attempts E 3 w) as [[content|e] w'].
  - destruct Hs as (i & _ & Hsome & _). rewrite Hdown in Hsome. discriminate.
  - destruct Hs as (-> & _ & ->). reflexivity.
Qed.

Lemma ask_json_down (fallback : json) (w : world) :
  exists w1, _ask_json E fallback w = (Ok fallback, w1) /\ same_tables w w1.
Proof.
  eexists. unfold _ask_json. rewrite chat_down.
  split; [reflexivity | apply same_tables_requests].
Qed.

Lemma mentioned_none (ps : list persona) :
  mentioned _JSON_FALLBACK_ENTITIES ps = Ok [].
Proof.
  induction ps as [|p ps IH]; [reflexivity|].
  cbn [mentioned]. cbn [Py.get _JSON_FALLBACK_ENTITIES Py.lookup String.eqb].
  cbn. rewrite IH. reflexivity.
Qed.

Lemma log_interaction_text (user_id input_type label : string)
      (detected_emotion raw : json) (w : world) :
  exists w1 id lg,
    log_interaction E user_id input_type detected_emotion (JStr label) raw w
    = (Ok id, w1)
    /\ log_id lg = id
    /\ (user_profiles w1 = user_profiles w
        /\ interaction_logs w1 = interaction_logs w ++ [lg]
        /\ emotion_analyses w1 = emotion_analyses w
        /\ personas w1 = personas w
        /\ memory_events w1 = memory_events w)
    /\ log_user_id lg = user_id
    /\ log_emotion_label lg = Some label
    /\ log_detected_emotion lg = detected_emotion
    /\ log_processing_metadata lg = JDict [].
Proof.
  eexists. eexists.
  exists {| log_id := next_uuid w; log_user_id := user_id;
            log_timestamp := clock w; log_input_type := input_type;
            log_detected_emotion := detected_emotion;
            log_emotion_label := Some label; log_response_avatar := "";
            log_raw_input_data := Py.or_else raw (JDict []);
            log_processing_metadata := JDict [] |}.
  split; [reflexivity|]. cbn. repeat split.
Qed.

Lemma save_emotion_analysis_text (id : nat) (method : string)
      (pad_values categories confidence : json) (w : world) :
  exists w1 a ea,
    save_emotion_analysis E id pad_values categories confidence (JStr method) w
    = (Ok a, w1)
    /\ (user_profiles w1 = user_profiles w
        /\ interaction_logs w1 = interaction_logs w
        /\ emotion_analyses w1 = emotion_analyses w ++ [ea]
        /\ personas w1 = personas w
        /\ memory_events w1 = memory_events w)
    /\ ea_interaction_log_id ea = id
    /\ ea_analysis_method ea = Some method.
Proof.
  eexists. eexists. eexists. split; [reflexivity|]. cbn. repeat split.
Qed.

Lemma create_personas_none (user_id : string) (style : json) (w : world) :
  _create_personas E user_id _JSON_FALLBACK_ENTITIES style w = (Ok [], w).
Proof. reflexivity. Qed.

Lemma update_personas_none (user_id : string) (w : world) :
  _update_personas user_id _JSON_FALLBACK_ENTITIES w = (Ok [], w).
Proof.
  unfold _update_personas, get_personas, bind, read, lift.
  now rewrite mentioned_none.
Qed.

Lemma create_memories_down (user_id : string) (id : nat)
      (entities temporal : json) (w : world) :
  exists w1 nm mem,
    _create_memories E user_id id entities emotion_fallback temporal w
    = (Ok [nm], w1)
    /\ (user_profiles w1 = user_profiles w
        /\ interaction_logs w1 = interaction_logs w
        /\ emotion_analyses w1 = emotion_analyses w
        /\ personas w1 = personas w
        /\ memory_events w1 = memory_events w ++ [mem])
    /\ m_interaction_log_id mem = id
    /\ m_memory_type mem = Some "neutral"%string
    /\ m_importance_score mem = SqlReal (1 # 2)
    /\ m_linked_topic mem = Some "日常对话"%string.
Proof.
  destruct (ask_json_down (JDict [("topic", JStr "日常对话")]) w)
    as (w1 & Heq1 & (U1 & L1 & A1 & P1 & M1)).
  destruct (ask_json_down (JDict [("score", JFloat (1 # 2))]) w1)
    as (w2 & Heq2 & (U2 & L2 & A2 & P2 & M2)).
  destruct (_create_memories E user_id id entities emotion_fallback temporal w)
    as [r w'] eqn:H.
  unfold _create_memories in H.
  rewrite (bind_run _ _ _ _ _ Heq1) in H.
  change (Py.getitem (JDict [("topic", JStr "日常对话")]) "topic")
    with (Ok (JStr "日常对话")) in H.
  rewrite lift_run in H.
  rewrite (bind_run _ _ _ _ _ Heq2) in H.
  change (Py.getitem (JDict [("score", JFloat (1 # 2))]) "score")
    with (Ok (JFloat (1 # 2))) in H.
  rewrite lift_run in H.
  change (emotion_label_of emotion_fallback) with (Ok (JStr "neutral")) in H.
  rewrite lift_run in H.
  unfold create_memory_event, bind_text, bind_real, bind, uuid4, now, lift,
    ret, modify in H.
  cbn in H. injection H as <- <-.
  eexists. eexists. eexists. split; [reflexivity|].
  cbn. rewrite U2, U1, L2, L1, A2, A1, P2, P1, M2, M1. repeat split.
Qed.

Lemma get_response_down (user_id : string) (persona_id : option nat)
      (w : world) :
  of_user user_id (personas w) <> [] ->
  exists e w1,
    _get_response_to_interaction E user_id persona_id w = (Raise e, w1)
    /\ same_tables w w1.
Proof.
  intro Hne.
  destruct (_get_response_to_interaction E user_id persona_id w)
    as [r w1] eqn:H.
  apply get_response_run in H
    as [(rr & sp & content & q & _ & _ & _ & _ & _ & Hc & _)
       |[(e & -> & _ & Hw)|(_ & Hnil & _)]].
  - rewrite chat_down in Hc. discriminate.
  - exists e, w1. split; [reflexivity|].
    destruct Hw as [[_ Hc]|[_ ->]]; [|repeat split].
    rewrite chat_down in Hc. injection Hc as <-. apply same_tables_requests.
  - contradiction.
Qed.

(** X11: with the endpoint failing on every attempt, an interaction
    without image raises, and by then it has written its records: the
    user has a profile and a persona, and the store has gained the log of
    the interaction (label neutral, neutral PAD triple, no reply in its
    metadata), the emotion analysis tagged fallback and the memory with
    the default topic and score.  Nothing is rolled back. *)
Theorem endpoint_down_leaves_records
        (user_id text input_type : string) (persona_id : option nat)
        (w : world) :
  exists e w' lg ea mem,
    process_interaction E user_id text input_type None persona_id w
    = (Raise e, w')
    /\ interaction_logs w' = interaction_logs w ++ [lg]
    /\ log_user_id lg = user_id
    /\ log_emotion_label lg = Some "neutral"%string
    /\ log_detected_emotion lg = neutral_pad
    /\ log_processing_metadata lg = JDict []
    /\ emotion_analyses w' = emotion_analyses w ++ [ea]
    /\ ea_interaction_log_id ea = log_id lg
    /\ ea_analysis_method ea = Some "fallback"%string
    /\ memory_events w' = memory_events w ++ [mem]
    /\ m_interaction_log_id mem = log_id lg
    /\ m_memory_type mem = Some "neutral"%string
    /\ m_importance_score mem = SqlReal (1 # 2)
    /\ m_linked_topic mem = Some "日常对话"%string
    /\ (exists prof, fst (get_user_profile user_id w') = Ok (Some prof))
    /\ of_user user_id (personas w') <> [].
Proof.
  destruct (process_interaction E user_id text input_type None persona_id w)
    as [r w'] eqn:H.
  unfold process_interaction in H.
  apply bind_inv in H as [(profile & w1 & Hst & H)|(e & Hst & Hr)];
    [|discriminate Hst].
  unfold get_user_profile, read in Hst. injection Hst as <- <-.
  apply bind_inv in H as [(u1 & w1 & Hst & H)|(e & Hst & Hr)].
  2:{ exfalso. destruct (find _ (user_profiles w)); [discriminate|].
      unfold create_user_profile, bind, now, modify, ret in Hst. cbn in Hst.
      discriminate. }
  assert (Hw1 : (exists prof, find (fun u => String.eqb (up_user_id u) user_id)
                                    (user_profiles w1) = Some prof)
                /\ interaction_logs w1 = interaction_logs w
                /\ emotion_analyses w1 = emotion_analyses w
                /\ memory_events w1 = memory_events w
                /\ personas w1 = personas w).
  { destruct (find _ (user_profiles w)) as [prof|] eqn:Hf.
    - unfold ret in Hst. injection Hst as _ <-. rewrite Hf. eauto 6.
    - unfold create_user_profile, bind, now, modify, ret in Hst. cbn in Hst.
      injection Hst as _ <-. cbn. rewrite find_after_replace by reflexivity.
      eauto 6. }
  clear Hst. destruct Hw1 as (Hprof & L1 & A1 & M1 & P1).
  apply bind_inv in H as [(d & w2 & Hst & H)|(e & Hst & Hr)].
  2:{ exfalso. apply ensure_default_run in Hst
        as [(p & _ & _ & Hr' & _)|(_ & p & Hr' & _)]; discriminate. }
  assert (Hw2 : user_profiles w2 = user_profiles w1
                /\ interaction_logs w2 = interaction_logs w1
                /\ emotion_analyses w2 = emotion_analyses w1
                /\ memory_events w2 = memory_events w1
                /\ of_user user_id (personas w2) <> []).
  { apply ensure_default_run in Hst
      as [(p & Hin & _ & _ & ->)|(_ & p & _ & -> & _ & Hu & _)].
    - repeat split; auto. intro Hn. rewrite Hn in Hin. destruct Hin.
    - cbn [user_profiles interaction_logs emotion_analyses memory_events
             personas].
      repeat split; auto. rewrite of_user_app. cbn [of_user filter].
      rewrite Hu, String.eqb_refl. intro Hn.
      apply app_eq_nil in Hn as [_ Hn]. discriminate. }
  clear Hst. destruct Hw2 as (U2 & L2 & A2 & M2 & P2).
  rewrite L1 in L2. rewrite A1 in A2. rewrite M1 in M2.
  clear L1 A1 M1 P1 u1 d.
  unfold bind at 1 in H. unfold ret at 1 in H. cbn [fst snd] in H.
  unfold _analyze_emotion, _extract_entities, _analyze_style,
    _extract_temporal in H.
  (* emotion *)
  destruct (ask_json_down emotion_fallback w2)
    as (w3 & Heq & (U3 & L3 & A3 & P3 & M3)).
  rewrite (bind_run _ _ _ _ _ Heq) in H. clear Heq.
  rewrite U2 in U3. rewrite L2 in L3. rewrite A2 in A3. rewrite M2 in M3.
  rewrite <- P3 in P2. clear U2 L2 A2 M2 P3 w2.
  change (Py.get emotion_fallback "pad_values" (JDict []))
    with (Ok neutral_pad) in H.
  rewrite lift_run in H.
  change (emotion_label_of emotion_fallback) with (Ok (JStr "neutral")) in H.
  rewrite lift_run in H.
  (* log *)
  match type of H with
  | context [log_interaction E ?u ?it ?de (JStr ?l) ?raw] =>
      destruct (log_interaction_text u it l de raw w3)
        as (w4 & id & lg & Heq & G0 & (U4 & L4 & A4 & P4 & M4)
            & G1 & G2 & G3 & G4)
  end.
  rewrite (bind_run _ _ _ _ _ Heq) in H. clear Heq.
  rewrite U3 in U4. rewrite L3 in L4. rewrite A3 in A4. rewrite M3 in M4.
  rewrite <- P4 in P2. clear U3 L3 A3 M3 P4 w3.
  rewrite lift_run in H.
  change (Py.get emotion_fallback "emotion_category" (JDict []))
    with (Ok (JDict [("label", JStr "neutral"); ("emotion", JStr "neutral");
                     ("intensity", JInt 0)])) in H.
  rewrite lift_run in H.
  change (Py.get emotion_fallback "confidence" (JFloat (1 # 2)))
    with (Ok (JFloat (1 # 2))) in H.
  rewrite lift_run in H.
  change (Py.get emotion_fallback "analysis_method" (JStr "llm"))
    with (Ok (JStr "fallback")) in H.
  rewrite lift_run in H.
  (* analysis *)
  match type of H with
  | context [save_emotion_analysis E ?i ?pv ?c ?cf (JStr ?m)] =>
      destruct (save_emotion_analysis_text i m pv c cf w4)
        as (w5 & a & ea & Heq & (U5 & L5 & A5 & P5 & M5) & G5 & G6)
  end.
  rewrite (bind_run _ _ _ _ _ Heq) in H. clear Heq.
  rewrite U4 in U5. rewrite L4 in L5. rewrite A4 in A5. rewrite M4 in M5.
  rewrite <- P5 in P2. clear U4 L4 A4 M4 P5 w4.
  (* entities, style, time and place *)
  destruct (ask_json_down _JSON_FALLBACK_ENTITIES w5)
    as (w6 & Heq & (U6 & L6 & A6 & P6 & M6)).
  rewrite (bind_run _ _ _ _ _ Heq) in H. clear Heq.
  rewrite U5 in U6. rewrite L5 in L6. rewrite A5 in A6. rewrite M5 in M6.
  rewrite <- P6 in P2. clear U5 L5 A5 M5 P6 w5.
  destruct (ask_json_down (JDict []) w6)
    as (w7 & Heq & (U7 & L7 & A7 & P7 & M7)).
  rewrite (bind_run _ _ _ _ _ Heq) in H. clear Heq.
  rewrite U6 in U7. rewrite L6 in L7. rewrite A6 in A7. rewrite M6 in M7.
  rewrite <- P7 in P2. clear U6 L6 A6 M6 P7 w6.
  destruct (ask_json_down (JDict []) w7)
    as (w8 & Heq & (U8 & L8 & A8 & P8 & M8)).
  rewrite (bind_run _ _ _ _ _ Heq) in H. clear Heq.
  rewrite U7 in U8. rewrite L7 in L8. rewrite A7 in A8. rewrite M7 in M8.
  rewrite <- P8 in P2. clear U7 L7 A7 M7 P8 w7.
  (* personas *)
  rewrite (bind_run _ _ _ _ _ (create_personas_none _ _ _)) in H.
  rewrite (bind_run _ _ _ _ _ (update_personas_none _ _)) in H.
  (* memory *)
  match type of H with
  | context [_create_memories E ?u ?i ?en emotion_fallback ?te] =>
      destruct (create_memories_down u i en te w8)
        as (w9 & nm & mem & Heq & (U9 & L9 & A9 & P9 & M9)
            & G7 & G8 & G9 & G10)
  end.
  rewrite (bind_run _ _ _ _ _ Heq) in H. clear Heq.
  rewrite U8 in U9. rewrite L8 in L9. rewrite A8 in A9. rewrite M8 in M9.
  rewrite <- P9 in P2. clear U8 L8 A8 M8 P9 w8.
  (* reply *)
  destruct (get_response_down user_id persona_id w9 P2)
    as (e & w10 & Heq & (U10 & L10 & A10 & P10 & M10)).
  unfold bind at 1 in H. rewrite Heq in H. injection H as <- <-.
  exists e, w10, lg, ea, mem.
  split; [reflexivity|].
  split; [congruence|]. split; [exact G1|]. split; [exact G2|].
  split; [exact G3|]. split; [exact G4|].
  split; [congruence|]. split; [congruence|]. split; [exact G6|].
  split; [congruence|]. split; [congruence|]. split; [exact G8|].
  split; [exact G9|]. split; [exact G10|].
  split.
  - unfold get_user_profile, read. cbn [fst].
    rewrite U10, U9. destruct Hprof as [prof ->]. eauto.
  - now rewrite P10.
Qed.

End EndpointDown.

(** ** What no interaction changes *)

Section Frames.

Open Scope nat_scope.
Open Scope list_scope.

Variable E : externals.

Lemma spm_refl (w : world) : same_profiles_memories w w.
Proof. split; reflexivity. Qed.

Lemma spm_trans (w1 w2 w3 : world) :
  same_profiles_memories w1 w2 -> same_profiles_memories w2 w3 ->
  same_profiles_memories w1 w3.
Proof. intros [A B] [C D]. split; congruence. Qed.

Lemma spm_requests (w : world) (q : nat) :
  same_profiles_memories w (with_requests q w).
Proof. split; reflexivity. Qed.

Lemma spm_gained (user_id : string) (w w' : world) :
  same_profiles_memories w w' -> gained_memory user_id w w'.
Proof.
  intros [A B]. split; [exact A|]. exists []. rewrite app_nil_r.
  split; [exact B|]. split; [simpl; lia | constructor].
Qed.

Lemma gained_then_spm (user_id : string) (w1 w2 w3 : world) :
  gained_memory user_id w1 w2 -> same_profiles_memories w2 w3 ->
  gained_memory user_id w1 w3.
Proof.
  intros [A (new & B & C)] [D F]. split; [congruence|].
  exists new. split; [congruence | exact C].
Qed.

Lemma spm_then_gained (user_id : string) (w1 w2 w3 : world) :
  same_profiles_memories w1 w2 -> gained_memory user_id w2 w3 ->
  gained_memory user_id w1 w3.
Proof.
  intros [A B] [C (new & D & F)]. split; [congruence|].
  exists new. split; [congruence | exact F].
Qed.

Lemma lift_spm {A} (x : result A) (w w' : world) (r : result A) :
  lift x w = (r, w') -> same_profiles_memories w w'.
Proof. intro H. apply lift_same in H as ->. apply spm_refl. Qed.

Lemma ret_spm {A} (x : A) (w w' : world) (r : result A) :
  ret x w = (r, w') -> same_profiles_memories w w'.
Proof. unfold ret. intro H. injection H as _ <-. apply spm_refl. Qed.

Lemma now_spm (w w' : world) (r : result nat) :
  now w = (r, w') -> same_profiles_memories w w'.
Proof. unfold now. intro H. injection H as _ <-. split; reflexivity. Qed.

Lemma ask_json_spm (fallback : json) (w w' : world) (r : result json) :
  _ask_json E fallback w = (r, w') -> same_profiles_memories w w'.
Proof.
  intro H. apply ask_json_run in H as (v & q & _ & -> & _).
  apply spm_requests.
Qed.

Lemma analyze_image_spm (image_path : string) (w w' : world)
      (r : result string) :
  _analyze_image E image_path w = (r, w') -> same_profiles_memories w w'.
Proof.
  intro H. apply analyze_image_run in H as (q & -> & _). apply spm_requests.
Qed.

Lemma ensure_default_spm (user_id : string) (w w' : world) (r : result nat) :
  _ensure_default_persona E user_id w = (r, w') -> same_profiles_memories w w'.
Proof.
  intro H. apply ensure_default_run in H
    as [(p & _ & _ & _ & ->)|(_ & p & _ & -> & _)];
    split; reflexivity.
Qed.

Lemma log_interaction_spm (user_id input_type : string)
      (detected_emotion emotion_label raw : json) (w w' : world)
      (r : result nat) :
  log_interaction E user_id input_type detected_emotion emotion_label raw w
  = (r, w') -> same_profiles_memories w w'.
Proof.
  unfold log_interaction, bind_text, bind, uuid4, now, lift, ret, modify.
  cbn. destruct (bind_param emotion_label); intro H; injection H as _ <-;
    split; reflexivity.
Qed.

Lemma save_emotion_analysis_spm (id : nat)
      (pad_values categories confidence method : json) (w w' : world)
      (r : result nat) :
  save_emotion_analysis E id pad_values categories confidence method w
  = (r, w') -> same_profiles_memories w w'.
Proof.
  unfold save_emotion_analysis, bind_text, bind, uuid4, now, lift, ret, modify.
  cbn. destruct (bind_param method); intro H; injection H as _ <-;
    split; reflexivity.
Qed.

Lemma create_personas_spm (user_id : string) (entities style : json)
      (w w' : world) (r : result (list new_persona)) :
  _create_personas E user_id entities style w = (r, w') ->
  same_profiles_memories w w'.
Proof.
  intro H. apply create_personas_run in H as (created & U & _ & _ & M & _).
  split; assumption.
Qed.

Lemma update_personas_spm (user_id : string) (entities : json)
      (w w' : world) (r : result (list persona)) :
  _update_personas user_id entities w = (r, w') -> same_profiles_memories w w'.
Proof.
  unfold _update_personas, get_personas, bind, read, lift.
  intro H. injection H as _ <-. apply spm_refl.
Qed.

Lemma get_response_spm (user_id : string) (persona_id : option nat)
      (w w' : world) (r : result reply_result) :
  _get_response_to_interaction E user_id persona_id w = (r, w') ->
  same_profiles_memories w w'.
Proof.
  intro H. apply get_response_run in H
    as [(rr & sp & content & q & _ & _ & _ & _ & _ & _ & _ & ->)
       |[(e & _ & _ & [[_ Hc]|[_ ->]])|(_ & _ & id & Hd)]].
  - split; reflexivity.
  - apply chat_run in Hc as (q & -> & _). apply spm_requests.
  - apply spm_refl.
  - now apply ensure_default_spm in Hd.
Qed.

Lemma create_memory_event_gained (user_id : string) (id : nat)
      (annotation topic mtype score media tags : json)
      (w w' : world) (r : result nat) :
  create_memory_event E user_id id annotation topic mtype score media tags
                      JNull w = (r, w') ->
  gained_memory user_id w w'.
Proof.
  unfold create_memory_event, bind_text, bind_real, bind, uuid4, now, lift,
    ret, modify.
  cbn.
  assert (Hnone : forall w0, user_profiles w0 = user_profiles w ->
                             memory_events w0 = memory_events w ->
                             gained_memory user_id w w0).
  { intros w0 A B. apply spm_gained. split; assumption. }
  destruct (bind_param (Py.or_else media (JStr ""))) as [xm|e];
    [|intro H; injection H as _ <-; now apply Hnone].
  cbn.
  destruct (bind_param (Py.or_else topic (JStr ""))) as [xt|e];
    [|intro H; injection H as _ <-; now apply Hnone].
  cbn.
  destruct (bind_param mtype) as [xy|e];
    [|intro H; injection H as _ <-; now apply Hnone].
  cbn.
  destruct (bind_param score) as [xs|e];
    [|intro H; injection H as _ <-; now apply Hnone].
  cbn. intro H. injection H as _ <-.
  split; [reflexivity|]. eexists. split; [reflexivity|].
  split; [simpl; lia|]. constructor; [|constructor]. split; reflexivity.
Qed.

Lemma create_memories_gained (user_id : string) (id : nat)
      (entities pad temporal : json) (w w' : world)
      (r : result (list new_memory)) :
  _create_memories E user_id id entities pad temporal w = (r, w') ->
  gained_memory user_id w w'.
Proof.
  unfold _create_memories. intro H.
  apply bind_inv in H as [(a1 & w1 & Hst & H)|(e & Hst & _)];
    apply ask_json_spm in Hst; [|now apply spm_gained].
  apply (spm_then_gained user_id _ _ _ Hst). clear Hst.
  apply bind_inv in H as [(a2 & w2 & Hst & H)|(e & Hst & _)];
    apply lift_spm in Hst; [|now apply spm_gained].
  apply (spm_then_gained user_id _ _ _ Hst). clear Hst.
  apply bind_inv in H as [(a3 & w3 & Hst & H)|(e & Hst & _)];
    apply ask_json_spm in Hst; [|now apply spm_gained].
  apply (spm_then_gained user_id _ _ _ Hst). clear Hst.
  apply bind_inv in H as [(a4 & w4 & Hst & H)|(e & Hst & _)];
    apply lift_spm in Hst; [|now apply spm_gained].
  apply (spm_then_gained user_id _ _ _ Hst). clear Hst.
  apply bind_inv in H as [(a5 & w5 & Hst & H)|(e & Hst & _)];
    apply lift_spm in Hst; [|now apply spm_gained].
  apply (spm_then_gained user_id _ _ _ Hst). clear Hst.
  apply bind_inv in H as [(a6 & w6 & Hst & H)|(e & Hst & _)];
    apply create_memory_event_gained in Hst; [|exact Hst].
  apply (gained_then_spm user_id _ _ _ Hst). now apply ret_spm in H.
Qed.

Ltac step_spm H K lem :=
  let a := fresh "a" in
  let w1 := fresh "w" in
  let Hst := fresh "Hst" in
  let e := fresh "e" in
  apply bind_inv in H as [(a & w1 & Hst & H)|(e & Hst & _)];
  apply lem in Hst;
  apply (spm_trans _ _ _ K) in Hst;
  [ clear K; rename Hst into K | ].

(** Any run of [process_interaction], however it ends: the profiles are
    those left by its first step, and at most one memory was added. *)
Lemma process_interaction_tables (user_id text input_type : string)
      (image_path : option string) (persona_id : option nat)
      (w w' : world) (r : result interaction_result) :
  process_interaction E user_id text input_type image_path persona_id w
  = (r, w') ->
  user_profiles w' = profiles_after user_id (clock w) (user_profiles w)
  /\ exists new,
       memory_events w' = memory_events w ++ new
       /\ List.length new <= 1
       /\ Forall (fun m => m_user_id m = user_id /\ m_entities m = JDict [])
                 new.
Proof.
  unfold process_interaction. intro H.
  apply bind_inv in H as [(profile & w0 & Hst & H)|(e & Hst & _)];
    [|discriminate Hst].
  unfold get_user_profile, read in Hst. injection Hst as <- <-.
  assert (Hgoal : forall w1,
             user_profiles w1 = profiles_after user_id (clock w) (user_profiles w) ->
             memory_events w1 = memory_events w ->
             gained_memory user_id w1 w' ->
             user_profiles w' = profiles_after user_id (clock w) (user_profiles w)
             /\ exists new,
                  memory_events w' = memory_events w ++ new
                  /\ List.length new <= 1
                  /\ Forall (fun m => m_user_id m = user_id
                                       /\ m_entities m = JDict []) new).
  { intros w1 A B [C (new & D & F)]. split; [congruence|].
    exists new. split; [congruence | exact F]. }
  apply bind_inv in H as [(u1 & w1 & Hst & H)|(e & Hst & _)].
  2:{ exfalso. destruct (find _ (user_profiles w)); [discriminate|].
      unfold create_user_profile, bind, now, modify, ret in Hst. cbn in Hst.
      discriminate. }
  assert (Hw1 : user_profiles w1
                = profiles_after user_id (clock w) (user_profiles w)
                /\ memory_events w1 = memory_events w).
  { unfold profiles_after.
    destruct (find _ (user_profiles w)) as [prof|] eqn:Hf.
    - unfold ret in Hst. injection Hst as _ <-. now split.
    - unfold create_user_profile, bind, now, modify, ret in Hst. cbn in Hst.
      injection Hst as _ <-. split; reflexivity. }
  clear Hst. destruct Hw1 as [HU HM]. apply (Hgoal w1 HU HM). clear Hgoal HU HM.
  pose proof (spm_refl w1) as K.
  step_spm H K ensure_default_spm; [|now apply spm_gained].
  apply bind_inv in H as [(grounded & w3 & Hg & H)|(e & Hg & _)].
  2:{ apply spm_gained. apply (spm_trans _ _ _ K).
      destruct image_path as [path|]; [|now apply ret_spm in Hg].
      destruct (String.eqb path ""); [now apply ret_spm in Hg|].
      apply bind_inv in Hg as [(c & w4 & Hi & Hg)|(e' & Hi & _)];
        apply analyze_image_spm in Hi; [|exact Hi].
      apply (spm_trans _ _ _ Hi). now apply ret_spm in Hg. }
  assert (K' : same_profiles_memories w1 w3).
  { apply (spm_trans _ _ _ K).
    destruct image_path as [path|]; [|now apply ret_spm in Hg].
    destruct (String.eqb path ""); [now apply ret_spm in Hg|].
    apply bind_inv in Hg as [(c & w4 & Hi & Hg)|(e' & Hi & _)];
      apply analyze_image_spm in Hi; [|exact Hi].
    apply (spm_trans _ _ _ Hi). now apply ret_spm in Hg. }
  clear K Hg. rename K' into K.
  step_spm H K ask_json_spm; [|now apply spm_gained].
  step_spm H K (@lift_spm json); [|now apply spm_gained].
  step_spm H K (@lift_spm json); [|now apply spm_gained].
  step_spm H K log_interaction_spm; [|now apply spm_gained].
  step_spm H K (@lift_spm json); [|now apply spm_gained].
  step_spm H K (@lift_spm json); [|now apply spm_gained].
  step_spm H K (@lift_spm json); [|now apply spm_gained].
  step_spm H K (@lift_spm json); [|now apply spm_gained].
  step_spm H K save_emotion_analysis_spm; [|now apply spm_gained].
  step_spm H K ask_json_spm; [|now apply spm_gained].
  step_spm H K ask_json_spm; [|now apply spm_gained].
  step_spm H K ask_json_spm; [|now apply spm_gained].
  step_spm H K create_personas_spm; [|now apply spm_gained].
  step_spm H K update_personas_spm; [|now apply spm_gained].
  apply bind_inv in H as [(memories & wm & Hm & H)|(e & Hm & _)];
    apply create_memories_gained in Hm;
    apply (spm_then_gained user_id _ _ _ K) in Hm; [|exact Hm].
  apply (gained_then_spm user_id _ _ _ Hm). clear K Hm.
  pose proof (spm_refl wm) as K.
  step_spm H K get_response_spm; [|exact Hst].
  step_spm H K now_spm; [|exact Hst].
  apply ret_spm in H. now apply (spm_trans _ _ _ K).
Qed.

Lemma find_same_after (user_id other : string) (t : nat)
      (ups : list user_profile) :
  other <> user_id ->
  find (fun u => String.eqb (up_user_id u) other) (profiles_after user_id t ups)
  = find (fun u => String.eqb (up_user_id u) other) ups.
Proof.
  intro Hne. unfold profiles_after.
  destruct (find _ ups); [reflexivity|].
  now apply find_other_after_replace.
Qed.

(** X12: however an interaction ends, it leaves the profile of its user
    as it was when the user had one, and has written the default profile
    otherwise; the profile of no other user is touched. *)
Theorem process_interaction_keeps_profiles
        (user_id text input_type : string) (image_path : option string)
        (persona_id : option nat) (w w' : world)
        (r : result interaction_result) :
  process_interaction E user_id text input_type image_path persona_id w
  = (r, w') ->
  (forall other, other <> user_id ->
                 fst (get_user_profile other w') = fst (get_user_profile other w))
  /\ match fst (get_user_profile user_id w) with
     | Ok (Some prof) =>
         user_profiles w' = user_profiles w
     | _ =>
         fst (get_user_profile user_id w')
         = Ok (Some (default_profile user_id (clock w)))
     end.
Proof.
  intro H. apply process_interaction_tables in H as [HU _].
  unfold get_user_profile, read. cbn [fst]. rewrite HU. split.
  - intros other Hne. f_equal. now apply find_same_after.
  - unfold profiles_after.
    destruct (find _ (user_profiles w)) as [prof|] eqn:Hf; [reflexivity|].
    f_equal. now apply find_after_replace.
Qed.

(** In every store that sequential interactions lead to, however they
    ended, every memory has the empty object for its entities. *)
Lemma reachable_entities_empty (w : world) :
  reachable E w ->
  Forall (fun m => m_entities m = JDict []) (memory_events w).
Proof.
  intro Hr. induction Hr as [|w u text it img pid _ IH]; [constructor|].
  destruct (process_interaction E u text it img pid w) as [r w'] eqn:Hrun.
  cbn [snd].
  apply process_interaction_tables in Hrun as [_ (new & -> & _ & Hnew)].
  apply Forall_app. split; [exact IH|].
  eapply Forall_impl; [|exact Hnew]. cbv beta. now intros m [_ Hm].
Qed.

End Frames.

(** ** Personas that an interaction names *)

Section Mentions.

Open Scope nat_scope.
Open Scope list_scope.

Variable E : externals.

Lemma create_personas_loop_news (user_id : string) (style : json)
      (names : list json) (acc : list new_persona) (w w' : world)
      (res : list new_persona) :
  create_personas_loop E user_id style names acc w = (Ok res, w') ->
  exists news,
    res = acc ++ news
    /\ Forall (fun np =>
                 In (np_name np) names
                 /\ exists p x,
                     In p (of_user user_id (personas w'))
                     /\ p_persona_id p = np_persona_id np
                     /\ bind_param (np_name np) = Ok x
                     /\ p_name p = text_affinity E x
                     /\ p_interaction_count p = 0%Z) news.
Proof.
  revert acc w. induction names as [|name rest IH]; intros acc w H.
  - simpl in H. unfold ret in H. injection H as <- <-.
    exists []. rewrite app_nil_r. split; [reflexivity | constructor].
  - cbn [create_personas_loop] in H.
    unfold get_personas, bind at 1, read in H.
    destruct (existsb _ _).
    { apply IH in H as (news & -> & HF). exists news.
      split; [reflexivity|].
      eapply Forall_impl; [|exact HF]. cbv beta.
      intros np [Hin Hp]. split; [now right | exact Hp]. }
    apply bind_ok in H as (info & w1 & Ha & H).
    apply ask_json_run in Ha as (v & q & _ & -> & Hq).
    apply bind_ok in H as (traits & w2 & Hl & H). apply lift_ok in Hl as [_ ->].
    apply bind_ok in H as (formality & w2 & Hl & H).
    apply lift_ok in Hl as [_ ->].
    apply bind_ok in H as (avatar & w2 & Hl & H). apply lift_ok in Hl as [_ ->].
    apply bind_ok in H as (pid & w2 & Hc & H).
    apply create_persona_run in Hc as (created & -> & Hc).
    destruct Hc as [[_ [e He]]|(p & x & -> & Hpid & Hx & Hn & Hid & Hu & Hcnt & _)];
      [discriminate|].
    injection Hpid as ->.
    pose proof H as Hrest.
    apply create_personas_loop_run in Hrest as (c2 & _ & _ & _ & _ & HP & _).
    apply IH in H as (news & -> & HF).
    eexists. split; [rewrite <- app_assoc; reflexivity|].
    constructor.
    + cbn [np_name np_persona_id]. split; [now left|].
      exists p, x. split.
      * rewrite HP. cbn [personas with_requests].
        rewrite !of_user_app. apply in_or_app. left. apply in_or_app. right.
        cbn [of_user filter]. rewrite Hu, String.eqb_refl. now left.
      * repeat split; auto.
    + eapply Forall_impl; [|exact HF]. cbv beta.
      intros np [Hin Hp]. split; [now right | exact Hp].
Qed.

Lemma mentioned_spec (entities persons : json) (ps l : list persona) :
  Py.get entities "persons" (JList []) = Ok persons ->
  mentioned entities ps = Ok l ->
  forall p, In p l <-> In p ps /\ Py.text_in (p_name p) persons = Ok true.
Proof.
  intro Hp. revert l. induction ps as [|a ps IH]; intros l H.
  - simpl in H. injection H as <-. intro p. split; [intros [] | intros [[] _]].
  - cbn [mentioned] in H. rewrite Hp in H.
    destruct (Py.text_in (p_name a) persons) as [b|e] eqn:Hb; [|discriminate].
    destruct (mentioned entities ps) as [l'|e]; [|discriminate].
    injection H as <-. specialize (IH l' eq_refl).
    intro p. destruct b.
    + split.
      * intros [<-|Hin]; [split; [now left | exact Hb]|].
        apply IH in Hin as [H1 H2]. split; [now right | exact H2].
      * intros [[<-|Hin] Ht]; [now left|]. right. apply IH. now split.
    + rewrite IH. split.
      * intros [H1 H2]. split; [now right | exact H2].
      * intros [[<-|Hin] Ht]; [congruence | now split].
Qed.

Lemma char_is_substring (a : ascii) (s : string) :
  In (JStr (String a "")) (Py.chars s) ->
  Py.is_substring (String a "") s = true.
Proof.
  induction s as [|b s IH]; [intros []|].
  intro H. cbn [Py.is_substring].
  destruct (String.prefix (String a "") (String b s)) eqn:Hp; [reflexivity|].
  destruct H as [H|H]; [|now apply IH].
  injection H as ->. exfalso.
  assert (Ht : String.prefix (String a "") (String a s) = true)
    by (apply String.prefix_correct; simpl; destruct s; reflexivity).
  congruence.
Qed.

Lemma name_is_mentioned (name persons : json) (names : list json)
      (x : sqlval) :
  is_text_name name = true ->
  bind_param name = Ok x ->
  Py.iter persons = Ok names ->
  In name names ->
  Py.text_in (text_affinity E x) persons = Ok true.
Proof.
  intros Ht Hx Hi Hin.
  destruct persons as [| | | |s|l|kv]; try discriminate;
    simpl in Hi; injection Hi as <-.
  - (* a text: its characters *)
    assert (exists a, name = JStr (String a "")) as [a ->].
    { clear - Hin. induction s as [|b s IH]; simpl in Hin; [destruct Hin|].
      destruct Hin as [<-|H]; eauto. }
    simpl in Hx. injection Hx as <-. simpl.
    now rewrite char_is_substring.
  - (* a list *)
    simpl. f_equal. apply existsb_exists. exists name. split; [exact Hin|].
    destruct name; try discriminate; simpl in Hx; injection Hx as <-; simpl;
      auto using String.eqb_refl.
  - (* a dict: its keys *)
    apply in_map_iff in Hin as ([k v] & <- & Hin).
    simpl in Hx. injection Hx as <-. simpl. f_equal.
    apply existsb_exists. exists (k, v). split; [exact Hin|].
    apply String.eqb_refl.
Qed.

(** X13: every persona that an interaction reports under [new_personas]
    it reports under [updated_personas] as well, with the interaction
    count 0 it had when it was written; [updated_personas] lists personas
    of the user whose name is among the extracted persons. *)
Theorem new_personas_are_updated
        (user_id text input_type : string) (image_path : option string)
        (persona_id : option nat) (w w' : world) (r : interaction_result) :
  process_interaction E user_id text input_type image_path persona_id w
  = (Ok r, w') ->
  names_are_text (res_entities r) = true ->
  (forall np, In np (new_personas r) ->
     exists p, In p (updated_personas r)
               /\ p_persona_id p = np_persona_id np
               /\ p_interaction_count p = 0%Z)
  /\ (forall p, In p (updated_personas r) ->
        p_user_id p = user_id
        /\ exists persons,
            Py.get (res_entities r) "persons" (JList []) = Ok persons
            /\ Py.text_in (p_name p) persons = Ok true).
Proof.
  unfold process_interaction. intros H Htext.
  apply bind_ok in H as (profile & w1 & _ & H).
  apply bind_ok in H as (u1 & w2 & _ & H).
  apply bind_ok in H as (d & w3 & _ & H).
  apply bind_ok in H as (grounded & w4 & _ & H).
  apply bind_ok in H as (pad & w5 & _ & H).
  apply bind_ok in H as (pv & w6 & _ & H).
  apply bind_ok in H as (label & w7 & _ & H).
  apply bind_ok in H as (id & w8 & _ & H).
  apply bind_ok in H as (pv' & w9 & _ & H).
  apply bind_ok in H as (cat & w10 & _ & H).
  apply bind_ok in H as (conf & w11 & _ & H).
  apply bind_ok in H as (method & w12 & _ & H).
  apply bind_ok in H as (aid & w13 & _ & H).
  apply bind_ok in H as (entities & w14 & _ & H).
  apply bind_ok in H as (style & w15 & _ & H).
  apply bind_ok in H as (temporal & w16 & _ & H).
  apply bind_ok in H as (new_ps & w17 & Hcp & H).
  apply bind_ok in H as (upd_ps & w18 & Hup & H).
  apply bind_ok in H as (memories & w19 & _ & H).
  apply bind_ok in H as (rr & w20 & _ & H).
  apply bind_ok in H as (t & w21 & _ & H).
  apply ret_ok in H as [-> _]. cbn [res_entities new_personas updated_personas] in *.
  unfold _create_personas in Hcp.
  apply bind_ok in Hcp as (persons & wa & Hl & Hcp).
  apply lift_ok in Hl as [Hpersons ->].
  apply bind_ok in Hcp as (names & wa & Hl & Hcp).
  apply lift_ok in Hl as [Hnames ->].
  apply create_personas_loop_news in Hcp as (news & -> & HF).
  unfold _update_personas, get_personas in Hup.
  apply bind_ok in Hup as (ps & wb & Hr & Hup).
  apply read_ok in Hr as [-> ->]. apply lift_ok in Hup as [Hm _].
  fold (of_user user_id (personas w17)) in Hm.
  pose proof (mentioned_spec _ _ _ _ Hpersons Hm) as Hspec.
  pose proof (text_names_of_entities _ _ _ Htext Hpersons Hnames) as Htn.
  rewrite Forall_forall in HF, Htn.
  split.
  - intros np Hin. cbn [app] in Hin.
    destruct (HF np Hin) as (Hname & p & x & Hp & Hid & Hx & Hn & Hc).
    exists p. split; [|auto]. apply Hspec. split; [exact Hp|].
    rewrite Hn. eapply name_is_mentioned; eauto.
  - intros p Hin. apply Hspec in Hin as [Hin Ht]. split.
    + unfold of_user in Hin. apply filter_In in Hin as [_ Hu].
      now apply String.eqb_eq.
    + exists persons. auto.
Qed.

End Mentions.

(** ** Transport failures, stage by stage *)

Section Transport.

Open Scope nat_scope.
Open Scope list_scope.

Variable E : externals.

Lemma kept_refl (w : world) : kept w w.
Proof. repeat split; auto. Qed.

Lemma kept_trans (w1 w2 w3 : world) : kept w1 w2 -> kept w2 w3 -> kept w1 w3.
Proof.
  intros (A & B & C & D) (A' & B' & C' & D').
  repeat split; try congruence. lia.
Qed.

Lemma kept_requests (w : world) (q : nat) :
  requests w <= q -> kept w (with_requests q w).
Proof. intro H. repeat split; auto. Qed.

Lemma kept_gained (user_id : string) (w w' : world) (created : list persona) :
  gained_personas user_id w w' created -> kept w w'.
Proof. intros (_ & A & B & C & _ & _ & _ & D & _). repeat split; auto. Qed.

(** *** The steps that make no request raise no transport error *)

Lemma get_error (d : json) (k : string) (default : json) (e : exn) :
  Py.get d k default = Raise e -> e <> RuntimeError.
Proof. destruct d; cbn; intro H; inversion H; discriminate. Qed.

Lemma emotion_label_error (pad : json) (e : exn) :
  emotion_label_of pad = Raise e -> e <> RuntimeError.
Proof.
  unfold emotion_label_of.
  destruct (Py.get pad "emotion_category" (JDict [])) as [cat|e'] eqn:Hc.
  - apply get_error.
  - intro H. injection H as <-. exact (get_error _ _ _ _ Hc).
Qed.

Lemma getitem_error (d : json) (k : string) (e : exn) :
  Py.getitem d k = Raise e -> e <> RuntimeError.
Proof.
  destruct d; cbn; try (intro H; inversion H; discriminate).
  destruct (Py.lookup k kv); intro H; inversion H; discriminate.
Qed.

Lemma iter_error (v : json) (e : exn) :
  Py.iter v = Raise e -> e <> RuntimeError.
Proof. destruct v; cbn; intro H; inversion H; discriminate. Qed.

Lemma bind_param_error (v : json) (e : exn) :
  bind_param v = Raise e -> e <> RuntimeError.
Proof.
  destruct v; cbn; try (intro H; inversion H; discriminate).
  destruct (int64_ok z); intro H; inversion H; discriminate.
Qed.

Lemma mentioned_error (entities : json) (ps : list persona) (e : exn) :
  mentioned entities ps = Raise e -> e <> RuntimeError.
Proof.
  induction ps as [|p ps IH]; cbn [mentioned]; [discriminate|].
  destruct (Py.get entities "persons" (JList [])) as [persons|e'] eqn:Hg.
  2:{ intro H. injection H as <-. exact (get_error _ _ _ _ Hg). }
  destruct (Py.text_in (p_name p) persons) as [b|e'] eqn:Ht.
  2:{ intro H. injection H as <-. clear - Ht.
      destruct persons; cbn in Ht; try (inversion Ht; discriminate).
      destruct (p_name p); inversion Ht; discriminate. }
  destruct (mentioned entities ps) as [l|e']; [discriminate|].
  intro H. injection H as <-. now apply IH.
Qed.

Lemma bind_text_raise (v : json) (w w' : world) (e : exn) :
  bind_text E v w = (Raise e, w') -> w' = w /\ e <> RuntimeError.
Proof.
  unfold bind_text, bind, lift, ret.
  destruct (bind_param v) as [x|e'] eqn:Hb; intro H; inversion H; subst.
  split; [reflexivity | exact (bind_param_error _ _ Hb)].
Qed.

Lemma bind_real_raise (v : json) (w w' : world) (e : exn) :
  bind_real E v w = (Raise e, w') -> w' = w /\ e <> RuntimeError.
Proof.
  unfold bind_real, bind, lift, ret.
  destruct (bind_param v) as [x|e'] eqn:Hb; intro H; inversion H; subst.
  split; [reflexivity | exact (bind_param_error _ _ Hb)].
Qed.

Ltac raised H e' Hst :=
  let a := fresh "a" in
  let w1 := fresh "w" in
  let He := fresh "He" in
  apply bind_inv in H as [(a & w1 & Hst & H)|(e' & Hst & He)];
  [ | first [ injection He as He; subst e'
            | match type of He with ?r = _ => subst r end ] ].

Lemma log_interaction_raise (user_id input_type : string)
      (detected_emotion emotion_label raw : json) (w w' : world) (e : exn) :
  log_interaction E user_id input_type detected_emotion emotion_label raw w
  = (Raise e, w') ->
  kept w w' /\ e <> RuntimeError
  /\ exists e', bind_param emotion_label = Raise e'.
Proof.
  unfold log_interaction. intro H.
  raised H x1 Hst1; [|unfold uuid4 in Hst1; discriminate].
  unfold uuid4 in Hst1. injection Hst1 as <- <-.
  raised H x2 Hst2; [|unfold now in Hst2; discriminate].
  unfold now in Hst2. injection Hst2 as <- <-.
  raised H x3 Hst3.
  - unfold bind, modify, ret in H. discriminate.
  - pose proof Hst3 as Hb. apply bind_text_raise in Hst3 as [-> Hne].
    split; [repeat split; auto|]. split; [exact Hne|].
    unfold bind_text, bind, lift, ret in Hb.
    destruct (bind_param emotion_label) as [x|e']; [discriminate | eauto].
Qed.

Lemma save_emotion_analysis_raise (id : nat)
      (pad_values categories confidence method : json) (w w' : world)
      (e : exn) :
  save_emotion_analysis E id pad_values categories confidence method w
  = (Raise e, w') ->
  kept w w' /\ e <> RuntimeError /\ exists e', bind_param method = Raise e'.
Proof.
  unfold save_emotion_analysis. intro H.
  raised H x4 Hst4; [|unfold uuid4 in Hst4; discriminate].
  unfold uuid4 in Hst4. injection Hst4 as <- <-.
  raised H x5 Hst5; [|unfold now in Hst5; discriminate].
  unfold now in Hst5. injection Hst5 as <- <-.
  raised H x6 Hst6.
  - unfold bind, modify, ret in H. discriminate.
  - pose proof Hst6 as Hb. apply bind_text_raise in Hst6 as [-> Hne].
    split; [repeat split; auto|]. split; [exact Hne|].
    unfold bind_text, bind, lift, ret in Hb.
    destruct (bind_param method) as [x|e']; [discriminate | eauto].
Qed.

Lemma create_memory_event_raise (user_id : string) (id : nat)
      (annotation topic mtype score media tags entities : json)
      (w w' : world) (e : exn) :
  create_memory_event E user_id id annotation topic mtype score media tags
                      entities w = (Raise e, w') ->
  kept w w' /\ e <> RuntimeError.
Proof.
  unfold create_memory_event. intro H.
  raised H x7 Hst7; [|unfold uuid4 in Hst7; discriminate].
  unfold uuid4 in Hst7. injection Hst7 as <- <-.
  raised H x8 Hst8; [|unfold now in Hst8; discriminate].
  unfold now in Hst8. injection Hst8 as <- <-.
  raised H x9 Hst9;
    [apply bind_text_ok in Hst9 as [-> _]
    |apply bind_text_raise in Hst9 as [-> Hne]; split; [repeat split|]; auto].
  raised H x10 Hst10;
    [apply bind_text_ok in Hst10 as [-> _]
    |apply bind_text_raise in Hst10 as [-> Hne]; split; [repeat split|]; auto].
  raised H x11 Hst11;
    [apply bind_text_ok in Hst11 as [-> _]
    |apply bind_text_raise in Hst11 as [-> Hne]; split; [repeat split|]; auto].
  raised H x12 Hst12;
    [apply bind_real_ok in Hst12 as [-> _]
    |apply bind_real_raise in Hst12 as [-> Hne]; split; [repeat split|]; auto].
  unfold bind, modify, ret in H. discriminate.
Qed.

Lemma create_persona_error (user_id : string)
      (name descr traits style avatar : json) (w w' : world) (e : exn) :
  create_persona E user_id name descr traits style avatar w = (Raise e, w') ->
  e <> RuntimeError.
Proof.
  unfold create_persona. intro H.
  raised H x13 Hst13; [|unfold uuid4 in Hst13; discriminate].
  unfold uuid4 in Hst13. injection Hst13 as <- <-.
  raised H x14 Hst14; [|unfold now in Hst14; discriminate].
  unfold now in Hst14. injection Hst14 as <- <-.
  raised H x15 Hst15; [|now apply bind_text_raise in Hst15].
  raised H x16 Hst16; [|now apply bind_text_raise in Hst16].
  raised H x17 Hst17; [|now apply bind_text_raise in Hst17].
  raised H x18 Hst18; [|now apply bind_text_raise in Hst18].
  unfold bind, modify, ret in H. discriminate.
Qed.

Lemma lift_raise {A} (x : result A) (w w' : world) (e : exn) :
  lift x w = (Raise e, w') -> x = Raise e /\ w' = w.
Proof. unfold lift. intro H. inversion H; auto. Qed.

Lemma ask_json_never_raises (fallback : json) (w w' : world) (e : exn) :
  _ask_json E fallback w = (Raise e, w') -> False.
Proof.
  intro H. apply ask_json_run in H as (v & q & Hv & _). discriminate.
Qed.

Lemma create_personas_loop_error (user_id : string) (style : json)
      (names : list json) (acc : list new_persona) (w w' : world) (e : exn) :
  create_personas_loop E user_id style names acc w = (Raise e, w') ->
  e <> RuntimeError.
Proof.
  revert acc w. induction names as [|name rest IH]; intros acc w H.
  - simpl in H. unfold ret in H. discriminate.
  - cbn [create_personas_loop] in H.
    unfold get_personas, bind at 1, read in H.
    destruct (existsb _ _); [now apply IH in H|].
    raised H x19 Hst19; [|now apply ask_json_never_raises in Hst19].
    raised H x20 Hst20;
      [|apply lift_raise in Hst20 as [Hst20 _]; exact (getitem_error _ _ _ Hst20)].
    raised H x21 Hst21;
      [|apply lift_raise in Hst21 as [Hst21 _]; exact (get_error _ _ _ _ Hst21)].
    raised H x22 Hst22;
      [|apply lift_raise in Hst22 as [Hst22 _]; exact (get_error _ _ _ _ Hst22)].
    raised H x23 Hst23; [|exact (create_persona_error _ _ _ _ _ _ _ _ _ Hst23)].
    now apply IH in H.
Qed.

Lemma create_personas_error (user_id : string) (entities style : json)
      (w w' : world) (e : exn) :
  _create_personas E user_id entities style w = (Raise e, w') ->
  e <> RuntimeError.
Proof.
  unfold _create_personas. intro H.
  raised H x24 Hst24;
    [|apply lift_raise in Hst24 as [Hst24 _]; exact (get_error _ _ _ _ Hst24)].
  raised H x25 Hst25;
    [|apply lift_raise in Hst25 as [Hst25 _]; exact (iter_error _ _ Hst25)].
  now apply create_personas_loop_error in H.
Qed.

Lemma update_personas_run (user_id : string) (entities : json)
      (w w' : world) (r : result (list persona)) :
  _update_personas user_id entities w = (r, w') ->
  w' = w /\ forall e, r = Raise e -> e <> RuntimeError.
Proof.
  unfold _update_personas, get_personas, bind, read, lift.
  intro H. injection H as <- <-. split; [reflexivity|].
  intros e He. exact (mentioned_error _ _ _ He).
Qed.

Lemma create_memories_raise (user_id : string) (id : nat)
      (entities pad temporal : json) (w w' : world) (e : exn) :
  _create_memories E user_id id entities pad temporal w = (Raise e, w') ->
  kept w w' /\ e <> RuntimeError.
Proof.
  unfold _create_memories. intro H.
  raised H x26 Hst26; [|now apply ask_json_never_raises in Hst26].
  apply ask_json_run in Hst26 as (v1 & q1 & _ & -> & Hq1).
  raised H x27 Hst27.
  2:{ apply lift_raise in Hst27 as [Hst27 ->].
      split; [now apply kept_requests | exact (getitem_error _ _ _ Hst27)]. }
  apply lift_ok in Hst27 as [_ ->].
  raised H x28 Hst28; [|now apply ask_json_never_raises in Hst28].
  apply ask_json_run in Hst28 as (v2 & q2 & _ & -> & Hq2).
  cbn [requests with_requests] in Hq2.
  raised H x29 Hst29.
  2:{ apply lift_raise in Hst29 as [Hst29 ->].
      split; [|exact (getitem_error _ _ _ Hst29)].
      repeat split; auto. cbn. lia. }
  apply lift_ok in Hst29 as [_ ->].
  raised H x30 Hst30.
  2:{ apply lift_raise in Hst30 as [Hst30 ->].
      split; [|exact (emotion_label_error _ _ Hst30)].
      repeat split; auto. cbn. lia. }
  apply lift_ok in Hst30 as [_ ->].
  raised H x31 Hst31.
  2:{ apply create_memory_event_raise in Hst31 as [(A & B & C & D) Hne].
      split; [|exact Hne]. cbn in A, B, C, D.
      repeat split; auto. lia. }
  unfold ret in H. discriminate.
Qed.

(** A transport error of image grounding is the failure of its three
    attempts. *)
Lemma analyze_image_transport (image_path : string) (w w' : world) :
  _analyze_image E image_path w = (Raise RuntimeError, w') ->
  w' = with_requests (requests w + 3) w
  /\ forall j, j < 3 -> http_post E (requests w + j) = None.
Proof.
  unfold _analyze_image.
  destruct (read_base64 E image_path) as [b64|];
    [|unfold raise; discriminate].
  destruct (String.eqb b64 ""); [unfold raise; discriminate|].
  intro H.
  raised H x32 Hst32.
  2:{ exfalso. apply lift_raise in Hst32 as [Hst32 _].
      unfold ImageFormat.normalize_image_format in Hst32.
      repeat match type of Hst32 with
             | (if ?c then _ else _) = _ => destruct c
             end; discriminate. }
  apply lift_ok in Hst32 as [_ ->].
  raised H x33 Hst33; [unfold ret in H; discriminate|].
  unfold chat_with_image, _post in Hst33.
  pose proof (post_attempts_spec E (max_retries + 1) w) as Hs.
  rewrite Hst33 in Hs. destruct Hs as (_ & Hn & ->). auto.
Qed.


(** *** The stages of an interaction, one after the other *)

Lemma process_interaction_trace (user_id text input_type : string)
      (image_path : option string) (persona_id : option nat)
      (w w' : world) (res : result interaction_result) :
  process_interaction E user_id text input_type image_path persona_id w
  = (res, w') ->
  exists w2,
    kept w w2 /\ requests w2 = requests w
    /\ ((exists path e,
            image_path = Some path /\ path <> ""%string
            /\ _analyze_image E path w2 = (Raise e, w') /\ res = Raise e)
        \/ exists w3 pad w4,
            kept w2 w3
            /\ (image_path = None \/ image_path = Some ""%string -> w3 = w2)
            /\ (forall path, image_path = Some path -> path <> ""%string ->
                  exists c, _analyze_image E path w2 = (Ok c, w3))
            /\ _analyze_emotion E w3 = (Ok pad, w4)
            /\ ((exists e, res = Raise e /\ e <> RuntimeError
                           /\ pad <> emotion_fallback)
                \/ (exists e lg ea,
                      res = Raise e /\ e <> RuntimeError
                      /\ interaction_logs w' = interaction_logs w ++ [lg]
                      /\ emotion_analyses w' = emotion_analyses w ++ [ea]
                      /\ memory_events w' = memory_events w
                      /\ (pad = emotion_fallback ->
                          ea_analysis_method ea = Some "fallback"%string))
                \/ (exists lg ea mem wr,
                      interaction_logs wr = interaction_logs w ++ [lg]
                      /\ emotion_analyses wr = emotion_analyses w ++ [ea]
                      /\ memory_events wr = memory_events w ++ [mem]
                      /\ requests w4 <= requests wr
                      /\ (pad = emotion_fallback ->
                          ea_analysis_method ea = Some "fallback"%string)
                      /\ match _get_response_to_interaction
                                 E user_id persona_id wr with
                         | (Ok rr, w9) =>
                             exists r, res = Ok r /\ res_reply r = rr
                                       /\ pad_analysis r = pad
                                       /\ w' = with_clock (S (clock w9)) w9
                         | (Raise e, w9) => res = Raise e /\ w' = w9
                         end))).
Proof.
  unfold process_interaction. intro H.
  (* bootstrap *)
  raised H x34 Hst34; [|unfold get_user_profile, read in Hst34; discriminate].
  unfold get_user_profile, read in Hst34. injection Hst34 as <- <-.
  raised H x35 Hst35.
  2:{ exfalso. destruct (find _ (user_profiles w)); [discriminate|].
      destruct (create_user_profile_run user_id w) as [ups Hups].
      unfold bind in Hst35. rewrite Hups in Hst35. discriminate. }
  assert (K1 : kept w w0 /\ requests w0 = requests w).
  { destruct (find _ (user_profiles w)).
    - unfold ret in Hst35. injection Hst35 as _ <-. split; [apply kept_refl|auto].
    - destruct (create_user_profile_run user_id w) as [ups Hups].
      unfold bind in Hst35. rewrite Hups in Hst35. unfold ret in Hst35.
      injection Hst35 as _ <-. split; [repeat split; auto | reflexivity]. }
  clear Hst35. destruct K1 as [K1 R1].
  raised H x36 Hst36.
  2:{ exfalso. apply ensure_default_run in Hst36
        as [(p & _ & _ & Hr & _)|(_ & p & Hr & _)]; discriminate. }
  assert (K2 : kept w w1 /\ requests w1 = requests w).
  { apply ensure_default_run in Hst36
      as [(p & _ & _ & _ & ->)|(_ & p & _ & -> & _)]; [auto|].
    destruct K1 as (A & B & C & D). split; [repeat split; auto|exact R1]. }
  clear Hst36 K1 R1 w0. destruct K2 as [K2 R2].
  exists w1. split; [exact K2|]. split; [exact R2|].
  (* grounding *)
  raised H x37 Hst37.
  2:{ left. destruct image_path as [path|];
        [destruct (String.eqb path "") eqn:Hp|];
        try (unfold ret in Hst37; discriminate).
      apply String.eqb_neq in Hp.
      apply bind_inv in Hst37 as [(c & wi & Hi & Hr)|(e' & Hi & He)];
        [unfold ret in Hr; discriminate|].
      injection He as <-. exists path, x37. auto. }
  right.
  assert (G : kept w1 w0
              /\ (image_path = None \/ image_path = Some ""%string -> w0 = w1)
              /\ (forall path, image_path = Some path -> path <> ""%string ->
                    exists c, _analyze_image E path w1 = (Ok c, w0))).
  { destruct image_path as [path|];
      [destruct (String.eqb path "") eqn:Hp|].
    - unfold ret in Hst37. injection Hst37 as _ <-.
      split; [apply kept_refl|]. split; [auto|].
      apply String.eqb_eq in Hp. intros p Hs Hn. congruence.
    - apply String.eqb_neq in Hp.
      apply bind_inv in Hst37 as [(c & wi & Hi & Hr)|(e' & Hi & He)];
        [|discriminate].
      unfold ret in Hr. injection Hr as _ <-.
      pose proof Hi as Hq. apply analyze_image_run in Hq as (q & -> & Hq).
      split; [now apply kept_requests|]. split.
      + intros [Hn|Hs]; [discriminate | congruence].
      + intros p Hs _. injection Hs as <-. eauto.
    - unfold ret in Hst37. injection Hst37 as _ <-.
      split; [apply kept_refl|]. split; [auto|]. discriminate. }
  clear Hst37. destruct G as (K3 & G1 & G2).
  (* emotion *)
  raised H x38 Hst38; [|now apply ask_json_never_raises in Hst38].
  rename a2 into pad. rename w2 into w4.
  exists w0, pad, w4.
  split; [exact K3|]. split; [exact G1|]. split; [exact G2|].
  split; [exact Hst38|].
  assert (K4 : kept w w4).
  { apply ask_json_run in Hst38 as (v & q & _ & -> & Hq).
    eapply kept_trans; [exact K2|]. eapply kept_trans; [exact K3|].
    now apply kept_requests. }
  clear Hst38.
  raised H x39 Hst39.
  2:{ left. apply lift_raise in Hst39 as [Hst39 _].
      exists x39. split; [reflexivity|].
      split; [exact (get_error _ _ _ _ Hst39)|].
      intros ->. cbn in Hst39. discriminate. }
  apply lift_ok in Hst39 as [Hpv ->].
  raised H x40 Hst40.
  2:{ left. apply lift_raise in Hst40 as [Hst40 _].
      exists x40. split; [reflexivity|].
      split; [exact (emotion_label_error _ _ Hst40)|].
      intros ->. cbn in Hst40. discriminate. }
  apply lift_ok in Hst40 as [Hlab ->].
  raised H x41 Hst41.
  2:{ left. apply log_interaction_raise in Hst41 as (_ & Hne & e' & Hb).
      exists x41. split; [reflexivity|]. split; [exact Hne|].
      intros ->. cbn in Hlab. injection Hlab as <-. cbn in Hb. discriminate. }
  apply log_interaction_ok in Hst41 as (xl & Hxl & -> & ->).
  raised H x42 Hst42.
  2:{ left. apply lift_raise in Hst42 as [Hst42 _].
      exists x42. split; [reflexivity|].
      split; [exact (get_error _ _ _ _ Hst42)|].
      intros ->. cbn in Hst42. discriminate. }
  apply lift_ok in Hst42 as [Hpv' ->].
  raised H x43 Hst43.
  2:{ left. apply lift_raise in Hst43 as [Hst43 _].
      exists x43. split; [reflexivity|].
      split; [exact (get_error _ _ _ _ Hst43)|].
      intros ->. cbn in Hst43. discriminate. }
  apply lift_ok in Hst43 as [Hcat ->].
  raised H x44 Hst44.
  2:{ left. apply lift_raise in Hst44 as [Hst44 _].
      exists x44. split; [reflexivity|].
      split; [exact (get_error _ _ _ _ Hst44)|].
      intros ->. cbn in Hst44. discriminate. }
  apply lift_ok in Hst44 as [Hconf ->].
  raised H x45 Hst45.
  2:{ left. apply lift_raise in Hst45 as [Hst45 _].
      exists x45. split; [reflexivity|].
      split; [exact (get_error _ _ _ _ Hst45)|].
      intros ->. cbn in Hst45. discriminate. }
  apply lift_ok in Hst45 as [Hmeth ->].
  raised H x46 Hst46.
  2:{ left. pose proof Hst46 as Hk.
      apply save_emotion_analysis_raise in Hk as (_ & Hne & e' & Hb).
      exists x46. split; [reflexivity|]. split; [exact Hne|].
      intros ->. cbn in Hmeth. injection Hmeth as <-.
      cbn in Hb. discriminate. }
  apply save_emotion_analysis_ok in Hst46 as (xm & Hxm & ->).
  right.
  match type of H with
  | context [interaction_logs w4 ++ [?x]] => set (lg := x) in *
  end.
  match type of H with
  | context [emotion_analyses ?wx ++ [?x]] =>
      set (ea := x) in *
  end.
  assert (F6 : pad = emotion_fallback ->
               ea_analysis_method ea = Some "fallback"%string).
  { intros ->. cbn in Hmeth. injection Hmeth as <-.
    cbn in Hxm. injection Hxm as <-. reflexivity. }
  destruct K4 as (L4 & A4 & M4 & R4).
  match type of H with
  | bind _ _ ?wx = _ => set (w6 := wx) in *
  end.
  assert (L6 : interaction_logs w6 = interaction_logs w ++ [lg])
    by (cbn; now rewrite L4).
  assert (A6 : emotion_analyses w6 = emotion_analyses w ++ [ea])
    by (cbn; now rewrite A4).
  assert (M6 : memory_events w6 = memory_events w)
    by (cbn; exact M4).
  assert (R6 : requests w4 <= requests w6) by (cbn; lia).
  clearbody w6. clear L4 A4 M4 R4.
  (* entities, style, time and place *)
  raised H x47 Hst47; [|now apply ask_json_never_raises in Hst47].
  apply ask_json_run in Hst47 as (v7 & q7 & _ & -> & Hq7).
  raised H x48 Hst48; [|now apply ask_json_never_raises in Hst48].
  apply ask_json_run in Hst48 as (v8 & q8 & _ & -> & Hq8).
  raised H x49 Hst49; [|now apply ask_json_never_raises in Hst49].
  apply ask_json_run in Hst49 as (v9 & q9 & _ & -> & Hq9).
  cbn [requests with_requests] in Hq8, Hq9.
  match type of H with
  | bind _ _ ?wx = _ => set (w9 := wx) in *
  end.
  assert (K9 : kept w6 w9)
    by (subst w9; repeat split; auto; cbn; lia).
  clearbody w9.
  (* personas *)
  raised H x50 Hst50.
  2:{ left. pose proof Hst50 as Hk.
      apply create_personas_run in Hk as [c1 Hk].
      apply kept_gained in Hk.
      destruct (kept_trans _ _ _ K9 Hk) as (A & B & C & D).
      exists x50, lg, ea. split; [reflexivity|].
      split; [exact (create_personas_error _ _ _ _ _ _ Hst50)|].
      repeat split; try congruence. exact F6. }
  apply create_personas_run in Hst50 as [c1 Hk].
  apply kept_gained in Hk.
  pose proof (kept_trans _ _ _ K9 Hk) as K10. clear K9 Hk.
  raised H x51 Hst51.
  2:{ left. apply update_personas_run in Hst51 as [-> Hne].
      destruct K10 as (A & B & C & D).
      exists x51, lg, ea. split; [reflexivity|].
      split; [now apply Hne|].
      repeat split; try congruence. exact F6. }
  apply update_personas_run in Hst51 as [-> _].
  (* memory *)
  raised H x52 Hst52.
  2:{ left. apply create_memories_raise in Hst52 as [Hk Hne].
      destruct (kept_trans _ _ _ K10 Hk) as (A & B & C & D).
      exists x52, lg, ea. split; [reflexivity|].
      split; [exact Hne|].
      repeat split; try congruence. exact F6. }
  apply create_memories_ok in Hst52
    as (topic & score & label' & xt & xy & xs & q11 & _ & _ & _
        & _ & Hq11 & -> & ->).
  right.
  destruct K10 as (A & B & C & D).
  match type of H with
  | context [memory_events ?wx ++ [?x]] => set (mem := x) in *
  end.
  match type of H with
  | bind _ _ ?wx = _ => set (wr := wx) in *
  end.
  exists lg, ea, mem, wr.
  split; [subst wr; cbn; congruence|].
  split; [subst wr; cbn; congruence|].
  split; [subst wr; cbn; congruence|].
  split; [subst wr; cbn; lia|].
  split; [exact F6|].
  clearbody wr.
  unfold bind at 1 in H.
  destruct (_get_response_to_interaction E user_id persona_id wr)
    as [[rr|e] w12].
  - unfold bind, now, ret in H. injection H as <- <-.
    eexists. repeat split.
  - injection H as <- <-. auto.
Qed.

Lemma get_response_keeps (user_id : string) (persona_id : option nat)
      (w w' : world) (r : result reply_result) :
  _get_response_to_interaction E user_id persona_id w = (r, w') ->
  emotion_analyses w' = emotion_analyses w
  /\ memory_events w' = memory_events w
  /\ requests w <= requests w'.
Proof.
  intro H. apply get_response_run in H
    as [(rr & sp & content & q & _ & _ & _ & _ & _ & _ & Hq & ->)
       |[(e & _ & _ & [[_ Hc]|[_ ->]])|(_ & _ & id & Hd)]]; auto.
  - apply chat_run in Hc as (q & -> & Hq). auto.
  - apply ensure_default_run in Hd
      as [(p & _ & _ & _ & ->)|(_ & p & _ & -> & _)]; auto.
Qed.

(** Image grounding with its three attempts failing. *)
Lemma analyze_image_down (image_path image_base64 : string) (w : world) :
  read_base64 E image_path = Some image_base64 ->
  image_base64 <> ""%string ->
  ImageFormat.accepts (PyStr.last_field "." image_path) = true ->
  (forall j, j < 3 -> http_post E (requests w + j) = None) ->
  exists w', _analyze_image E image_path w = (Raise RuntimeError, w').
Proof.
  intros Hread Hne Hacc Hdown. unfold _analyze_image. rewrite Hread.
  apply String.eqb_neq in Hne. rewrite Hne.
  unfold ImageFormat.accepts in Hacc.
  destruct (ImageFormat.normalize_image_format _) as [f|e]; [|discriminate].
  unfold bind, lift, chat_with_image, _post.
  pose proof (post_attempts_spec E (max_retries + 1) w) as Hs.
  destruct (post_attempts E (max_retries + 1) w) as [[content|e] w1].
  - destruct Hs as (i & Hi & Hp & _). rewrite Hdown in Hp by exact Hi.
    discriminate.
  - destruct Hs as (-> & _). eauto.
Qed.

(** An extraction stage whose three attempts fail answers its default. *)
Lemma ask_json_down_here (fallback : json) (w w' : world) (v : json) :
  (forall j, j < 3 -> http_post E (requests w + j) = None) ->
  _ask_json E fallback w = (Ok v, w') -> v = fallback.
Proof.
  intros Hdown. unfold _ask_json, chat, _post.
  pose proof (post_attempts_spec E (max_retries + 1) w) as Hs.
  destruct (post_attempts E (max_retries + 1) w) as [[content|e] w1].
  - destruct Hs as (i & Hi & Hp & _). rewrite Hdown in Hp by exact Hi.
    discriminate.
  - intro H. now injection H as <- _.
Qed.

(** C1, as amended.  A transport failure, the three attempts of a request
    failing, reaches the caller of [process_interaction] as
    [RuntimeError] from two stages only: from image grounding, before
    anything is logged, and from reply synthesis, after the log, the
    analysis and the memory were written.  When the three attempts of
    image grounding fail the interaction raises it, and an interaction
    returns only when the request of reply synthesis was answered; with
    the endpoint down on every attempt no interaction returns.  At an
    extraction stage the failure is caught like a reply that does not
    parse: [_ask_json] never raises and answers the default of the stage,
    so that, when the three attempts of the emotion request fail, the
    interaction goes on and records the fallback analysis. *)
Theorem transport_failures_by_stage
        (user_id text input_type : string) (image_path : option string)
        (persona_id : option nat) (w w' : world)
        (res : result interaction_result) :
  process_interaction E user_id text input_type image_path persona_id w
  = (res, w') ->
  (res = Raise RuntimeError ->
   requests w + 3 <= requests w'
   /\ (forall j, j < 3 -> http_post E (requests w' - 3 + j) = None)
   /\ ((image_path <> None
        /\ requests w' = requests w + 3
        /\ interaction_logs w' = interaction_logs w
        /\ emotion_analyses w' = emotion_analyses w
        /\ memory_events w' = memory_events w)
       \/ (exists lg ea mem,
             interaction_logs w' = interaction_logs w ++ [lg]
             /\ emotion_analyses w' = emotion_analyses w ++ [ea]
             /\ memory_events w' = memory_events w ++ [mem])))
  /\ (forall path image_base64,
        image_path = Some path -> path <> ""%string ->
        read_base64 E path = Some image_base64 ->
        image_base64 <> ""%string ->
        ImageFormat.accepts (PyStr.last_field "." path) = true ->
        (forall j, j < 3 -> http_post E (requests w + j) = None) ->
        res = Raise RuntimeError)
  /\ (forall r, res = Ok r ->
        requests w < requests w'
        /\ exists content,
             http_post E (requests w' - 1) = Some content
             /\ reply (res_reply r) = str_strip E content)
  /\ (image_path = None \/ image_path = Some ""%string ->
      (forall j, j < 3 -> http_post E (requests w + j) = None) ->
      (exists ea, emotion_analyses w' = emotion_analyses w ++ [ea]
                  /\ ea_analysis_method ea = Some "fallback"%string)
      /\ forall r, res = Ok r -> pad_analysis r = emotion_fallback)
  /\ (forall fallback w0,
        exists v w1,
          _ask_json E fallback w0 = (Ok v, w1)
          /\ ((exists w2, chat E w0 = (Raise RuntimeError, w2)) -> v = fallback)
          /\ (forall txt w2, chat E w0 = (Ok txt, w2) ->
                             json_loads E (json_candidate txt) = None ->
                             v = fallback))
  /\ ((forall i, http_post E i = None) -> exists e, res = Raise e).
Proof.
  intro H.
  destruct (process_interaction_trace _ _ _ _ _ _ _ _ H)
    as (w2 & K2 & R2 & T).
  split; [|split; [|split; [|split; [|split]]]].
  - (* where a transport error comes from *)
    intros ->.
    destruct T as [(path & e & Hi & Hp & Himg & He)
                  |(w3 & pad & w4 & K3 & G1 & G2 & Hem
                    & [(e & He & Hne & _)
                      |[(e & lg & ea & He & Hne & _)
                       |(lg & ea & mem & wr & L & A & M & R & _ & Hrep)]])].
    + injection He as <-.
      apply analyze_image_transport in Himg as [-> Hn].
      destruct K2 as (a & b & c & d). cbn.
      split; [lia|]. split.
      { intros j Hj. replace (requests w2 + 3 - 3 + j) with (requests w2 + j)
          by lia. auto. }
      left. rewrite Hi. repeat split; try discriminate; try congruence; lia.
    + injection He as <-. contradiction.
    + injection He as <-. contradiction.
    + destruct (_get_response_to_interaction E user_id persona_id wr)
        as [[rr|e] w9] eqn:Hg.
      { destruct Hrep as (r & Hr & _). discriminate. }
      destruct Hrep as [Hr ->]. injection Hr as <-.
      apply get_response_run in Hg
        as [(rr & sp & content & q & Hrr & _)
           |[(e & He & _ & [[_ Hc]|[[He'|He'] _]])|(He & _)]];
        try discriminate; try (injection He as <-; discriminate).
      unfold chat, _post in Hc.
      pose proof (post_attempts_spec E (max_retries + 1) wr) as Hs.
      rewrite Hc in Hs. destruct Hs as (_ & Hn & ->).
      apply ask_json_run in Hem as (v & q & _ & -> & Hq).
      destruct K2 as (_ & _ & _ & d2). destruct K3 as (_ & _ & _ & d3).
      cbn in *. split; [lia|]. split.
      { intros j Hj.
        replace (requests wr + 3 - 3 + j) with (requests wr + j) by lia. auto. }
      right. exists lg, ea, mem. auto.
  - (* image grounding *)
    intros path b64 Hi Hp Hread Hb Hacc Hdown.
    rewrite <- R2 in Hdown.
    destruct (analyze_image_down path b64 w2 Hread Hb Hacc Hdown) as [wi Hraise].
    destruct T as [(path' & e & Hi' & _ & Himg & He)
                  |(w3 & pad & w4 & _ & _ & G2 & _)].
    + rewrite Hi in Hi'. injection Hi' as <-. rewrite Hraise in Himg.
      injection Himg as <- _. exact He.
    + destruct (G2 path Hi Hp) as [c Hc]. rewrite Hraise in Hc. discriminate.
  - (* reply synthesis *)
    intros r ->.
    destruct T as [(path & e & _ & _ & _ & He)
                  |(w3 & pad & w4 & K3 & G1 & G2 & Hem
                    & [(e & He & _)
                      |[(e & lg & ea & He & _)
                       |(lg & ea & mem & wr & L & A & M & R & _ & Hrep)]])];
      try discriminate.
    destruct (_get_response_to_interaction E user_id persona_id wr)
      as [[rr|e] w9] eqn:Hg; [|destruct Hrep; discriminate].
    destruct Hrep as (r' & Hr & Hrr & _ & ->). injection Hr as <-.
    apply get_response_run in Hg
      as [(rr' & sp & content & q & Hrr' & _ & _ & _ & Hreply & Hc & Hq & ->)
         |[(e & He & _)|(He & _)]]; try discriminate.
    injection Hrr' as <-. subst rr.
    apply chat_content in Hc as (i & Hi & Hpost & Hsi).
    apply ask_json_run in Hem as (v & q4 & _ & -> & Hq4).
    destruct K2 as (_ & _ & _ & d2). destruct K3 as (_ & _ & _ & d3).
    cbn in *. subst q. split; [lia|].
    exists content. replace (S i - 1) with i by lia. auto.
  - (* the emotion stage *)
    intros Himg Hdown.
    destruct T as [(path & e & Hi & Hp & _)
                  |(w3 & pad & w4 & K3 & G1 & G2 & Hem & T)].
    { exfalso. destruct Himg as [Hn|Hs]; [congruence|].
      rewrite Hi in Hs. injection Hs as Hs. contradiction. }
    rewrite (G1 Himg) in Hem. rewrite <- R2 in Hdown.
    pose proof (ask_json_down_here _ _ _ _ Hdown Hem) as ->.
    destruct T as [(e & He & _ & Hpad)
                  |[(e & lg & ea & He & _ & _ & Ha & _ & F)
                   |(lg & ea & mem & wr & L & A & M & R & F & Hrep)]].
    + contradiction.
    + split; [exists ea; auto|]. intros r Hr. congruence.
    + destruct (_get_response_to_interaction E user_id persona_id wr)
        as [[rr|e] w9] eqn:Hg.
      * destruct Hrep as (r & Hr & _ & Hpad & ->).
        apply get_response_keeps in Hg as (Hk & _).
        split.
        -- exists ea. split; [cbn; congruence | auto].
        -- intros r0 Hr0. congruence.
      * destruct Hrep as [Hr ->].
        apply get_response_keeps in Hg as (Hk & _).
        split.
        -- exists ea. split; [congruence | auto].
        -- intros r0 Hr0. congruence.
  - (* every extraction stage *)
    intros fallback w0. unfold _ask_json.
    destruct (chat E w0) as [[txt|e] w1] eqn:Hc.
    + eexists. eexists. split; [reflexivity|]. split.
      * intros [w3 H3]. discriminate.
      * intros txt' w3 H3 Hl. injection H3 as <- <-.
        unfold extract_json. now rewrite Hl.
    + eexists. eexists. split; [reflexivity|]. split; [reflexivity|].
      intros txt w3 H3. discriminate.
  - (* the endpoint down *)
    intros Hdown. destruct res as [r|e]; [|eauto].
    exfalso. apply process_interaction_reply_call in H
      as (wk & content & q & Hc & _).
    unfold chat, _post in Hc.
    destruct (post_attempts_down E (max_retries + 1) wk Hdown) as [w3 H3].
    rewrite H3 in Hc. discriminate.
Qed.

End Transport.

(** ** The reports: trajectory, distribution and summary *)

Section TrajectoryFacts.

Import Report PeriodReport.

Open Scope list_scope.

Variable date_of : nat -> string.

Lemma of_nat_add (a b : nat) : of_nat (a + b) == of_nat a + of_nat b.
Proof.
  unfold of_nat. rewrite Nat2Z.inj_add, inject_Z_plus. reflexivity.
Qed.

Lemma of_nat_pos (n : nat) : (0 < n)%nat -> 0 < of_nat n.
Proof.
  intro H. unfold of_nat. change 0 with (inject_Z 0).
  rewrite <- Zlt_Qlt. lia.
Qed.

Lemma add_label_facts (date : string) (label : option string)
      (d : list (string * list (option string))) :
  NoDup (map fst d) -> Forall (fun g => snd g <> []) d ->
  NoDup (map fst (add_label date label d))
  /\ Forall (fun g => snd g <> []) (add_label date label d)
  /\ labels_in (add_label date label d) = S (labels_in d)
  /\ In date (map fst (add_label date label d))
  /\ (forall k, In k (map fst d) -> In k (map fst (add_label date label d)))
  /\ (forall k, In k (map fst (add_label date label d)) ->
                k = date \/ In k (map fst d)).
Proof.
  induction d as [|[k labels] d IH]; intros Hd Hn.
  - simpl. repeat split; auto.
    + repeat constructor. intros [].
    + repeat constructor. discriminate.
    + intros k [<-|[]]. now left.
  - inversion Hd as [|? ? Hk Hd']; subst. inversion Hn as [|? ? Hl Hn']; subst.
    cbn [add_label]. destruct (String.eqb date k) eqn:He.
    + apply String.eqb_eq in He. subst k. cbn.
      repeat split; auto.
      * constructor; auto. simpl. destruct labels; discriminate.
      * rewrite length_app. simpl. lia.
    + destruct (IH Hd' Hn') as (I1 & I2 & I3 & I4 & I5 & I6). cbn.
      repeat split; auto.
      * constructor; [|exact I1]. intro Hin. apply I6 in Hin as [->|Hin];
          [now rewrite String.eqb_refl in He | contradiction].
      * rewrite I3. lia.
      * intros k' [<-|Hin]; auto.
      * intros k' [<-|Hin]; auto. apply I6 in Hin as [->|Hin]; auto.
Qed.

Lemma group_by_date_facts (interactions : list interaction_log)
      (d : list (string * list (option string))) :
  NoDup (map fst d) -> Forall (fun g => snd g <> []) d ->
  NoDup (map fst (group_by_date date_of interactions d))
  /\ Forall (fun g => snd g <> []) (group_by_date date_of interactions d)
  /\ labels_in (group_by_date date_of interactions d)
     = (labels_in d + List.length interactions)%nat
  /\ (forall k, In k (map fst d) ->
                In k (map fst (group_by_date date_of interactions d)))
  /\ (forall lg, In lg interactions ->
        In (date_of (log_timestamp lg))
           (map fst (group_by_date date_of interactions d)))
  /\ (forall k, In k (map fst (group_by_date date_of interactions d)) ->
        In k (map fst d)
        \/ exists lg, In lg interactions /\ date_of (log_timestamp lg) = k).
Proof.
  revert d. induction interactions as [|lg rest IH]; intros d Hd Hn.
  - simpl. repeat split; auto. intros lg [].
  - cbn [group_by_date].
    destruct (add_label_facts (date_of (log_timestamp lg))
                              (log_emotion_label lg) d Hd Hn)
      as (A1 & A2 & A3 & A4 & A5 & A6).
    destruct (IH _ A1 A2) as (I1 & I2 & I3 & I4 & I5 & I6).
    repeat split; auto.
    + rewrite I3, A3. simpl. lia.
    + intros lg' [<-|Hin]; auto.
    + intros k Hin. apply I6 in Hin as [Hin|(lg' & Hin & <-)].
      * apply A6 in Hin as [->|Hin]; auto. right. exists lg. split; auto.
        now left.
      * right. exists lg'. split; auto. now right.
Qed.

Lemma count_emotions_total (emotions : list (option string)) (c : day_counts) :
  (positive_count (count_emotions emotions c) + negative_count (count_emotions emotions c)
   + neutral_count (count_emotions emotions c)
   = positive_count c + negative_count c + neutral_count c + List.length emotions)%nat.
Proof.
  revert c. induction emotions as [|e rest IH]; intro c; simpl; [lia|].
  rewrite IH.
  destruct (in_words e positive_words); [simpl; lia|].
  destruct (in_words e negative_words); simpl; lia.
Qed.

Lemma stats_of_counts_facts (c : day_counts) (s : day_stats) :
  stats_of_counts c = Some s ->
  positive_ratio s + negative_ratio s + neutral_ratio s == 1
  /\ 0 <= positive_ratio s /\ 0 <= negative_ratio s /\ 0 <= neutral_ratio s
  /\ total_interactions s = (positive_count c + negative_count c + neutral_count c)%nat
  /\ (0 < total_interactions s)%nat.
Proof.
  unfold stats_of_counts.
  destruct (Nat.ltb 0 (positive_count c + negative_count c + neutral_count c)) eqn:Ht;
    [|discriminate].
  apply Nat.ltb_lt in Ht. intro H. injection H as <-. cbn.
  pose proof (of_nat_pos _ Ht) as Hpos.
  assert (Hne : ~ of_nat (positive_count c + negative_count c + neutral_count c) == 0)
    by (intro H0; rewrite H0 in Hpos; now apply Qlt_irrefl in Hpos).
  split.
  { rewrite !of_nat_add in *. field. exact Hne. }
  assert (Hdiv : forall n, 0 <= of_nat n
                                / of_nat (positive_count c + negative_count c + neutral_count c)).
  { intro n. apply Qle_shift_div_l; [exact Hpos|].
    rewrite Qmult_0_l. apply of_nat_nonneg. }
  repeat split; auto.
Qed.

Lemma daily_trajectory_facts (d : list (string * list (option string))) :
  Forall (fun g => snd g <> []) d ->
  map fst (daily_trajectory d) = map fst d
  /\ interactions_in (daily_trajectory d) = labels_in d
  /\ forall date s, In (date, s) (daily_trajectory d) ->
       exists emotions,
         In (date, emotions) d
         /\ stats_of_counts
              (count_emotions emotions
                 {| positive_count := 0; negative_count := 0; neutral_count := 0 |}) = Some s.
Proof.
  induction d as [|[date emotions] d IH]; intro Hn.
  - simpl. repeat split; auto. intros ? ? [].
  - inversion Hn as [|? ? Hl Hn']; subst. simpl in Hl.
    destruct (IH Hn') as (I1 & I2 & I3).
    cbn [daily_trajectory].
    destruct (stats_of_counts _) as [s|] eqn:Hs.
    + pose proof (stats_of_counts_facts _ _ Hs) as (_ & _ & _ & _ & Ht & _).
      rewrite count_emotions_total in Ht. cbn in Ht.
      cbn. rewrite I1, I2, Ht. repeat split; auto.
      intros date' s' [Heq|Hin].
      * injection Heq as <- <-. exists emotions. split; [now left | exact Hs].
      * destruct (I3 _ _ Hin) as (em & Hin' & Hs'). exists em.
        split; [now right | exact Hs'].
    + exfalso. unfold stats_of_counts in Hs.
      rewrite count_emotions_total in Hs. cbn in Hs.
      destruct emotions; [contradiction|]. simpl in Hs. discriminate.
Qed.

Lemma add_label_rows (date : string) (label : option string)
      (d : list (string * list (option string)))
      (k : string) (labels : list (option string)) :
  NoDup (map fst d) ->
  In (k, labels) (add_label date label d) ->
  (k = date
   /\ exists old, labels = old ++ [label]
                  /\ (In (k, old) d \/ (old = [] /\ ~ In k (map fst d))))
  \/ (k <> date /\ In (k, labels) d).
Proof.
  induction d as [|[k' l'] d IH]; cbn [add_label]; intro Hd.
  - intros [H|[]]. injection H as <- <-. left. split; [reflexivity|].
    exists []. split; [reflexivity|]. right. split; [reflexivity|]. intros [].
  - inversion Hd as [|? ? Hk' Hd']; subst.
    destruct (String.eqb date k') eqn:He.
    + apply String.eqb_eq in He. subst k'. intros [H|H].
      * injection H as <- <-. left. split; [reflexivity|].
        exists l'. split; [reflexivity|]. left. now left.
      * right. split; [|now right]. intro Hk. subst k.
        apply Hk'. change date with (fst (date, labels)). now apply in_map.
    + intros [H|H].
      * injection H as <- <-. right. split; [|now left].
        intro Hk. subst k'. now rewrite String.eqb_refl in He.
      * apply (IH Hd') in H as [(Hk & old & Hl & Ho)|(Hk & Hin)].
        -- left. split; [exact Hk|]. exists old. split; [exact Hl|].
           destruct Ho as [Ho|[Ho Hn]]; [left; now right|].
           right. split; [exact Ho|]. cbn. intros [Hk2|Hin]; [|contradiction].
           subst. now rewrite String.eqb_refl in He.
        -- right. split; [exact Hk|]. now right.
Qed.

(** The labels that [daily_emotions] holds for a date are those of the
    interactions of that date, in their order. *)
Lemma group_by_date_rows (interactions : list interaction_log)
      (d : list (string * list (option string)))
      (k : string) (labels : list (option string)) :
  NoDup (map fst d) -> Forall (fun g => snd g <> []) d ->
  In (k, labels) (group_by_date date_of interactions d) ->
  exists old,
    (In (k, old) d \/ (old = [] /\ ~ In k (map fst d)))
    /\ labels = old ++ map log_emotion_label (on_date date_of k interactions).
Proof.
  revert d. induction interactions as [|lg rest IH]; intros d Hd Hn Hin.
  - cbn in Hin. exists labels. split; [now left|]. cbn. now rewrite app_nil_r.
  - cbn [group_by_date] in Hin.
    destruct (add_label_facts (date_of (log_timestamp lg))
                              (log_emotion_label lg) d Hd Hn)
      as (A1 & A2 & _ & A4 & A5 & _).
    destruct (IH _ A1 A2 Hin) as (old' & Ho & ->).
    unfold on_date. cbn [filter]. fold (on_date date_of k rest).
    destruct Ho as [Ho|[-> Hnot]].
    + apply (add_label_rows _ _ _ _ _ Hd) in Ho
        as [(-> & old & -> & Ho)|(Hk & Ho)].
      * rewrite String.eqb_refl. exists old. split; [exact Ho|].
        cbn. now rewrite <- app_assoc.
      * exists old'. split; [now left|].
        destruct (String.eqb (date_of (log_timestamp lg)) k) eqn:He;
          [apply String.eqb_eq in He; congruence | reflexivity].
    + exists []. split.
      * right. split; [reflexivity|]. intro Hk. apply Hnot. now apply A5.
      * destruct (String.eqb (date_of (log_timestamp lg)) k) eqn:He;
          [|reflexivity].
        apply String.eqb_eq in He. subst k. contradiction.
Qed.

(** X14: the daily trajectory of a list of interactions that is not
    empty has exactly one entry for each date on which one of them was
    logged; [total_interactions] of a day is the number of interactions
    logged on that date, so that the days together count every
    interaction once, and each of the three ratios of a day lies between
    0 and 1. *)
Theorem daily_trajectory_partitions (interactions : list interaction_log) :
  interactions <> [] ->
  exists t,
    _analyze_emotion_trajectory date_of interactions
    = trajectory_of t (_calculate_emotion_trend t)
    /\ NoDup (map fst t)
    /\ (forall date, In date (map fst t) <->
          exists lg, In lg interactions /\ date_of (log_timestamp lg) = date)
    /\ (forall date s, In (date, s) t ->
          total_interactions s
          = List.length (on_date date_of date interactions)
          /\ (0 < total_interactions s)%nat
          /\ 0 <= positive_ratio s <= 1
          /\ 0 <= negative_ratio s <= 1
          /\ 0 <= neutral_ratio s <= 1)
    /\ interactions_in t = List.length interactions.
Proof.
  intro Hne.
  destruct (group_by_date_facts interactions [])
    as (G1 & G2 & G3 & _ & G5 & G6); [constructor | constructor |].
  destruct (daily_trajectory_facts _ G2) as (D1 & D2 & D3).
  eexists. split.
  { unfold _analyze_emotion_trajectory.
    destruct interactions; [contradiction | reflexivity]. }
  split; [now rewrite D1|].
  split.
  { intro date. rewrite D1. split.
    - intro Hin. apply G6 in Hin as [[]|Hin]. exact Hin.
    - intros (lg & Hin & <-). now apply G5. }
  split.
  { intros date s Hin. destruct (D3 _ _ Hin) as (em & Hem & Hs).
    apply group_by_date_rows in Hem as (old & Ho & ->);
      [|constructor|constructor].
    destruct Ho as [[]|[-> _]]. cbn [app] in Hs.
    apply stats_of_counts_facts in Hs as (S1 & S2 & S3 & S4 & S5 & S6).
    rewrite count_emotions_total in S5. cbn in S5.
    rewrite length_map in S5.
    split; [exact S5|]. split; [exact S6|].
    repeat split; try assumption; lra. }
  rewrite D2, G3. reflexivity.
Qed.

End TrajectoryFacts.
Section NeutralFacts.

Import Report PeriodReport.

Open Scope list_scope.

Variable date_of : nat -> string.

Lemma count_emotions_enum (emotions : list (option string)) (c : day_counts) :
  Forall (fun e => in_words e positive_words = false
                   /\ in_words e negative_words = false) emotions ->
  positive_count (count_emotions emotions c) = positive_count c
  /\ negative_count (count_emotions emotions c) = negative_count c.
Proof.
  revert c. induction emotions as [|e rest IH]; intros c H; [now split|].
  inversion H as [|? ? [Hp Hn] H']; subst. cbn [count_emotions].
  rewrite Hp, Hn.
  destruct (IH {| positive_count := positive_count c; negative_count := negative_count c;
                  neutral_count := S (neutral_count c) |} H') as [-> ->].
  now split.
Qed.

Lemma add_label_all (P : option string -> Prop) (date : string)
      (label : option string) (d : list (string * list (option string))) :
  P label -> Forall (fun g => Forall P (snd g)) d ->
  Forall (fun g => Forall P (snd g)) (add_label date label d).
Proof.
  intros Hl. induction d as [|[k labels] d IH]; intro H.
  - repeat constructor. exact Hl.
  - inversion H as [|? ? Hk H']; subst. cbn [add_label].
    destruct (String.eqb date k); constructor; auto.
    cbn. apply Forall_app. split; [exact Hk | repeat constructor; exact Hl].
Qed.

Lemma group_by_date_all (P : option string -> Prop)
      (interactions : list interaction_log)
      (d : list (string * list (option string))) :
  Forall (fun lg => P (log_emotion_label lg)) interactions ->
  Forall (fun g => Forall P (snd g)) d ->
  Forall (fun g => Forall P (snd g)) (group_by_date date_of interactions d).
Proof.
  revert d. induction interactions as [|lg rest IH]; intros d Hi Hd; [exact Hd|].
  inversion Hi; subst. cbn [group_by_date]. apply IH; [assumption|].
  now apply add_label_all.
Qed.

Lemma zero_ratio (n : nat) : of_nat 0 / of_nat n == 0.
Proof. unfold of_nat. simpl. unfold Qdiv. now rewrite Qmult_0_l. Qed.

Lemma In_insert_by_date (x y : string * day_stats) (l : trajectory) :
  In y (insert_by_date x l) -> y = x \/ In y l.
Proof.
  induction l as [|z l IH]; simpl; [intros [<-|[]]; now left|].
  destruct (String.leb (fst x) (fst z)).
  - intros [<-|H]; auto.
  - intros [<-|H]; [right; now left|]. apply IH in H as [->|H]; auto.
Qed.

Lemma In_by_date (y : string * day_stats) (t : trajectory) :
  In y (by_date t) -> In y t.
Proof.
  induction t as [|x t IH]; simpl; [auto|].
  intro H. apply In_insert_by_date in H as [->|H]; auto.
Qed.

Lemma constant_of_zeros (ys : list Q) :
  Forall (fun y => y == 0) ys -> constant ys.
Proof.
  unfold constant. induction ys as [|y ys IH]; intro H; [exact I|].
  inversion H as [|? ? Hy H']; subst. simpl.
  destruct ys as [|y' ys']; [exact I|].
  inversion H' as [|? ? Hy' _]; subst.
  split; [now rewrite Hy, Hy' | now apply IH].
Qed.

(** X15: when every interaction carries one of the labels positive,
    negative and neutral, which are those the emotion prompt asks the
    model for, the trajectory counts all of them as neutral: each day
    has the positive ratio 0, the negative ratio 0 and the neutral ratio
    1, and the trend is "stable" as soon as there are two days. *)
Theorem enum_labels_are_all_neutral (interactions : list interaction_log) :
  interactions <> [] ->
  Forall enum_label interactions ->
  exists t tr,
    _analyze_emotion_trajectory date_of interactions = trajectory_of t tr
    /\ (forall date s, In (date, s) t ->
          positive_ratio s == 0 /\ negative_ratio s == 0
          /\ neutral_ratio s == 1)
    /\ ((List.length t < 2)%nat -> tr = insufficient_data)
    /\ ((2 <= List.length t)%nat -> overall_trend tr = Some "stable"%string).
Proof.
  intros Hne Henum.
  set (P := fun e : option string =>
              in_words e positive_words = false
              /\ in_words e negative_words = false).
  assert (HP : Forall (fun lg => P (log_emotion_label lg)) interactions).
  { eapply Forall_impl; [|exact Henum]. intros lg [H|[H|H]];
      rewrite H; split; reflexivity. }
  pose proof (group_by_date_all P interactions [] HP (Forall_nil _)) as Hall.
  destruct (group_by_date_facts date_of interactions [])
    as (_ & G2 & _); [constructor | constructor |].
  destruct (daily_trajectory_facts _ G2) as (D1 & _ & D3).
  set (t := daily_trajectory (group_by_date date_of interactions [])) in *.
  assert (Hzero : forall date s, In (date, s) t ->
                    positive_ratio s == 0 /\ negative_ratio s == 0
                    /\ neutral_ratio s == 1).
  { intros date s Hin. destruct (D3 _ _ Hin) as (em & Hem & Hs).
    rewrite Forall_forall in Hall. specialize (Hall _ Hem). cbn in Hall.
    destruct (count_emotions_enum em
                {| positive_count := 0; negative_count := 0; neutral_count := 0 |} Hall)
      as [Hp Hn].
    pose proof (stats_of_counts_facts _ _ Hs) as (Hsum & _).
    unfold stats_of_counts in Hs.
    destruct (Nat.ltb 0 _); [|discriminate]. injection Hs as <-.
    cbn in *. rewrite Hp, Hn in *. cbn [positive_count negative_count] in *.
    rewrite !zero_ratio in Hsum. rewrite !zero_ratio.
    split; [reflexivity|]. split; [reflexivity|].
    rewrite <- Hsum. ring. }
  exists t, (_calculate_emotion_trend t).
  split.
  { unfold _analyze_emotion_trajectory.
    destruct interactions; [contradiction | reflexivity]. }
  split; [exact Hzero|].
  assert (Ht : t <> []).
  { intro H0. assert (Hm : map fst t = []) by now rewrite H0.
    rewrite D1 in Hm.
    destruct (group_by_date_facts date_of interactions [])
      as (_ & _ & _ & _ & G5 & _); [constructor | constructor |].
    destruct interactions as [|lg rest]; [contradiction|].
    specialize (G5 lg (or_introl eq_refl)). rewrite Hm in G5. destruct G5. }
  split.
  - intro Hlen. unfold _calculate_emotion_trend.
    destruct t as [|x t']; [contradiction|].
    rewrite by_date_length.
    apply Nat.ltb_lt in Hlen. now rewrite Hlen.
  - intro Hlen. rewrite trend_of_two_days by exact Hlen. f_equal.
    assert (Hs : polyfit_slope (positive_values t) == 0).
    { apply slope_of_constant, constant_of_zeros.
      unfold positive_values. apply Forall_forall. intros y Hy.
      apply in_map_iff in Hy as ([date s] & <- & Hin).
      apply In_by_date in Hin. now apply Hzero in Hin as [H0 _]. }
    apply label_stable; rewrite Hs; discriminate.
Qed.

End NeutralFacts.
Section PatternFacts.

Import Report PeriodReport.

Open Scope list_scope.

Lemma Qgt_bool_iff (a b : Q) : Qgt_bool a b = true <-> b < a.
Proof.
  unfold Qgt_bool. rewrite negb_true_iff. split.
  - intro H. apply Qnot_le_lt. intro Hle. apply Qle_bool_iff in Hle. congruence.
  - intro H. destruct (Qle_bool a b) eqn:Hb; [|reflexivity].
    apply Qle_bool_iff in Hb. exfalso. eapply Qlt_irrefl, Qlt_le_trans; eauto.
Qed.

(** A ratio of counts against a threshold, in whole numbers. *)
Lemma ratio_above (a : Z) (b : BinNums.positive) (n t : nat) :
  (0 < t)%nat ->
  (a # b) < of_nat n / of_nat t
  <-> (a * Z.of_nat t < Z.pos b * Z.of_nat n)%Z.
Proof.
  intros Ht.
  assert (Hpos : 0 < of_nat t).
  { unfold of_nat. change 0 with (inject_Z 0). rewrite <- Zlt_Qlt. lia. }
  assert (Hne : ~ of_nat t == 0)
    by (intro H0; rewrite H0 in Hpos; now apply Qlt_irrefl in Hpos).
  rewrite <- (Qmult_lt_r _ _ (of_nat t) Hpos).
  assert (Hd : of_nat n / of_nat t * of_nat t == of_nat n) by (field; exact Hne).
  rewrite Hd. unfold of_nat, Qlt, Qmult, inject_Z. cbn [Qnum Qden].
  rewrite Pos.mul_1_r. lia.
Qed.

(** X16: the emotion pattern of a distribution over the three types.
    There is none when it counts no memory.  Otherwise it is
    predominantly_positive exactly when more than 6 in 10 are positive,
    concerning_negative exactly when more than 4 in 10 are negative, and
    balanced in the remaining case; the first two cannot hold together,
    so the order of the two tests does not matter. *)
Theorem emotion_pattern_thresholds (p n u : nat) :
  let by_type := [("positive"%string, p); ("negative"%string, n);
                  ("neutral"%string, u)] in
  let total := (p + n + u)%nat in
  (total = 0%nat <-> emotion_pattern_of by_type = None)
  /\ ((0 < total)%nat ->
      (emotion_pattern_of by_type = Some "predominantly_positive"%string
       <-> (6 * total < 10 * p)%nat)
      /\ (emotion_pattern_of by_type = Some "concerning_negative"%string
          <-> (4 * total < 10 * n)%nat)
      /\ (emotion_pattern_of by_type = Some "balanced"%string
          <-> (10 * p <= 6 * total /\ 10 * n <= 4 * total)%nat))
  /\ ~ ((6 * total < 10 * p)%nat /\ (4 * total < 10 * n)%nat).
Proof.
  cbn zeta. unfold emotion_pattern_of.
  change (total_of [("positive"%string, p); ("negative"%string, n);
                    ("neutral"%string, u)]) with (p + (n + (u + 0)))%nat.
  change (count_of "positive" [("positive"%string, p); ("negative"%string, n);
                               ("neutral"%string, u)]) with p.
  change (count_of "negative" [("positive"%string, p); ("negative"%string, n);
                               ("neutral"%string, u)]) with n.
  replace (p + (n + (u + 0)))%nat with (p + n + u)%nat by lia.
  split.
  { destruct (Nat.ltb 0 (p + n + u)) eqn:Ht.
    - apply Nat.ltb_lt in Ht. split; [lia | discriminate].
    - apply Nat.ltb_ge in Ht. split; [reflexivity | lia]. }
  split; [|lia].
  intro Ht. pose proof Ht as Hb. apply Nat.ltb_lt in Hb. rewrite Hb.
  assert (Rp : (6 # 10) < of_nat p / of_nat (p + n + u)
               <-> (6 * (p + n + u) < 10 * p)%nat)
    by (rewrite (ratio_above 6 10 p (p + n + u) Ht); lia).
  assert (Rn : (4 # 10) < of_nat n / of_nat (p + n + u)
               <-> (4 * (p + n + u) < 10 * n)%nat)
    by (rewrite (ratio_above 4 10 n (p + n + u) Ht); lia).
  destruct (Qgt_bool (of_nat p / of_nat (p + n + u)) (6 # 10)) eqn:Hp.
  - apply Qgt_bool_iff, Rp in Hp.
    split; [split; [lia | reflexivity]|].
    split; (split; [discriminate | lia]).
  - assert (Hp' : ~ (6 * (p + n + u) < 10 * p)%nat).
    { intro H. apply Rp, Qgt_bool_iff in H. congruence. }
    destruct (Qgt_bool (of_nat n / of_nat (p + n + u)) (4 # 10)) eqn:Hn.
    + apply Qgt_bool_iff, Rn in Hn.
      split; [split; [discriminate | lia]|].
      split; [split; [lia | reflexivity]|].
      split; [discriminate | lia].
    + assert (Hn' : ~ (4 * (p + n + u) < 10 * n)%nat).
      { intro H. apply Rn, Qgt_bool_iff in H. congruence. }
      split; [split; [discriminate | lia]|].
      split; [split; [discriminate | lia]|].
      split; [lia | reflexivity].
Qed.

(** *** [sorted(..., reverse=True)[:3]] *)

Lemma insert_by_count_perm {K} (x : K * nat) (l : list (K * nat)) :
  Permutation (insert_by_count x l) (x :: l).
Proof.
  induction l as [|y l IH]; simpl; [reflexivity|].
  destruct (Nat.ltb (snd y) (snd x)); [reflexivity|].
  rewrite IH. apply perm_swap.
Qed.

Lemma insert_by_count_descending {K} (x : K * nat) (l : list (K * nat)) :
  descending l -> descending (insert_by_count x l).
Proof.
  induction l as [|y l IH]; intro Hs.
  - simpl. split; [intros ? []|exact I].
  - cbn [insert_by_count]. destruct Hs as [Hy Hs].
    destruct (Nat.ltb (snd y) (snd x)) eqn:Hlt.
    + apply Nat.ltb_lt in Hlt. split; [|split; assumption].
      intros z [<-|Hz]; [lia|]. apply Hy in Hz. lia.
    + apply Nat.ltb_ge in Hlt. split; [|now apply IH].
      intros z Hz.
      apply (Permutation_in _ (insert_by_count_perm x l)) in Hz.
      destruct Hz as [<-|Hz]; [exact Hlt | now apply Hy].
Qed.

Lemma sorted_by_count_facts {K} (todo done : list (K * nat)) :
  descending done ->
  descending (sorted_by_count todo done)
  /\ Permutation (sorted_by_count todo done) (todo ++ done).
Proof.
  revert done. induction todo as [|x todo IH]; intros done Hd; simpl.
  - split; [exact Hd | reflexivity].
  - destruct (IH _ (insert_by_count_descending x done Hd)) as [I1 I2].
    split; [exact I1|]. rewrite I2, insert_by_count_perm.
    symmetry. apply Permutation_middle.
Qed.

Lemma descending_split {K} (n : nat) (l : list (K * nat)) :
  descending l ->
  forall x y, In x (firstn n l) -> In y (skipn n l) -> (snd y <= snd x)%nat.
Proof.
  revert l. induction n as [|n IH]; intros l Hd x y Hx Hy; [destruct Hx|].
  destruct l as [|z l]; [destruct Hx|].
  destruct Hd as [Hz Hd]. simpl in Hx, Hy. destruct Hx as [<-|Hx].
  - apply Hz. clear - Hy. revert l Hy.
    induction n as [|n IH]; intros l Hy; [exact Hy|].
    destruct l as [|a l]; [destruct Hy|]. right. now apply IH.
  - now apply (IH l).
Qed.

(** X17: [top_themes] is absent when no memory has a tag; otherwise it
    names the tags of the three largest counts (all the tags when there
    are fewer than three), the largest first: no tag left out has a
    larger count than a tag that is named. *)
Theorem top_themes_most_frequent (by_type : emotion_counts)
        (by_tags : list (json * nat)) :
  (by_tags = [] <->
     top_themes (_identify_memory_patterns by_type by_tags) = None)
  /\ exists top rest,
      (by_tags <> [] ->
         top_themes (_identify_memory_patterns by_type by_tags)
         = Some (map fst top))
      /\ Permutation by_tags (top ++ rest)
      /\ List.length top = Nat.min 3 (List.length by_tags)
      /\ descending top
      /\ forall x y, In x top -> In y rest -> (snd y <= snd x)%nat.
Proof.
  destruct (sorted_by_count_facts by_tags [] I) as [Hd Hp].
  rewrite app_nil_r in Hp.
  split.
  { destruct by_tags; simpl; split; congruence. }
  exists (firstn 3 (sorted_by_count by_tags [])),
         (skipn 3 (sorted_by_count by_tags [])).
  split; [destruct by_tags; [congruence | reflexivity]|].
  split; [rewrite firstn_skipn; now symmetry|].
  split; [rewrite length_firstn, (Permutation_length Hp); reflexivity|].
  split.
  { clear Hp. revert Hd. generalize (sorted_by_count by_tags []).
    generalize 3%nat. intro n. induction n as [|n IH]; intros [|z l]; simpl; auto.
    intros [Hz Hd]. split; [|now apply IH].
    intros y Hy. apply Hz. clear - Hy. revert l Hy.
    induction n as [|n IH]; intros [|a l]; simpl; try (intros []; fail).
    intros [H|H]; auto. }
  now apply descending_split.
Qed.

End PatternFacts.
Section DistributionFacts.

Import Report PeriodReport.

Open Scope nat_scope.
Open Scope list_scope.

Variable date_of : nat -> string.
Variable week_of : nat -> string.

Lemma count_text_total (k : string) (d : list (string * nat)) :
  total_of (count_text k d) = S (total_of d).
Proof.
  induction d as [|[k' n] d IH]; simpl; [reflexivity|].
  destruct (String.eqb k k'); simpl; [reflexivity|]. rewrite IH. lia.
Qed.

Lemma band_facts (v : sqlval) (b b' : importance_bands) :
  band v b = Ok b' ->
  exists hi mid,
    at_least (7 # 10) v = Ok hi /\ at_least (4 # 10) v = Ok mid
    /\ high b' = high b + (if hi then 1 else 0)
    /\ medium b' = medium b + (if hi then 0 else if mid then 1 else 0)
    /\ low b' = low b + (if hi then 0 else if mid then 0 else 1).
Proof.
  unfold band.
  destruct (at_least (7 # 10) v) as [hi|e] eqn:H7; [|discriminate].
  assert (H4 : exists mid, at_least (4 # 10) v = Ok mid).
  { destruct v; try discriminate; simpl; eauto. }
  destruct H4 as [mid H4]. rewrite H4.
  destruct hi; [|destruct mid]; intro H; injection H as <-;
    [exists true, mid | exists false, true | exists false, false];
    cbn; repeat split; auto; lia.
Qed.

Lemma reaches_at_least (q : Q) (m : memory_event) (b : bool) :
  at_least q (m_importance_score m) = Ok b -> reaches q m = b.
Proof. unfold reaches. now intros ->. Qed.

Lemma distribute_all_facts (memories : list memory_event)
      (d0 d1 : distribution_so_far) (a b c : nat) :
  distribute_all week_of memories d0 = Ok d1 ->
  types_so_far d0 = [("positive"%string, a); ("negative"%string, b);
                     ("neutral"%string, c)] ->
  Forall known_type memories
  /\ types_so_far d1
     = [("positive"%string, a + count_type "positive" memories);
        ("negative"%string, b + count_type "negative" memories);
        ("neutral"%string, c + count_type "neutral" memories)]
  /\ high (bands_so_far d1)
     = high (bands_so_far d0)
       + List.length (filter (reaches (7 # 10)) memories)
  /\ medium (bands_so_far d1)
     = medium (bands_so_far d0)
       + List.length (filter (fun m => negb (reaches (7 # 10) m)
                                       && reaches (4 # 10) m) memories)
  /\ low (bands_so_far d1)
     = low (bands_so_far d0)
       + List.length (filter (fun m => negb (reaches (4 # 10) m)
                                       && negb (reaches (7 # 10) m)) memories)
  /\ total_of (weeks_so_far d1)
     = total_of (weeks_so_far d0) + List.length memories.
Proof.
  revert d0 a b c. induction memories as [|m rest IH]; intros d0 a b c H Ht.
  - simpl in H. injection H as <-. rewrite Ht. unfold count_type. simpl.
    rewrite !Nat.add_0_r. repeat split; auto.
  - cbn [distribute_all] in H.
    destruct (distribute week_of m d0) as [d'|e] eqn:Hd; [|discriminate].
    unfold distribute in Hd.
    destruct (m_memory_type m) as [t|] eqn:Hty; [|discriminate].
    destruct (increment t (types_so_far d0)) as [types|e] eqn:Hi;
      [|discriminate].
    destruct (band (m_importance_score m) (bands_so_far d0)) as [bands|e]
      eqn:Hb; [|discriminate].
    destruct (Py.iter (m_tags m)) as [tags|e]; [|discriminate].
    destruct (count_keys tags (tags_so_far d0)) as [by_tags'|e];
      [|discriminate].
    injection Hd as <-.
    apply band_facts in Hb as (hi & mid & H7 & H4 & B1 & B2 & B3).
    apply reaches_at_least in H7, H4.
    rewrite Ht in Hi.
    assert (Hk : known_type m /\ exists a' b' c',
                   types = [("positive"%string, a'); ("negative"%string, b');
                            ("neutral"%string, c')]
                   /\ a' + count_type "positive" rest
                      = a + count_type "positive" (m :: rest)
                   /\ b' + count_type "negative" rest
                      = b + count_type "negative" (m :: rest)
                   /\ c' + count_type "neutral" rest
                      = c + count_type "neutral" (m :: rest)).
    { unfold known_type, count_type. cbn [filter]. rewrite Hty.
      apply increment_three in Hi as [[Et Ex] | [[Et Ex] | [Et Ex]]];
        rewrite Et, Ex; (split; [auto|]); do 3 eexists;
        (split; [reflexivity|]); cbn; repeat split; lia. }
    destruct Hk as [Hk (a' & b' & c' & -> & Ea & Eb & Ec)].
    destruct (IH _ a' b' c' H eq_refl) as (I1 & I2 & I3 & I4 & I5 & I6).
    cbn [bands_so_far weeks_so_far] in I3, I4, I5, I6.
    split; [constructor; assumption|].
    split; [rewrite I2, Ea, Eb, Ec; reflexivity|].
    cbn [filter]. rewrite H7, H4.
    rewrite count_text_total in I6.
    split; [rewrite I3, B1; destruct hi; cbn; lia|].
    split; [rewrite I4, B2; destruct hi, mid; cbn; lia|].
    split; [rewrite I5, B3; destruct hi, mid; cbn; lia|].
    rewrite I6. cbn. lia.
Qed.

(** X18: when [_analyze_memory_distribution] answers, every memory has
    one of the three types, [by_type] holds the number of memories of
    each type, and the three importance bands hold the memories whose
    score reaches 0.7, those whose score reaches 0.4 but not 0.7, and the
    others; the counts by type, the counts by band and the counts by week
    each add up to the number of memories. *)
Theorem memory_distribution_counts (memories : list memory_event)
        (d : distribution) :
  _analyze_memory_distribution week_of memories = Ok d ->
  Forall known_type memories
  /\ by_type d = [("positive"%string, count_type "positive" memories);
                  ("negative"%string, count_type "negative" memories);
                  ("neutral"%string, count_type "neutral" memories)]
  /\ total_of (by_type d) = List.length memories
  /\ high (by_importance d) = List.length (filter (reaches (7 # 10)) memories)
  /\ medium (by_importance d)
     = List.length (filter (fun m => negb (reaches (7 # 10) m)
                                     && reaches (4 # 10) m) memories)
  /\ high (by_importance d) + medium (by_importance d) + low (by_importance d)
     = List.length memories
  /\ total_of (by_week d) = List.length memories
  /\ patterns d = _identify_memory_patterns (by_type d) (by_tags d).
Proof.
  unfold _analyze_memory_distribution.
  destruct (distribute_all week_of memories _) as [d1|e] eqn:Hd; [|discriminate].
  intro H. injection H as <-. cbn.
  apply (distribute_all_facts _ _ _ 0 0 0) in Hd as (F & T & B1 & B2 & B3 & W);
    [|reflexivity].
  cbn in *.
  split; [exact F|]. split; [exact T|].
  assert (Hpart : forall l : list memory_event,
            List.length (filter (reaches (7 # 10)) l)
            + List.length (filter (fun m => negb (reaches (7 # 10) m)
                                            && reaches (4 # 10) m) l)
            + List.length (filter (fun m => negb (reaches (4 # 10) m)
                                            && negb (reaches (7 # 10) m)) l)
            = List.length l).
  { induction l as [|m l IH]; [reflexivity|]. cbn [filter].
    destruct (reaches (7 # 10) m), (reaches (4 # 10) m); cbn; lia. }
  assert (Hsum : forall l : list memory_event,
            Forall known_type l ->
            count_type "positive" l + count_type "negative" l
            + count_type "neutral" l = List.length l).
  { induction l as [|m l IH]; intro Hl; [reflexivity|].
    inversion Hl as [|? ? Hm Hl']; subst. specialize (IH Hl').
    unfold count_type in *. cbn [filter].
    destruct Hm as [Hm | [Hm | Hm]]; rewrite Hm; cbn; lia. }
  split; [rewrite T; cbn; rewrite <- (Hsum _ F); lia|].
  split; [exact B1|]. split; [exact B2|].
  split; [rewrite B1, B2, B3; apply Hpart|].
  split; [exact W | reflexivity].
Qed.

Lemma dates_of_length (interactions : list interaction_log)
      (seen : list string) :
  List.length seen <= List.length (dates_of date_of interactions seen)
  /\ List.length (dates_of date_of interactions seen)
     <= List.length seen + List.length interactions
  /\ (interactions <> [] ->
      1 <= List.length (dates_of date_of interactions seen)).
Proof.
  revert seen. induction interactions as [|lg rest IH]; intro seen.
  - simpl. split; [lia|]. split; [lia|]. congruence.
  - cbn [dates_of].
    destruct (PyStr.mem (date_of (log_timestamp lg)) seen) eqn:Hm.
    + destruct (IH seen) as (I1 & I2 & _). simpl.
      split; [lia|]. split; [lia|]. intros _.
      apply mem_In in Hm. destruct seen; [destruct Hm | simpl in I1; lia].
    + destruct (IH (seen ++ [date_of (log_timestamp lg)])) as (I1 & I2 & _).
      rewrite length_app in I1, I2. simpl in *.
      split; [lia|]. split; lia.
Qed.

(** X19: in a summary, [active_days] and [avg_daily_interactions] are
    both 0 when there is no interaction; otherwise there is at least one
    active day and no more than there are interactions, so that the daily
    average, the number of interactions divided by the active days, is
    at least 1.  The insight about a low frequency is given exactly when
    the average is below 2, so always when there is no interaction, and
    the one about a high frequency exactly when it is above 5. *)
Theorem summary_daily_average
        (memories : list memory_event) (interactions : list interaction_log)
        (personas : list persona) (s : summary) :
  _generate_summary date_of memories interactions personas = Ok s ->
  summary_interactions s = List.length interactions
  /\ (interactions = [] ->
      active_days s = 0 /\ avg_daily_interactions s = 0%Q)
  /\ (interactions <> [] ->
      1 <= active_days s <= List.length interactions
      /\ (1 <= avg_daily_interactions s)%Q
      /\ (avg_daily_interactions s * of_nat (active_days s)
          == of_nat (List.length interactions))%Q)
  /\ (In "交互频率较低，可能需要更多社交活动"%string (key_insights s)
      <-> (avg_daily_interactions s < 2 # 1)%Q)
  /\ (In "交互频率较高，生活较为活跃"%string (key_insights s)
      <-> (5 # 1 < avg_daily_interactions s)%Q).
Proof.
  unfold _generate_summary.
  destruct (dominant_emotion memories) as [dominant|e]; [|discriminate].
  destruct (persona_mentions memories []) as [mentions|e]; [|discriminate].
  intro H. injection H as <-.
  cbn [summary_interactions active_days avg_daily_interactions key_insights].
  split; [reflexivity|].
  split; [intros ->; split; reflexivity|].
  split.
  { intro Hne. destruct (dates_of_length interactions []) as (_ & H2 & H3).
    specialize (H3 Hne). simpl in H2.
    assert (Ha : match interactions with
                 | [] => 0
                 | _ :: _ => List.length (dates_of date_of interactions [])
                 end = List.length (dates_of date_of interactions []))
      by (destruct interactions; [contradiction | reflexivity]).
    rewrite Ha. clear Ha.
    set (n := List.length (dates_of date_of interactions [])) in *.
    assert (Hb : Nat.ltb 0 n = true) by (apply Nat.ltb_lt; lia).
    rewrite Hb.
    assert (Hpos : (0 < of_nat n)%Q).
    { unfold of_nat. change 0%Q with (inject_Z 0). rewrite <- Zlt_Qlt. lia. }
    assert (Hnz : ~ (of_nat n == 0)%Q)
      by (intro H0; rewrite H0 in Hpos; now apply Qlt_irrefl in Hpos).
    split; [lia|]. split.
    - apply Qle_shift_div_l; [exact Hpos|]. rewrite Qmult_1_l.
      unfold of_nat. rewrite <- Zle_Qle. lia.
    - field. exact Hnz. }
  unfold insights_of.
  set (avg := if Nat.ltb 0 _ then _ else _).
  pose proof (Qgt_bool_iff avg (5 # 1)) as H5.
  pose proof (Qgt_bool_iff (2 # 1) avg) as H2.
  destruct (Qgt_bool avg (5 # 1)) eqn:E5; destruct (Qgt_bool (2 # 1) avg) eqn:E2.
  - exfalso. assert (A : (5 # 1 < avg)%Q) by now apply H5.
    assert (B : (avg < 2 # 1)%Q) by now apply H2.
    pose proof (Qlt_trans _ _ _ A B) as C. discriminate C.
  - split; split; intro H; try (now apply H5); try (apply H2 in H; discriminate).
    + apply in_app_or in H as [H|H].
      * destruct (String.eqb dominant "positive");
          [|destruct (String.eqb dominant "negative")];
          simpl in H; intuition discriminate.
      * simpl in H. intuition discriminate.
    + apply in_or_app. right. now left.
  - split; split; intro H; try (now apply H2); try (apply H5 in H; discriminate).
    + apply in_or_app. right. now left.
    + apply in_app_or in H as [H|H].
      * destruct (String.eqb dominant "positive");
          [|destruct (String.eqb dominant "negative")];
          simpl in H; intuition discriminate.
      * simpl in H. intuition discriminate.
  - split; split; intro H; try (apply H2 in H; discriminate);
      try (apply H5 in H; discriminate);
      apply in_app_or in H as [H|H];
      try (destruct (String.eqb dominant "positive");
           [|destruct (String.eqb dominant "negative")];
           simpl in H; intuition discriminate);
      simpl in H; intuition discriminate.
Qed.

End DistributionFacts.

Section SummaryOfPipeline.

Import Report PeriodReport.

Open Scope list_scope.

Variable E : externals.
Variable date_of : nat -> string.

Lemma persona_mentions_none (memories : list memory_event)
      (d : list (json * nat)) :
  Forall (fun m => m_entities m = JDict []) memories ->
  persona_mentions memories d = Ok d.
Proof.
  induction memories as [|m rest IH]; intro H; [reflexivity|].
  inversion H as [|? ? Hm H']; subst. cbn [persona_mentions].
  rewrite Hm. cbn. now apply IH.
Qed.

(** X20: over the memories of a store that sequential interactions have
    led to, however they ended, no summary names a most active persona:
    every such memory has the empty object for its entities, so that no
    person is ever counted. *)
Theorem summary_never_names_a_persona (w : world)
        (memories : list memory_event) (interactions : list interaction_log)
        (personas : list persona) (s : summary) :
  reachable E w ->
  (forall m, In m memories -> In m (memory_events w)) ->
  _generate_summary date_of memories interactions personas = Ok s ->
  Forall (fun m => m_entities m = JDict []) memories
  /\ most_active_persona s = None.
Proof.
  intros Hr Hin Hs.
  assert (Hempty : Forall (fun m => m_entities m = JDict []) memories).
  { apply Forall_forall. intros m Hm.
    pose proof (reachable_entities_empty E w Hr) as Hall.
    rewrite Forall_forall in Hall. apply Hall, Hin, Hm. }
  split; [exact Hempty|].
  unfold _generate_summary in Hs.
  destruct (dominant_emotion memories) as [dominant|e]; [|discriminate].
  rewrite (persona_mentions_none _ _ Hempty) in Hs.
  injection Hs as <-. reflexivity.
Qed.

End SummaryOfPipeline.
Section PersonaFacts.

Import Report PeriodReport.

Open Scope nat_scope.
Open Scope list_scope.

Lemma Qeq_bool_sym (x y : Q) : Qeq_bool x y = Qeq_bool y x.
Proof.
  destruct (Qeq_bool x y) eqn:A, (Qeq_bool y x) eqn:B; auto.
  - apply Qeq_bool_iff in A. symmetry in A. apply Qeq_bool_iff in A. congruence.
  - apply Qeq_bool_iff in B. symmetry in B. apply Qeq_bool_iff in B. congruence.
Qed.

Lemma key_eq_sym (a b : json) : key_eq a b = key_eq b a.
Proof.
  destruct a, b; cbn; try reflexivity; try apply Qeq_bool_sym;
    apply String.eqb_sym.
Qed.

Lemma key_eq_refl (k : json) : hashable k = true -> key_eq k k = true.
Proof.
  destruct k; cbn; try discriminate; intros _; try reflexivity;
    try (apply Qeq_bool_iff; reflexivity).
  apply String.eqb_refl.
Qed.

Lemma count_key_keys (k : json) (f : list (json * nat)) (e : json * nat) :
  In e (count_key k f) -> fst e = k \/ exists e', In e' f /\ fst e' = fst e.
Proof.
  induction f as [|[k' n] f IH]; cbn.
  - intros [<-|[]]. now left.
  - destruct (key_eq k k').
    + intros [<-|H]; right; [exists (k', n) | exists e]; cbn; auto.
    + intros [<-|H].
      * right. exists (k', n). cbn. auto.
      * destruct (IH H) as [->|(e' & H1 & H2)]; [now left|].
        right. exists e'. auto.
Qed.

Lemma bump_three (memory_type : option string) (a b c : nat)
      (x : emotion_counts) :
  bump memory_type (three_counts a b c) = Ok x ->
  exists a' b' c', x = three_counts a' b' c' /\ a' + b' + c' = S (a + b + c).
Proof.
  destruct memory_type as [t|]; [|discriminate]. cbn [bump]. intro H.
  apply increment_three in H as [[_ Ex] | [[_ Ex] | [_ Ex]]]; rewrite Ex;
    do 3 eexists; (split; [reflexivity|]); lia.
Qed.

Lemma associate_step (person : json) (memory_type : option string)
      (f : list (json * nat)) (a a' : list (json * emotion_counts)) :
  hashable person = true ->
  Forall2 counted f a -> distinct_keys f ->
  associate person memory_type a = Ok a' ->
  Forall2 counted (count_key person f) a' /\ distinct_keys (count_key person f).
Proof.
  intros Hh HF. revert a'.
  induction HF as [|[k n] [k2 c] f a Hxy HF IH]; intros a' Hd Ha.
  - cbn in Ha. destruct (bump memory_type initial_counts) as [c|e] eqn:Hb;
      [|discriminate].
    injection Ha as <-.
    apply (bump_three memory_type 0 0 0) in Hb as (a1 & b1 & c1 & -> & Hs).
    cbn. split.
    + constructor; [|constructor]. split; [reflexivity|].
      exists a1, b1, c1. cbn. repeat split; lia.
    + split; [exact Hh|]. split; [intros e []|exact I].
  - destruct Hxy as (Hk & a0 & b0 & c0 & Hc & Hs & Hp). cbn in Hk, Hc, Hs, Hp.
    subst k2 c. destruct Hd as (Hhk & Hnew & Hd).
    cbn [associate count_key] in *.
    destruct (key_eq person k) eqn:Hpk.
    + destruct (bump memory_type (three_counts a0 b0 c0)) as [c'|e] eqn:Hb;
        [|discriminate].
      injection Ha as <-.
      apply bump_three in Hb as (a1 & b1 & c1 & -> & Hs1).
      split.
      * constructor; [|exact HF]. split; [reflexivity|].
        exists a1, b1, c1. cbn. repeat split; lia.
      * split; [exact Hhk|]. split; assumption.
    + destruct (associate person memory_type a) as [a''|e] eqn:Hrec;
        [|discriminate].
      injection Ha as <-.
      destruct (IH a'' Hd eq_refl) as [IH1 IH2].
      split.
      * constructor; [|exact IH1]. split; [reflexivity|].
        exists a0, b0, c0. cbn. repeat split; assumption.
      * split; [exact Hhk|]. split; [|exact IH2].
        intros e He. apply count_key_keys in He as [->|(e' & H1 & <-)].
        -- rewrite key_eq_sym. exact Hpk.
        -- apply Hnew, H1.
Qed.

Lemma mention_all_step (persons : list json) (memory_type : option string)
      (f f' : list (json * nat)) (a a' : list (json * emotion_counts)) :
  Forall2 counted f a -> distinct_keys f ->
  mention_all persons memory_type f a = Ok (f', a') ->
  Forall2 counted f' a' /\ distinct_keys f'.
Proof.
  revert f a. induction persons as [|person rest IH]; intros f a HF Hd H.
  - cbn in H. injection H as <- <-. auto.
  - cbn [mention_all] in H.
    destruct (hashable person) eqn:Hh; [|discriminate].
    destruct (associate person memory_type a) as [a1|e] eqn:Ha; [|discriminate].
    destruct (associate_step _ _ _ _ _ Hh HF Hd Ha) as [HF1 Hd1].
    exact (IH _ _ HF1 Hd1 H).
Qed.

Lemma mentions_of_step (memories : list memory_event)
      (f f' : list (json * nat)) (a a' : list (json * emotion_counts)) :
  Forall2 counted f a -> distinct_keys f ->
  mentions_of memories f a = Ok (f', a') ->
  Forall2 counted f' a' /\ distinct_keys f'.
Proof.
  revert f a. induction memories as [|m rest IH]; intros f a HF Hd H.
  - cbn in H. injection H as <- <-. auto.
  - cbn [mentions_of] in H.
    destruct (Py.get (m_entities m) "persons" (JList [])) as [persons|e];
      [|discriminate].
    destruct (Py.iter persons) as [l|e]; [|discriminate].
    destruct (mention_all l (m_memory_type m) f a) as [[f1 a1]|e] eqn:Hm;
      [|discriminate].
    destruct (mention_all_step _ _ _ _ _ _ HF Hd Hm) as [HF1 Hd1].
    exact (IH _ _ HF1 Hd1 H).
Qed.

Lemma find_skips {A} (P : A -> bool) (l1 l2 : list A) :
  (forall e, In e l1 -> P e = false) -> find P (l1 ++ l2) = find P l2.
Proof.
  induction l1 as [|x l1 IH]; intro H; [reflexivity|]. cbn.
  rewrite (H x (or_introl eq_refl)). apply IH. intros e He. apply H. now right.
Qed.

Lemma set_item_new {V} (k : json) (v : V) (d : list (json * V)) :
  (forall e, In e d -> key_eq k (fst e) = false) ->
  set_item k v d = d ++ [(k, v)].
Proof.
  induction d as [|[k' v'] d IH]; intro H; [reflexivity|]. cbn.
  pose proof (H (k', v') (or_introl eq_refl)) as Hk. cbn in Hk.
  rewrite Hk. cbn. f_equal.
  apply IH. intros e He. apply H. now right.
Qed.

Lemma strengths_counted (f2 : list (json * nat))
      (a2 : list (json * emotion_counts)) :
  Forall2 counted f2 a2 -> distinct_keys f2 ->
  forall (a1 : list (json * emotion_counts)) (s : list (json * Q)),
    (forall fe e, In fe f2 -> In e a1 -> key_eq (fst fe) (fst e) = false) ->
    (forall fe e, In fe f2 -> In e s -> key_eq (fst fe) (fst e) = false) ->
    exists s2, strengths f2 (a1 ++ a2) s = s ++ s2
               /\ Forall2 strength_counted a2 s2.
Proof.
  induction 1 as [|[k n] [k2 c] f a Hxy HF IH]; intros Hd a1 s H1 H2.
  - exists []. cbn. rewrite app_nil_r. split; constructor.
  - destruct Hxy as (Hk & a0 & b0 & c0 & Hc & Hs & Hp). cbn in Hk, Hc, Hs, Hp.
    subst k2 c. destruct Hd as (Hhk & Hnew & Hd).
    cbn [strengths].
    assert (Hfind : association_of k (a1 ++ (k, three_counts a0 b0 c0) :: a)
                    = three_counts a0 b0 c0).
    { unfold association_of. rewrite find_skips.
      - cbn. rewrite (key_eq_refl k Hhk). reflexivity.
      - intros e He. exact (H1 (k, n) e (or_introl eq_refl) He). }
    rewrite Hfind.
    assert (Ht : total_of (three_counts a0 b0 c0) = n) by (cbn; lia).
    rewrite Ht.
    assert (Hb : Nat.ltb 0 n = true) by (apply Nat.ltb_lt; exact Hp).
    rewrite Hb.
    change (count_of "positive" (three_counts a0 b0 c0)) with a0.
    rewrite set_item_new
      by (intros e He; exact (H2 (k, n) e (or_introl eq_refl) He)).
    replace (a1 ++ (k, three_counts a0 b0 c0) :: a)
      with ((a1 ++ [(k, three_counts a0 b0 c0)]) ++ a)
      by (rewrite <- app_assoc; reflexivity).
    destruct (IH Hd (a1 ++ [(k, three_counts a0 b0 c0)])
                 (s ++ [(k, of_nat n * (1 + of_nat a0 / of_nat n))%Q]))
      as (s2 & E & F).
    + intros fe e Hfe He. apply in_app_or in He as [He|[<-|[]]].
      * apply (H1 fe e); [now right | exact He].
      * cbn. rewrite key_eq_sym. apply Hnew, Hfe.
    + intros fe e Hfe He. apply in_app_or in He as [He|[<-|[]]].
      * apply (H2 fe e); [now right | exact He].
      * cbn. rewrite key_eq_sym. apply Hnew, Hfe.
    + exists ((k, (of_nat n * (1 + of_nat a0 / of_nat n))%Q) :: s2).
      split; [rewrite E, <- app_assoc; reflexivity|].
      constructor; [|exact F].
      split; [reflexivity|]. exists a0, b0, c0. split; [reflexivity|].
      cbn [snd]. rewrite Hs.
      assert (Hpos : (0 < of_nat n)%Q).
      { unfold of_nat. change 0%Q with (inject_Z 0). rewrite <- Zlt_Qlt. lia. }
      assert (Hnz : ~ (of_nat n == 0)%Q)
        by (intro H0; rewrite H0 in Hpos; now apply Qlt_irrefl in Hpos).
      assert (Hv : (of_nat n * (1 + of_nat a0 / of_nat n)
                    == of_nat n + of_nat a0)%Q) by (field; exact Hnz).
      assert (Ha : (0 <= of_nat a0 <= of_nat n)%Q).
      { unfold of_nat. change 0%Q with (inject_Z 0).
        rewrite <- !Zle_Qle. lia. }
      split; [rewrite Hv; destruct Ha; split; lra|].
      split.
      * intros ->. rewrite Hv. replace n with (b0 + c0) by lia.
        change (of_nat 0) with 0%Q. lra.
      * intro H0. rewrite Hv. replace n with a0 by lia. lra.
Qed.

(** X21: when [_analyze_persona_interactions] answers, no person is
    counted twice in [frequency], and [emotion_association] and
    [relationship_strength] list the same persons in the same order.  The
    positive, negative and neutral counts of a person add up to the
    frequency of that person, which is not 0, and the relationship
    strength lies between the frequency and twice the frequency: it is
    the frequency when no mention is in a positive memory and twice the
    frequency when every mention is. *)
Theorem persona_strength_counts_mentions
        (memories : list memory_event) (personas : list persona)
        (r : persona_interactions) :
  _analyze_persona_interactions memories personas = Ok r ->
  distinct_keys (frequency r)
  /\ Forall2 counted (frequency r) (emotion_association r)
  /\ Forall2 strength_counted (emotion_association r) (relationship_strength r)
  /\ (forall person strength, In (person, strength) (relationship_strength r) ->
        exists freq, In (person, freq) (frequency r)
                     /\ (of_nat freq <= strength <= 2 * of_nat freq)%Q).
Proof.
  unfold _analyze_persona_interactions.
  destruct (mentions_of memories [] []) as [[f a]|e] eqn:Hm; [|discriminate].
  intro H. injection H as <-. cbn.
  destruct (mentions_of_step memories [] f [] a (Forall2_nil _) I Hm)
    as [HF Hd].
  destruct (strengths_counted f a HF Hd [] [])
    as (s2 & E & F); try (intros fe e _ []).
  cbn in E. rewrite E.
  split; [exact Hd|]. split; [exact HF|]. split; [exact F|].
  clear E Hm Hd. revert s2 F.
  induction HF as [|[k n] [k2 c] f a Hxy HF IH]; intros s2 F person strength Hin.
  - inversion F; subst. destruct Hin.
  - inversion F as [|? [k3 v] ? s2' Hys F']; subst.
    destruct Hin as [Heq|Hin].
    + injection Heq as -> ->.
      destruct Hxy as (Hk & a0 & b0 & c0 & Hc & Hs & Hp).
      destruct Hys as (Hk' & a1 & b1 & c1 & Hc' & Hv & _).
      cbn in Hk, Hc, Hs, Hp, Hk', Hc', Hv. subst k2 person.
      rewrite Hc in Hc'. injection Hc' as <- <- <-.
      exists n. split; [now left|]. rewrite <- Hs. exact Hv.
    + destruct (IH s2' F' person strength Hin) as (freq & H1 & H2).
      exists freq. split; [now right | exact H2].
Qed.

End PersonaFacts.

(** * The properties at concrete inputs *)

Section Checks.

Import Examples.

Open Scope list_scope.

(** C4: the format "jpe" is accepted although it is neither in the
    stated allow-list nor one of the two stated aliases. *)
Lemma image_format_jpe_accepted :
  ImageFormat.accepts "jpe" = true /\ ImageFormat.spec_accepts "jpe" = false.
Proof. split; reflexivity. Qed.

(** The format "jpeg" itself falls through the three tests and is
    refused, although the aliases are rewritten to it. *)
Lemma image_format_jpeg_refused :
  ImageFormat.normalize_image_format "jpeg"
  = Raise (ImageFormat.unsupported "jpeg")
  /\ ImageFormat.normalize_image_format "jpg" = Ok "jpeg".
Proof. split; reflexivity. Qed.

Lemma image_format_gate_png :
  "png" <> "jpeg"
  /\ (ImageFormat.accepts "png" = true <->
        In "png" ["png"; "bmp"; "webp"; "heic"; "tiff"; "tif"; "jpg"; "jpe"]).
Proof.
  split; [discriminate|].
  apply (image_format_gate (scripted []) "png"). discriminate.
Defined.

(** C2: a reply holding two objects has a balanced brace pair, and its
    first object parses, yet the step answers the fallback. *)
Lemma extract_json_two_objects :
  has_balanced_object two_objects
  /\ JsonReader.loads ("{" ++ q "a" ++ ": 1}")%string = Some (JDict [("a", JInt 1)])
  /\ extract_json JsonReader.loads two_objects JNull = JNull.
Proof.
  split; [|split; reflexivity].
  exists "", ("{" ++ q "a" ++ ": 1}")%string, (" or {" ++ q "b" ++ ": 2}")%string.
  split; reflexivity.
Qed.

Lemma extract_json_degrades_prose :
  JsonReader.loads (json_candidate "I cannot help with that") = None
  /\ extract_json JsonReader.loads "I cannot help with that" (JDict [])
     = JDict [].
Proof.
  split; [reflexivity|].
  apply (proj1 (extract_json_degrades JsonReader.loads
                  "I cannot help with that" (JDict []))).
  reflexivity.
Defined.

(** C7: the positive ratio rises from 100/200 to 101/200, strictly, and
    the label is "stable". *)
Lemma trend_slow_rise_is_stable :
  Report.strictly_increasing (Report.positive_values slow_rise)
  /\ (2 <= List.length slow_rise)%nat
  /\ Report.overall_trend (Report._calculate_emotion_trend slow_rise)
     = Some "stable".
Proof.
  split; [|split].
  - simpl. split; [reflexivity | exact I].
  - simpl. lia.
  - reflexivity.
Qed.

Lemma trend_label_fast_rise :
  NoDup (map fst fast_rise) /\ (2 <= List.length fast_rise)%nat
  /\ Report.rises_by_more_than (1 # 100) (Report.positive_values fast_rise)
  /\ Report.overall_trend (Report._calculate_emotion_trend fast_rise)
     = Some "improving".
Proof.
  assert (Hd : NoDup (map fst fast_rise)).
  { simpl. repeat constructor; simpl; intuition discriminate. }
  assert (Hn : (2 <= List.length fast_rise)%nat) by (simpl; lia).
  assert (Hr : Report.rises_by_more_than (1 # 100)
                 (Report.positive_values fast_rise)).
  { simpl. repeat split. }
  split; [exact Hd | split; [exact Hn | split; [exact Hr|]]].
  exact (proj1 (trend_label_by_steps fast_rise Hd Hn) Hr).
Defined.

Lemma dominant_emotion_tie :
  match PeriodReport._generate_summary
          ReportExamples.date_of
          [memory_of_type "neutral"; memory_of_type "negative"] [] [] with
  | Ok s => PeriodReport.summary_dominant_emotion s = "negative"%string
  | Raise _ => False
  end
  /\ exists s,
       PeriodReport._generate_summary ReportExamples.date_of [] [] [] = Ok s
       /\ PeriodReport.summary_dominant_emotion s = "positive"%string.
Proof.
  split; [|exact (proj2 (proj2 (dominant_emotion_first_argmax
                                  ReportExamples.date_of [] [])))].
  destruct (PeriodReport._generate_summary
              ReportExamples.date_of
              [memory_of_type "neutral"; memory_of_type "negative"] [] [])
    as [s|e] eqn:Hs; [|vm_compute in Hs; discriminate].
  destruct (proj1 (dominant_emotion_first_argmax ReportExamples.date_of [] [])
                  _ s Hs) as [_ H].
  cbv zeta in H. vm_compute in H.
  destruct H as [(_ & H & _)|[(H & _)|(_ & _ & H)]].
  - exfalso. inversion H.
  - exact H.
  - exfalso. inversion H as [|? H']. inversion H'.
Defined.

Lemma empty_logs_in_past : logs_in_past empty_world.
Proof. intros lg []. Qed.

Lemma empty_personas_in_past : personas_in_past empty_world.
Proof. split; [intros p [] | constructor]. Qed.

(** C1: the three attempts of the emotion request fail, a transport
    failure after retry exhaustion, and the interaction returns all the
    same, with the fallback analysis; and the reply to the topic request
    is the empty object, a JSON-shape failure, and the interaction is
    aborted by a [KeyError]. *)
Lemma emotion_transport_failure_swallowed :
  (forall w, requests w = 0%nat ->
             exists w', chat (scripted flaky_replies) w
                        = (Raise RuntimeError, w'))
  /\ (exists r w', flaky_run = (Ok r, w')
                   /\ pad_analysis r = emotion_fallback)
  /\ JsonReader.loads (json_candidate (obj [])) = Some (JDict [])
  /\ exists w', odd_topic_run = (Raise (KeyError "topic"), w').
Proof.
  split; [|split; [|split]].
  - intros [u l a p m n c rq] Hw. cbn in Hw. subst rq.
    eexists. cbv. reflexivity.
  - eexists. eexists. split; [vm_compute; reflexivity | reflexivity].
  - vm_compute. reflexivity.
  - eexists. vm_compute. reflexivity.
Qed.

(** C1 on three runs: the endpoint down at image grounding; the reply
    request failing after six answered extraction requests; the emotion
    request failing and every later request answered. *)
Lemma transport_failure_runs :
  (exists w', image_down_run = (Raise RuntimeError, w'))
  /\ (exists w' lg ea mem,
        reply_down_run = (Raise RuntimeError, w')
        /\ interaction_logs w' = [lg] /\ emotion_analyses w' = [ea]
        /\ memory_events w' = [mem])
  /\ (exists r w' ea content,
        flaky_run = (Ok r, w')
        /\ pad_analysis r = emotion_fallback
        /\ emotion_analyses w' = [ea]
        /\ ea_analysis_method ea = Some "fallback"%string
        /\ http_post (scripted flaky_replies) (requests w' - 1) = Some content
        /\ reply (res_reply r) = strip content).
Proof.
  split; [|split].
  - destruct image_down_run as [res w'] eqn:Hrun.
    destruct (transport_failures_by_stage
                (pictured []) "u1" "look" "image" (Some "cat.png") None
                empty_world w' res Hrun) as (_ & T2 & _).
    exists w'. f_equal.
    apply (T2 "cat.png"%string "aGk="%string);
      try reflexivity; try discriminate.
    intros j _. destruct j; reflexivity.
  - destruct reply_down_run as [res w'] eqn:Hrun.
    assert (Hres : res = Raise RuntimeError).
    { pose proof Hrun as Hc. vm_compute in Hc. now injection Hc as <- _. }
    destruct (transport_failures_by_stage
                (scripted reply_down_replies) "u1" "hello" "topic" None None
                empty_world w' res Hrun) as (T1 & _).
    destruct (T1 Hres) as (_ & _ & [(Hn & _)|(lg & ea & mem & L & A & M)]);
      [now contradiction Hn|].
    exists w', lg, ea, mem. subst res. auto.
  - destruct flaky_run as [[r|e] w'] eqn:Hrun;
      [|vm_compute in Hrun; discriminate].
    destruct (transport_failures_by_stage
                (scripted flaky_replies) "u1" "hello" "topic" None None
                empty_world w' (Ok r) Hrun) as (_ & _ & T3 & T4 & _).
    destruct T4 as [(ea & A & F) Hpad].
    { now left. }
    { intros j Hj. destruct j as [|[|[|j]]]; try reflexivity.
      exfalso. clear - Hj. repeat apply PeanoNat.lt_S_n in Hj.
      inversion Hj. }
    destruct (T3 r eq_refl) as (_ & content & Hp & Hr).
    exists r, w', ea, content. auto 7.
Defined.

(** C3, at "I met Alice in Paris, I'm thrilled": the extracted entities
    name Alice and Paris; the memory that is stored has the empty object
    for its entities and the entities map for its tags. *)
Lemma alice_memory_has_no_entities :
  exists r w',
    alice_run = (Ok r, w')
    /\ res_entities r = alice_entities
    /\ map m_entities (memory_events w') = [JDict []]
    /\ map m_tags (memory_events w') = [alice_entities].
Proof.
  eexists. eexists. split; [vm_compute; reflexivity|].
  split; [|split]; reflexivity.
Qed.

Lemma alice_memory_misplaced :
  logs_in_past empty_world
  /\ match alice_run with
     | (Ok r, w') =>
         exists mem, memory_events w' = [mem]
                     /\ m_entities mem = JDict []
                     /\ m_tags mem = Py.or_else (res_entities r) (JList [])
     | (Raise _, _) => False
     end.
Proof.
  split; [exact empty_logs_in_past|].
  destruct alice_run as [[r|e] w'] eqn:Hrun;
    [|vm_compute in Hrun; discriminate].
  destruct (memory_event_misplaces_entities
              (scripted alice_replies) "u1"
              "I met Alice in Paris, I'm thrilled" "topic" None None
              empty_world w' r Hrun empty_logs_in_past)
    as (mem & nm & lg & HM & _ & _ & _ & _ & _ & _ & He & Ht).
  exists mem. auto.
Defined.

(** C5: no reply parses; the saved analysis is tagged "fallback" and its
    confidence is 0.5, not zero. *)
Lemma fallback_confidence_is_half :
  JsonReader.loads (json_candidate "I am not sure.") = None
  /\ map ea_analysis_method (emotion_analyses (snd prose_run))
     = [Some "fallback"%string]
  /\ map ea_confidence_scores (emotion_analyses (snd prose_run))
     = [JDict [("confidence", JFloat (1 # 2))]]
  /\ ~ (1 # 2 == 0).
Proof.
  split; [vm_compute; reflexivity|]. split; [vm_compute; reflexivity|].
  split; [vm_compute; reflexivity|].
  intro H. vm_compute in H. discriminate H.
Qed.

Lemma prose_fallback_recorded :
  logs_in_past empty_world
  /\ match prose_run with
     | (Ok r, w') =>
         pad_analysis r = emotion_fallback
         /\ exists lg ea,
             In lg (interaction_logs w') /\ In ea (emotion_analyses w')
             /\ log_emotion_label lg = Some "neutral"%string
             /\ ea_confidence_scores ea = JDict [("confidence", JFloat (1 # 2))]
             /\ ea_analysis_method ea = Some "fallback"%string
     | (Raise _, _) => False
     end.
Proof.
  split; [exact empty_logs_in_past|].
  destruct prose_run as [[r|e] w'] eqn:Hrun;
    [|vm_compute in Hrun; discriminate].
  assert (Hpad : pad_analysis r = emotion_fallback).
  { assert (Hf : fst prose_run = Ok r) by (rewrite Hrun; reflexivity).
    vm_compute in Hf. injection Hf as <-. reflexivity. }
  split; [exact Hpad|].
  destruct (proj2 (emotion_fallback_recorded (scripted prose_replies))
              "u1" "hello" "topic" None None empty_world w' r
              Hrun empty_logs_in_past Hpad)
    as (lg & ea & H1 & H2 & _ & _ & _ & H3 & _ & _ & H4 & H5).
  exists lg, ea. auto.
Defined.



Lemma alice_replies_name_texts : replies_name_texts (scripted alice_replies).
Proof.
  intros i content v. cbn [http_post json_loads scripted].
  do 8 (destruct i as [|i];
        [ cbn [nth alice_replies]; intro H; injection H as <-;
          vm_compute; intro Hv;
          first [ discriminate Hv | injection Hv as <-; reflexivity ] | ]).
  destruct i; discriminate.
Qed.

(** C8, where the model names Alice twice in one reply. *)
Lemma alice_named_once :
  replies_name_texts (scripted alice_replies)
  /\ reachable (scripted alice_replies) (snd alice_run)
  /\ NoDup (map p_name (of_user "u1" (personas (snd alice_run))))
  /\ map p_name (of_user "u1" (personas (snd alice_run)))
     = [Some DEFAULT_PERSONA_name; Some "Alice"%string].
Proof.
  assert (Hr : reachable (scripted alice_replies) (snd alice_run))
    by exact (reach_step (scripted alice_replies) empty_world "u1"
                         "I met Alice in Paris, I'm thrilled" "topic"
                         None None (reach_empty _)).
  split; [exact alice_replies_name_texts|]. split; [exact Hr|].
  split; [|vm_compute; reflexivity].
  exact (proj1 (persona_names_unique (scripted alice_replies) (snd alice_run)
                  alice_replies_name_texts Hr "u1")).
Defined.

(** C8, where the model names the number 7 twice in one reply: the
    second 7 is not recognised in the stored name of the first, and the
    user has two personas named 7. *)
Lemma numeric_names_are_duplicated :
  reachable (numbered seven_replies) (snd seven_run)
  /\ map p_name (of_user "u1" (personas (snd seven_run)))
     = [Some DEFAULT_PERSONA_name; Some "7"%string; Some "7"%string]
  /\ ~ NoDup (map p_name (of_user "u1" (personas (snd seven_run)))).
Proof.
  assert (Hn : map p_name (of_user "u1" (personas (snd seven_run)))
               = [Some DEFAULT_PERSONA_name; Some "7"%string; Some "7"%string])
    by (vm_compute; reflexivity).
  split.
  { exact (reach_step (numbered seven_replies) empty_world "u1"
                      "I met 7 and 7" "topic" None None (reach_empty _)). }
  split; [exact Hn|].
  rewrite Hn. intro H.
  inversion H as [|? ? _ Hrest]. inversion Hrest as [|? ? Hnot _].
  apply Hnot. now left.
Qed.

(** C9, at the first interaction of a user. *)
Lemma alice_reply_in_her_log :
  logs_in_past empty_world /\ personas_in_past empty_world
  /\ match alice_run with
     | (Ok r, w') =>
         exists lg,
           interaction_logs w' = [lg]
           /\ log_id lg = interaction_log_id r
           /\ log_processing_metadata lg
              = JDict [("assistant_reply", JStr (reply (res_reply r)))]
     | (Raise _, _) => False
     end.
Proof.
  split; [exact empty_logs_in_past|]. split; [exact empty_personas_in_past|].
  destruct alice_run as [[r|e] w'] eqn:Hrun;
    [|vm_compute in Hrun; discriminate].
  destruct (reply_goes_to_this_log_and_speaker
              (scripted alice_replies) "u1"
              "I met Alice in Paris, I'm thrilled" "topic" None None
              empty_world w' r Hrun empty_logs_in_past empty_personas_in_past)
    as (lg & created & t & H1 & H2 & _ & _ & H3 & _).
  exists lg. auto.
Defined.

End Checks.

(** ** The store, the pipeline and the report on concrete inputs *)

Section MoreChecks.

Import Report PeriodReport Examples ReportExamples.

Open Scope nat_scope.
Open Scope list_scope.

Lemma empty_analyses_in_past : analyses_in_past empty_world.
Proof. intros ea []. Qed.

Lemma endpoint_of_nothing_is_down (i : nat) : http_post (scripted []) i = None.
Proof. destruct i; reflexivity. Qed.

(** X5, at the first interaction of a user. *)
Lemma alice_analysis_is_found :
  logs_in_past empty_world /\ analyses_in_past empty_world
  /\ match alice_run with
     | (Ok r, w') =>
         exists ea,
           get_emotion_analysis (interaction_log_id r) w' = (Ok (Some ea), w')
           /\ analysis_records (scripted alice_replies) (pad_analysis r)
                               (interaction_log_id r) ea
     | (Raise _, _) => False
     end.
Proof.
  split; [exact empty_logs_in_past|]. split; [exact empty_analyses_in_past|].
  destruct alice_run as [[r|e] w'] eqn:Hrun;
    [|vm_compute in Hrun; discriminate].
  exact (proj1 (get_emotion_analysis_of_interaction
                  (scripted alice_replies) "u1"
                  "I met Alice in Paris, I'm thrilled" "topic" None None
                  empty_world w' r Hrun empty_logs_in_past
                  empty_analyses_in_past)).
Defined.

(** X7, for the user of the first interaction. *)
Lemma alice_statistics_grow :
  logs_in_past empty_world
  /\ match alice_run with
     | (Ok r, w') =>
         match get_statistics 7 "u1" empty_world, get_statistics 7 "u1" w' with
         | (Ok s, _), (Ok s', _) =>
             st_interaction_count s' = S (st_interaction_count s)
             /\ st_memory_count s' = S (st_memory_count s)
             /\ 1 <= st_persona_count s'
         | _, _ => False
         end
     | (Raise _, _) => False
     end.
Proof.
  split; [exact empty_logs_in_past|].
  destruct alice_run as [[r|e] w'] eqn:Hrun;
    [|vm_compute in Hrun; discriminate].
  destruct (get_statistics 7 "u1" empty_world) as [[s|e] w1] eqn:Hs;
    [|vm_compute in Hs; discriminate].
  destruct (get_statistics 7 "u1" w') as [[s'|e] w2] eqn:Hs';
    [|unfold get_statistics, bind, read, now, ret in Hs'; cbn in Hs';
      discriminate].
  pose proof (statistics_after_interaction
                (scripted alice_replies) 7 "u1"
                "I met Alice in Paris, I'm thrilled" "topic" None None
                empty_world w' r Hrun empty_logs_in_past
                "u1" s s' w1 w2 Hs Hs') as H.
  rewrite String.eqb_refl in H. destruct H as (A & B & _ & D).
  split; [exact A|]. split; [exact B | exact D].
Defined.

(** X11, at the first interaction of a user. *)
Lemma endpoint_down_first_interaction :
  (forall i, http_post (scripted []) i = None)
  /\ exists e w',
       process_interaction (scripted []) "u1" "hello" "topic" None None
                           empty_world = (Raise e, w')
       /\ List.length (interaction_logs w') = 1
       /\ List.length (emotion_analyses w') = 1
       /\ List.length (memory_events w') = 1
       /\ of_user "u1" (personas w') <> [].
Proof.
  split; [exact endpoint_of_nothing_is_down|].
  destruct (endpoint_down_leaves_records
              (scripted []) endpoint_of_nothing_is_down
              "u1" "hello" "topic" None empty_world)
    as (e & w' & lg & ea & mem & H1 & H2 & _ & _ & _ & _ & H3 & _ & _ & H4
        & _ & _ & _ & _ & _ & H5).
  exists e, w'. split; [exact H1|].
  rewrite H2, H3, H4. repeat split; try reflexivity. exact H5.
Defined.

(** X12, at an interaction whose first request fails three times. *)
Lemma flaky_profile_written :
  flaky_run = (fst flaky_run, snd flaky_run)
  /\ fst (get_user_profile "u1" (snd flaky_run))
     = Ok (Some (default_profile "u1" 0)).
Proof.
  split; [apply surjective_pairing|].
  exact (proj2 (process_interaction_keeps_profiles
                  (scripted flaky_replies) "u1" "hello" "topic" None None
                  empty_world (snd flaky_run) (fst flaky_run)
                  (surjective_pairing _))).
Defined.

(** X13, where the model names Alice. *)
Lemma alice_new_persona_is_updated :
  match alice_run with
  | (Ok r, w') =>
      names_are_text (res_entities r) = true
      /\ forall np, In np (new_personas r) ->
           exists p, In p (updated_personas r)
                     /\ p_persona_id p = np_persona_id np
                     /\ p_interaction_count p = 0%Z
  | (Raise _, _) => False
  end.
Proof.
  destruct alice_run as [[r|e] w'] eqn:Hrun;
    [|vm_compute in Hrun; discriminate].
  assert (Hn : names_are_text (res_entities r) = true).
  { pose proof Hrun as Hc. vm_compute in Hc. injection Hc as Hr _.
    rewrite <- Hr. reflexivity. }
  split; [exact Hn|].
  exact (proj1 (new_personas_are_updated
                  (scripted alice_replies) "u1"
                  "I met Alice in Paris, I'm thrilled" "topic" None None
                  empty_world w' r Hrun Hn)).
Defined.

(** X14, on three interactions over two days. *)
Lemma word_logs_trajectory :
  word_logs <> []
  /\ exists t,
       _analyze_emotion_trajectory date_of word_logs
       = trajectory_of t (_calculate_emotion_trend t)
       /\ NoDup (map fst t)
       /\ interactions_in t = 3.
Proof.
  assert (Hne : word_logs <> []) by discriminate.
  split; [exact Hne|].
  destruct (daily_trajectory_partitions date_of word_logs Hne)
    as (t & H1 & H2 & _ & _ & H5).
  exists t. split; [exact H1|]. split; [exact H2 | exact H5].
Defined.

(** X15, on three interactions labelled as the emotion prompt asks. *)
Lemma enum_logs_are_neutral :
  enum_logs <> [] /\ Forall enum_label enum_logs
  /\ exists t tr,
       _analyze_emotion_trajectory date_of enum_logs = trajectory_of t tr
       /\ forall date s, In (date, s) t ->
            (positive_ratio s == 0 /\ negative_ratio s == 0
             /\ neutral_ratio s == 1)%Q.
Proof.
  assert (Hne : enum_logs <> []) by discriminate.
  assert (Hall : Forall enum_label enum_logs).
  { unfold enum_logs.
    repeat (apply Forall_cons; [unfold enum_label; cbn; auto|]).
    apply Forall_nil. }
  split; [exact Hne|]. split; [exact Hall|].
  destruct (enum_labels_are_all_neutral date_of enum_logs Hne Hall)
    as (t & tr & H1 & H2 & _).
  exists t, tr. split; [exact H1 | exact H2].
Defined.

(** X18, on a positive and a neutral memory of importance 0.5. *)
Lemma two_memories_distribution :
  match _analyze_memory_distribution week_of two_memories with
  | Ok d =>
      by_type d = [("positive"%string, 1); ("negative"%string, 0);
                   ("neutral"%string, 1)]
      /\ high (by_importance d) = 0 /\ medium (by_importance d) = 2
      /\ total_of (by_week d) = 2
  | Raise _ => False
  end.
Proof.
  destruct (_analyze_memory_distribution week_of two_memories) as [d|e] eqn:H;
    [|vm_compute in H; discriminate].
  destruct (memory_distribution_counts week_of two_memories d H)
    as (_ & H1 & _ & H2 & H3 & _ & H4 & _).
  split; [exact H1|]. split; [exact H2|]. split; [exact H3 | exact H4].
Defined.

(** X19, on three interactions over two days. *)
Lemma enum_logs_summary :
  match _generate_summary date_of [] enum_logs [] with
  | Ok s =>
      summary_interactions s = 3
      /\ 1 <= active_days s <= 3
      /\ (1 <= avg_daily_interactions s)%Q
  | Raise _ => False
  end.
Proof.
  destruct (_generate_summary date_of [] enum_logs []) as [s|e] eqn:H;
    [|vm_compute in H; discriminate].
  destruct (summary_daily_average date_of [] enum_logs [] s H)
    as (H1 & _ & H2 & _).
  assert (Hne : enum_logs <> []) by discriminate.
  destruct (H2 Hne) as (H3 & H4 & _).
  split; [exact H1|]. split; [exact H3 | exact H4].
Defined.

(** X20, after the interaction in which the model names Alice. *)
Lemma alice_summary_names_nobody :
  reachable (scripted alice_replies) (snd alice_run)
  /\ match _generate_summary date_of (memory_events (snd alice_run))
                             (interaction_logs (snd alice_run))
                             (personas (snd alice_run)) with
     | Ok s => most_active_persona s = None
     | Raise _ => False
     end.
Proof.
  assert (Hr : reachable (scripted alice_replies) (snd alice_run))
    by exact (reach_step (scripted alice_replies) empty_world "u1"
                         "I met Alice in Paris, I'm thrilled" "topic"
                         None None (reach_empty _)).
  split; [exact Hr|].
  destruct (_generate_summary date_of (memory_events (snd alice_run))
                              (interaction_logs (snd alice_run))
                              (personas (snd alice_run))) as [s|e] eqn:H;
    [|vm_compute in H; discriminate].
  exact (proj2 (summary_never_names_a_persona
                  (scripted alice_replies) date_of (snd alice_run)
                  (memory_events (snd alice_run))
                  (interaction_logs (snd alice_run))
                  (personas (snd alice_run)) s Hr (fun m Hm => Hm) H)).
Defined.

(** X21, on two memories that name Alice and Bob. *)
Lemma friends_strength :
  match _analyze_persona_interactions memories_of_friends [] with
  | Ok r =>
      distinct_keys (frequency r)
      /\ Forall2 counted (frequency r) (emotion_association r)
      /\ Forall2 strength_counted (emotion_association r)
                                  (relationship_strength r)
  | Raise _ => False
  end.
Proof.
  destruct (_analyze_persona_interactions memories_of_friends []) as [r|e]
    eqn:H; [|vm_compute in H; discriminate].
  destruct (persona_strength_counts_mentions memories_of_friends [] r H)
    as (H1 & H2 & H3 & _).
  split; [exact H1|]. split; [exact H2 | exact H3].
Defined.

End MoreChecks.
